(** * US-presidential-stats: scraping and normalisation, embedded in Rocq

    A shallow embedding of [src/scraping.py] and [src/manipulation.py].

    - Python values are the inductive [pyval]; strings are sequences of
      Latin-1 code points ([string]).
    - A Python [dict] is an association list in insertion order ([odict]):
      the scrapers zip two dicts by position and pandas takes its index from
      the key order, so the order is part of the data.
    - Exceptions are the type [exn]; pure fallible code lives in [result],
      methods that mutate an object live in the state-and-exception monad
      [M], whose runs return the state reached even when they raise.
    - Documents are [Node] trees with the BeautifulSoup queries the scrapers
      use; fetching a page is a Section variable.
    - A pandas [DataFrame] is an index and, per column label, the series of
      the column's cells; [map] and [applymap] store the values a function
      returns under the dtype pandas infers for them ([infer_dtype]).

    Definitions come first, the theorems about them follow. *)

From Stdlib Require Import String Ascii List ZArith Bool Lia Arith Permutation.
Import ListNotations.
Open Scope string_scope.
Open Scope Z_scope.

(* ===================================================================== *)
(** * Python prelude *)
(* ===================================================================== *)

Module Py.

(** The exceptions the two modules can raise. *)
Inductive exn : Type :=
| ValueError | KeyError | IndexError | AttributeError | AssertionError | TypeError
| OverflowError.

Inductive result (A : Type) : Type :=
| Ok (a : A)
| Raise (e : exn).
Arguments Ok {A} a.
Arguments Raise {A} e.

Definition rbind {A B} (r : result A) (k : A -> result B) : result B :=
  match r with
  | Ok a => k a
  | Raise e => Raise e
  end.

Definition exn_eqb (a b : exn) : bool :=
  match a, b with
  | ValueError, ValueError | KeyError, KeyError | IndexError, IndexError
  | AttributeError, AttributeError | AssertionError, AssertionError
  | TypeError, TypeError | OverflowError, OverflowError => true
  | _, _ => false
  end.

(** [try: r except e: h] for pure code. *)
Definition rcatch {A} (r : result A) (e : exn) (h : result A) : result A :=
  match r with
  | Ok a => Ok a
  | Raise e' => if exn_eqb e e' then h else Raise e'
  end.

(** ** Sequences *)

(** [l[i]], with Python's negative indices. *)
Definition getitem {A} (l : list A) (i : Z) : result A :=
  let n := Z.of_nat (length l) in
  let j := if i <? 0 then i + n else i in
  if (j <? 0) || (n <=? j) then Raise IndexError
  else match nth_error l (Z.to_nat j) with
       | Some a => Ok a
       | None => Raise IndexError
       end.

Definition zip {A B} (l : list A) (l' : list B) : list (A * B) := combine l l'.

(** ** Strings *)

(** [s.split(sep)] for a one-character separator (every call in the
    program has one): the pieces between the occurrences of [sep], one more
    than there are occurrences. *)
Fixpoint split (sep : ascii) (s : string) : list string :=
  match s with
  | EmptyString => [EmptyString]
  | String c r =>
      if Ascii.eqb c sep then EmptyString :: split sep r
      else match split sep r with
           | [] => [String c EmptyString]
           | p :: ps => String c p :: ps
           end
  end.

(** [sub in s] *)
Fixpoint contains (sub s : string) : bool :=
  String.prefix sub s ||
  match s with
  | EmptyString => false
  | String _ r => contains sub r
  end.

(** [s.replace(a, b)] for one-character [a] and [b]. *)
Fixpoint replace (a b : ascii) (s : string) : string :=
  match s with
  | EmptyString => EmptyString
  | String c r => String (if Ascii.eqb c a then b else c) (replace a b r)
  end.

(** [s.replace(a, '')] for a one-character [a]. *)
Fixpoint remove (a : ascii) (s : string) : string :=
  match s with
  | EmptyString => EmptyString
  | String c r => if Ascii.eqb c a then remove a r else String c (remove a r)
  end.

(** [s.split(sep)] for a separator of one character or more: the
    occurrences of [sep] are taken from the left and do not overlap.
    [skip] counts the characters still to pass of an occurrence found. *)
Fixpoint split_from (skip : nat) (sep s : string) : list string :=
  match s with
  | EmptyString => [EmptyString]
  | String c r =>
      match skip with
      | S k => split_from k sep r
      | O =>
          if String.prefix sep s
          then EmptyString :: split_from (String.length sep - 1) sep r
          else match split_from 0 sep r with
               | [] => [String c EmptyString]
               | p :: ps => String c p :: ps
               end
      end
  end.

Definition split_str (sep s : string) : list string := split_from 0 sep s.

(** [s.replace(old, new)] for a pattern of one character or more, its
    occurrences taken as [split] takes them. *)
Fixpoint replace_from (skip : nat) (old new s : string) : string :=
  match s with
  | EmptyString => EmptyString
  | String c r =>
      match skip with
      | S k => replace_from k old new r
      | O =>
          if String.prefix old s
          then new ++ replace_from (String.length old - 1) old new r
          else String c (replace_from 0 old new r)
      end
  end.

Definition replace_str (old new s : string) : string := replace_from 0 old new s.

Definition code (c : ascii) : Z := Z.of_N (N_of_ascii c).

Definition is_digit (c : ascii) : bool := (48 <=? code c) && (code c <=? 57).
Definition digit_val (c : ascii) : Z := code c - 48.

(** What [int] strips around a literal: the ASCII white space (tab to
    carriage return, and the blank) and, of the other characters below
    256, the two spaces it reads as blanks (next line, no-break space). *)
Definition is_space (c : ascii) : bool :=
  let n := code c in
  ((9 <=? n) && (n <=? 13)) || (n =? 32) || (n =? 133) || (n =? 160).

Fixpoint lstrip (s : string) : string :=
  match s with
  | EmptyString => EmptyString
  | String c r => if is_space c then lstrip r else s
  end.

Fixpoint rstrip (s : string) : string :=
  match s with
  | EmptyString => EmptyString
  | String c r =>
      match rstrip r with
      | EmptyString => if is_space c then EmptyString else String c EmptyString
      | r' => String c r'
      end
  end.

Definition strip (s : string) : string := rstrip (lstrip s).

(** The digits of an [int] literal: a digit first, then digits, each
    optionally preceded by one underscore. *)
Fixpoint parse_digits (acc : Z) (s : string) : option Z :=
  match s with
  | EmptyString => None
  | String c r =>
      if is_digit c then
        let acc' := 10 * acc + digit_val c in
        match r with
        | EmptyString => Some acc'
        | String c' r' =>
            if Ascii.eqb c' "_" then parse_digits acc' r' else parse_digits acc' r
        end
      else None
  end.

(** [int(s)] on a string, base 10. *)
Definition int_of_str (s : string) : result Z :=
  let t := strip s in
  let r := match t with
           | EmptyString => None
           | String c r =>
               if Ascii.eqb c "-" then option_map Z.opp (parse_digits 0 r)
               else if Ascii.eqb c "+" then parse_digits 0 r
               else parse_digits 0 t
           end in
  match r with
  | Some z => Ok z
  | None => Raise ValueError
  end.

Definition digit_char (d : Z) : ascii := ascii_of_N (Z.to_N (48 + d)).

(** The decimal digits of [n >= 0] in front of [acc]; [fuel] bounds the
    number of digits. *)
Fixpoint digits (fuel : nat) (n : Z) (acc : string) : string :=
  match fuel with
  | O => acc
  | S f =>
      let acc' := String (digit_char (n mod 10)) acc in
      if n <? 10 then acc' else digits f (n / 10) acc'
  end.

Definition str_of_nonneg (n : Z) : string :=
  digits (S (Z.to_nat (Z.log2 n))) n EmptyString.

(** [str(z)] on an [int]. *)
Definition str_of_int (z : Z) : string :=
  if z <? 0 then String "-" (str_of_nonneg (- z)) else str_of_nonneg z.

(** ** Dictionaries *)

(** A [dict] with [str] keys: the items in insertion order. *)
Definition odict (V : Type) : Type := list (string * V).

Definition keys {V} (d : odict V) : list string := map fst d.
Definition values {V} (d : odict V) : list V := map snd d.

(** [d.get(k)] *)
Fixpoint dget {V} (k : string) (d : odict V) : option V :=
  match d with
  | [] => None
  | (k', v) :: r => if String.eqb k k' then Some v else dget k r
  end.

(** [k in d] *)
Definition dmem {V} (k : string) (d : odict V) : bool :=
  match dget k d with
  | Some _ => true
  | None => false
  end.

(** [d[k]] *)
Definition ditem {V} (k : string) (d : odict V) : result V :=
  match dget k d with
  | Some v => Ok v
  | None => Raise KeyError
  end.

(** [d[k] = v]: an existing key keeps its place, a new key goes last. *)
Fixpoint dset {V} (k : string) (v : V) (d : odict V) : odict V :=
  match d with
  | [] => [(k, v)]
  | (k', v') :: r => if String.eqb k k' then (k, v) :: r else (k', v') :: dset k v r
  end.

(** [{k: v for k, v in items}], and [{**d, ...}] when started from [d]. *)
Definition dupdate {V} (d : odict V) (items : list (string * V)) : odict V :=
  fold_left (fun acc kv => dset (fst kv) (snd kv) acc) items d.

Definition dict_of {V} (items : list (string * V)) : odict V := dupdate [] items.

(** [del d[k]] *)
Fixpoint ddel {V} (k : string) (d : odict V) : odict V :=
  match d with
  | [] => []
  | (k', v) :: r => if String.eqb k k' then r else (k', v) :: ddel k r
  end.

(** [d.pop(k)]: the value removed and the dict left. *)
Definition dpop {V} (k : string) (d : odict V) : result (V * odict V) :=
  match dget k d with
  | Some v => Ok (v, ddel k d)
  | None => Raise KeyError
  end.

(** ** Values *)

(** A [pandas.Timestamp] of a calendar day, or [NaT]. *)
Inductive Timestamp : Type :=
| NaT
| Date (year month day : Z).

(** The values the tables hold.  There are three kinds of [float]: NaN;
    [PyFloat z], the float equal to the integer [z], which is what an
    integer becomes in a float64 column (the integers of the tables are far
    below 2^53, so this is exact); and [PyRatio n d], the float that the
    division [n / d] of two integers gives, kept as the exact quotient
    (with [d = 0] it stands for what numpy gives there, an infinity or
    NaN). *)
Inductive pyval : Type :=
| PyNone
| PyNaN
| PyInt (z : Z)
| PyFloat (z : Z)
| PyStr (s : string)
| PyRatio (n d : Z)
| PyTimestamp (t : Timestamp).

Definition is_str (v : pyval) : bool :=
  match v with
  | PyStr _ => true
  | _ => false
  end.

End Py.
Export Py.

Declare Scope result_scope.
Delimit Scope result_scope with result.
Bind Scope result_scope with result.
Arguments rbind {A B} r%_result k%_result.
Arguments rcatch {A} r%_result e h%_result.
Notation "x <- c ;; k" := (rbind c%result (fun x => k%result))
  (at level 61, c at next level, right associativity) : result_scope.

Local Open Scope result_scope.

(** [[f(x) for x in l]], stopping at the first exception. *)
Fixpoint mapM {A B} (f : A -> result B) (l : list A) : result (list B) :=
  match l with
  | [] => Ok []
  | a :: r => b <- f a ;; bs <- mapM f r ;; Ok (b :: bs)
  end.

(* ===================================================================== *)
(** * manipulation.py: the cell parsers *)
(* ===================================================================== *)

(** [int(string.split('$')[i].split(',')[0]) * 1_000] *)
Definition dollar_amount (string : string) (i : Z) : result Z :=
  piece <- getitem (split "$" string) i ;;
  head <- getitem (split "," piece) 0 ;;
  n <- int_of_str head ;;
  Ok (n * 1000).

(** [convert_presidents_data._extract_salary] *)
Definition _extract_salary (string : pyval) : result pyval :=
  match string with
  | PyStr s =>
      base <- dollar_amount s 1 ;;
      expense_account <-
        (if contains "expense" s then
           if (3 <? Z.of_nat (length (split "$" s))) then dollar_amount s 3
           else dollar_amount s 2
         else Ok 0) ;;
      Ok (PyInt (base + expense_account))
  | _ => Ok string
  end.

(** [string in {'None', 'nan', ''}] *)
Definition is_missing_token (s : string) : bool :=
  String.eqb s "None" || String.eqb s "nan" || String.eqb s "".

(** [convert_elections_data._extract_votes] *)
Definition _extract_votes (string : pyval) : result pyval :=
  match string with
  | PyStr s =>
      rcatch (n <- int_of_str s ;; Ok (PyInt n)) ValueError
        (if is_missing_token s then Ok PyNaN
         else if contains "." s && contains "," s then
           units <- (a <- getitem (split "." s) (-1) ;; int_of_str a) ;;
           thousands <- (a <- getitem (split "." s) (-2) ;;
                         b <- getitem (split "," a) (-1) ;; int_of_str b) ;;
           millions <- (a <- getitem (split "," s) (-2) ;; int_of_str a) ;;
           Ok (PyInt (millions * 1000000 + thousands * 1000 + units))
         else
           units <- (a <- getitem (split "," s) (-1) ;; int_of_str a) ;;
           thousands <- (a <- getitem (split "," s) (-2) ;; int_of_str a) ;;
           millions <- (if Z.of_nat (length (split "," s)) =? 3
                        then a <- getitem (split "," s) (-3) ;; int_of_str a
                        else Ok 0) ;;
           Ok (PyInt (millions * 1000000 + thousands * 1000 + units)))
  | _ => Ok string
  end.

(* ===================================================================== *)
(** * Methods that mutate their object *)
(* ===================================================================== *)

(** A computation over a mutable object of type [S]: it returns a value or
    raises, and in both cases leaves the object in some state. *)
Definition M (S A : Type) : Type := S -> result A * S.

Definition mret {S A} (a : A) : M S A := fun s => (Ok a, s).

Definition mbind {S A B} (m : M S A) (k : A -> M S B) : M S B :=
  fun s =>
    match m s with
    | (Ok a, s') => k a s'
    | (Raise e, s') => (Raise e, s')
    end.

(** A pure computation, the object untouched. *)
Definition lift {S A} (r : result A) : M S A := fun s => (r, s).

Definition mget {S} : M S S := fun s => (Ok s, s).
Definition mput {S} (s : S) : M S unit := fun _ => (Ok tt, s).

(** [assert b] *)
Definition assert_ {S} (b : bool) : M S unit :=
  lift (if b then Ok tt else Raise AssertionError).

(** [try: m except e: h]; the handler runs in the state [m] reached. *)
Definition mcatch {S A} (m : M S A) (e : exn) (h : M S A) : M S A :=
  fun s =>
    match m s with
    | (Ok a, s') => (Ok a, s')
    | (Raise e', s') => if exn_eqb e e' then h s' else (Raise e', s')
    end.

Declare Scope M_scope.
Delimit Scope M_scope with M.
Bind Scope M_scope with M.
Arguments mbind {S A B} m%_M k%_M.
Arguments mcatch {S A} m%_M e h%_M.
Notation "x <- c ;; k" := (mbind c%M (fun x => k%M))
  (at level 61, c at next level, right associativity) : M_scope.
Notation "c ;; k" := (mbind c%M (fun _ => k%M))
  (at level 61, right associativity) : M_scope.

(** [for a in l: body(a)] *)
Fixpoint forM_ {S A} (l : list A) (body : A -> M S unit) : M S unit :=
  match l with
  | [] => mret tt
  | a :: r => (body a ;; forM_ r body)%M
  end.

(** Reading an attribute or calling a method of [o]: [None] has none. *)
Definition deref {A} (o : option A) : result A :=
  match o with
  | Some a => Ok a
  | None => Raise AttributeError
  end.

(** Subscripting [o]: [None] is not subscriptable. *)
Definition subscript {A} (o : option A) : result A :=
  match o with
  | Some a => Ok a
  | None => Raise TypeError
  end.

(* ===================================================================== *)
(** * Documents, as BeautifulSoup presents them *)
(* ===================================================================== *)

Module Soup.

(** A parsed document: text nodes and tags.  BeautifulSoup keeps the
    [class] attribute as the list of its tokens. *)
#[warnings="-register-all"]
Inductive Node : Type :=
| NavigableString (s : string)
| Tag (name : string) (class_ : list string) (attrs : list (string * string))
      (contents : list Node).

(** [node.descendants]: everything below [node], in document order. *)
Fixpoint descendants (n : Node) : list Node :=
  match n with
  | NavigableString _ => []
  | Tag _ _ _ cs => flat_map (fun c => c :: descendants c) cs
  end.

(** The descendants of [n], each with its ancestors, the nearest first;
    [anc] are the ancestors of [n] itself. *)
Fixpoint descendants_in (anc : list Node) (n : Node) : list (Node * list Node) :=
  match n with
  | NavigableString _ => []
  | Tag _ _ _ cs =>
      flat_map (fun c => (c, n :: anc) :: descendants_in (n :: anc) c) cs
  end.

Definition is_tag (name : string) (n : Node) : bool :=
  match n with
  | Tag name' _ _ _ => String.eqb name name'
  | NavigableString _ => false
  end.

(** The filter [{'class': c}]: one of the tag's classes is [c]. *)
Definition has_class (c : string) (n : Node) : bool :=
  match n with
  | Tag _ cls _ _ => existsb (String.eqb c) cls
  | NavigableString _ => false
  end.

(** A filter that is not a dict, as in [{'class', 'row-2'}], is read as a
    collection of class names: one of the tag's classes is among [cs]. *)
Definition has_class_among (cs : list string) (n : Node) : bool :=
  existsb (fun c => has_class c n) cs.

Definition any_class (n : Node) : bool := true.

(** [node.find(name, attrs)] *)
Definition find (name : string) (attrs : Node -> bool) (n : Node) : option Node :=
  List.find (fun d => is_tag name d && attrs d) (descendants n).

(** [node.find_all(name)] *)
Definition find_all (name : string) (n : Node) : list Node :=
  filter (is_tag name) (descendants n).

Definition string_of (n : Node) : string :=
  match n with
  | NavigableString s => s
  | Tag _ _ _ _ => EmptyString
  end.

(** [node.text] *)
Definition text (n : Node) : string :=
  match n with
  | NavigableString s => s
  | Tag _ _ _ _ => String.concat EmptyString (map string_of (descendants n))
  end.

(** [node.find(string = s)], with the ancestors of the string found. *)
Definition find_string (s : string) (n : Node) : option (Node * list Node) :=
  List.find (fun d => match fst d with
                      | NavigableString s' => String.eqb s s'
                      | Tag _ _ _ _ => false
                      end) (descendants_in [] n).

(** [found.find_parent(name)] *)
Definition find_parent (name : string) (found : Node * list Node) : option Node :=
  List.find (is_tag name) (snd found).

(** The filter [{k: v}] for an attribute [k] with one value. *)
Definition has_attr (k v : string) (n : Node) : bool :=
  match n with
  | Tag _ _ attrs _ =>
      match dget k attrs with
      | Some v' => String.eqb v v'
      | None => false
      end
  | NavigableString _ => false
  end.

(** [node.find_all(name, attrs)] *)
Definition find_all_where (name : string) (attrs : Node -> bool) (n : Node) : list Node :=
  filter (fun d => is_tag name d && attrs d) (descendants n).

(** [tag[k]]: the value of the attribute [k]. *)
Definition attr (k : string) (n : Node) : result string :=
  match n with
  | Tag _ _ attrs _ => ditem k attrs
  | NavigableString _ => Raise TypeError
  end.

(** [tag.contents], which [tag.children] runs through. *)
Definition contents (n : Node) : result (list Node) :=
  match n with
  | Tag _ _ _ cs => Ok cs
  | NavigableString _ => Raise AttributeError
  end.

(** [node.name.text], as in [fast_fact.label.text]: the text of the first
    [name] element below a tag; a string has no such attribute. *)
Definition child_text (name : string) (n : Node) : result string :=
  match n with
  | Tag _ _ _ _ => t <- deref (find name any_class n) ;; Ok (text t)
  | NavigableString _ => Raise AttributeError
  end.

(** [x != s] for an element [x] and a [str]: a tag never equals a [str]. *)
Definition differs_from (s : string) (x : Node) : bool :=
  match x with
  | NavigableString s' => negb (String.eqb s' s)
  | Tag _ _ _ _ => true
  end.

End Soup.
Export Soup.

(* ===================================================================== *)
(** * scraping.py *)
(* ===================================================================== *)

Definition Grover_Cleveland : string := "Grover Cleveland".
Definition Grover_Cleveland_2 : string := "Grover Cleveland 2".

(** [name.split(' ')[-1]] *)
Definition surname (name : string) : result string := getitem (split " " name) (-1).

Definition newline : ascii := "010"%char.

(** ** class MillerScraper *)

Module MillerScraper.

(** The attributes [__init__] sets, each [None] until its scrape has run
    ([all_presidents_data] is never read or written again and is left out). *)
Record t : Type := mk {
  origin : string;
  subdirectories : option (odict string);
  fast_facts : option (odict (odict string));
  descriptions : option (odict string);
  famous_quotes : option (odict string);
  key_events_counts : option (odict Z)
}.

Definition set_subdirectories (v : odict string) (self : t) : t :=
  mk (origin self) (Some v) (fast_facts self) (descriptions self)
     (famous_quotes self) (key_events_counts self).
Definition set_fast_facts (v : odict (odict string)) (self : t) : t :=
  mk (origin self) (subdirectories self) (Some v) (descriptions self)
     (famous_quotes self) (key_events_counts self).
Definition set_descriptions (v : odict string) (self : t) : t :=
  mk (origin self) (subdirectories self) (fast_facts self) (Some v)
     (famous_quotes self) (key_events_counts self).
Definition set_famous_quotes (v : odict string) (self : t) : t :=
  mk (origin self) (subdirectories self) (fast_facts self) (descriptions self)
     (Some v) (key_events_counts self).
Definition set_key_events_counts (v : odict Z) (self : t) : t :=
  mk (origin self) (subdirectories self) (fast_facts self) (descriptions self)
     (famous_quotes self) (Some v).

Section Fetching.

(** [get_soup]: the document a URL serves. *)
Variable get_soup : string -> Node.

(** [str(tag)]: the markup BeautifulSoup renders for a tag. *)
Variable markup : Node -> string.

(** The body of the loop of [get_key_events_counts], for one page. *)
Definition key_events_count (soup : Node) : result Z :=
  let key_events_overview := find "div" (has_class "article-wysiwyg-body") soup in
  rcatch
    (body <- deref key_events_overview ;;
     let key_events_count_bold := Z.of_nat (length (find_all "strong" body)) in
     let key_events_count_not_bold := Z.of_nat (length (find_all "b" body)) in
     Ok (key_events_count_bold + key_events_count_not_bold))
    AttributeError
    (Ok 0).

(** The loop of [get_key_events_counts]: one page per entity, the counts
    gathered in a fresh dict. *)
Definition count_key_events (origin : string) (items : odict string)
  : result (odict Z) :=
  fold_left
    (fun acc item =>
       key_events_counts <- acc ;;
       let soup := get_soup (origin ++ snd item ++ "/key-events") in
       key_events_count <- key_events_count soup ;;
       Ok (dset (fst item) key_events_count key_events_counts))
    items (Ok []).

(** [MillerScraper.get_key_events_counts] *)
Definition get_key_events_counts : M t unit :=
  (self <- mget ;;
   items <- lift (deref (subdirectories self)) ;;
   key_events_counts <- lift (count_key_events (origin self) items) ;;
   mput (set_key_events_counts key_events_counts self))%M.

(** [MillerScraper.get_subdirectories] *)
Definition get_subdirectories : M t unit :=
  (self <- mget ;;
   let soup := get_soup (origin self) in
   subdirectories <- lift (
     navigation_menu <-
       deref (find "nav" (has_attr "aria-labelledby" "block-mainnavigation-3-menu") soup) ;;
     submenu <- getitem (find_all_where "ul" (has_class "submenu") navigation_menu) 1 ;;
     let a_blocks := find_all "a" submenu in
     fold_left
       (fun acc a_block =>
          subdirectories <- acc ;;
          href <- attr "href" a_block ;;
          Ok (dset (text a_block) href subdirectories))
       a_blocks (Ok [])) ;;
   mput (set_subdirectories subdirectories self))%M.

(** The loop the page scrapes share,
    [for president, subdirectory in self.subdirectories.items()]: one
    document per entity, and what [read] takes from it stored under the
    entity's name in a fresh dict. *)
Definition scrape {V} (read : Node -> result V) (origin : string) (items : odict string)
  : result (odict V) :=
  fold_left
    (fun acc item =>
       scraped <- acc ;;
       let soup := get_soup (origin ++ snd item) in
       v <- read soup ;;
       Ok (dset (fst item) v scraped))
    items (Ok []).

(** [relevant_fast_facts.pop(0)]: the list without its first element. *)
Definition pop_first {A} (l : list A) : result (list A) :=
  match l with
  | [] => Raise IndexError
  | _ :: r => Ok r
  end.

(** The body of the loop of [get_fast_facts]: the fact sheet of one page. *)
Definition fast_facts_sheet (soup : Node) : result (odict string) :=
  president_page <- deref (find "div" (has_class "president-main-wrapper") soup) ;;
  fast_facts_dashboard <-
    deref (find "div" (has_class "fast-facts-wrapper") president_page) ;;
  children <- contents fast_facts_dashboard ;;
  let relevant_fast_facts := filter (differs_from (String newline EmptyString)) children in
  relevant_fast_facts <- pop_first relevant_fast_facts ;;
  fold_left
    (fun acc fast_fact =>
       sheet <- acc ;;
       value <- child_text "div" fast_fact ;;
       label <- child_text "label" fast_fact ;;
       Ok (dset label value sheet))
    relevant_fast_facts (Ok []).

(** [MillerScraper.get_fast_facts] *)
Definition get_fast_facts : M t unit :=
  (self <- mget ;;
   items <- lift (deref (subdirectories self)) ;;
   fast_facts <- lift (scrape fast_facts_sheet (origin self) items) ;;
   mput (set_fast_facts fast_facts self))%M.

(** The body of the loop of [get_descriptions]. *)
Definition description (soup : Node) : result string :=
  description_paragraph <- deref (find "div" (has_class "copy-wrapper") soup) ;;
  p <- deref (find "p" any_class description_paragraph) ;;
  Ok (text p).

(** [MillerScraper.get_descriptions] *)
Definition get_descriptions : M t unit :=
  (self <- mget ;;
   items <- lift (deref (subdirectories self)) ;;
   descriptions <- lift (scrape description (origin self) items) ;;
   mput (set_descriptions descriptions self))%M.

(** [str(element)]: a string is its own text, a tag is rendered as markup. *)
Definition str_of_Node (n : Node) : string :=
  match n with
  | NavigableString s => s
  | Tag _ _ _ _ => markup n
  end.

(** The body of the loop of [get_famous_quotes]. *)
Definition famous_quote (soup : Node) : result string :=
  famous_quote_paragraph <-
    deref (find "blockquote" (has_class "president-quote") soup) ;;
  children <- contents famous_quote_paragraph ;;
  first <- getitem children 0 ;;
  Ok (str_of_Node first).

(** [MillerScraper.get_famous_quotes] *)
Definition get_famous_quotes : M t unit :=
  (self <- mget ;;
   items <- lift (deref (subdirectories self)) ;;
   famous_quotes <- lift (scrape famous_quote (origin self) items) ;;
   mput (set_famous_quotes famous_quotes self))%M.

End Fetching.

(** [attribute['Grover Cleveland 2'] = attribute['Grover Cleveland']] *)
Definition duplicate_entry {V} (attribute : option (odict V)) : result (odict V) :=
  d <- subscript attribute ;;
  v <- ditem Grover_Cleveland d ;;
  Ok (dset Grover_Cleveland_2 v d).

(** [self.fast_facts[president][entry_name] = entry] *)
Definition set_fast_fact (president entry_name entry : string) : M t unit :=
  (self <- mget ;;
   facts <- lift (subscript (fast_facts self)) ;;
   sheet <- lift (ditem president facts) ;;
   mput (set_fast_facts (dset president (dset entry_name entry sheet) facts) self))%M.

(** [MillerScraper.correct_Grover_Cleveland_data] *)
Definition correct_Grover_Cleveland_data : M t unit :=
  (self <- mget ;;
   facts <- lift (deref (fast_facts self)) ;;
   assert_ (negb (existsb (String.eqb Grover_Cleveland_2) (keys facts))) ;;
   sheet <- lift (ditem Grover_Cleveland facts) ;;
   mput (set_fast_facts (dset Grover_Cleveland_2 (dict_of sheet) facts) self) ;;
   self <- mget ;;
   d <- lift (duplicate_entry (descriptions self)) ;;
   mput (set_descriptions d self) ;;
   self <- mget ;;
   d <- lift (duplicate_entry (famous_quotes self)) ;;
   mput (set_famous_quotes d self) ;;
   self <- mget ;;
   d <- lift (duplicate_entry (key_events_counts self)) ;;
   mput (set_key_events_counts d self) ;;
   forM_ ["Inauguration Date"; "Date Ended"; "President Number"]
     (fun entry_name =>
        self <- mget ;;
        double_entry <- lift (facts <- subscript (fast_facts self) ;;
                              sheet <- ditem Grover_Cleveland facts ;;
                              ditem entry_name sheet) ;;
        let second_entry_index :=
          if String.eqb entry_name "President Number" then 2 else 3 in
        entry_1 <- lift (getitem (split newline double_entry) 1) ;;
        entry_2 <- lift (getitem (split newline double_entry) second_entry_index) ;;
        set_fast_fact Grover_Cleveland entry_name entry_1 ;;
        set_fast_fact Grover_Cleveland_2 entry_name entry_2))%M.

End MillerScraper.

(** ** class PotusScraper *)

Module PotusScraper.

(** The table [election_results]: year, then candidate, then the two
    labels ['Popular Votes'] and ['Electoral Votes']. *)
Definition results : Type := odict (odict (odict pyval)).

Record t : Type := mk {
  origin : string;
  subdirectories : option (odict string);
  salaries : option (odict string);
  election_results : option results
}.

Definition set_subdirectories (v : odict string) (self : t) : t :=
  mk (origin self) (Some v) (salaries self) (election_results self).
Definition set_salaries (v : odict string) (self : t) : t :=
  mk (origin self) (subdirectories self) (Some v) (election_results self).
Definition set_election_results (v : results) (self : t) : t :=
  mk (origin self) (subdirectories self) (salaries self) (Some v).

(** The loop of assertions of [correct_subdirectories]. *)
Definition surnames_match (pair : string * string) : result bool :=
  a <- surname (fst pair) ;;
  b <- surname (snd pair) ;;
  Ok (String.eqb a b).

(** [PotusScraper.correct_subdirectories] *)
Definition correct_subdirectories (miller_scrape : MillerScraper.t) : M t unit :=
  (self <- mget ;;
   miller_keys <- lift (d <- deref (MillerScraper.subdirectories miller_scrape) ;;
                        Ok (keys d)) ;;
   own <- lift (deref (subdirectories self)) ;;
   forM_ (zip miller_keys (keys own))
     (fun president_keys =>
        same <- lift (surnames_match president_keys) ;;
        assert_ same) ;;
   mput (set_subdirectories (dict_of (zip miller_keys (values own))) self))%M.

(** [election_results[year][electee_name] = entry] *)
Definition set_electee (year electee_name : string) (entry : odict pyval)
  : M results unit :=
  (election_results <- mget ;;
   of_year <- lift (ditem year election_results) ;;
   mput (dset year (dset electee_name entry of_year) election_results))%M.

(** [election_results[year][electee_name][label] = votes] *)
Definition set_votes (year electee_name label : string) (votes : pyval)
  : M results unit :=
  (election_results <- mget ;;
   of_year <- lift (ditem year election_results) ;;
   entry <- lift (ditem electee_name of_year) ;;
   mput (dset year (dset electee_name (dset label votes entry) of_year)
              election_results))%M.

(** [electee.find('td', {'class': column}).text] *)
Definition cell_text (column : string) (electee : Node) : result string :=
  td <- deref (find "td" (has_class column) electee) ;;
  Ok (text td).

(** The [try] block run for one row [electee] of a table of the section
    [presidential_elections]. *)
Definition read_electee (presidential_elections : Node) (year : string)
    (electee : Node) : M results unit :=
  mcatch
    (electee_name <- lift (td <- deref (find "td" (has_class "column-2") electee) ;;
                           a <- deref (find "a" any_class td) ;;
                           Ok (text a)) ;;
     set_electee year electee_name [] ;;
     votes <- lift (
       header <- deref (find "tr" any_class presidential_elections) ;;
       if Z.of_nat (length (find_all "th" header)) =? 3 then
         electoral_votes <- cell_text "column-3" electee ;;
         Ok (PyNone, PyStr electoral_votes)
       else
         popular_votes <- cell_text "column-3" electee ;;
         electoral_votes <- cell_text "column-4" electee ;;
         Ok (PyStr popular_votes, PyStr electoral_votes)) ;;
     set_votes year electee_name "Popular Votes" (fst votes) ;;
     set_votes year electee_name "Electoral Votes" (snd votes))%M
    AttributeError
    (mret tt).

(** [table.find('tr', {'class','row-2'}).find('a').text] *)
Definition table_year (table : Node) : result string :=
  row <- deref (find "tr" (has_class_among ["class"; "row-2"]) table) ;;
  a <- deref (find "a" any_class row) ;;
  Ok (text a).

(** The body of the loop over the tables of one page. *)
Definition read_table (presidential_elections : Node) (table : Node)
  : M results unit :=
  (year <- lift (table_year table) ;;
   election_results <- mget ;;
   mput (dset year [] election_results) ;;
   forM_ (find_all "tr" table) (read_electee presidential_elections year))%M.

(** The section of a page that holds the election tables. *)
Definition elections_section (soup : Node) : result Node :=
  presidential_elections_title <- deref (find_string "Presidential Election Results:" soup) ;;
  deref (find_parent "div" presidential_elections_title).

(** The body of the loop over the pages. *)
Definition read_page (soup : Node) : M results unit :=
  (presidential_elections <- lift (elections_section soup) ;;
   forM_ (find_all "table" presidential_elections)
         (read_table presidential_elections))%M.

Section Fetching.

Variable get_soup : string -> Node.

(** The pages of the entities, in the order of [self.subdirectories]. *)
Definition pages (self : t) : result (list Node) :=
  items <- deref (subdirectories self) ;;
  Ok (map (fun item => get_soup (origin self ++ snd item)) items).

(** [PotusScraper.get_election_results] *)
Definition get_election_results : M t unit :=
  (self <- mget ;;
   soups <- lift (pages self) ;;
   election_results <- lift (
     match forM_ soups read_page [] with
     | (Ok _, election_results) => Ok election_results
     | (Raise e, _) => Raise e
     end) ;;
   mput (set_election_results election_results self))%M.

(** The body of the loop of [PotusScraper.get_subdirectories]: the name
    and the link of one [a_block]. *)
Definition named_link (a_block : Node) : result (string * string) :=
  president_and_name_and_years <-
    (img <- subscript (find "img" any_class a_block) ;; attr "alt" img) ;;
  president_and_name <- getitem (split "," president_and_name_and_years) 0 ;;
  let name := replace_str "President " "" president_and_name in
  href <- attr "href" a_block ;;
  Ok (name, href).

(** [PotusScraper.get_subdirectories] *)
Definition get_subdirectories : M t unit :=
  (self <- mget ;;
   let soup := get_soup (origin self) in
   let a_blocks := find_all_where "a" (has_attr "target" "_self") soup in
   subdirectories <- lift (
     subdirectories <-
       fold_left
         (fun acc a_block =>
            subdirectories <- acc ;;
            link <- named_link a_block ;;
            Ok (dset (fst link) (snd link) subdirectories))
         a_blocks (Ok []) ;;
     popped <- dpop "Facts About the Presidents" subdirectories ;;
     Ok (snd popped)) ;;
   mput (set_subdirectories subdirectories self))%M.

(** [soup.find(string = title).find_parent('p').text] *)
Definition salary_paragraph (title : string) (soup : Node) : result string :=
  presidential_salary_title <- deref (find_string title soup) ;;
  p <- deref (find_parent "p" presidential_salary_title) ;;
  Ok (text p).

(** The body of the loop of [get_salaries]. *)
Definition presidential_salary (soup : Node) : result string :=
  rcatch (salary_paragraph "Presidential Salary:" soup)
    AttributeError
    (salary_paragraph "Presidential Salary: " soup).

(** The loop of [get_salaries]: one page per entity, the salaries gathered
    in a fresh dict. *)
Definition read_salaries (origin : string) (items : odict string)
  : result (odict string) :=
  fold_left
    (fun acc item =>
       salaries <- acc ;;
       let soup := get_soup (origin ++ snd item) in
       presidential_salary <- presidential_salary soup ;;
       Ok (dset (fst item) presidential_salary salaries))
    items (Ok []).

(** [PotusScraper.get_salaries] *)
Definition get_salaries : M t unit :=
  (self <- mget ;;
   items <- lift (deref (subdirectories self)) ;;
   salaries <- lift (read_salaries (origin self) items) ;;
   mput (set_salaries salaries self))%M.

End Fetching.


End PotusScraper.

(* ===================================================================== *)
(** * pandas tables *)
(* ===================================================================== *)

Module Pandas.

(** A column label: a name, or the pair (year, metric) of the election
    table's two-level columns. *)
Inductive label : Type :=
| Col (name : string)
| Col2 (year metric : string).

Definition label_eqb (a b : label) : bool :=
  match a, b with
  | Col x, Col y => String.eqb x y
  | Col2 x m, Col2 y n => String.eqb x y && String.eqb m n
  | _, _ => false
  end.

(** A [DataFrame], held by columns as pandas holds it: the row labels and,
    for each column label, the series of its cells, one per row.  The
    labels of an axis are taken to be distinct, as they are for tables
    built from dict keys. *)
Record DataFrame : Type := mkDataFrame {
  index : list string;
  series : list (label * list pyval)
}.

Definition columns (df : DataFrame) : list label := map fst (series df).

(** [Index.get_loc]: the position of a label. *)
Fixpoint position {A} (eqb : A -> A -> bool) (a : A) (l : list A) : option nat :=
  match l with
  | [] => None
  | b :: r => if eqb a b then Some O else option_map S (position eqb a r)
  end.

Fixpoint set_nth {A} (n : nat) (a : A) (l : list A) : list A :=
  match l, n with
  | [], _ => []
  | _ :: r, O => a :: r
  | b :: r, S m => b :: set_nth m a r
  end.

Fixpoint lookup_column (c : label) (cols : list (label * list pyval))
  : option (list pyval) :=
  match cols with
  | [] => None
  | (c', s) :: r => if label_eqb c c' then Some s else lookup_column c r
  end.

(** An existing column is overwritten, a new one goes last. *)
Fixpoint store_column (c : label) (s : list pyval) (cols : list (label * list pyval))
  : list (label * list pyval) :=
  match cols with
  | [] => [(c, s)]
  | (c', s') :: r =>
      if label_eqb c c' then (c, s) :: r else (c', s') :: store_column c s r
  end.

(** [df[c]] *)
Definition getitem_column (c : label) (df : DataFrame) : result (list pyval) :=
  match lookup_column c (series df) with
  | Some s => Ok s
  | None => Raise KeyError
  end.

(** [df[c] = s], for a series [s] over the index of [df]. *)
Definition setitem_column (c : label) (s : list pyval) (df : DataFrame) : DataFrame :=
  mkDataFrame (index df) (store_column c s (series df)).

Definition is_number (v : pyval) : bool :=
  match v with
  | PyInt _ | PyFloat _ | PyNaN | PyRatio _ _ => true
  | _ => false
  end.

Definition is_float (v : pyval) : bool :=
  match v with
  | PyFloat _ | PyNaN | PyRatio _ _ => true
  | _ => false
  end.

Definition is_none (v : pyval) : bool :=
  match v with
  | PyNone => true
  | _ => false
  end.

Definition is_integer (v : pyval) : bool :=
  match v with
  | PyInt _ => true
  | _ => false
  end.

(** A value in a float64 column: an integer as the float equal to it,
    None as NaN. *)
Definition to_float (v : pyval) : pyval :=
  match v with
  | PyInt z => PyFloat z
  | PyNone => PyNaN
  | _ => v
  end.

(** The dtype pandas infers for the values a function has returned: a
    column of numbers and None with a float among them, NaN included, or
    with None beside an integer, is stored as float64, its integers as
    floats and its None as NaN; any other column keeps its values. *)
Definition infer_dtype (s : list pyval) : list pyval :=
  if forallb (fun v => is_number v || is_none v) s
     && (existsb is_float s || (existsb is_none s && existsb is_integer s))
  then map to_float s else s.

(** [series.map(f)] *)
Definition series_map (f : pyval -> result pyval) (s : list pyval)
  : result (list pyval) :=
  s' <- mapM f s ;;
  Ok (infer_dtype s').

(** [df[c] = df[c].map(f)] *)
Definition map_column (f : pyval -> result pyval) (c : label) (df : DataFrame)
  : result DataFrame :=
  s <- getitem_column c df ;;
  s' <- series_map f s ;;
  Ok (setitem_column c s' df).

(** [df.applymap(f)]: [f] on every cell, column after column. *)
Definition applymap (f : pyval -> result pyval) (df : DataFrame) : result DataFrame :=
  series' <- mapM (fun cs => s' <- series_map f (snd cs) ;; Ok (fst cs, s')) (series df) ;;
  Ok (mkDataFrame (index df) series').

(** [df.loc[r, c]], for a row label [r] that the index holds once or not
    at all (on a repeated label pandas returns the series of its cells). *)
Definition loc (r : string) (c : label) (df : DataFrame) : result pyval :=
  match position String.eqb r (index df), lookup_column c (series df) with
  | Some i, Some s => Ok (nth i s PyNaN)
  | _, _ => Raise KeyError
  end.

(** [df.loc[r, c] = v] for a row [r] of the index: a new column is filled
    with NaN first. *)
Definition loc_set (r : string) (c : label) (v : pyval) (df : DataFrame) : DataFrame :=
  let s := match lookup_column c (series df) with
           | Some s => s
           | None => map (fun _ => PyNaN) (index df)
           end in
  match position String.eqb r (index df) with
  | Some i => setitem_column c (set_nth i v s) df
  | None => setitem_column c s df
  end.

(** One step of a column sum: NaN and None are skipped.  The cells are
    those [convert_elections_data] leaves: integers, as ints or as floats,
    and NaN. *)
Definition add_skipna (acc : result Z) (v : pyval) : result Z :=
  total <- acc ;;
  match v with
  | PyInt z | PyFloat z => Ok (total + z)
  | PyNaN | PyNone => Ok total
  | _ => Raise TypeError
  end.

(** [df.sum()]: the sum of every column, as a series over the columns. *)
Definition sum (df : DataFrame) : result (list (label * Z)) :=
  mapM (fun cs => total <- fold_left add_skipna (snd cs) (Ok 0) ;; Ok (fst cs, total))
       (series df).

(** [sums.loc[c]] *)
Fixpoint series_loc (c : label) (sums : list (label * Z)) : result Z :=
  match sums with
  | [] => Raise KeyError
  | (c', v) :: r => if label_eqb c c' then Ok v else series_loc c r
  end.

(** [v / total], a float. *)
Definition truediv (v : pyval) (total : Z) : result pyval :=
  match v with
  | PyInt n | PyFloat n => Ok (PyRatio n total)
  | PyNaN => Ok PyNaN
  | _ => Raise TypeError
  end.

(** The labels of the inner dicts, each once, in order of first use. *)
Definition union_keys {V} (d : odict (odict V)) : list string :=
  fold_left (fun acc kv =>
               fold_left (fun acc' k =>
                            if existsb (String.eqb k) acc' then acc' else (acc' ++ [k])%list)
                         (keys (snd kv)) acc)
            d [].

(** [pd.DataFrame(d)] for a dict of dicts: a column per outer key, a row
    per inner key, NaN where a column lacks the row's key. *)
Definition DataFrame_of_dict (d : odict (odict pyval)) : DataFrame :=
  let rows := union_keys d in
  mkDataFrame rows
    (map (fun kv => (Col (fst kv),
                     map (fun r => match dget r (snd kv) with
                                   | Some v => v
                                   | None => PyNaN
                                   end) rows)) d).

(** A column label used as a row label.  The tables transposed here have
    one-level columns. *)
Definition label_name (c : label) : string :=
  match c with
  | Col name => name
  | Col2 year _ => year
  end.

(** [df.T] *)
Definition T (df : DataFrame) : DataFrame :=
  mkDataFrame (map label_name (columns df))
    (map (fun ir => (Col (snd ir), map (fun cs => nth (fst ir) (snd cs) PyNaN) (series df)))
         (combine (seq 0 (length (index df))) (index df))).

End Pandas.
Export Pandas.

(* ===================================================================== *)
(** * manipulation.py: the tables *)
(* ===================================================================== *)

(** The items of one row of [all_presidents_data]:
    [{**fast_facts[president], 'Description': ..., ..., 'Salary': ...}] *)
Definition presidents_data_row (miller_scrape : MillerScraper.t)
    (potus_scrape : PotusScraper.t) (president : string) : result (odict pyval) :=
  sheet <- (d <- subscript (MillerScraper.fast_facts miller_scrape) ;; ditem president d) ;;
  description <- (d <- subscript (MillerScraper.descriptions miller_scrape) ;;
                  ditem president d) ;;
  famous_quote <- (d <- subscript (MillerScraper.famous_quotes miller_scrape) ;;
                   ditem president d) ;;
  key_events_count <- (d <- subscript (MillerScraper.key_events_counts miller_scrape) ;;
                       ditem president d) ;;
  salary <- (d <- subscript (PotusScraper.salaries potus_scrape) ;; ditem president d) ;;
  Ok (dupdate (dict_of (map (fun kv => (fst kv, PyStr (snd kv))) sheet))
        [("Description", PyStr description);
         ("Famous Quote", PyStr famous_quote);
         ("Key Events Count", PyInt key_events_count);
         ("Salary", PyStr salary)]).

(** The dict [all_presidents_data] that the loop builds. *)
Definition all_presidents_data (miller_scrape : MillerScraper.t)
    (potus_scrape : PotusScraper.t) : result (odict (odict pyval)) :=
  facts <- deref (MillerScraper.fast_facts miller_scrape) ;;
  fold_left
    (fun acc president =>
       all_presidents_data <- acc ;;
       row <- presidents_data_row miller_scrape potus_scrape president ;;
       Ok (dset president row all_presidents_data))
    (keys facts) (Ok []).

(** [get_all_presidents_data_df] *)
Definition get_all_presidents_data_df (miller_scrape : MillerScraper.t)
    (potus_scrape : PotusScraper.t) : result DataFrame :=
  all_presidents_data <- all_presidents_data miller_scrape potus_scrape ;;
  Ok (T (DataFrame_of_dict all_presidents_data)).

Definition STR_VARIABLES : list string :=
  ["Birth Place"; "Burial Place"; "Career"; "Children"; "Description"; "Education";
   "Famous Quote"; "Full Name"; "Marriage"; "Nickname"; "Political Party"; "Religion"].

Definition INT_VARIABLES : list string :=
  ["Key Events Count"; "President Number"; "Salary"].

Definition TIMESTAMP_VARIABLES : list string :=
  ["Birth Date"; "Date Ended"; "Death Date"; "Inauguration Date"].

(** [lambda x: None if x in {'None', 'nan'} else x] *)
Definition none_if_token (x : pyval) : pyval :=
  match x with
  | PyStr s => if String.eqb s "None" || String.eqb s "nan" then PyNone else x
  | _ => x
  end.

(** [for c in cs: df = step(c, df)], stopping at the first exception. *)
Definition for_columns (step : string -> DataFrame -> result DataFrame)
    (cs : list string) (df : DataFrame) : result DataFrame :=
  fold_left (fun acc c => df' <- acc ;; step c df') cs (Ok df).

Section Conversions.

(** What pandas and Python supply: [str] of the float of a division and of
    a timestamp, and [pd.Timestamp] of a string or a number. *)
Variable str_of_float : Z -> Z -> string.
Variable str_of_Timestamp : Timestamp -> string.
Variable Timestamp_of : pyval -> result Timestamp.

(** [str(x)]; a float equal to an integer prints with [.0] (below 10^16,
    where Python turns to the exponent form). *)
Definition str (x : pyval) : string :=
  match x with
  | PyNone => "None"
  | PyNaN => "nan"
  | PyInt z => str_of_int z
  | PyFloat z => str_of_int z ++ ".0"
  | PyStr s => s
  | PyRatio n d => str_of_float n d
  | PyTimestamp t => str_of_Timestamp t
  end.

(** [int(x)] *)
Definition int (x : pyval) : result Z :=
  match x with
  | PyInt z | PyFloat z => Ok z
  | PyStr s => int_of_str s
  | PyNaN => Raise ValueError
  | PyRatio n d =>
      if d =? 0 then (if n =? 0 then Raise ValueError else Raise OverflowError)
      else Ok (Z.quot n d)
  | PyNone | PyTimestamp _ => Raise TypeError
  end.

(** [pd.Timestamp(x)] *)
Definition pd_Timestamp (x : pyval) : result Timestamp :=
  match x with
  | PyTimestamp t => Ok t
  | PyNone | PyNaN => Ok NaT
  | _ => Timestamp_of x
  end.

(** The body of the loop over [STR_VARIABLES]. *)
Definition convert_str_variable (str_variable : string) (presidents_data : DataFrame)
  : result DataFrame :=
  presidents_data <- map_column (fun x => Ok (PyStr (str x))) (Col str_variable)
                       presidents_data ;;
  map_column (fun x => Ok (none_if_token x)) (Col str_variable) presidents_data.

(** The body of the loop over [INT_VARIABLES]. *)
Definition convert_int_variable (int_variable : string) (presidents_data : DataFrame)
  : result DataFrame :=
  if String.eqb int_variable "Salary" then
    map_column _extract_salary (Col int_variable) presidents_data
  else
    map_column (fun x => z <- int x ;; Ok (PyInt z)) (Col int_variable) presidents_data.

(** The body of the loop over [TIMESTAMP_VARIABLES]. *)
Definition convert_timestamp_variable (timestamp_variable : string)
    (presidents_data : DataFrame) : result DataFrame :=
  map_column (fun x => t <- pd_Timestamp x ;; Ok (PyTimestamp t))
             (Col timestamp_variable) presidents_data.

(** [convert_presidents_data]; the three sets are run through in the order
    they are written. *)
Definition convert_presidents_data (presidents_data : DataFrame) : result DataFrame :=
  presidents_data <- for_columns convert_str_variable STR_VARIABLES presidents_data ;;
  presidents_data <- for_columns convert_int_variable INT_VARIABLES presidents_data ;;
  for_columns convert_timestamp_variable TIMESTAMP_VARIABLES presidents_data.

(** [convert_presidents_data] with the three sets run through in the
    given orders: Python fixes the order of a set of strings by the hash
    seed of the run. *)
Definition convert_in_order (str_order int_order timestamp_order : list string)
    (presidents_data : DataFrame) : result DataFrame :=
  presidents_data <- for_columns convert_str_variable str_order presidents_data ;;
  presidents_data <- for_columns convert_int_variable int_order presidents_data ;;
  for_columns convert_timestamp_variable timestamp_order presidents_data.

(** [convert_elections_data] *)
Definition convert_elections_data (elections_data : DataFrame) : result DataFrame :=
  elections_data <- applymap (fun x => Ok (PyStr (str x))) elections_data ;;
  applymap _extract_votes elections_data.

End Conversions.

(** [timestamp.year]; the year of [NaT] is NaN. *)
Definition year (x : pyval) : result (option Z) :=
  match x with
  | PyTimestamp NaT => Ok None
  | PyTimestamp (Date y _ _) => Ok (Some y)
  | _ => Raise AttributeError
  end.

(** [str(inauguration_year + delta)] *)
Definition year_label (inauguration_year : option Z) (delta : Z) : string :=
  match inauguration_year with
  | Some y => str_of_int (y + delta)
  | None => "nan"
  end.

(** The three lines of each [try] block of
    [compute_first_electoral_vote_share]. *)
Definition electoral_votes_share (elections_data : DataFrame)
    (sums_of_votes : list (label * Z)) (president : string) (votes_column : label)
  : result pyval :=
  president_electoral_votes <- loc president votes_column elections_data ;;
  total_electoral_votes <- series_loc votes_column sums_of_votes ;;
  truediv president_electoral_votes total_electoral_votes.

(** The value the loop body stores for one president. *)
Definition first_electoral_vote_share (presidents_data elections_data : DataFrame)
    (sums_of_votes : list (label * Z)) (president : string) : result pyval :=
  date <- loc president (Col "Inauguration Date") presidents_data ;;
  inauguration_year <- year date ;;
  let votes_column_1 := Col2 (year_label inauguration_year (-1)) "Electoral Votes" in
  let votes_column_2 := Col2 (year_label inauguration_year 0) "Electoral Votes" in
  rcatch (electoral_votes_share elections_data sums_of_votes president votes_column_1)
    KeyError
    (rcatch (electoral_votes_share elections_data sums_of_votes president votes_column_2)
       KeyError
       (Ok PyNaN)).

(** [compute_first_electoral_vote_share] *)
Definition compute_first_electoral_vote_share (presidents_data elections_data : DataFrame)
  : result DataFrame :=
  sums_of_votes <- sum elections_data ;;
  fold_left
    (fun acc president =>
       presidents_data <- acc ;;
       share <- first_electoral_vote_share presidents_data elections_data
                  sums_of_votes president ;;
       Ok (loc_set president (Col "Electoral Votes Share") share presidents_data))
    (index presidents_data) (Ok presidents_data).

(** [lambda x: 0 if x == None else len(x.replace(';', ',').split(','))]:
    a text is split; a date has a [replace] of its own, which takes the
    two texts for a year and a month and raises ValueError; the other
    values have no [replace], or, as NaT, one whose result has no
    [split]. *)
Definition number_of_children (x : pyval) : result pyval :=
  match x with
  | PyNone => Ok (PyInt 0)
  | PyStr s => Ok (PyInt (Z.of_nat (length (split "," (replace ";" "," s)))))
  | PyTimestamp (Date _ _ _) => Raise ValueError
  | _ => Raise AttributeError
  end.

(** [compute_number_of_children] *)
Definition compute_number_of_children (presidents_data : DataFrame) : result DataFrame :=
  children <- getitem_column (Col "Children") presidents_data ;;
  counts <- series_map number_of_children children ;;
  Ok (setitem_column (Col "Number of Children") counts presidents_data).

(** [PROBLEMATIC_STRINGS], in the order the set is written. *)
Definition PROBLEMATIC_STRINGS : list ascii :=
  [newline; "009"%char; "013"%char; "160"%char].

(** [lambda x: x.replace(problematic_string, '') if isinstance(x, str) else x] *)
Definition without (problematic_string : ascii) (x : pyval) : result pyval :=
  match x with
  | PyStr s => Ok (PyStr (remove problematic_string s))
  | _ => Ok x
  end.

(** The loop of [clean_presidents_data], for a given order of iteration
    over the set. *)
Definition clean_in_order (order : list ascii) (presidents_data : DataFrame)
  : result DataFrame :=
  fold_left
    (fun acc problematic_string =>
       presidents_data <- acc ;;
       applymap (without problematic_string) presidents_data)
    order (Ok presidents_data).

(** [clean_presidents_data] *)
Definition clean_presidents_data (presidents_data : DataFrame) : result DataFrame :=
  clean_in_order PROBLEMATIC_STRINGS presidents_data.

(** [name.split(' ')[0]] *)
Definition first_name (name : string) : result string := getitem (split " " name) 0.

(** [l.index(a)]: the first position of [a]. *)
Definition list_index (a : string) (l : list string) : result nat :=
  match position String.eqb a l with
  | Some i => Ok i
  | None => Raise ValueError
  end.

(** The inner loop of [correct_elections_data_indices], for one president:
    it runs through the labels of the table, and writes into the list
    [elections_index]. *)
Definition rename_candidates (president : string) (candidates elections_index : list string)
  : result (list string) :=
  first_name_president <- first_name president ;;
  surname_president <- surname president ;;
  fold_left
    (fun acc candidate =>
       elections_index <- acc ;;
       first_name_candidate <- first_name candidate ;;
       surname_candidate <- surname candidate ;;
       if String.eqb first_name_candidate first_name_president
          && String.eqb surname_candidate surname_president
       then i <- list_index candidate elections_index ;;
            Ok (set_nth i president elections_index)
       else Ok elections_index)
    candidates (Ok elections_index).

(** [correct_elections_data_indices] *)
Definition correct_elections_data_indices (elections_data presidents_data : DataFrame)
  : result DataFrame :=
  elections_index <-
    fold_left
      (fun acc president =>
         elections_index <- acc ;;
         rename_candidates president (index elections_data) elections_index)
      (index presidents_data) (Ok (index elections_data)) ;;
  Ok (mkDataFrame elections_index (series elections_data)).

Section Geocoding.

(** What geopy supplies: the rate-limited geocoder, which answers a query
    with a location or with [None]. *)
Variable Location : Type.
Variable geocode : string -> option Location.

(** [compute_locations._get_location]; the cache does not change what it
    returns. *)
Definition _get_location (place : pyval) : result (option Location) :=
  match place with
  | PyStr place =>
      if contains "(now" place then
        piece <- getitem (split_str "(now" place) 1 ;;
        let place_adjusted := remove ")" piece in
        Ok (geocode (place_adjusted ++ "," ++ "USA"))
      else if contains "near" place then
        piece <- getitem (split_str "near" place) 1 ;;
        let place_adjusted := remove ")" piece in
        Ok (geocode (place_adjusted ++ "," ++ "USA"))
      else if contains "Shadwell plantation" place then
        Ok (geocode ("Shadwell, Virginia" ++ "," ++ "USA"))
      else if contains "Waxhaw area" place then
        Ok (geocode ("Waxhaw, North Carolina" ++ "," ++ "USA"))
      else Ok (geocode (place ++ "," ++ "USA"))
  | _ => Raise TypeError
  end.

End Geocoding.

(* ===================================================================== *)
(** * The specification's wording, for comparison with the code *)
(* ===================================================================== *)

(** The salary as the specification words it: the first dollar amount,
    plus the last dollar amount of the string when an expense clause is
    present. *)
Definition salary_by_last_amount (s : string) : result pyval :=
  base <- dollar_amount s 1 ;;
  allowance <- (if contains "expense" s then dollar_amount s (-1) else Ok 0) ;;
  Ok (PyInt (base + allowance)).

(** The sum of the numbers of a series. *)
Definition total_votes (s : list pyval) : Z :=
  fold_right (fun v acc => match v with
                           | PyInt z | PyFloat z => z + acc
                           | _ => acc
                           end) 0 s.

(** The electoral votes an entity has in the table for a year: a cell
    that exists and holds a number. *)
Definition electoral_votes_entry (elections_data : DataFrame) (president : string)
    (year : Z) : option Z :=
  match loc president (Col2 (str_of_int year) "Electoral Votes") elections_data with
  | Ok (PyInt votes) | Ok (PyFloat votes) => Some votes
  | _ => None
  end.

(** The electoral votes of all candidates of a year, summed. *)
Definition electoral_votes_total (elections_data : DataFrame) (year : Z) : Z :=
  match lookup_column (Col2 (str_of_int year) "Electoral Votes") (series elections_data) with
  | Some s => total_votes s
  | None => 0
  end.

(** The share as the specification words it, for term-start year [Y]:
    the entry of year [Y - 1] if there is one, else the entry of year [Y]
    if there is one, else missing. *)
Definition share_by_entries (elections_data : DataFrame) (president : string) (Y : Z)
  : pyval :=
  match electoral_votes_entry elections_data president (Y - 1) with
  | Some votes => PyRatio votes (electoral_votes_total elections_data (Y - 1))
  | None =>
      match electoral_votes_entry elections_data president Y with
      | Some votes => PyRatio votes (electoral_votes_total elections_data Y)
      | None => PyNaN
      end
  end.

(** The number of commas and semicolons of a text. *)
Fixpoint delimiters (s : string) : nat :=
  match s with
  | EmptyString => O
  | String c r =>
      if Ascii.eqb c "," || Ascii.eqb c ";" then S (delimiters r) else delimiters r
  end.

(** The child count of a cell, as the code derives it: 0 for None, the
    number of delimited tokens for a text. *)
Definition children_counted (x count : pyval) : Prop :=
  (x = PyNone /\ count = PyInt 0)
  \/ (exists s, x = PyStr s /\ count = PyInt (Z.of_nat (S (delimiters s)))).

(** The columns [compute_first_electoral_vote_share] reads and writes. *)
Definition share_column : label := Col "Electoral Votes Share".
Definition date_column : label := Col "Inauguration Date".
Definition votes_column (y : string) : label := Col2 y "Electoral Votes".

(** The shares [F] stored for the presidents, one after the other. *)
Definition store_shares (F : string -> pyval) (presidents : list string) (df : DataFrame)
  : DataFrame :=
  fold_left (fun df president => loc_set president share_column (F president) df)
            presidents df.

(** The column [c], if the table has it, has a cell for every row. *)
Definition full (c : label) (df : DataFrame) : Prop :=
  forall s, lookup_column c (series df) = Some s -> length s = length (index df).

(** A cell of a converted election table: an integer, as an int or as a
    float, or NaN. *)
Definition is_votes (v : pyval) : bool :=
  match v with
  | PyInt _ | PyFloat _ | PyNaN => true
  | _ => false
  end.

(** A converted election table: every cell an integer or NaN. *)
Definition converted (elections_data : DataFrame) : Prop :=
  Forall (fun cs => Forall (fun v => is_votes v = true) (snd cs)) (series elections_data).

(** The table has a row for the entity and a column for the electoral
    votes of the year. *)
Definition in_table (elections_data : DataFrame) (president : string) (year : Z) : bool :=
  existsb (String.eqb president) (index elections_data)
  && existsb (label_eqb (Col2 (str_of_int year) "Electoral Votes")) (columns elections_data).

(** The entity's electoral votes of a year over the total of the year;
    NaN when the entity's cell holds no number. *)
Definition share_of_year (elections_data : DataFrame) (president : string) (year : Z)
  : pyval :=
  match electoral_votes_entry elections_data president year with
  | Some votes => PyRatio votes (electoral_votes_total elections_data year)
  | None => PyNaN
  end.

(** The share as the code computes it, for term-start year [Y]: from year
    [Y - 1] when the table has the row and the column, else from year [Y]
    when it has them, else missing. *)
Definition share_by_columns (elections_data : DataFrame) (president : string) (Y : Z)
  : pyval :=
  if in_table elections_data president (Y - 1)
  then share_of_year elections_data president (Y - 1)
  else if in_table elections_data president Y
       then share_of_year elections_data president Y
       else PyNaN.

(** The (section, table) pairs that [get_election_results] reads, in the
    order it reads them. *)
Definition tables_read (soups : list Node) : list (Node * Node) :=
  flat_map (fun soup =>
              match PotusScraper.elections_section soup with
              | Ok presidential_elections =>
                  map (pair presidential_elections)
                      (find_all "table" presidential_elections)
              | Raise _ => []
              end) soups.

(* ===================================================================== *)
(** * Notions used to state the theorems *)
(* ===================================================================== *)

(** Every character of [s] satisfies [P]. *)
Fixpoint all_chars (P : ascii -> bool) (s : string) : bool :=
  match s with
  | EmptyString => true
  | String c r => P c && all_chars P r
  end.

(** The character [c] does not occur in [s]. *)
Definition lacks (c : ascii) (s : string) : bool :=
  all_chars (fun x => negb (Ascii.eqb x c)) s.

(** The number a string of digits denotes, continuing from [acc]. *)
Fixpoint digits_value (acc : Z) (s : string) : Z :=
  match s with
  | EmptyString => acc
  | String c r => digits_value (10 * acc + digit_val c) r
  end.

(** A numeral written with digits only, and a group of three digits of a
    grouped numeral. *)
Definition digit_string (s : string) : bool :=
  negb (String.eqb s "") && all_chars is_digit s.

Definition digit_group (s : string) : bool :=
  all_chars is_digit s && (String.length s =? 3)%nat.

(** A character of a rendered integer: a digit or the sign. *)
Definition is_int_char (c : ascii) : bool := is_digit c || Ascii.eqb c "-".

(** A character that no [int] literal contains. *)
Definition foreign (c : ascii) : Prop :=
  is_digit c = false /\ is_space c = false /\ c <> "_"%char /\ c <> "-"%char /\ c <> "+"%char.

(** The loop of assertions, as [correct_subdirectories] runs it. *)
Definition assert_surnames (pairs : list (string * string)) : M PotusScraper.t unit :=
  forM_ pairs (fun president_keys =>
                 same <- lift (PotusScraper.surnames_match president_keys) ;;
                 assert_ same)%M.




(** An emphasized or bold inline element. *)
Definition emphasized (n : Node) : bool := is_tag "strong" n || is_tag "b" n.

(** The key-events page of an entity. *)
Definition key_events_page (get_soup : string -> Node) (origin subdirectory : string)
  : Node :=
  get_soup (origin ++ subdirectory ++ "/key-events").

(** A computation on the election results that touches the entry of
    [year] only: run from two stores with the same entry for [year], it
    ends alike and leaves the same entry, and every other year is left as
    it was. *)
Definition confined {A} (year : string) (m : M PotusScraper.results A) : Prop :=
  forall r1 r2 : PotusScraper.results,
    dget year r1 = dget year r2 ->
    fst (m r1) = fst (m r2)
    /\ dget year (snd (m r1)) = dget year (snd (m r2))
    /\ forall other, other <> year -> dget other (snd (m r1)) = dget other r1.

(** Reading one (section, table) pair. *)
Definition read_pair (st : Node * Node) : M PotusScraper.results unit :=
  PotusScraper.read_table (fst st) (snd st).

(** A sequence of column conversions [df[c] = df[c].map(f)]. *)
Definition run_steps (steps : list (label * (pyval -> result pyval))) (df : DataFrame)
  : result DataFrame :=
  fold_left (fun acc cf => df' <- acc ;; map_column (snd cf) (fst cf) df') steps (Ok df).

(** Converting a column a function has returned returns that column. *)
Definition fixes_columns (f : pyval -> result pyval) : Prop :=
  forall s s', mapM f s = Ok s' -> mapM f (infer_dtype s') = Ok (infer_dtype s').

(** A text cell of a converted table: None, or a string other than the two
    tokens. *)
Definition is_text (v : pyval) : bool :=
  match v with
  | PyNone => true
  | PyStr s => negb (String.eqb s "None" || String.eqb s "nan")
  | _ => false
  end.

Definition is_int (v : pyval) : bool :=
  match v with
  | PyInt _ => true
  | _ => false
  end.

Definition is_timestamp (v : pyval) : bool :=
  match v with
  | PyTimestamp _ => true
  | _ => false
  end.

(** A number stored as an integer, or NaN. *)
Definition int_or_nan (v : pyval) : bool :=
  match v with
  | PyInt _ | PyNaN => true
  | _ => false
  end.

(** Every cell of the table satisfies [P]. *)
Definition all_cells (P : pyval -> bool) (df : DataFrame) : Prop :=
  Forall (fun cs => Forall (fun v => P v = true) (snd cs)) (series df).

Section ConversionSteps.

Variable str_of_float : Z -> Z -> string.
Variable str_of_Timestamp : Timestamp -> string.
Variable Timestamp_of : pyval -> result Timestamp.

(** The two maps of a text column, as one. *)
Definition to_text (x : pyval) : result pyval :=
  Ok (none_if_token (PyStr (str str_of_float str_of_Timestamp x))).

Definition to_int (x : pyval) : result pyval := z <- int x ;; Ok (PyInt z).

Definition to_timestamp (x : pyval) : result pyval :=
  t <- pd_Timestamp Timestamp_of x ;; Ok (PyTimestamp t).

(** The two maps of the election table, as one. *)
Definition to_votes (x : pyval) : result pyval :=
  _extract_votes (PyStr (str str_of_float str_of_Timestamp x)).

(** The conversions of [convert_presidents_data], in the order it runs
    them. *)
Definition presidents_steps : list (label * (pyval -> result pyval)) :=
  (map (fun c => (Col c, to_text)) STR_VARIABLES
   ++ [(Col "Key Events Count", to_int); (Col "President Number", to_int);
       (Col "Salary", _extract_salary)]
   ++ map (fun c => (Col c, to_timestamp)) TIMESTAMP_VARIABLES)%list.

End ConversionSteps.

(** A dict as Python keeps it: no key twice. *)
Definition well_formed {V} (d : odict V) : Prop := NoDup (keys d).

(** A computation that returns, or raises AttributeError. *)
Definition returns_or_lacks {S} (m : M S unit) : Prop :=
  forall s, (exists s', m s = (Ok tt, s')) \/ (exists s', m s = (Raise AttributeError, s')).

(** The label and the value of one fast fact, as the loop of
    [get_fast_facts] reads them: the value first. *)
Definition fact_pair (fast_fact : Node) : result (string * string) :=
  value <- child_text "div" fast_fact ;;
  label <- child_text "label" fast_fact ;;
  Ok (label, value).

(** The page of an entity. *)
Definition page_of (get_soup : string -> Node) (origin : string) (item : string * string)
  : Node :=
  get_soup (origin ++ snd item).

(** The characters of [s] that satisfy [p], in their order. *)
Fixpoint keep (p : ascii -> bool) (s : string) : string :=
  match s with
  | EmptyString => EmptyString
  | String c r => if p c then String c (keep p r) else keep p r
  end.

(** A character that is none of [chars]. *)
Definition none_of (chars : list ascii) (c : ascii) : bool :=
  negb (existsb (Ascii.eqb c) chars).

(** A cell without the characters [chars]: a text loses them, any other
    value is as it was. *)
Definition cleaned (chars : list ascii) (x : pyval) : pyval :=
  match x with
  | PyStr s => PyStr (keep (none_of chars) s)
  | _ => x
  end.

(** The table of the cleaned cells, each column stored as [applymap]
    stores it. *)
Definition cleaned_table (chars : list ascii) (df : DataFrame) : DataFrame :=
  mkDataFrame (index df)
    (map (fun cs => (fst cs, infer_dtype (map (cleaned chars) (snd cs)))) (series df)).

(** The first word and the last word of a name, which
    [correct_elections_data_indices] compares. *)
Definition name_key (name : string) : string * string :=
  (hd EmptyString (split " " name), last (split " " name) EmptyString).

Definition same_person (president candidate : string) : bool :=
  String.eqb (fst (name_key candidate)) (fst (name_key president))
  && String.eqb (snd (name_key candidate)) (snd (name_key president)).

(** The label a candidate gets: the name of the first president with the
    candidate's first and last word, or the candidate's own. *)
Definition renamed (presidents : list string) (candidate : string) : string :=
  match List.find (fun president => same_person president candidate) presidents with
  | Some president => president
  | None => candidate
  end.

(** One step of the inner loop of [correct_elections_data_indices], the
    two comparisons as one. *)
Definition rename_step (president : string) (acc : result (list string)) (candidate : string)
  : result (list string) :=
  elections_index <- acc ;;
  if same_person president candidate
  then i <- list_index candidate elections_index ;;
       Ok (set_nth i president elections_index)
  else Ok elections_index.

(* ===================================================================== *)
(** * Sample inputs *)
(* ===================================================================== *)

(** A salary text with five dollar amounts, the expense allowance last. *)
Definition salary_with_five_amounts : string :=
  "The salary of $100,000 (earlier $25,000, $50,000 and $75,000), with an expense account of $40,000".

(** Two listings in step, and the scraper states that hold them. *)
Definition miller_listing : odict string :=
  [("George Washington", "/president/washington");
   ("John Adams", "/president/adams")].

Definition potus_listing : odict string :=
  [("Washington", "george-washington/"); ("J. Adams", "john-adams/")].

Definition miller_listed : MillerScraper.t :=
  MillerScraper.mk "https://millercenter.org/" (Some miller_listing) None None None None.

Definition potus_listed : PotusScraper.t :=
  PotusScraper.mk "https://www.potus.com/" (Some potus_listing) None None.

(** A Source-A scrape of two entities, the first with two terms, and the
    Source-B salaries for them. *)
Definition three_lines (a b : string) : string :=
  String newline (a ++ String newline (String newline b)).

Definition two_lines (a b : string) : string :=
  String newline (a ++ String newline b).

Definition miller_scraped : MillerScraper.t :=
  MillerScraper.mk "https://millercenter.org/"
    (Some [("Grover Cleveland", "/president/cleveland");
           ("Benjamin Harrison", "/president/bharrison")])
    (Some [("Grover Cleveland",
            [("Inauguration Date", three_lines "March 4, 1885" "March 4, 1893");
             ("Date Ended", three_lines "March 4, 1889" "March 4, 1897");
             ("President Number", two_lines "22" "24");
             ("Children", "Ruth, Esther, Marion, Richard; Francis")]);
           ("Benjamin Harrison",
            [("Inauguration Date", "March 4, 1889");
             ("Date Ended", "March 4, 1893");
             ("President Number", "23");
             ("Children", "Russell, Mary, Elizabeth")])])
    (Some [("Grover Cleveland", "The first Democrat elected after the Civil War.");
           ("Benjamin Harrison", "Grandson of a president.")])
    (Some [("Grover Cleveland", "A public office is a public trust.");
           ("Benjamin Harrison", "Great lives never go out.")])
    (Some [("Grover Cleveland", 31); ("Benjamin Harrison", 27)]).

Definition potus_salaried : PotusScraper.t :=
  PotusScraper.mk "https://www.potus.com/"
    (Some [("Grover Cleveland", "grover-cleveland/");
           ("Benjamin Harrison", "benjamin-harrison/")])
    (Some [("Grover Cleveland", "Presidential Salary: $50,000/year");
           ("Benjamin Harrison", "Presidential Salary: $50,000/year")])
    None.

(** Two key-events pages: one with an article body, one without. *)
Definition key_events_with_body : Node :=
  Tag "[document]" [] []
    [Tag "div" ["article-wysiwyg-body"; "clearfix"] []
       [Tag "p" [] [] [Tag "strong" [] [] [NavigableString "March 4, 1885"];
                       NavigableString "Inauguration"];
        Tag "p" [] [] [Tag "b" [] [] [NavigableString "June 2, 1886"];
                       NavigableString "Wedding at the White House"];
        Tag "p" [] [] [Tag "strong" [] [] [NavigableString "February 4, 1887"];
                       NavigableString "Interstate Commerce Act"]]].

Definition key_events_without_body : Node :=
  Tag "[document]" [] [] [Tag "div" ["page-not-found"] [] [NavigableString "Key Events"]].

Definition sample_soup (url : string) : Node :=
  if String.eqb url "https://millercenter.org//president/cleveland/key-events"
  then key_events_with_body
  else key_events_without_body.

(** Two entity pages of Source B whose election sections both hold a table
    for 1888, with different rows. *)
Definition cell (column : string) (s : string) : Node :=
  Tag "td" [column] [] [NavigableString s].

Definition linked_cell (column : string) (s : string) : Node :=
  Tag "td" [column] [] [Tag "a" [] [("href", "#")] [NavigableString s]].

Definition header_row : Node :=
  Tag "tr" ["row-1"] []
    [Tag "th" [] [] [NavigableString "Election"];
     Tag "th" [] [] [NavigableString "Candidate"];
     Tag "th" [] [] [NavigableString "Popular Votes"];
     Tag "th" [] [] [NavigableString "Electoral Votes"]].

Definition first_row (year name popular electoral : string) : Node :=
  Tag "tr" ["row-2"] []
    [linked_cell "column-1" year; linked_cell "column-2" name;
     cell "column-3" popular; cell "column-4" electoral].

Definition next_row (name popular electoral : string) : Node :=
  Tag "tr" ["row-3"] []
    [Tag "td" ["column-1"] [] []; linked_cell "column-2" name;
     cell "column-3" popular; cell "column-4" electoral].

Definition election_page (tables : list Node) : Node :=
  Tag "[document]" [] []
    [Tag "div" ["content"] []
       (Tag "p" [] [] [Tag "b" [] [] [NavigableString "Presidential Election Results:"]]
        :: tables)].

Definition table_1884 : Node :=
  Tag "table" [] []
    [header_row;
     first_row "1884" "Grover Cleveland" "4,874,986" "219";
     next_row "James G. Blaine" "4,851,981" "182"].

Definition table_1888_short : Node :=
  Tag "table" [] []
    [header_row;
     first_row "1888" "Benjamin Harrison" "5,439,853" "233";
     next_row "Grover Cleveland" "5,540,309" "168"].

Definition table_1888_long : Node :=
  Tag "table" [] []
    [header_row;
     first_row "1888" "Benjamin Harrison" "5,439,853" "233";
     next_row "Grover Cleveland" "5,540,309" "168";
     next_row "Clinton B. Fisk" "249,506" "0"].

Definition cleveland_page : Node := election_page [table_1884; table_1888_long].
Definition harrison_page : Node := election_page [table_1888_short].

Definition election_soup (url : string) : Node :=
  if String.eqb url "https://www.potus.com/grover-cleveland/" then cleveland_page
  else harrison_page.

(** An election table in which two successive years are election years,
    and an entity inaugurated in the second of them who stood only then. *)
Definition elections_two_years : DataFrame :=
  mkDataFrame ["Alice Ames"; "Bob Boyd"]
    [(Col2 "1900" "Electoral Votes", [PyNaN; PyFloat 5]);
     (Col2 "1901" "Electoral Votes", [PyFloat 10; PyNaN])].

Definition presidents_one_row : DataFrame :=
  mkDataFrame ["Alice Ames"]
    [(Col "Inauguration Date", [PyTimestamp (Date 1901 3 4)])].

(** A table of two election years four years apart, and three entities:
    one elected in the year before the term, one in the year of the term,
    one not elected. *)
Definition elections_sample : DataFrame :=
  mkDataFrame ["Alice Ames"; "Bob Boyd"]
    [(Col2 "1900" "Electoral Votes", [PyInt 292; PyInt 155]);
     (Col2 "1904" "Electoral Votes", [PyInt 140; PyInt 336])].

Definition presidents_sample : DataFrame :=
  mkDataFrame ["Alice Ames"; "Bob Boyd"; "Carl Cole"]
    [(Col "Inauguration Date",
      [PyTimestamp (Date 1901 3 4); PyTimestamp (Date 1904 3 4);
       PyTimestamp (Date 1902 9 14)])].

(** A merged table whose children fields are a list, a missing value and
    an empty text. *)
Definition presidents_children : DataFrame :=
  mkDataFrame ["Alice Ames"; "Bob Boyd"; "Carl Cole"]
    [(Col "Children", [PyStr "Anne; Susan, Martha"; PyNone; PyStr ""])].

(** Renderings and a date parser for the sample tables, which hold no
    quotient and two dates. *)
Definition sample_str_of_float (n d : Z) : string := EmptyString.

Definition sample_str_of_Timestamp (t : Timestamp) : string :=
  match t with
  | NaT => "NaT"
  | Date y m d => str_of_int y ++ "-" ++ str_of_int m ++ "-" ++ str_of_int d
  end.

Definition sample_Timestamp_of (x : pyval) : result Timestamp :=
  match x with
  | PyStr s =>
      if String.eqb s "March 18, 1837" then Ok (Date 1837 3 18)
      else if String.eqb s "March 4, 1885" then Ok (Date 1885 3 4)
      else if String.eqb s "March 4, 1889" then Ok (Date 1889 3 4)
      else if String.eqb s "June 24, 1908" then Ok (Date 1908 6 24)
      else Raise ValueError
  | _ => Raise ValueError
  end.

(** A merged table of one row, as scraped. *)
Definition presidents_raw : DataFrame :=
  mkDataFrame ["Grover Cleveland"]
    [(Col "Birth Date", [PyStr "March 18, 1837"]);
     (Col "Birth Place", [PyStr "Caldwell, New Jersey"]);
     (Col "Burial Place", [PyStr "Princeton, New Jersey"]);
     (Col "Career", [PyStr "Lawyer"]);
     (Col "Children", [PyStr "Ruth, Esther, Marion, Richard; Francis"]);
     (Col "Date Ended", [PyStr "March 4, 1889"]);
     (Col "Death Date", [PyStr "June 24, 1908"]);
     (Col "Education", [PyNaN]);
     (Col "Full Name", [PyStr "Grover Cleveland"]);
     (Col "Inauguration Date", [PyStr "March 4, 1885"]);
     (Col "Marriage", [PyStr "June 2, 1886, to Frances Folsom"]);
     (Col "Nickname", [PyStr "Big Steve"]);
     (Col "Political Party", [PyStr "Democrat"]);
     (Col "President Number", [PyStr "22"]);
     (Col "Religion", [PyStr "Presbyterian"]);
     (Col "Description", [PyStr "The first Democrat elected after the Civil War."]);
     (Col "Famous Quote", [PyStr "A public office is a public trust."]);
     (Col "Key Events Count", [PyInt 31]);
     (Col "Salary", [PyStr "Presidential Salary: $50,000/year"])].

(** Two election tables as scraped: one with a cell for every candidate,
    one in which a candidate has no cell for the year. *)
Definition elections_raw_complete : DataFrame :=
  mkDataFrame ["Benjamin Harrison"; "Grover Cleveland"]
    [(Col2 "1888" "Electoral Votes", [PyStr "233"; PyStr "168"]);
     (Col2 "1888" "Popular Votes", [PyStr "5,439,853"; PyStr "5,540,309"])].

Definition elections_raw_missing : DataFrame :=
  mkDataFrame ["Benjamin Harrison"; "James G. Blaine"]
    [(Col2 "1888" "Electoral Votes", [PyStr "233"; PyNaN])].

Definition elections_converted_missing : DataFrame :=
  mkDataFrame ["Benjamin Harrison"; "James G. Blaine"]
    [(Col2 "1888" "Electoral Votes", [PyFloat 233; PyNaN])].

(** The home page of Source A: a navigation menu whose second submenu
    lists the entities, and the same page with the link of the second
    entity stripped of its address. *)
Definition menu_link (href s : string) : Node :=
  Tag "li" [] [] [Tag "a" [] [("href", href)] [NavigableString s]].

Definition miller_menu (entities : list Node) : Node :=
  Tag "[document]" [] []
    [Tag "nav" [] [("aria-labelledby", "block-mainnavigation-3-menu")]
       [Tag "ul" ["menu"] []
          [Tag "li" [] []
             [NavigableString "The Presidency";
              Tag "ul" ["submenu"] [] [menu_link "/the-presidency/issues" "Issues"]];
           Tag "li" [] []
             [NavigableString "U.S. Presidents";
              Tag "ul" ["submenu"] [] entities]]]].

Definition miller_home : Node :=
  miller_menu [menu_link "/president/washington" "George Washington";
               menu_link "/president/adams" "John Adams"].

Definition miller_unlisted : MillerScraper.t :=
  MillerScraper.mk "https://millercenter.org/" None None None None None.

(** An entity page of Source A. *)
Definition fact (label value : string) : Node :=
  Tag "div" ["fast-fact"] []
    [Tag "label" [] [] [NavigableString label];
     Tag "div" ["field-content"] [] [NavigableString value]].

Definition miller_page (facts : list Node) : Node :=
  Tag "[document]" [] []
    [Tag "div" ["president-main-wrapper"] []
       [Tag "div" ["copy-wrapper"] []
          [Tag "p" [] [] [NavigableString "An entity of Source A."]];
        Tag "blockquote" ["president-quote"] []
          [NavigableString "A quote."; Tag "cite" [] [] [NavigableString "1789"]];
        Tag "div" ["fast-facts-wrapper"] [] facts]].

Definition sample_facts : list Node :=
  [NavigableString (String newline EmptyString);
   Tag "h2" [] [] [NavigableString "Fast Facts"];
   NavigableString (String newline EmptyString);
   fact "Birth Date" "February 22, 1732";
   NavigableString (String newline EmptyString);
   fact "Religion" "Episcopalian"].

Definition miller_pages (url : string) : Node := miller_page sample_facts.

Definition sample_markup (n : Node) : string := text n.

(** The home page of Source B: a link to the facts section, and a link
    per entity. *)
Definition portrait_link (href alt : string) : Node :=
  Tag "a" [] [("href", href); ("target", "_self")]
    [Tag "img" [] [("src", "portrait.jpg"); ("alt", alt)] []].

Definition potus_home : Node :=
  Tag "[document]" [] []
    [Tag "div" ["presidents"] []
       [portrait_link "presidential-facts/" "Facts About the Presidents";
        portrait_link "george-washington/" "President George Washington, 1789-1797";
        portrait_link "john-adams/" "President John Adams, 1797-1801"]].

Definition potus_unlisted : PotusScraper.t :=
  PotusScraper.mk "https://www.potus.com/" None None None.

(** Entity pages of Source B: the salary title with and without the space
    that follows it. *)
Definition potus_page (title : string) : Node :=
  Tag "[document]" [] []
    [Tag "div" ["content"] []
       [Tag "p" [] []
          [Tag "b" [] [] [NavigableString title]; NavigableString "$25,000/year"]]].

Definition potus_pages (url : string) : Node :=
  if String.eqb url "https://www.potus.com/george-washington/"
  then potus_page "Presidential Salary:"
  else potus_page "Presidential Salary: ".

(** The two sites together. *)
Definition sample_web (url : string) : Node :=
  if String.eqb url "https://millercenter.org/" then miller_home
  else if String.eqb url "https://www.potus.com/" then potus_home
  else if String.prefix "https://www.potus.com/" url then potus_page "Presidential Salary:"
  else miller_page sample_facts.

(** A merged table with line breaks, a tab and a no-break space in its
    texts. *)
Definition presidents_untidy : DataFrame :=
  mkDataFrame ["George Washington"; "John Adams"]
    [(Col "Birth Place",
      [PyStr (String newline ("Pope's Creek," ++ String "160"%char "Virginia"));
       PyStr (String "009"%char ("Braintree" ++ String "013"%char (String newline "")))]);
     (Col "Key Events Count", [PyInt 12; PyInt 9])].

(** An election table and two tables of presidents: one whose names are
    told apart by their first and last words, one with two namesakes. *)
Definition elections_names : DataFrame :=
  mkDataFrame ["George Clinton"; "John Adams"; "John Quincy Adams"; "Thomas Jefferson"]
    [(Col2 "1796" "Electoral Votes", [PyInt 7; PyInt 71; PyNaN; PyInt 68])].

Definition presidents_distinct : DataFrame :=
  mkDataFrame ["John Adams"; "Thomas M. Jefferson"]
    [(Col "President Number", [PyInt 2; PyInt 3])].

Definition presidents_namesakes : DataFrame :=
  mkDataFrame ["John Adams"; "John Tyler"; "John Quincy Adams"]
    [(Col "President Number", [PyInt 2; PyInt 10; PyInt 6])].

(** The merged table of one row, without its column of nicknames. *)
Definition presidents_without_nickname : DataFrame :=
  mkDataFrame (index presidents_raw)
    (filter (fun cs => negb (label_eqb (fst cs) (Col "Nickname"))) (series presidents_raw)).

(* ===================================================================== *)
(** * Lemmas on the prelude *)
(* ===================================================================== *)

Section ResultLemmas.

Lemma rbind_ok {A B} (r : result A) (k : A -> result B) (b : B) :
  rbind r k = Ok b -> exists a, r = Ok a /\ k a = Ok b.
Proof.
  destruct r as [a|e]; simpl; intros H.
  - exists a; auto.
  - discriminate.
Qed.

Lemma mapM_length {A B} (f : A -> result B) (l : list A) (l' : list B) :
  mapM f l = Ok l' -> length l' = length l.
Proof.
  revert l'; induction l as [|a l IH]; simpl; intros l' H.
  - inversion H; reflexivity.
  - destruct (f a) as [b|]; simpl in H; [|discriminate].
    destruct (mapM f l) as [bs|]; simpl in H; [|discriminate].
    inversion H; subst; simpl; f_equal; auto.
Qed.

Lemma mapM_nth {A B} (f : A -> result B) (l : list A) (l' : list B) (da : A) (db : B) :
  mapM f l = Ok l' ->
  forall i, (i < length l)%nat -> f (nth i l da) = Ok (nth i l' db).
Proof.
  revert l'; induction l as [|a l IH]; simpl; intros l' H i Hi.
  - lia.
  - destruct (f a) as [b|] eqn:Ea; simpl in H; [|discriminate].
    destruct (mapM f l) as [bs|]; simpl in H; [|discriminate].
    inversion H; subst. destruct i; simpl; auto. apply IH; auto. lia.
Qed.

Lemma mapM_Forall {A B} (f : A -> result B) (P : B -> Prop) (l : list A) (l' : list B) :
  (forall a b, f a = Ok b -> P b) -> mapM f l = Ok l' -> Forall P l'.
Proof.
  intros Hf; revert l'; induction l as [|a l IH]; simpl; intros l' H.
  - inversion H; constructor.
  - destruct (f a) as [b|] eqn:Ea; simpl in H; [|discriminate].
    destruct (mapM f l) as [bs|]; simpl in H; [|discriminate].
    inversion H; subst. constructor; eauto.
Qed.

Lemma mapM_fixed {A} (f : A -> result A) (l : list A) :
  Forall (fun a => f a = Ok a) l -> mapM f l = Ok l.
Proof.
  induction 1 as [|a l Ha _ IH]; simpl; auto.
  rewrite Ha; simpl. rewrite IH; reflexivity.
Qed.

Lemma mapM_total {A B} (f : A -> B) (l : list A) :
  mapM (fun a => Ok (f a)) l = Ok (map f l).
Proof.
  induction l as [|a l IH]; simpl; auto. rewrite IH; reflexivity.
Qed.

End ResultLemmas.

Section DictLemmas.

Context {V : Type}.
Implicit Types (d : odict V) (k : string) (v : V).

Lemma dget_dset_eq k v d : dget k (dset k v d) = Some v.
Proof.
  induction d as [|[k' v'] d IH]; simpl.
  - rewrite String.eqb_refl; reflexivity.
  - destruct (String.eqb k k') eqn:E; simpl.
    + rewrite String.eqb_refl; reflexivity.
    + rewrite E; exact IH.
Qed.

Lemma dget_dset_neq k k' v d : k <> k' -> dget k' (dset k v d) = dget k' d.
Proof.
  intros Hne. induction d as [|[k0 v0] d IH]; simpl.
  - destruct (String.eqb k' k) eqn:E; auto.
    apply String.eqb_eq in E; congruence.
  - destruct (String.eqb k k0) eqn:E; simpl.
    + apply String.eqb_eq in E; subst k0.
      destruct (String.eqb k' k) eqn:E'; auto.
      apply String.eqb_eq in E'; congruence.
    + destruct (String.eqb k' k0); auto.
Qed.

Lemma dget_none_iff k d : dget k d = None <-> ~ In k (keys d).
Proof.
  induction d as [|[k' v'] d IH]; simpl.
  - tauto.
  - destruct (String.eqb k k') eqn:E.
    + apply String.eqb_eq in E; subst. split; [discriminate | tauto].
    + apply String.eqb_neq in E. rewrite IH. split.
      * intros H [H'|H']; [congruence | contradiction].
      * intros H H'; apply H; right; exact H'.
Qed.

Lemma mem_keys k d : existsb (String.eqb k) (keys d) = dmem k d.
Proof.
  unfold dmem. induction d as [|[k' v'] d IH]; simpl; auto.
  destruct (String.eqb k k'); simpl; auto.
Qed.

Lemma keys_dset_new k v d : dget k d = None -> dset k v d = (d ++ [(k, v)])%list.
Proof.
  induction d as [|[k' v'] d IH]; simpl; auto.
  destruct (String.eqb k k'); [discriminate|]. intros H; rewrite IH; auto.
Qed.

Lemma keys_dset_old k v d : dget k d <> None -> keys (dset k v d) = keys d.
Proof.
  induction d as [|[k' v'] d IH]; simpl; [congruence|].
  destruct (String.eqb k k') eqn:E; simpl.
  - apply String.eqb_eq in E; subst; reflexivity.
  - intros H; rewrite IH; auto.
Qed.

Lemma dget_in k v d : dget k d = Some v -> In (k, v) d.
Proof.
  induction d as [|[k' v'] d IH]; simpl; [discriminate|].
  destruct (String.eqb k k') eqn:E.
  - apply String.eqb_eq in E; subst. intros H; inversion H; auto.
  - auto.
Qed.

Lemma in_dget k v d : well_formed d -> In (k, v) d -> dget k d = Some v.
Proof.
  unfold well_formed. induction d as [|[k' v'] d IH]; simpl; [tauto|].
  intros Hnd [H|H].
  - inversion H; subst. rewrite String.eqb_refl; reflexivity.
  - inversion Hnd; subst. destruct (String.eqb k k') eqn:E.
    + apply String.eqb_eq in E; subst. exfalso. apply H2.
      change k' with (fst (k', v)). apply in_map; exact H.
    + auto.
Qed.

End DictLemmas.

Section StringLemmas.

Lemma split_cons sep s : exists p ps, split sep s = p :: ps.
Proof.
  induction s as [|c r [p [ps IH]]]; simpl.
  - eauto.
  - destruct (Ascii.eqb c sep); [eauto|]. rewrite IH; eauto.
Qed.

Lemma split_lacks sep s : lacks sep s = true -> split sep s = [s].
Proof.
  unfold lacks. induction s as [|c r IH]; simpl; auto.
  intros H. apply andb_true_iff in H as [Hc Hr].
  apply negb_true_iff in Hc. rewrite Hc, (IH Hr). reflexivity.
Qed.

Lemma split_app sep p q :
  lacks sep p = true -> split sep (p ++ String sep q) = p :: split sep q.
Proof.
  unfold lacks. induction p as [|c r IH]; simpl.
  - intros _. rewrite Ascii.eqb_refl. reflexivity.
  - intros H. apply andb_true_iff in H as [Hc Hr].
    apply negb_true_iff in Hc. rewrite Hc, (IH Hr). reflexivity.
Qed.

Lemma all_chars_app P s t :
  all_chars P (s ++ t) = all_chars P s && all_chars P t.
Proof.
  induction s as [|c r IH]; simpl; auto. rewrite IH, andb_assoc. reflexivity.
Qed.

Lemma all_chars_impl (P Q : ascii -> bool) s :
  (forall c, P c = true -> Q c = true) -> all_chars P s = true -> all_chars Q s = true.
Proof.
  intros HPQ. induction s as [|c r IH]; simpl; auto.
  intros H. apply andb_true_iff in H as [Hc Hr]. rewrite (HPQ _ Hc), (IH Hr). reflexivity.
Qed.

Lemma lacks_app c s t : lacks c (s ++ t) = lacks c s && lacks c t.
Proof. apply all_chars_app. Qed.

(** ** Digits *)

Lemma digit_cases d :
  0 <= d < 10 ->
  d = 0 \/ d = 1 \/ d = 2 \/ d = 3 \/ d = 4 \/ d = 5 \/ d = 6 \/ d = 7 \/ d = 8 \/ d = 9.
Proof. lia. Qed.

Lemma digit_val_char d : 0 <= d < 10 -> digit_val (digit_char d) = d.
Proof.
  intros H. destruct (digit_cases d H) as [E|[E|[E|[E|[E|[E|[E|[E|[E|E]]]]]]]]];
    subst; reflexivity.
Qed.

Lemma is_digit_char d : 0 <= d < 10 -> is_digit (digit_char d) = true.
Proof.
  intros H. destruct (digit_cases d H) as [E|[E|[E|[E|[E|[E|[E|[E|[E|E]]]]]]]]];
    subst; reflexivity.
Qed.

Lemma digits_all_digits fuel n acc :
  0 <= n -> all_chars is_digit acc = true -> all_chars is_digit (digits fuel n acc) = true.
Proof.
  revert n acc; induction fuel as [|f IH]; simpl; intros n acc Hn Hacc; auto.
  assert (Hd : is_digit (digit_char (n mod 10)) = true).
  { apply is_digit_char. apply Z.mod_pos_bound; lia. }
  destruct (n <? 10).
  - simpl. rewrite Hd, Hacc. reflexivity.
  - apply IH.
    + apply Z.div_pos; lia.
    + simpl. rewrite Hd, Hacc. reflexivity.
Qed.

Lemma digits_nonempty fuel n acc : digits (S fuel) n acc <> EmptyString.
Proof.
  revert n acc; induction fuel as [|f IH]; intros n acc.
  - simpl. destruct (n <? 10); discriminate.
  - change (digits (S (S f)) n acc)
      with (if n <? 10 then String (digit_char (n mod 10)) acc
            else digits (S f) (n / 10) (String (digit_char (n mod 10)) acc)).
    destruct (n <? 10); [discriminate | apply IH].
Qed.

Lemma digits_value_digits fuel n rest :
  0 <= n < 2 ^ Z.of_nat fuel ->
  digits_value 0 (digits fuel n rest) = digits_value n rest.
Proof.
  revert n rest; induction fuel as [|f IH]; intros n rest Hn.
  - simpl in *. assert (n = 0) by lia. subst. reflexivity.
  - simpl digits.
    assert (Hmod : 0 <= n mod 10 < 10) by (apply Z.mod_pos_bound; lia).
    destruct (n <? 10) eqn:E.
    + apply Z.ltb_lt in E. cbn [digits_value]. rewrite digit_val_char by exact Hmod.
      rewrite Z.mod_small by lia. reflexivity.
    + apply Z.ltb_ge in E. rewrite IH.
      * cbn [digits_value]. rewrite digit_val_char by exact Hmod.
        f_equal. pose proof (Z.div_mod n 10 ltac:(lia)). lia.
      * split; [apply Z.div_pos; lia|].
        rewrite Nat2Z.inj_succ, Z.pow_succ_r in Hn by lia.
        apply Z.div_lt_upper_bound; lia.
Qed.

Lemma parse_digits_value acc s :
  s <> EmptyString -> all_chars is_digit s = true ->
  parse_digits acc s = Some (digits_value acc s).
Proof.
  revert acc; induction s as [|c r IH]; intros acc Hne Hall; [congruence|].
  simpl in Hall. apply andb_true_iff in Hall as [Hc Hr].
  simpl. rewrite Hc. destruct r as [|c' r'].
  - reflexivity.
  - assert (Hc' : is_digit c' = true).
    { simpl in Hr. apply andb_true_iff in Hr as [H _]. exact H. }
    assert (Hu : Ascii.eqb c' "_" = false).
    { destruct (Ascii.eqb c' "_") eqn:E; auto.
      apply Ascii.eqb_eq in E; subst. discriminate. }
    rewrite Hu. apply IH; [discriminate | exact Hr].
Qed.

Lemma digit_not_space c : is_digit c = true -> is_space c = false.
Proof.
  unfold is_digit, is_space. intros H.
  apply andb_true_iff in H as [H1 H2].
  apply Z.leb_le in H1. apply Z.leb_le in H2.
  repeat (apply orb_false_iff; split).
  - apply andb_false_iff; right. apply Z.leb_gt; lia.
  - apply Z.eqb_neq; lia.
  - apply Z.eqb_neq; lia.
  - apply Z.eqb_neq; lia.
Qed.

Lemma lstrip_no_space s :
  all_chars (fun c => negb (is_space c)) s = true -> lstrip s = s.
Proof.
  destruct s as [|c r]; simpl; auto.
  intros H. apply andb_true_iff in H as [Hc _]. apply negb_true_iff in Hc.
  rewrite Hc. reflexivity.
Qed.

Lemma rstrip_no_space s :
  all_chars (fun c => negb (is_space c)) s = true -> rstrip s = s.
Proof.
  induction s as [|c r IH]; simpl; auto.
  intros H. apply andb_true_iff in H as [Hc Hr]. apply negb_true_iff in Hc.
  rewrite (IH Hr), Hc. destruct r; reflexivity.
Qed.

Lemma strip_no_space s :
  all_chars (fun c => negb (is_space c)) s = true -> strip s = s.
Proof.
  intros H. unfold strip. rewrite (lstrip_no_space _ H). apply rstrip_no_space, H.
Qed.

Lemma log2_fuel n : 0 <= n -> 0 <= n < 2 ^ Z.of_nat (S (Z.to_nat (Z.log2 n))).
Proof.
  intros Hn. split; [exact Hn|].
  rewrite Nat2Z.inj_succ, Z2Nat.id by apply Z.log2_nonneg.
  destruct (Z.eq_dec n 0) as [->|Hnz].
  - reflexivity.
  - apply Z.log2_spec; lia.
Qed.

Lemma str_of_nonneg_digits n : 0 <= n -> all_chars is_digit (str_of_nonneg n) = true.
Proof. intros Hn. apply digits_all_digits; auto. Qed.

Lemma str_of_nonneg_value n : 0 <= n -> digits_value 0 (str_of_nonneg n) = n.
Proof.
  intros Hn. unfold str_of_nonneg. rewrite digits_value_digits by (apply log2_fuel, Hn).
  reflexivity.
Qed.

Lemma int_of_digits s :
  s <> EmptyString -> all_chars is_digit s = true ->
  int_of_str s = Ok (digits_value 0 s).
Proof.
  intros Hne Hall. unfold int_of_str.
  rewrite strip_no_space.
  2:{ eapply all_chars_impl; [|exact Hall].
      intros c Hc; rewrite (digit_not_space _ Hc); reflexivity. }
  destruct s as [|c r]; [congruence|].
  assert (Hc : is_digit c = true).
  { simpl in Hall. apply andb_true_iff in Hall as [H _]. exact H. }
  assert (Hm : Ascii.eqb c "-" = false).
  { destruct (Ascii.eqb c "-") eqn:E; auto. apply Ascii.eqb_eq in E; subst; discriminate. }
  assert (Hp : Ascii.eqb c "+" = false).
  { destruct (Ascii.eqb c "+") eqn:E; auto. apply Ascii.eqb_eq in E; subst; discriminate. }
  rewrite Hm, Hp, parse_digits_value by auto. reflexivity.
Qed.

(** [int(str(z)) == z] *)
Lemma int_of_str_of_int z : int_of_str (str_of_int z) = Ok z.
Proof.
  unfold str_of_int. destruct (z <? 0) eqn:E.
  - apply Z.ltb_lt in E.
    assert (Hn : 0 <= - z) by lia.
    pose proof (str_of_nonneg_digits _ Hn) as Hd.
    unfold int_of_str. rewrite strip_no_space.
    2:{ simpl. eapply all_chars_impl; [|exact Hd].
        intros c Hc; rewrite (digit_not_space _ Hc); reflexivity. }
    rewrite Ascii.eqb_refl.
    rewrite parse_digits_value; [| apply digits_nonempty | exact Hd].
    rewrite str_of_nonneg_value by exact Hn. simpl. f_equal. lia.
  - apply Z.ltb_ge in E.
    rewrite int_of_digits; [| apply digits_nonempty | apply str_of_nonneg_digits, E].
    rewrite str_of_nonneg_value by exact E. reflexivity.
Qed.

Lemma str_of_int_chars z : all_chars is_int_char (str_of_int z) = true.
Proof.
  unfold str_of_int. destruct (z <? 0) eqn:E.
  - apply Z.ltb_lt in E. simpl. eapply all_chars_impl; [|apply str_of_nonneg_digits; lia].
    intros c Hc. unfold is_int_char. rewrite Hc. reflexivity.
  - apply Z.ltb_ge in E. eapply all_chars_impl; [|apply str_of_nonneg_digits; lia].
    intros c Hc. unfold is_int_char. rewrite Hc. reflexivity.
Qed.

Lemma str_of_int_lacks c z : is_int_char c = false -> lacks c (str_of_int z) = true.
Proof.
  intros Hc. unfold lacks. eapply all_chars_impl; [|apply str_of_int_chars].
  intros x Hx. destruct (Ascii.eqb x c) eqn:E; auto.
  apply Ascii.eqb_eq in E; subst. congruence.
Qed.

End StringLemmas.

Section SequenceLemmas.

Lemma getitem_nth {A} (l : list A) (i : nat) (a : A) :
  nth_error l i = Some a -> getitem l (Z.of_nat i) = Ok a.
Proof.
  intros H. unfold getitem.
  assert (Hlt : (i < length l)%nat) by (apply nth_error_Some; congruence).
  destruct (Z.of_nat i <? 0) eqn:E1; [apply Z.ltb_lt in E1; lia|].
  rewrite E1. simpl.
  destruct (Z.of_nat (length l) <=? Z.of_nat i) eqn:E2; [apply Z.leb_le in E2; lia|].
  rewrite Nat2Z.id, H. reflexivity.
Qed.

Lemma getitem_last {A} (l : list A) (a : A) : getitem (l ++ [a])%list (-1) = Ok a.
Proof.
  unfold getitem. rewrite length_app. simpl length.
  replace (-1 <? 0) with true by reflexivity.
  destruct (-1 + Z.of_nat (length l + 1) <? 0) eqn:E1; [apply Z.ltb_lt in E1; lia|].
  destruct (Z.of_nat (length l + 1) <=? -1 + Z.of_nat (length l + 1)) eqn:E2;
    [apply Z.leb_le in E2; lia|].
  cbn [orb]. replace (Z.to_nat (-1 + Z.of_nat (length l + 1))) with (length l) by lia.
  rewrite nth_error_app2 by lia. rewrite Nat.sub_diag. reflexivity.
Qed.

Lemma getitem_0 {A} (a : A) l : getitem (a :: l) 0 = Ok a.
Proof. exact (getitem_nth (a :: l) 0%nat a eq_refl). Qed.

Lemma getitem_1 {A} (a b : A) l : getitem (a :: b :: l) 1 = Ok b.
Proof. exact (getitem_nth (a :: b :: l) 1%nat b eq_refl). Qed.

Lemma getitem_2 {A} (a b c : A) l : getitem (a :: b :: c :: l) 2 = Ok c.
Proof. exact (getitem_nth (a :: b :: c :: l) 2%nat c eq_refl). Qed.

Lemma getitem_3 {A} (a b c d : A) l : getitem (a :: b :: c :: d :: l) 3 = Ok d.
Proof. exact (getitem_nth (a :: b :: c :: d :: l) 3%nat d eq_refl). Qed.

Lemma split_prefix sep x rest :
  lacks sep x = true -> exists pre ps, split sep (x ++ rest) = (x ++ pre) :: ps.
Proof.
  unfold lacks. induction x as [|c r IH]; simpl.
  - intros _. destruct (split_cons sep rest) as [p [ps H]]. eauto.
  - intros H. apply andb_true_iff in H as [Hc Hr]. apply negb_true_iff in Hc.
    rewrite Hc. destruct (IH Hr) as [pre [ps E]]. rewrite E. eauto.
Qed.

End SequenceLemmas.

(* ===================================================================== *)
(** * Salary strings (claim C1) *)
(* ===================================================================== *)

Section Salary.

(** The number in front of the first comma of a piece [<z>,...]. *)
Lemma piece_amount z tail :
  (head <- getitem (split "," (str_of_int z ++ String "," tail)) 0 ;;
   n <- int_of_str head ;; Ok (n * 1000)) = Ok (z * 1000).
Proof.
  rewrite split_app by (apply str_of_int_lacks; reflexivity).
  rewrite getitem_0.
  simpl. rewrite int_of_str_of_int. reflexivity.
Qed.

Lemma append_assoc (a b c : string) : (a ++ b) ++ c = a ++ (b ++ c).
Proof. induction a as [|x a IH]; simpl; [|rewrite IH]; reflexivity. Qed.

Lemma append_piece (a : string) (c : ascii) (m x : string) :
  a ++ String c (m ++ x) = (a ++ String c m) ++ x.
Proof. induction a as [|y a IH]; simpl; [|rewrite IH]; reflexivity. Qed.

(** The amount of a piece is read off its head, whatever follows the
    comma. *)
Lemma piece_amount_prefix z tail pre :
  (head <- getitem (split "," ((str_of_int z ++ String "," tail) ++ pre)) 0 ;;
   n <- int_of_str head ;; Ok (n * 1000)) = Ok (z * 1000).
Proof.
  rewrite append_assoc. apply (piece_amount z (tail ++ pre)).
Qed.

Lemma lacks_piece z m :
  lacks "$" m = true -> lacks "$" (str_of_int z ++ String "," m) = true.
Proof.
  intros H. rewrite lacks_app, str_of_int_lacks by reflexivity. simpl.
  exact H.
Qed.

(** C1 (as amended).  On a salary string [...$<base>,... ] the normalizer
    returns base * 1000 when the word "expense" does not occur; when it
    occurs and the string holds exactly two dollar amounts the result is
    base * 1000 + second * 1000; when it holds three or more the expense
    figure is the third amount, whatever follows it.  Hence the expense
    figure is the last dollar amount for strings with two or three amounts.
    The two strings of the specification give 450000 and 400000. *)
Theorem extract_salary_amounts :
  forall (p m1 m2 : string) (base second third : Z),
    lacks "$" p = true -> lacks "$" m1 = true -> lacks "$" m2 = true ->
    (forall rest,
        let s := p ++ "$" ++ str_of_int base ++ "," ++ rest in
        contains "expense" s = false ->
        _extract_salary (PyStr s) = Ok (PyInt (base * 1000)))
    /\ (let s := p ++ "$" ++ str_of_int base ++ "," ++ m1
                   ++ "$" ++ str_of_int second ++ "," ++ m2 in
        contains "expense" s = true ->
        _extract_salary (PyStr s) = Ok (PyInt (base * 1000 + second * 1000)))
    /\ (forall rest,
        let s := p ++ "$" ++ str_of_int base ++ "," ++ m1
                   ++ "$" ++ str_of_int second ++ "," ++ m2
                   ++ "$" ++ str_of_int third ++ "," ++ rest in
        contains "expense" s = true ->
        _extract_salary (PyStr s) = Ok (PyInt (base * 1000 + third * 1000)))
    /\ _extract_salary
         (PyStr "The salary of $400,000 per year, plus a $50,000 expense account")
       = Ok (PyInt 450000)
    /\ _extract_salary (PyStr "The salary of $400,000 per year") = Ok (PyInt 400000).
Proof.
  intros p m1 m2 base second third Hp Hm1 Hm2.
  split; [|split; [|split; [|split]]].
  - intros rest s Hexp. unfold _extract_salary. rewrite Hexp.
    unfold dollar_amount, s. cbn [append].
    rewrite split_app by exact Hp.
    destruct (split_prefix "$" (str_of_int base ++ String "," EmptyString) rest)
      as [pre [ps E]]; [apply lacks_piece; reflexivity|].
    rewrite append_assoc in E. cbn [append] in E. rewrite E.
    rewrite getitem_1. cbn [rbind].
    rewrite (piece_amount_prefix base EmptyString pre). cbn [rbind].
    f_equal. f_equal. lia.
  - intros s Hexp. unfold _extract_salary. rewrite Hexp.
    assert (Hs : split "$" s =
                 [p; str_of_int base ++ String "," m1; str_of_int second ++ String "," m2]).
    { unfold s. cbn [append]. rewrite split_app by exact Hp.
      rewrite append_piece, split_app by (apply lacks_piece; exact Hm1).
      rewrite split_lacks by (apply lacks_piece; exact Hm2). reflexivity. }
    unfold dollar_amount. rewrite Hs. cbn [length Z.of_nat].
    rewrite getitem_1, getitem_2.
    cbn [rbind]. rewrite !piece_amount. reflexivity.
  - intros rest s Hexp. unfold _extract_salary. rewrite Hexp.
    destruct (split_prefix "$" (str_of_int third ++ String "," EmptyString) rest)
      as [pre [ps E]]; [apply lacks_piece; reflexivity|].
    rewrite append_assoc in E. cbn [append] in E.
    assert (Hs : split "$" s =
                 p :: (str_of_int base ++ String "," m1)
                   :: (str_of_int second ++ String "," m2)
                   :: ((str_of_int third ++ String "," EmptyString) ++ pre) :: ps).
    { unfold s. cbn [append]. rewrite split_app by exact Hp.
      rewrite append_piece, split_app by (apply lacks_piece; exact Hm1).
      rewrite append_piece, split_app by (apply lacks_piece; exact Hm2).
      rewrite E. reflexivity. }
    unfold dollar_amount. rewrite Hs.
    replace (3 <? Z.of_nat (length (p :: (str_of_int base ++ String "," m1)
                   :: (str_of_int second ++ String "," m2)
                   :: ((str_of_int third ++ String "," EmptyString) ++ pre) :: ps)))
      with true by (symmetry; apply Z.ltb_lt; simpl length; lia).
    rewrite getitem_1, getitem_3.
    cbn [rbind]. rewrite piece_amount.
    rewrite (piece_amount_prefix third EmptyString pre). reflexivity.
  - vm_compute. reflexivity.
  - vm_compute. reflexivity.
Qed.

End Salary.

Section SalaryExamples.

(** C1, witness: the first string of the specification, built from its
    parts. *)
Lemma extract_salary_amounts_witness :
  _extract_salary
    (PyStr ("The salary of " ++ "$" ++ str_of_int 400 ++ "," ++ "000 per year, plus a "
              ++ "$" ++ str_of_int 50 ++ "," ++ "000 expense account"))
  = Ok (PyInt (400 * 1000 + 50 * 1000)).
Proof.
  exact (proj1 (proj2 (extract_salary_amounts
                         "The salary of " "000 per year, plus a " "000 expense account"
                         400 50 0 eq_refl eq_refl eq_refl)) eq_refl).
Defined.

(** C1, counterexample: with five dollar amounts the code adds the third
    one, 50,000, where the claim takes the last one, 40,000. *)
Lemma extract_salary_not_last_amount :
  _extract_salary (PyStr salary_with_five_amounts) = Ok (PyInt 150000)
  /\ salary_by_last_amount salary_with_five_amounts = Ok (PyInt 140000)
  /\ _extract_salary (PyStr salary_with_five_amounts)
     <> salary_by_last_amount salary_with_five_amounts.
Proof.
  assert (H1 : _extract_salary (PyStr salary_with_five_amounts) = Ok (PyInt 150000))
    by (vm_compute; reflexivity).
  assert (H2 : salary_by_last_amount salary_with_five_amounts = Ok (PyInt 140000))
    by (vm_compute; reflexivity).
  split; [exact H1|]. split; [exact H2|].
  rewrite H1, H2. discriminate.
Qed.

End SalaryExamples.

(* ===================================================================== *)
(** * Vote counts (claim C2) *)
(* ===================================================================== *)

Section Votes.

Lemma comma_foreign : foreign ",".
Proof. repeat split; try reflexivity; discriminate. Qed.

Lemma lacks_cons c x r :
  lacks c (String x r) = negb (Ascii.eqb x c) && lacks c r.
Proof. reflexivity. Qed.

Lemma parse_digits_foreign c :
  is_digit c = false -> c <> "_"%char ->
  forall n s acc, (String.length s <= n)%nat -> lacks c s = false -> parse_digits acc s = None.
Proof.
  intros Hd Hu. induction n as [|n IH]; intros s acc Hlen Hs.
  - destruct s; [discriminate | simpl in Hlen; lia].
  - destruct s as [|x r]; [discriminate|].
    simpl in Hlen. rewrite lacks_cons in Hs.
    simpl. destruct (is_digit x) eqn:Ex; [|reflexivity].
    assert (Hxc : Ascii.eqb x c = false).
    { destruct (Ascii.eqb x c) eqn:E; auto. apply Ascii.eqb_eq in E; congruence. }
    rewrite Hxc in Hs. simpl in Hs.
    destruct r as [|y r']; [discriminate|].
    destruct (Ascii.eqb y "_") eqn:Ey.
    + apply Ascii.eqb_eq in Ey; subst y.
      rewrite lacks_cons in Hs.
      assert (Huc : Ascii.eqb "_" c = false).
      { destruct (Ascii.eqb "_" c) eqn:E; auto. apply Ascii.eqb_eq in E; congruence. }
      rewrite Huc in Hs. simpl in Hs.
      apply IH; [simpl in Hlen; lia | exact Hs].
    + apply IH; [lia | exact Hs].
Qed.

Lemma lstrip_lacks c s : is_space c = false -> lacks c (lstrip s) = lacks c s.
Proof.
  intros Hc. induction s as [|x r IH]; [reflexivity|].
  simpl lstrip. destruct (is_space x) eqn:Ex; [|reflexivity].
  rewrite IH, lacks_cons.
  assert (Hxc : Ascii.eqb x c = false).
  { destruct (Ascii.eqb x c) eqn:E; auto. apply Ascii.eqb_eq in E; congruence. }
  rewrite Hxc. reflexivity.
Qed.

Lemma rstrip_lacks c s : is_space c = false -> lacks c (rstrip s) = lacks c s.
Proof.
  intros Hc. induction s as [|x r IH]; [reflexivity|].
  simpl rstrip. rewrite lacks_cons, <- IH.
  destruct (rstrip r) as [|y r'] eqn:Er.
  - destruct (is_space x) eqn:Ex.
    + assert (Hxc : Ascii.eqb x c = false).
      { destruct (Ascii.eqb x c) eqn:E; auto. apply Ascii.eqb_eq in E; congruence. }
      rewrite Hxc. reflexivity.
    + reflexivity.
  - reflexivity.
Qed.

(** [int] rejects a string in which a foreign character occurs. *)
Lemma int_of_str_foreign c s :
  foreign c -> lacks c s = false -> int_of_str s = Raise ValueError.
Proof.
  intros (Hd & Hsp & Hu & Hm & Hp) Hs. unfold int_of_str.
  assert (Ht : lacks c (strip s) = false).
  { unfold strip. rewrite rstrip_lacks, lstrip_lacks by exact Hsp. exact Hs. }
  destruct (strip s) as [|x r]; [reflexivity|].
  destruct (Ascii.eqb x "-") eqn:E1.
  - apply Ascii.eqb_eq in E1; subst x. rewrite lacks_cons in Ht.
    assert (Hxc : Ascii.eqb "-" c = false).
    { destruct (Ascii.eqb "-" c) eqn:E; auto. apply Ascii.eqb_eq in E; congruence. }
    rewrite Hxc in Ht. simpl in Ht.
    rewrite (parse_digits_foreign c Hd Hu _ r 0 (le_n _) Ht). reflexivity.
  - destruct (Ascii.eqb x "+") eqn:E2.
    + apply Ascii.eqb_eq in E2; subst x. rewrite lacks_cons in Ht.
      assert (Hxc : Ascii.eqb "+" c = false).
      { destruct (Ascii.eqb "+" c) eqn:E; auto. apply Ascii.eqb_eq in E; congruence. }
      rewrite Hxc in Ht. simpl in Ht.
      rewrite (parse_digits_foreign c Hd Hu _ r 0 (le_n _) Ht). reflexivity.
    + rewrite (parse_digits_foreign c Hd Hu _ (String x r) 0 (le_n _) Ht). reflexivity.
Qed.

Lemma prefix_empty s : String.prefix EmptyString s = true.
Proof. destruct s; reflexivity. Qed.

(** ['c' in s] *)
Lemma contains_char c s : contains (String c EmptyString) s = negb (lacks c s).
Proof.
  induction s as [|x r IH]; [reflexivity|].
  rewrite lacks_cons. cbn [contains]. rewrite IH. cbn [String.prefix].
  destruct (ascii_dec c x) as [->|Hne].
  - rewrite prefix_empty, Ascii.eqb_refl. reflexivity.
  - assert (Hxc : Ascii.eqb x c = false).
    { destruct (Ascii.eqb x c) eqn:E; auto. apply Ascii.eqb_eq in E; congruence. }
    rewrite Hxc. reflexivity.
Qed.

Lemma lacks_sep_app c a b : lacks c (a ++ String c b) = false.
Proof.
  rewrite lacks_app, lacks_cons, Ascii.eqb_refl. simpl. apply andb_false_r.
Qed.

Lemma missing_token_lacks c s :
  is_missing_token s = true -> lacks c "None" = true -> lacks c "nan" = true ->
  lacks c s = true.
Proof.
  unfold is_missing_token. intros H H1 H2.
  apply orb_true_iff in H as [H|H]; [apply orb_true_iff in H as [H|H]|];
    apply String.eqb_eq in H; subst; auto.
Qed.

Lemma not_missing_token a b : is_missing_token (a ++ String "," b) = false.
Proof.
  destruct (is_missing_token (a ++ String "," b)) eqn:E; auto.
  apply (missing_token_lacks ",") in E; try reflexivity.
  rewrite lacks_sep_app in E. discriminate.
Qed.

Lemma int_lacks_comma z : lacks "," (str_of_int z) = true.
Proof. apply str_of_int_lacks; reflexivity. Qed.

Lemma int_lacks_dot z : lacks "." (str_of_int z) = true.
Proof. apply str_of_int_lacks; reflexivity. Qed.

Lemma getitem_m1_2 {A} (a b : A) : getitem [a; b] (-1) = Ok b.
Proof. reflexivity. Qed.
Lemma getitem_m2_2 {A} (a b : A) : getitem [a; b] (-2) = Ok a.
Proof. reflexivity. Qed.
Lemma getitem_m1_3 {A} (a b c : A) : getitem [a; b; c] (-1) = Ok c.
Proof. reflexivity. Qed.
Lemma getitem_m2_3 {A} (a b c : A) : getitem [a; b; c] (-2) = Ok b.
Proof. reflexivity. Qed.
Lemma getitem_m3_3 {A} (a b c : A) : getitem [a; b; c] (-3) = Ok a.
Proof. reflexivity. Qed.

Lemma dot_foreign : foreign ".".
Proof. repeat split; try reflexivity; discriminate. Qed.

(** What [int] accepts holds no foreign character. *)
Lemma int_accepts_lacks c s z : foreign c -> int_of_str s = Ok z -> lacks c s = true.
Proof.
  intros Hc Hs. destruct (lacks c s) eqn:E; auto.
  rewrite (int_of_str_foreign c s Hc E) in Hs. discriminate.
Qed.

(** Three groups that [int] reads. *)
Lemma extract_votes_three a b c m t u :
  int_of_str a = Ok m -> int_of_str b = Ok t -> int_of_str c = Ok u ->
  _extract_votes (PyStr (a ++ "," ++ b ++ "," ++ c))
  = Ok (PyInt (m * 1000000 + t * 1000 + u)).
Proof.
  intros Ha Hb Hc.
  pose proof (int_accepts_lacks _ _ _ comma_foreign Ha) as Hac.
  pose proof (int_accepts_lacks _ _ _ comma_foreign Hb) as Hbc.
  pose proof (int_accepts_lacks _ _ _ comma_foreign Hc) as Hcc.
  pose proof (int_accepts_lacks _ _ _ dot_foreign Ha) as Had.
  pose proof (int_accepts_lacks _ _ _ dot_foreign Hb) as Hbd.
  pose proof (int_accepts_lacks _ _ _ dot_foreign Hc) as Hcd.
  unfold _extract_votes. cbn [append].
  rewrite (int_of_str_foreign "," _ comma_foreign (lacks_sep_app _ _ _)).
  cbn [rbind rcatch exn_eqb]. rewrite not_missing_token.
  replace (contains "." (a ++ String "," (b ++ String "," c))) with false.
  2:{ symmetry. rewrite contains_char, lacks_app, lacks_cons, lacks_app, lacks_cons.
      rewrite Had, Hbd, Hcd. reflexivity. }
  cbn [andb].
  rewrite split_app by exact Hac.
  rewrite split_app by exact Hbc.
  rewrite split_lacks by exact Hcc.
  rewrite getitem_m1_3, getitem_m2_3, getitem_m3_3. cbn [rbind].
  rewrite Ha, Hb, Hc. reflexivity.
Qed.

(** Two groups that [int] reads. *)
Lemma extract_votes_two b c t u :
  int_of_str b = Ok t -> int_of_str c = Ok u ->
  _extract_votes (PyStr (b ++ "," ++ c)) = Ok (PyInt (0 * 1000000 + t * 1000 + u)).
Proof.
  intros Hb Hc.
  pose proof (int_accepts_lacks _ _ _ comma_foreign Hb) as Hbc.
  pose proof (int_accepts_lacks _ _ _ comma_foreign Hc) as Hcc.
  pose proof (int_accepts_lacks _ _ _ dot_foreign Hb) as Hbd.
  pose proof (int_accepts_lacks _ _ _ dot_foreign Hc) as Hcd.
  unfold _extract_votes. cbn [append].
  rewrite (int_of_str_foreign "," _ comma_foreign (lacks_sep_app _ _ _)).
  cbn [rbind rcatch exn_eqb]. rewrite not_missing_token.
  replace (contains "." (b ++ String "," c)) with false.
  2:{ symmetry. rewrite contains_char, lacks_app, lacks_cons.
      rewrite Hbd, Hcd. reflexivity. }
  cbn [andb].
  rewrite split_app by exact Hbc.
  rewrite split_lacks by exact Hcc.
  rewrite getitem_m1_2, getitem_m2_2. cbn [rbind].
  rewrite Hb, Hc. reflexivity.
Qed.

(** Three groups that [int] reads, the last one set off by a dot. *)
Lemma extract_votes_dotted a b c m t u :
  int_of_str a = Ok m -> int_of_str b = Ok t -> int_of_str c = Ok u ->
  _extract_votes (PyStr (a ++ "," ++ b ++ "." ++ c))
  = Ok (PyInt (m * 1000000 + t * 1000 + u)).
Proof.
  intros Ha Hb Hc.
  pose proof (int_accepts_lacks _ _ _ comma_foreign Ha) as Hac.
  pose proof (int_accepts_lacks _ _ _ comma_foreign Hb) as Hbc.
  pose proof (int_accepts_lacks _ _ _ comma_foreign Hc) as Hcc.
  pose proof (int_accepts_lacks _ _ _ dot_foreign Ha) as Had.
  pose proof (int_accepts_lacks _ _ _ dot_foreign Hb) as Hbd.
  pose proof (int_accepts_lacks _ _ _ dot_foreign Hc) as Hcd.
  unfold _extract_votes. cbn [append].
  rewrite (int_of_str_foreign "," _ comma_foreign (lacks_sep_app _ _ _)).
  cbn [rbind rcatch exn_eqb]. rewrite not_missing_token.
  replace (contains "." (a ++ String "," (b ++ String "." c))) with true.
  2:{ symmetry. rewrite contains_char, lacks_app, lacks_cons, lacks_sep_app.
      rewrite !andb_false_r. reflexivity. }
  replace (contains "," (a ++ String "," (b ++ String "." c))) with true.
  2:{ symmetry. rewrite contains_char, lacks_sep_app. reflexivity. }
  cbn [andb].
  rewrite (append_piece a "," b).
  rewrite (split_app "." (a ++ String "," b)).
  2:{ rewrite lacks_app, lacks_cons, Had, Hbd. reflexivity. }
  rewrite (split_lacks "." c) by exact Hcd.
  rewrite getitem_m1_2, getitem_m2_2. cbn [rbind].
  rewrite <- (append_piece a "," b).
  rewrite (split_app "," a) by exact Hac.
  rewrite (split_lacks "," b) by exact Hbc.
  rewrite (split_app "," a) by exact Hac.
  rewrite (split_lacks "," (b ++ String "." c)).
  2:{ rewrite lacks_app, lacks_cons, Hbc, Hcc. reflexivity. }
  rewrite getitem_m1_2, getitem_m2_2. cbn [rbind].
  rewrite Ha, Hb, Hc. reflexivity.
Qed.

Lemma digits_value_app acc s t :
  digits_value acc (s ++ t) = digits_value (digits_value acc s) t.
Proof.
  revert acc; induction s as [|x r IH]; intros acc; [reflexivity|].
  simpl. apply IH.
Qed.

Lemma digit_string_int s :
  digit_string s = true -> int_of_str s = Ok (digits_value 0 s).
Proof.
  unfold digit_string. intros H. apply andb_true_iff in H as [Hne Hall].
  apply int_of_digits; [|exact Hall].
  intros ->. discriminate.
Qed.

Lemma digit_group_int s :
  digit_group s = true -> int_of_str s = Ok (digits_value 0 s).
Proof.
  unfold digit_group. intros H. apply andb_true_iff in H as [Hall Hlen].
  apply int_of_digits; [|exact Hall].
  intros ->. discriminate.
Qed.

(** A group of three digits behind a numeral counts its thousands. *)
Lemma digits_value_group acc s :
  digit_group s = true -> digits_value acc s = acc * 1000 + digits_value 0 s.
Proof.
  unfold digit_group. intros H. apply andb_true_iff in H as [_ Hlen].
  apply Nat.eqb_eq in Hlen.
  destruct s as [|x [|y [|z [|w r]]]]; try discriminate.
  cbn [digits_value]. lia.
Qed.

(** C2 (as amended).  The vote normalizer returns the integer whenever
    [int] accepts the cell ("42" gives 42).  It reads a cell of two or
    three groups between commas as groups of thousands: groups that [int]
    reads as m, t and u give m * 1000000 + t * 1000 + u, so that a numeral
    written with groups of three digits gives the number it denotes
    ("1,234,567" gives 1234567, "1,000,000" gives 1000000).  When a dot
    and a comma are both present in the arrangement "m,t.u" it reads the
    dot as a further group divider ("1,234.567" gives 1234567).  It maps
    "None", "nan" and the empty cell to NaN, which is not 0. *)
Theorem extract_votes_cases :
  (forall s z, int_of_str s = Ok z -> _extract_votes (PyStr s) = Ok (PyInt z))
  /\ (forall z, _extract_votes (PyStr (str_of_int z)) = Ok (PyInt z))
  /\ _extract_votes (PyStr "42") = Ok (PyInt 42)
  /\ (forall a b c m t u,
         int_of_str a = Ok m -> int_of_str b = Ok t -> int_of_str c = Ok u ->
         _extract_votes (PyStr (a ++ "," ++ b ++ "," ++ c))
         = Ok (PyInt (m * 1000000 + t * 1000 + u)))
  /\ (forall b c t u,
         int_of_str b = Ok t -> int_of_str c = Ok u ->
         _extract_votes (PyStr (b ++ "," ++ c))
         = Ok (PyInt (0 * 1000000 + t * 1000 + u)))
  /\ (forall a b c,
         digit_string a = true -> digit_group b = true -> digit_group c = true ->
         _extract_votes (PyStr (a ++ "," ++ b ++ "," ++ c))
         = Ok (PyInt (digits_value 0 (a ++ b ++ c))))
  /\ (forall a b,
         digit_string a = true -> digit_group b = true ->
         _extract_votes (PyStr (a ++ "," ++ b)) = Ok (PyInt (digits_value 0 (a ++ b))))
  /\ _extract_votes (PyStr "1,234,567") = Ok (PyInt 1234567)
  /\ (forall a b c m t u,
         int_of_str a = Ok m -> int_of_str b = Ok t -> int_of_str c = Ok u ->
         _extract_votes (PyStr (a ++ "," ++ b ++ "." ++ c))
         = Ok (PyInt (m * 1000000 + t * 1000 + u)))
  /\ (forall a b c,
         digit_string a = true -> digit_group b = true -> digit_group c = true ->
         _extract_votes (PyStr (a ++ "," ++ b ++ "." ++ c))
         = Ok (PyInt (digits_value 0 (a ++ b ++ c))))
  /\ _extract_votes (PyStr "1,234.567") = Ok (PyInt 1234567)
  /\ (forall s, is_missing_token s = true ->
                _extract_votes (PyStr s) = Ok PyNaN /\ Ok PyNaN <> Ok (PyInt 0))
  /\ is_missing_token "None" = true
  /\ is_missing_token "nan" = true
  /\ is_missing_token "" = true.
Proof.
  assert (Hint : forall s z, int_of_str s = Ok z -> _extract_votes (PyStr s) = Ok (PyInt z)).
  { intros s z H. unfold _extract_votes. rewrite H. reflexivity. }
  assert (Hnumeral : forall a b c,
             digit_group b = true -> digit_group c = true ->
             digits_value 0 (a ++ b ++ c)
             = digits_value 0 a * 1000000 + digits_value 0 b * 1000 + digits_value 0 c).
  { intros a b c Hb Hc. rewrite !digits_value_app.
    rewrite (digits_value_group _ c Hc), (digits_value_group _ b Hb). lia. }
  repeat split; try reflexivity; try discriminate.
  - exact Hint.
  - intros z. apply Hint, int_of_str_of_int.
  - intros a b c m t u. apply extract_votes_three.
  - intros b c t u. apply extract_votes_two.
  - intros a b c Ha Hb Hc. rewrite (Hnumeral a b c Hb Hc).
    apply extract_votes_three;
      [apply digit_string_int, Ha | apply digit_group_int, Hb | apply digit_group_int, Hc].
  - intros a b Ha Hb. rewrite digits_value_app, (digits_value_group _ b Hb).
    rewrite (extract_votes_two a b _ _ (digit_string_int a Ha) (digit_group_int b Hb)).
    do 2 f_equal; lia.
  - intros a b c m t u. apply extract_votes_dotted.
  - intros a b c Ha Hb Hc. rewrite (Hnumeral a b c Hb Hc).
    apply extract_votes_dotted;
      [apply digit_string_int, Ha | apply digit_group_int, Hb | apply digit_group_int, Hc].
  - unfold _extract_votes.
    replace (int_of_str s) with (@Raise Z ValueError).
    + cbn [rbind rcatch exn_eqb]. rewrite H. reflexivity.
    + unfold is_missing_token in H.
      apply orb_true_iff in H as [H|H]; [apply orb_true_iff in H as [H|H]|];
        apply String.eqb_eq in H; subst; reflexivity.
Qed.

End Votes.

Section VotesExamples.

(** C2, witness: a cell that [int] accepts, grouped numerals with groups
    that start with zeros, and a missing cell. *)
Lemma extract_votes_cases_witness :
  _extract_votes (PyStr " 42 ") = Ok (PyInt 42)
  /\ _extract_votes (PyStr "1,000,000") = Ok (PyInt 1000000)
  /\ _extract_votes (PyStr "4,034,142") = Ok (PyInt 4034142)
  /\ _extract_votes (PyStr "65,915") = Ok (PyInt 65915)
  /\ _extract_votes (PyStr "65,915.795") = Ok (PyInt 65915795)
  /\ _extract_votes (PyStr "nan") = Ok PyNaN.
Proof.
  destruct extract_votes_cases
    as (Hint & _ & _ & Hthree & _ & Hgroups & Hpair & _ & _ & Hdotted & _ & Hmissing & _).
  split; [|split; [|split; [|split; [|split]]]].
  - exact (Hint " 42 " 42 eq_refl).
  - exact (Hthree "1" "000" "000" 1 0 0 eq_refl eq_refl eq_refl).
  - exact (Hgroups "4" "034" "142" eq_refl eq_refl eq_refl).
  - exact (Hpair "65" "915" eq_refl eq_refl).
  - exact (Hdotted "65" "915" "795" eq_refl eq_refl eq_refl).
  - exact (proj1 (Hmissing "nan" eq_refl)).
Defined.

(** C2, counterexample: on "1.234,567" the units are taken after the dot,
    "234,567", which [int] rejects: the code raises [ValueError] where the
    claim gives 1234567. *)
Lemma extract_votes_dot_before_comma :
  _extract_votes (PyStr "1.234,567") = Raise ValueError
  /\ _extract_votes (PyStr "1.234,567") <> Ok (PyInt 1234567).
Proof.
  assert (H : _extract_votes (PyStr "1.234,567") = Raise ValueError)
    by (vm_compute; reflexivity).
  split; [exact H|]. rewrite H. discriminate.
Qed.

End VotesExamples.

(* ===================================================================== *)
(** * Identifier reconciliation (claim C3) *)
(* ===================================================================== *)

Section Reconciliation.

Lemma getitem_last_ok {A} (l : list A) : l <> [] -> exists a, getitem l (-1) = Ok a.
Proof.
  intros H. destruct (exists_last H) as [l' [a ->]].
  exists a. apply getitem_last.
Qed.

Lemma surname_ok name : exists s, surname name = Ok s.
Proof.
  unfold surname. apply getitem_last_ok.
  destruct (split_cons " " name) as [p [ps E]]. rewrite E. discriminate.
Qed.

Lemma surnames_match_spec pair :
  exists b, PotusScraper.surnames_match pair = Ok b
            /\ (b = true <-> surname (fst pair) = surname (snd pair)).
Proof.
  unfold PotusScraper.surnames_match.
  destruct (surname_ok (fst pair)) as [x Hx], (surname_ok (snd pair)) as [y Hy].
  rewrite Hx, Hy. simpl. eexists; split; [reflexivity|].
  rewrite String.eqb_eq. split; [congruence | intros H; inversion H; reflexivity].
Qed.

Lemma assert_surnames_ok pairs self :
  Forall (fun pair => surname (fst pair) = surname (snd pair)) pairs ->
  assert_surnames pairs self = (Ok tt, self).
Proof.
  induction 1 as [|pair pairs Hp _ IH]; [reflexivity|].
  unfold assert_surnames in *. cbn [forM_]. unfold mbind at 1. unfold mbind at 1.
  unfold lift at 1.
  destruct (surnames_match_spec pair) as [b [Hb Hiff]]. rewrite Hb.
  apply Hiff in Hp. subst b. unfold assert_, lift. exact IH.
Qed.

Lemma assert_surnames_raise pairs self :
  Exists (fun pair => surname (fst pair) <> surname (snd pair)) pairs ->
  assert_surnames pairs self = (Raise AssertionError, self).
Proof.
  induction pairs as [|pair pairs IH]; intros H; [inversion H|].
  unfold assert_surnames in *. cbn [forM_]. unfold mbind at 1. unfold mbind at 1.
  unfold lift at 1.
  destruct (surnames_match_spec pair) as [b [Hb Hiff]]. rewrite Hb.
  destruct b.
  - unfold assert_, lift. apply IH.
    inversion H; subst; [|assumption].
    exfalso. apply H1, Hiff. reflexivity.
  - reflexivity.
Qed.

Lemma surnames_decide pairs :
  Forall (fun pair => surname (fst pair) = surname (snd pair)) pairs
  \/ Exists (fun pair => surname (fst pair) <> surname (snd pair)) pairs.
Proof.
  induction pairs as [|pair pairs [IH|IH]].
  - left; constructor.
  - destruct (surnames_match_spec pair) as [[|] [_ Hiff]].
    + left; constructor; [apply Hiff; reflexivity | exact IH].
    + right; constructor. intros E. apply Hiff in E. discriminate.
  - right; apply Exists_cons_tl, IH.
Qed.

Lemma dupdate_fresh {V} (items d : odict V) :
  NoDup (keys (d ++ items)%list) -> dupdate d items = (d ++ items)%list.
Proof.
  revert d; induction items as [|[k v] items IH]; intros d Hnd.
  - simpl. rewrite app_nil_r. reflexivity.
  - unfold dupdate in *. cbn [fold_left fst snd].
    assert (Hk : dget k d = None).
    { apply dget_none_iff. intros Hin. unfold keys in Hnd.
      rewrite map_app in Hnd. simpl in Hnd.
      apply NoDup_remove_2 in Hnd. apply Hnd, in_or_app. left; exact Hin. }
    rewrite (keys_dset_new _ _ _ Hk), IH.
    + rewrite <- app_assoc. reflexivity.
    + rewrite <- app_assoc. exact Hnd.
Qed.

Lemma dict_of_well_formed {V} (items : odict V) :
  well_formed items -> dict_of items = items.
Proof. intros H. unfold dict_of. rewrite dupdate_fresh; auto. Qed.

Lemma keys_zip_NoDup {V} (ks : list string) (vs : list V) :
  NoDup ks -> NoDup (keys (zip ks vs)).
Proof.
  revert vs; induction ks as [|k ks IH]; intros vs Hnd; [constructor|].
  destruct vs as [|v vs]; [constructor|].
  inversion Hnd; subst. simpl. constructor; [|apply IH; assumption].
  intros Hin. apply H1. unfold keys, zip in Hin.
  apply in_map_iff in Hin as [[k' v'] [Hk Hin]]. simpl in Hk; subst.
  apply in_combine_l in Hin. exact Hin.
Qed.

Lemma zip_nth {A B} (l : list A) (l' : list B) i a b :
  nth_error l i = Some a -> nth_error l' i = Some b -> nth_error (zip l l') i = Some (a, b).
Proof.
  revert l l'; induction i as [|i IH]; intros [|x l] [|y l']; simpl; try discriminate.
  - intros H1 H2; inversion H1; inversion H2; reflexivity.
  - apply IH.
Qed.

(** C3.  When [correct_subdirectories] accepts two listings, the renamed
    listing pairs the identifiers of Source A, in order, with the
    subdirectories of Source B, and every raw identifier of Source B has
    the surname token (the last word) of the Source-A identifier in the
    same position, the one it is renamed to.  When some pair in the same
    position differs in its surname token, the call raises the assertion
    error (the specification's ReconciliationError) and leaves the scraper
    as it was. *)
Theorem correct_subdirectories_surnames :
  forall (miller_scrape : MillerScraper.t) (self : PotusScraper.t)
         (reference raw : odict string),
    MillerScraper.subdirectories miller_scrape = Some reference ->
    PotusScraper.subdirectories self = Some raw ->
    well_formed reference ->
    (forall self',
        PotusScraper.correct_subdirectories miller_scrape self = (Ok tt, self') ->
        PotusScraper.subdirectories self' = Some (zip (keys reference) (values raw))
        /\ forall i a b,
            nth_error (keys reference) i = Some a ->
            nth_error (keys raw) i = Some b ->
            surname b = surname a)
    /\ ((exists i a b,
            nth_error (keys reference) i = Some a
            /\ nth_error (keys raw) i = Some b
            /\ surname b <> surname a) ->
        PotusScraper.correct_subdirectories miller_scrape self
        = (Raise AssertionError, self)).
Proof.
  intros miller_scrape self reference raw Hm Hp Hwf.
  assert (Hrun : PotusScraper.correct_subdirectories miller_scrape self
                 = match assert_surnames (zip (keys reference) (keys raw)) self with
                   | (Ok _, s) =>
                       (Ok tt, PotusScraper.set_subdirectories
                                 (dict_of (zip (keys reference) (values raw))) self)
                   | (Raise e, s) => (Raise e, s)
                   end).
  { unfold PotusScraper.correct_subdirectories, mbind, mget, lift, mput.
    rewrite Hm, Hp. cbn [deref rbind]. unfold assert_surnames, mbind, lift.
    destruct (forM_ _ _ self) as [[u|e] s] eqn:E.
    - destruct (surnames_decide (zip (keys reference) (keys raw))) as [Hall|Hex].
      + pose proof (assert_surnames_ok _ self Hall) as Hok.
        unfold assert_surnames, mbind, lift in Hok. rewrite Hok in E.
        inversion E; subst. reflexivity.
      + pose proof (assert_surnames_raise _ self Hex) as Hr.
        unfold assert_surnames, mbind, lift in Hr. rewrite Hr in E. discriminate.
    - reflexivity. }
  split.
  - intros self' Hok. rewrite Hrun in Hok.
    destruct (surnames_decide (zip (keys reference) (keys raw))) as [Hall|Hex].
    + rewrite (assert_surnames_ok _ self Hall) in Hok. inversion Hok; subst self'.
      split.
      * simpl. rewrite dict_of_well_formed; [reflexivity|].
        apply keys_zip_NoDup, Hwf.
      * intros i a b Ha Hb. rewrite Forall_forall in Hall.
        symmetry. apply (Hall (a, b)).
        eapply nth_error_In, zip_nth; eassumption.
    + rewrite (assert_surnames_raise _ self Hex) in Hok. discriminate.
  - intros (i & a & b & Ha & Hb & Hne). rewrite Hrun.
    rewrite assert_surnames_raise; [reflexivity|].
    apply Exists_exists. exists (a, b). split.
    + eapply nth_error_In, zip_nth; eassumption.
    + simpl. congruence.
Qed.

End Reconciliation.

Section ReconciliationExamples.

(** C3, witness: two listings in step are accepted and Source B's
    subdirectories come out under Source A's identifiers. *)
Lemma correct_subdirectories_surnames_witness :
  PotusScraper.subdirectories
    (snd (PotusScraper.correct_subdirectories miller_listed potus_listed))
  = Some [("George Washington", "george-washington/"); ("John Adams", "john-adams/")]
  /\ surname "J. Adams" = surname "John Adams".
Proof.
  assert (Hwf : well_formed miller_listing).
  { unfold well_formed. simpl.
    constructor; [simpl; intros [H|H]; [discriminate | exact H] |].
    constructor; [simpl; intros H; exact H | constructor]. }
  destruct (correct_subdirectories_surnames miller_listed potus_listed
              miller_listing potus_listing eq_refl eq_refl Hwf) as [Haccept _].
  destruct (Haccept _ eq_refl) as [Hsub Hsur].
  split.
  - exact Hsub.
  - exact (Hsur 1%nat "John Adams" "J. Adams" eq_refl eq_refl).
Defined.

End ReconciliationExamples.

(* ===================================================================== *)
(** * The two-term correction (claim C4) *)
(* ===================================================================== *)

Section TwoTerms.

Lemma mbind_run {S A B} (m : M S A) (k : A -> M S B) s a s' :
  m s = (Ok a, s') -> mbind m k s = k a s'.
Proof. intros H. unfold mbind. rewrite H. reflexivity. Qed.

Lemma mbind_raise {S A B} (m : M S A) (k : A -> M S B) s e s' :
  m s = (Raise e, s') -> mbind m k s = (Raise e, s').
Proof. intros H. unfold mbind. rewrite H. reflexivity. Qed.

Lemma getitem_lt {A} (l : list A) (i : nat) (d : A) :
  (i < length l)%nat -> getitem l (Z.of_nat i) = Ok (nth i l d).
Proof.
  intros H. apply getitem_nth. rewrite (nth_error_nth' l d H). reflexivity.
Qed.




End TwoTerms.

Section TwoTermsCorrection.

Lemma assert_absent_run {S V} (d : odict V) (s : S) :
  dget Grover_Cleveland_2 d = None ->
  assert_ (negb (existsb (String.eqb Grover_Cleveland_2) (keys d))) s = (Ok tt, s).
Proof.
  intros H. unfold assert_, lift. rewrite mem_keys. unfold dmem. rewrite H. reflexivity.
Qed.

Lemma assert_present_run {S V} (d : odict V) (s : S) :
  dget Grover_Cleveland_2 d <> None ->
  assert_ (negb (existsb (String.eqb Grover_Cleveland_2) (keys d))) s
  = (Raise AssertionError, s).
Proof.
  intros H. unfold assert_, lift. rewrite mem_keys. unfold dmem.
  destruct (dget Grover_Cleveland_2 d); [reflexivity | congruence].
Qed.






End TwoTermsCorrection.

Section TwoTermsExamples.




End TwoTermsExamples.

(* ===================================================================== *)
(** * Key-event counts (claim C8) *)
(* ===================================================================== *)

Section KeyEvents.

Variable get_soup : string -> Node.

Lemma filter_disjoint_length {A} (p q : A -> bool) (l : list A) :
  (forall a, p a = true -> q a = false) ->
  (length (filter p l) + length (filter q l))%nat
  = length (filter (fun a => p a || q a) l).
Proof.
  intros Hpq. induction l as [|a l IH]; [reflexivity|].
  simpl. destruct (p a) eqn:Ep.
  - rewrite (Hpq a Ep). simpl. rewrite <- IH. reflexivity.
  - destruct (q a); simpl; rewrite <- IH; lia.
Qed.

Lemma strong_not_b n : is_tag "strong" n = true -> is_tag "b" n = false.
Proof.
  destruct n as [|name cls attrs cs]; cbn [is_tag]; [discriminate|].
  intros H. apply String.eqb_eq in H. subst. reflexivity.
Qed.

(** The count for one page: 0 without an article body, else the number of
    emphasized elements below the body. *)
Lemma key_events_count_spec soup :
  MillerScraper.key_events_count soup
  = Ok (match find "div" (has_class "article-wysiwyg-body") soup with
        | None => 0
        | Some body => Z.of_nat (length (filter emphasized (descendants body)))
        end).
Proof.
  unfold MillerScraper.key_events_count.
  destruct (find "div" (has_class "article-wysiwyg-body") soup) as [body|]; [|reflexivity].
  simpl. unfold find_all, emphasized.
  rewrite <- (filter_disjoint_length _ _ _ strong_not_b). f_equal. f_equal. lia.
Qed.

Lemma count_key_events_fold origin (items : odict string) (acc : odict Z) :
  NoDup (keys acc ++ keys items)%list ->
  fold_left
    (fun acc item =>
       key_events_counts <- acc ;;
       let soup := get_soup (origin ++ snd item ++ "/key-events") in
       key_events_count <- MillerScraper.key_events_count soup ;;
       Ok (dset (fst item) key_events_count key_events_counts))
    items (Ok acc)
  = Ok (acc ++ map (fun item =>
                      (fst item,
                       match find "div" (has_class "article-wysiwyg-body")
                                  (key_events_page get_soup origin (snd item)) with
                       | None => 0
                       | Some body => Z.of_nat (length (filter emphasized (descendants body)))
                       end)) items)%list.
Proof.
  revert acc; induction items as [|[president subdirectory] items IH]; intros acc Hnd.
  - simpl. rewrite app_nil_r. reflexivity.
  - cbn [fold_left fst snd rbind]. rewrite key_events_count_spec. cbn [rbind].
    assert (Hnew : dget president acc = None).
    { apply dget_none_iff. intros Hin. simpl in Hnd.
      apply NoDup_remove_2 in Hnd. apply Hnd, in_or_app. left; exact Hin. }
    rewrite (keys_dset_new _ _ _ Hnew), IH.
    + rewrite <- app_assoc. reflexivity.
    + unfold keys. rewrite map_app, <- app_assoc. exact Hnd.
Qed.

Lemma count_key_events_spec origin (items : odict string) :
  well_formed items ->
  MillerScraper.count_key_events get_soup origin items
  = Ok (map (fun item =>
               (fst item,
                match find "div" (has_class "article-wysiwyg-body")
                           (key_events_page get_soup origin (snd item)) with
                | None => 0
                | Some body => Z.of_nat (length (filter emphasized (descendants body)))
                end)) items).
Proof.
  intros Hwf. exact (count_key_events_fold origin items [] Hwf).
Qed.

(** C8.  [get_key_events_counts] does not raise on a scraper whose
    subdirectories are known: it stores one count per entity, in the order
    of the subdirectories.  The count of an entity whose key-events page
    has no article body is 0; the count of an entity whose page has one is
    the number of [strong] and [b] elements within the body. *)
Theorem key_events_counts_default :
  forall (self : MillerScraper.t) (items : odict string),
    MillerScraper.subdirectories self = Some items ->
    well_formed items ->
    exists counts,
      MillerScraper.get_key_events_counts get_soup self
      = (Ok tt, MillerScraper.set_key_events_counts counts self)
      /\ keys counts = keys items
      /\ forall president subdirectory,
          In (president, subdirectory) items ->
          match find "div" (has_class "article-wysiwyg-body")
                     (key_events_page get_soup (MillerScraper.origin self) subdirectory) with
          | None => dget president counts = Some 0
          | Some body =>
              dget president counts
              = Some (Z.of_nat (length (filter emphasized (descendants body))))
          end.
Proof.
  intros self items Hitems Hwf.
  pose proof (count_key_events_spec (MillerScraper.origin self) items Hwf) as Hfold.
  eexists. split; [|split].
  - unfold MillerScraper.get_key_events_counts.
    erewrite (mbind_run mget) by reflexivity.
    erewrite (mbind_run (lift _)) by (unfold lift; rewrite Hitems; reflexivity).
    erewrite (mbind_run (lift _)).
    2:{ unfold lift. rewrite Hfold. reflexivity. }
    reflexivity.
  - unfold keys. rewrite map_map. reflexivity.
  - intros president subdirectory Hin.
    set (count := fun item : string * string =>
           (fst item,
            match find "div" (has_class "article-wysiwyg-body")
                       (key_events_page get_soup (MillerScraper.origin self) (snd item)) with
            | None => 0
            | Some body => Z.of_nat (length (filter emphasized (descendants body)))
            end)).
    assert (Hd : dget president (map count items) = Some (snd (count (president, subdirectory)))).
    { apply in_dget.
      - unfold well_formed, keys. rewrite map_map. exact Hwf.
      - apply (in_map count) in Hin. exact Hin. }
    unfold count in Hd at 2. simpl in Hd.
    destruct (find "div" _ _); exact Hd.
Qed.

End KeyEvents.

Section KeyEventsExamples.

(** C8, witness: of two entities, the one whose page lacks the article
    body gets 0 and the other the number of its emphasized elements. *)
Lemma key_events_counts_default_witness :
  exists counts,
    MillerScraper.get_key_events_counts sample_soup miller_scraped
    = (Ok tt, MillerScraper.set_key_events_counts counts miller_scraped)
    /\ dget "Grover Cleveland" counts = Some 3
    /\ dget "Benjamin Harrison" counts = Some 0.
Proof.
  destruct (key_events_counts_default sample_soup miller_scraped _ eq_refl)
    as (counts & Hrun & _ & Hcount).
  - unfold well_formed. simpl.
    repeat (constructor; [simpl; intuition discriminate|]); constructor.
  - exists counts. split; [exact Hrun|]. split.
    + exact (Hcount "Grover Cleveland" "/president/cleveland" (or_introl eq_refl)).
    + exact (Hcount "Benjamin Harrison" "/president/bharrison"
                    (or_intror (or_introl eq_refl))).
Defined.

End KeyEventsExamples.

(* ===================================================================== *)
(** * The merged table (claim C9) *)
(* ===================================================================== *)

Section Merge.

Variables (miller_scrape : MillerScraper.t) (potus_scrape : PotusScraper.t).

(** A row that was built holds the Source-B salary under ['Salary']. *)
Lemma presidents_data_row_salary president row :
  presidents_data_row miller_scrape potus_scrape president = Ok row ->
  exists pay salary,
    PotusScraper.salaries potus_scrape = Some pay
    /\ dget president pay = Some salary
    /\ dget "Salary" row = Some (PyStr salary).
Proof.
  unfold presidents_data_row. intros H.
  apply rbind_ok in H as (sheet & _ & H).
  apply rbind_ok in H as (description & _ & H).
  apply rbind_ok in H as (famous_quote & _ & H).
  apply rbind_ok in H as (key_events_count & _ & H).
  apply rbind_ok in H as (salary & Hs & H).
  apply rbind_ok in Hs as (pay & Hpay & Hs).
  destruct (PotusScraper.salaries potus_scrape) as [pay'|]; [|discriminate].
  inversion Hpay; subst pay'. unfold ditem in Hs.
  destruct (dget president pay) as [salary'|] eqn:E; [|discriminate].
  inversion Hs; subst salary'.
  exists pay, salary. split; [reflexivity|]. split; [exact E|].
  inversion H; subst row. unfold dupdate. cbn [fold_left fst snd].
  apply dget_dset_eq.
Qed.

Lemma all_presidents_data_fold (presidents : list string) (acc res : odict (odict pyval)) :
  NoDup (keys acc ++ presidents)%list ->
  fold_left
    (fun acc president =>
       all_presidents_data <- acc ;;
       row <- presidents_data_row miller_scrape potus_scrape president ;;
       Ok (dset president row all_presidents_data))
    presidents (Ok acc) = Ok res ->
  exists rows,
    res = (acc ++ rows)%list
    /\ keys rows = presidents
    /\ Forall (fun kv => presidents_data_row miller_scrape potus_scrape (fst kv)
                         = Ok (snd kv)) rows.
Proof.
  revert acc; induction presidents as [|president presidents IH]; intros acc Hnd H.
  - simpl in H. inversion H; subst. exists []. rewrite app_nil_r. auto.
  - cbn [fold_left rbind] in H.
    destruct (presidents_data_row miller_scrape potus_scrape president) as [row|e] eqn:Erow.
    + cbn [rbind] in H.
      assert (Hnew : dget president acc = None).
      { apply dget_none_iff. intros Hin.
        apply NoDup_remove_2 in Hnd. apply Hnd, in_or_app. left; exact Hin. }
      rewrite (keys_dset_new _ _ _ Hnew) in H.
      apply IH in H as (rows & Hres & Hkeys & Hrows).
      * exists ((president, row) :: rows). split; [|split].
        -- rewrite Hres, <- app_assoc. reflexivity.
        -- simpl. rewrite Hkeys. reflexivity.
        -- constructor; [exact Erow | exact Hrows].
      * unfold keys. rewrite map_app, <- app_assoc. exact Hnd.
    + cbn [rbind] in H. exfalso. clear - H.
      induction presidents as [|p ps IHp]; [discriminate | exact (IHp H)].
Qed.

End Merge.

Section Frames.

Lemma position_In l a :
  In a l -> exists i, position String.eqb a l = Some i.
Proof.
  induction l as [|b l IH]; [intros []|].
  intros H. simpl. destruct (String.eqb a b) eqn:E; [eauto|].
  destruct H as [H|H]; [subst; rewrite String.eqb_refl in E; discriminate|].
  destruct (IH H) as [i Hi]. rewrite Hi. simpl. eauto.
Qed.

Lemma position_nth l a i :
  position String.eqb a l = Some i ->
  (i < length l)%nat /\ nth_error l i = Some a.
Proof.
  revert i; induction l as [|b l IH]; intros i; simpl; [discriminate|].
  destruct (String.eqb a b) eqn:E.
  - intros H; inversion H; subst. apply String.eqb_eq in E; subst.
    split; [lia | reflexivity].
  - destruct (position String.eqb a l) as [j|]; simpl; [|discriminate].
    intros H; inversion H; subst. destruct (IH j eq_refl) as [Hlt Hn].
    split; [lia | exact Hn].
Qed.

Lemma union_keys_step_incl (acc : list string) (ks : list string) k :
  In k acc ->
  In k (fold_left (fun acc' k' =>
                     if existsb (String.eqb k') acc' then acc' else (acc' ++ [k'])%list)
                  ks acc).
Proof.
  revert acc; induction ks as [|k' ks IH]; intros acc H; [exact H|].
  simpl. apply IH. destruct (existsb (String.eqb k') acc); [exact H|].
  apply in_or_app; left; exact H.
Qed.

Lemma union_keys_step_adds (acc : list string) (ks : list string) k :
  In k ks ->
  In k (fold_left (fun acc' k' =>
                     if existsb (String.eqb k') acc' then acc' else (acc' ++ [k'])%list)
                  ks acc).
Proof.
  revert acc; induction ks as [|k' ks IH]; intros acc H; [destruct H|].
  simpl. destruct H as [->|H]; [|apply IH, H].
  apply union_keys_step_incl.
  destruct (existsb (String.eqb k) acc) eqn:E.
  - apply existsb_exists in E as (x & Hx & Ex). apply String.eqb_eq in Ex; subst. exact Hx.
  - apply in_or_app; right; left; reflexivity.
Qed.

Lemma union_keys_fold_incl {V} (d : odict (odict V)) acc k :
  In k acc ->
  In k (fold_left (fun acc kv =>
                     fold_left (fun acc' k' =>
                                  if existsb (String.eqb k') acc' then acc'
                                  else (acc' ++ [k'])%list)
                               (keys (snd kv)) acc) d acc).
Proof.
  revert acc; induction d as [|kv d IH]; intros acc H; [exact H|].
  simpl. apply IH, union_keys_step_incl, H.
Qed.

Lemma union_keys_fold_adds {V} (d : odict (odict V)) acc president row k :
  In (president, row) d -> In k (keys row) ->
  In k (fold_left (fun acc kv =>
                     fold_left (fun acc' k' =>
                                  if existsb (String.eqb k') acc' then acc'
                                  else (acc' ++ [k'])%list)
                               (keys (snd kv)) acc) d acc).
Proof.
  revert acc; induction d as [|kv d IH]; intros acc Hin Hk; [destruct Hin|].
  simpl. destruct Hin as [->|Hin].
  - apply union_keys_fold_incl. simpl. apply union_keys_step_adds, Hk.
  - apply IH; assumption.
Qed.

Lemma union_keys_In {V} (d : odict (odict V)) president row k :
  In (president, row) d -> In k (keys row) -> In k (union_keys d).
Proof. apply union_keys_fold_adds. Qed.

Lemma dget_In_keys {V} (d : odict V) k v : dget k d = Some v -> In k (keys d).
Proof.
  intros H. apply dget_in in H. change k with (fst (k, v)). apply in_map, H.
Qed.

Lemma lookup_transposed (F : nat -> list pyval) (rows : list string) k j s :
  position String.eqb k rows = Some j ->
  lookup_column (Col k)
    (map (fun ir => (Col (snd ir), F (fst ir))) (combine (seq s (length rows)) rows))
  = Some (F (s + j)%nat).
Proof.
  revert s j; induction rows as [|r rows IH]; intros s j; simpl; [discriminate|].
  destruct (String.eqb k r) eqn:E.
  - intros H; inversion H; subst. rewrite Nat.add_0_r. reflexivity.
  - destruct (position String.eqb k rows) as [j'|] eqn:Ej; simpl; [|discriminate].
    intros H; inversion H; subst. rewrite (IH (S s) j' eq_refl).
    f_equal. f_equal. lia.
Qed.

Lemma nth_map_at {A B} (f : A -> B) (l : list A) i a (d : B) :
  nth_error l i = Some a -> nth i (map f l) d = f a.
Proof.
  revert i; induction l as [|x l IH]; intros [|i]; simpl; try discriminate.
  - intros H; inversion H; reflexivity.
  - apply IH.
Qed.

Lemma index_T_of_dict (d : odict (odict pyval)) :
  index (T (DataFrame_of_dict d)) = keys d.
Proof.
  unfold T, DataFrame_of_dict, columns, keys. cbn [index series].
  rewrite !map_map. apply map_ext. reflexivity.
Qed.

(** The cell of the transposed table of a dict of dicts. *)
Lemma loc_T_of_dict (d : odict (odict pyval)) president row k v :
  well_formed d -> In (president, row) d -> dget k row = Some v ->
  loc president (Col k) (T (DataFrame_of_dict d)) = Ok v.
Proof.
  intros Hwf Hin Hk. unfold loc. rewrite index_T_of_dict.
  assert (Hp : In president (keys d)).
  { change president with (fst (president, row)). apply in_map, Hin. }
  destruct (position_In _ _ Hp) as [i Hi]. rewrite Hi.
  destruct (position_nth _ _ _ Hi) as [Hlt Hnth].
  assert (Hrow : nth_error d i = Some (president, row)).
  { unfold keys in Hnth. rewrite nth_error_map in Hnth.
    destruct (nth_error d i) as [[p' row']|] eqn:E; [|discriminate].
    simpl in Hnth. inversion Hnth; subst p'.
    apply nth_error_In in E. apply (in_dget _ _ _ Hwf) in E.
    apply (in_dget _ _ _ Hwf) in Hin. congruence. }
  assert (Hj : In k (union_keys d)).
  { eapply union_keys_In; [exact Hin | eapply dget_In_keys; exact Hk]. }
  destruct (position_In _ _ Hj) as [j Hj'].
  destruct (position_nth _ _ _ Hj') as [Hjlt Hjnth].
  unfold T. cbn [series index].
  change (index (DataFrame_of_dict d)) with (union_keys d).
  rewrite (lookup_transposed
             (fun n => map (fun cs => nth n (snd cs) PyNaN) (series (DataFrame_of_dict d)))
             (union_keys d) k j 0 Hj').
  f_equal. unfold DataFrame_of_dict. cbn [series Nat.add]. rewrite map_map. cbn [snd].
  rewrite (nth_map_at _ _ i (president, row) PyNaN Hrow). cbn [snd].
  rewrite (nth_map_at _ _ j k PyNaN Hjnth). rewrite Hk. reflexivity.
Qed.

End Frames.

Section MergedTable.

(** C9.  When the record merger returns a table, its rows are the
    Source-A fact-sheet identifiers, each once and in their order: the row
    count is the number of fact sheets, and no row has an identifier that
    Source A lacks.  Source B supplies the cell of the column ['Salary'] in
    each of these rows. *)
Theorem merged_table_rows :
  forall (miller_scrape : MillerScraper.t) (potus_scrape : PotusScraper.t)
         (facts : odict (odict string)) (df : DataFrame),
    MillerScraper.fast_facts miller_scrape = Some facts ->
    well_formed facts ->
    get_all_presidents_data_df miller_scrape potus_scrape = Ok df ->
    index df = keys facts
    /\ length (index df) = length facts
    /\ NoDup (index df)
    /\ (forall president, dget president facts = None -> ~ In president (index df))
    /\ (forall president,
           In president (index df) ->
           exists pay salary,
             PotusScraper.salaries potus_scrape = Some pay
             /\ dget president pay = Some salary
             /\ loc president (Col "Salary") df = Ok (PyStr salary)).
Proof.
  intros miller_scrape potus_scrape facts df Hfacts Hwf Hdf.
  unfold get_all_presidents_data_df in Hdf.
  apply rbind_ok in Hdf as (all & Hall & Hdf). inversion Hdf; subst df; clear Hdf.
  unfold all_presidents_data in Hall. rewrite Hfacts in Hall. cbn [deref rbind] in Hall.
  apply all_presidents_data_fold in Hall as (rows & -> & Hkeys & Hrows);
    [|exact Hwf].
  cbn [app]. rewrite index_T_of_dict, Hkeys.
  split; [reflexivity|]. split; [unfold keys; apply length_map|].
  split; [exact Hwf|]. split.
  - intros president Hnone. apply dget_none_iff, Hnone.
  - intros president Hin. rewrite <- Hkeys in Hin.
    unfold keys in Hin. apply in_map_iff in Hin as ([p row] & Hp & Hin).
    simpl in Hp; subst p.
    rewrite Forall_forall in Hrows. pose proof (Hrows _ Hin) as Hrow. simpl in Hrow.
    destruct (presidents_data_row_salary _ _ _ _ Hrow) as (pay & salary & Hpay & Hs & Hcell).
    exists pay, salary. split; [exact Hpay|]. split; [exact Hs|].
    apply (loc_T_of_dict rows president row "Salary" (PyStr salary)); auto.
    unfold well_formed. rewrite Hkeys. exact Hwf.
Qed.

End MergedTable.

Section MergedTableExamples.

(** C9, witness: the sample scrape merges into a table of two rows. *)
Lemma merged_table_rows_witness :
  exists df,
    get_all_presidents_data_df miller_scraped potus_salaried = Ok df
    /\ index df = ["Grover Cleveland"; "Benjamin Harrison"]
    /\ loc "Benjamin Harrison" (Col "Salary") df
       = Ok (PyStr "Presidential Salary: $50,000/year").
Proof.
  destruct (get_all_presidents_data_df miller_scraped potus_salaried) as [df|e] eqn:E;
    [|vm_compute in E; discriminate].
  exists df. split; [reflexivity|].
  destruct (merged_table_rows miller_scraped potus_salaried _ df eq_refl
              ltac:(unfold well_formed; simpl;
                    repeat (constructor; [simpl; intuition discriminate|]); constructor)
              E)
    as (Hindex & _ & _ & _ & Hsalary).
  split; [exact Hindex|].
  destruct (Hsalary "Benjamin Harrison") as (pay & salary & Hpay & Hs & Hloc).
  - rewrite Hindex. right; left; reflexivity.
  - rewrite Hloc. f_equal. f_equal.
    simpl in Hpay. inversion Hpay; subst pay. simpl in Hs. inversion Hs. reflexivity.
Defined.

End MergedTableExamples.

(* ===================================================================== *)
(** * Election results (claim C10) *)
(* ===================================================================== *)

Section ElectionResults.

Lemma confined_lift {A} year (r : result A) : confined year (lift r).
Proof. intros r1 r2 H. unfold lift; simpl. auto. Qed.

Lemma confined_mret {A} year (a : A) : confined year (mret a).
Proof. intros r1 r2 H. unfold mret; simpl. auto. Qed.

Lemma confined_mbind {A B} year (m : M PotusScraper.results A)
      (k : A -> M PotusScraper.results B) :
  confined year m -> (forall a, confined year (k a)) -> confined year (mbind m k).
Proof.
  intros Hm Hk r1 r2 H. destruct (Hm r1 r2 H) as (Hres & Hy & Hother).
  unfold mbind. destruct (m r1) as [[a|e] s1], (m r2) as [[a'|e'] s2];
    simpl in Hres, Hy, Hother; try discriminate.
  - inversion Hres; subst a'. destruct (Hk a s1 s2 Hy) as (Hres' & Hy' & Hother').
    split; [exact Hres'|]. split; [exact Hy'|].
    intros other Hne. rewrite Hother', Hother by exact Hne. reflexivity.
  - inversion Hres; subst e'. simpl.
    split; [reflexivity|]. split; [exact Hy | exact Hother].
Qed.

Lemma confined_mcatch {A} year (m h : M PotusScraper.results A) e :
  confined year m -> confined year h -> confined year (mcatch m e h).
Proof.
  intros Hm Hh r1 r2 H. destruct (Hm r1 r2 H) as (Hres & Hy & Hother).
  unfold mcatch. destruct (m r1) as [[a|e1] s1], (m r2) as [[a'|e2] s2];
    simpl in Hres, Hy, Hother; try discriminate.
  - simpl. split; [exact Hres|]. split; [exact Hy | exact Hother].
  - inversion Hres; subst e2. destruct (exn_eqb e e1).
    + destruct (Hh s1 s2 Hy) as (Hres' & Hy' & Hother').
      split; [exact Hres'|]. split; [exact Hy'|].
      intros other Hne. rewrite Hother', Hother by exact Hne. reflexivity.
    + simpl. split; [reflexivity|]. split; [exact Hy | exact Hother].
Qed.

Lemma confined_forM_ {A} year (l : list A) (body : A -> M PotusScraper.results unit) :
  (forall a, confined year (body a)) -> confined year (forM_ l body).
Proof.
  intros Hbody. induction l as [|a l IH]; simpl.
  - apply confined_mret.
  - apply confined_mbind; [apply Hbody | intros _; exact IH].
Qed.

(** Storing into the entry of [year]. *)
Lemma confined_update year (f : odict (odict pyval) -> result (odict (odict pyval))) :
  confined year
    (election_results <- mget ;;
     of_year <- lift (ditem year election_results) ;;
     of_year' <- lift (f of_year) ;;
     mput (dset year of_year' election_results))%M.
Proof.
  intros r1 r2 H. unfold mbind, mget, lift, mput, ditem. rewrite H.
  destruct (dget year r2) as [of_year|] eqn:E2; simpl;
    [|split; [reflexivity|]; split; [congruence | reflexivity]].
  destruct (f of_year) as [of_year'|e]; simpl;
    [|split; [reflexivity|]; split; [congruence | reflexivity]].
  rewrite !dget_dset_eq. split; [reflexivity|]. split; [reflexivity|].
  intros other Hne. apply dget_dset_neq. congruence.
Qed.

Lemma confined_set_electee year electee_name entry :
  confined year (PotusScraper.set_electee year electee_name entry).
Proof.
  intros r1 r2 H.
  pose proof (confined_update year (fun of_year => Ok (dset electee_name entry of_year))
                              r1 r2 H) as Hc.
  unfold PotusScraper.set_electee. unfold mbind, mget, lift, mput in *.
  destruct (ditem year r1), (ditem year r2); exact Hc.
Qed.

Lemma confined_set_votes year electee_name label votes :
  confined year (PotusScraper.set_votes year electee_name label votes).
Proof.
  intros r1 r2 H.
  pose proof (confined_update year
                (fun of_year => entry <- ditem electee_name of_year ;;
                                Ok (dset electee_name (dset label votes entry) of_year))
                r1 r2 H) as Hc.
  unfold PotusScraper.set_votes. unfold mbind, mget, lift, mput in *.
  destruct (ditem year r1) as [o1|], (ditem year r2) as [o2|]; try exact Hc.
  - destruct (ditem electee_name o1), (ditem electee_name o2); exact Hc.
  - destruct (ditem electee_name o1); exact Hc.
  - destruct (ditem electee_name o2); exact Hc.
Qed.

Lemma confined_read_electee presidential_elections year electee :
  confined year (PotusScraper.read_electee presidential_elections year electee).
Proof.
  unfold PotusScraper.read_electee.
  apply confined_mcatch; [|apply confined_mret].
  apply confined_mbind; [apply confined_lift | intros electee_name].
  apply confined_mbind; [apply confined_set_electee | intros _].
  apply confined_mbind; [apply confined_lift | intros votes].
  apply confined_mbind; [apply confined_set_votes | intros _].
  apply confined_set_votes.
Qed.

(** What [read_table] does once the year of the table is known. *)
Lemma read_table_year presidential_elections table year election_results :
  PotusScraper.table_year table = Ok year ->
  PotusScraper.read_table presidential_elections table election_results
  = forM_ (find_all "tr" table) (PotusScraper.read_electee presidential_elections year)
          (dset year [] election_results).
Proof.
  intros Hy. unfold PotusScraper.read_table.
  erewrite (mbind_run (lift _)) by (unfold lift; rewrite Hy; reflexivity).
  erewrite (mbind_run mget) by reflexivity.
  erewrite (mbind_run (mput _)) by reflexivity.
  reflexivity.
Qed.

Lemma read_table_raise presidential_elections table e election_results :
  PotusScraper.table_year table = Raise e ->
  PotusScraper.read_table presidential_elections table election_results
  = (Raise e, election_results).
Proof.
  intros Hy. unfold PotusScraper.read_table.
  apply mbind_raise. unfold lift. rewrite Hy. reflexivity.
Qed.

(** The entry a table leaves for its year does not depend on the store it
    is read into: the entry is emptied first. *)
Lemma read_table_reset presidential_elections table year r1 r2 :
  PotusScraper.table_year table = Ok year ->
  fst (PotusScraper.read_table presidential_elections table r1)
  = fst (PotusScraper.read_table presidential_elections table r2)
  /\ dget year (snd (PotusScraper.read_table presidential_elections table r1))
     = dget year (snd (PotusScraper.read_table presidential_elections table r2)).
Proof.
  intros Hy. rewrite !(read_table_year _ _ _ _ Hy).
  destruct (confined_forM_ year (find_all "tr" table)
              (PotusScraper.read_electee presidential_elections year)
              (confined_read_electee presidential_elections year)
              (dset year [] r1) (dset year [] r2)) as (Hres & Hentry & _).
  - rewrite !dget_dset_eq. reflexivity.
  - split; assumption.
Qed.

(** A table leaves the entries of the other years as they were. *)
Lemma read_table_other presidential_elections table year other r :
  PotusScraper.table_year table = Ok year -> other <> year ->
  dget other (snd (PotusScraper.read_table presidential_elections table r)) = dget other r.
Proof.
  intros Hy Hne. rewrite (read_table_year _ _ _ _ Hy).
  destruct (confined_forM_ year (find_all "tr" table)
              (PotusScraper.read_electee presidential_elections year)
              (confined_read_electee presidential_elections year)
              (dset year [] r) (dset year [] r) eq_refl) as (_ & _ & Hother).
  rewrite (Hother other Hne). apply dget_dset_neq. congruence.
Qed.

Lemma forM_app {S A} (l1 l2 : list A) (body : A -> M S unit) s :
  forM_ (l1 ++ l2)%list body s = mbind (forM_ l1 body) (fun _ => forM_ l2 body) s.
Proof.
  revert s; induction l1 as [|a l1 IH]; intros s.
  - reflexivity.
  - simpl. unfold mbind. destruct (body a s) as [[u|e] s']; [|reflexivity].
    rewrite IH. reflexivity.
Qed.

Lemma forM_map {S A B} (g : A -> B) (l : list A) (body : B -> M S unit) s :
  forM_ (map g l) body s = forM_ l (fun a => body (g a)) s.
Proof.
  revert s; induction l as [|a l IH]; intros s; [reflexivity|].
  simpl. unfold mbind. destruct (body (g a) s) as [[u|e] s']; [apply IH | reflexivity].
Qed.

Lemma forM_cons_ok {S A} (a : A) (l : list A) (body : A -> M S unit) s s' :
  forM_ (a :: l) body s = (Ok tt, s') ->
  exists s1, body a s = (Ok tt, s1) /\ forM_ l body s1 = (Ok tt, s').
Proof.
  simpl. unfold mbind. destruct (body a s) as [[[]|e] s1]; [|discriminate].
  intros H. exists s1. auto.
Qed.

(** The pages are read as the flat sequence of their tables. *)
Lemma read_pages_tables soups r r' :
  forM_ soups PotusScraper.read_page r = (Ok tt, r') ->
  forM_ (tables_read soups) read_pair r = (Ok tt, r').
Proof.
  revert r; induction soups as [|soup soups IH]; intros r H; [exact H|].
  apply forM_cons_ok in H as (s1 & Hpage & Hrest).
  unfold tables_read. cbn [flat_map]. fold (tables_read soups).
  unfold PotusScraper.read_page, mbind, lift in Hpage.
  destruct (PotusScraper.elections_section soup) as [section|e]; [|discriminate].
  rewrite forM_app. erewrite mbind_run.
  - apply IH, Hrest.
  - rewrite forM_map. exact Hpage.
Qed.

(** Tables of other years leave the entry of [year] alone. *)
Lemma read_pairs_other year (pairs : list (Node * Node)) r r' :
  forM_ pairs read_pair r = (Ok tt, r') ->
  Forall (fun st => PotusScraper.table_year (snd st) <> Ok year) pairs ->
  dget year r' = dget year r.
Proof.
  revert r; induction pairs as [|st pairs IH]; intros r H Hall.
  - inversion H; reflexivity.
  - apply forM_cons_ok in H as (s1 & Hst & Hrest).
    inversion Hall as [|? ? Hne Hall']; subst.
    rewrite (IH s1 Hrest Hall').
    unfold read_pair in Hst.
    destruct (PotusScraper.table_year (snd st)) as [other|e] eqn:Ey.
    + change s1 with (snd (Ok tt, s1)). rewrite <- Hst.
      apply (read_table_other _ _ other); [exact Ey | congruence].
    + rewrite (read_table_raise _ _ _ _ Ey) in Hst. discriminate.
Qed.

(** C10.  Whatever the store holds, a table leaves for its year the entry
    that it would leave in an empty store: the entry of the year is emptied
    before the rows are read.  Hence, when [get_election_results]
    succeeds, the entry it stores for a year is the one that the last
    table read with that year leaves on its own, and the rows of earlier
    tables of that year, from earlier pages, are gone. *)
Theorem election_results_last_table :
  forall (get_soup : string -> Node) (self self' : PotusScraper.t),
    PotusScraper.get_election_results get_soup self = (Ok tt, self') ->
    (forall presidential_elections table year election_results,
        PotusScraper.table_year table = Ok year ->
        dget year (snd (PotusScraper.read_table presidential_elections table
                                                election_results))
        = dget year (snd (PotusScraper.read_table presidential_elections table [])))
    /\ exists soups election_results,
        PotusScraper.pages get_soup self = Ok soups
        /\ PotusScraper.election_results self' = Some election_results
        /\ forall before presidential_elections table after year,
            tables_read soups = (before ++ (presidential_elections, table) :: after)%list ->
            PotusScraper.table_year table = Ok year ->
            Forall (fun st => PotusScraper.table_year (snd st) <> Ok year) after ->
            dget year election_results
            = dget year (snd (PotusScraper.read_table presidential_elections table [])).
Proof.
  intros get_soup self self' Hrun.
  split.
  { intros presidential_elections table year election_results Hy.
    apply (read_table_reset _ _ _ election_results [] Hy). }
  unfold PotusScraper.get_election_results in Hrun.
  unfold mbind, mget, lift, mput in Hrun.
  destruct (PotusScraper.pages get_soup self) as [soups|e]; [|discriminate].
  destruct (forM_ soups PotusScraper.read_page []) as [[[]|e] election_results] eqn:Eloop;
    [|discriminate].
  inversion Hrun; subst self'; clear Hrun.
  exists soups, election_results. split; [reflexivity|]. split; [reflexivity|].
  intros before presidential_elections table after year Hsplit Hy Hafter.
  apply read_pages_tables in Eloop. rewrite Hsplit, forM_app in Eloop.
  unfold mbind in Eloop.
  destruct (forM_ before read_pair []) as [[[]|e] s0]; [|discriminate].
  apply forM_cons_ok in Eloop as (s1 & Htable & Hrest).
  rewrite (read_pairs_other year after s1 election_results Hrest Hafter).
  unfold read_pair in Htable. cbn [fst snd] in Htable.
  change s1 with (snd (Ok tt, s1)). rewrite <- Htable.
  apply (read_table_reset _ _ _ s0 [] Hy).
Qed.

End ElectionResults.

Section ElectionResultsExamples.

(** C10, witness: the year 1888 is on the pages of both entities; the
    table kept is the one of the page read last, which lists two
    candidates, and the third candidate of the earlier page is gone. *)
Lemma election_results_last_table_witness :
  exists self' election_results,
    PotusScraper.get_election_results election_soup potus_salaried = (Ok tt, self')
    /\ PotusScraper.election_results self' = Some election_results
    /\ dget "1888" election_results
       = Some [("Benjamin Harrison",
                [("Popular Votes", PyStr "5,439,853"); ("Electoral Votes", PyStr "233")]);
               ("Grover Cleveland",
                [("Popular Votes", PyStr "5,540,309"); ("Electoral Votes", PyStr "168")])].
Proof.
  destruct (PotusScraper.get_election_results election_soup potus_salaried)
    as [[[]|e] self'] eqn:Erun; [|vm_compute in Erun; discriminate].
  destruct (election_results_last_table election_soup potus_salaried self' Erun)
    as [_ (soups & election_results & Hpages & Hstored & Hlast)].
  exists self', election_results. split; [reflexivity|]. split; [exact Hstored|].
  vm_compute in Hpages. inversion Hpages; subst soups; clear Hpages.
  rewrite (Hlast (firstn 2 (tables_read [cleveland_page; harrison_page]))
                 (Tag "div" ["content"] []
                    [Tag "p" [] [] [Tag "b" [] []
                                      [NavigableString "Presidential Election Results:"]];
                     table_1888_short])
                 table_1888_short [] "1888" eq_refl eq_refl (Forall_nil _)).
  reflexivity.
Defined.

End ElectionResultsExamples.

(* ===================================================================== *)
(** * Electoral vote share (claim C5) *)
(* ===================================================================== *)

Section FrameCells.

Lemma label_eqb_eq a b : label_eqb a b = true <-> a = b.
Proof.
  destruct a as [x|x m], b as [y|y n]; simpl; split; intros H; try discriminate.
  - apply String.eqb_eq in H; subst; reflexivity.
  - inversion H; apply String.eqb_refl.
  - apply andb_true_iff in H as [H1 H2].
    apply String.eqb_eq in H1. apply String.eqb_eq in H2. subst; reflexivity.
  - inversion H; subst. rewrite !String.eqb_refl. reflexivity.
Qed.

Lemma label_eqb_refl a : label_eqb a a = true.
Proof. apply label_eqb_eq. reflexivity. Qed.

Lemma label_eqb_neq a b : a <> b -> label_eqb a b = false.
Proof.
  intros H. destruct (label_eqb a b) eqn:E; auto. apply label_eqb_eq in E. contradiction.
Qed.

Lemma lookup_store_eq c s cols : lookup_column c (store_column c s cols) = Some s.
Proof.
  induction cols as [|[c' s'] cols IH]; simpl.
  - rewrite label_eqb_refl. reflexivity.
  - destruct (label_eqb c c') eqn:E; simpl.
    + rewrite label_eqb_refl. reflexivity.
    + rewrite E. exact IH.
Qed.

Lemma lookup_store_neq c c' s cols :
  c <> c' -> lookup_column c' (store_column c s cols) = lookup_column c' cols.
Proof.
  intros Hne. induction cols as [|[c0 s0] cols IH]; simpl.
  - rewrite label_eqb_neq by congruence. reflexivity.
  - destruct (label_eqb c c0) eqn:E; simpl.
    + apply label_eqb_eq in E; subst c0.
      rewrite !(label_eqb_neq c' c) by congruence. reflexivity.
    + destruct (label_eqb c' c0); auto.
Qed.

Lemma store_same c s cols : lookup_column c cols = Some s -> store_column c s cols = cols.
Proof.
  induction cols as [|[c' s'] cols IH]; simpl; [discriminate|].
  destruct (label_eqb c c') eqn:E.
  - apply label_eqb_eq in E; subst. intros H; inversion H; reflexivity.
  - intros H. rewrite (IH H). reflexivity.
Qed.

Lemma columns_store_old c s cols :
  lookup_column c cols <> None -> map fst (store_column c s cols) = map fst cols.
Proof.
  induction cols as [|[c' s'] cols IH]; simpl; [congruence|].
  destruct (label_eqb c c') eqn:E; simpl.
  - apply label_eqb_eq in E; subst. reflexivity.
  - intros H. rewrite (IH H). reflexivity.
Qed.

Lemma lookup_none_iff c cols :
  lookup_column c cols = None <-> existsb (label_eqb c) (map fst cols) = false.
Proof.
  induction cols as [|[c' s'] cols IH]; simpl; [tauto|].
  destruct (label_eqb c c'); simpl; [split; discriminate | exact IH].
Qed.

Lemma position_none_iff r l :
  position String.eqb r l = None <-> existsb (String.eqb r) l = false.
Proof.
  induction l as [|x l IH]; simpl; [tauto|].
  destruct (String.eqb r x); simpl; [split; discriminate|].
  destruct (position String.eqb r l); simpl in *.
  - split; [discriminate|]. intros H. apply IH in H. discriminate.
  - split; [intros _; apply IH; reflexivity | reflexivity].
Qed.

Lemma nth_set_nth_eq {A} (l : list A) i a d :
  (i < length l)%nat -> nth i (set_nth i a l) d = a.
Proof.
  revert i; induction l as [|x l IH]; intros [|i] H; simpl in *; try lia; auto.
  apply IH. lia.
Qed.

Lemma nth_set_nth_neq {A} (l : list A) i j a d :
  i <> j -> nth j (set_nth i a l) d = nth j l d.
Proof.
  revert i j; induction l as [|x l IH]; intros [|i] [|j] H; simpl; auto; try congruence.
Qed.

Lemma length_set_nth {A} (l : list A) i a : length (set_nth i a l) = length l.
Proof.
  revert i; induction l as [|x l IH]; intros [|i]; simpl; auto.
Qed.

Lemma position_inj l a b i :
  position String.eqb a l = Some i -> position String.eqb b l = Some i -> a = b.
Proof.
  intros Ha Hb. apply position_nth in Ha as [_ Ha]. apply position_nth in Hb as [_ Hb].
  congruence.
Qed.

End FrameCells.

Section VoteShare.

Lemma fold_add_skipna s acc :
  Forall (fun v => is_votes v = true) s ->
  fold_left add_skipna s (Ok acc) = Ok (acc + total_votes s).
Proof.
  intros H; revert acc; induction H as [|v s Hv _ IH]; intros acc; simpl.
  - f_equal; lia.
  - destruct v; try discriminate; simpl; rewrite IH; f_equal; lia.
Qed.

Lemma sum_converted elections_data :
  converted elections_data ->
  sum elections_data
  = Ok (map (fun cs => (fst cs, total_votes (snd cs))) (series elections_data)).
Proof.
  unfold converted, sum. generalize (series elections_data) as cols.
  induction 1 as [|cs cols Hcs _ IH]; [reflexivity|].
  simpl. rewrite (fold_add_skipna _ 0 Hcs). simpl. rewrite IH. reflexivity.
Qed.

Lemma series_loc_totals c cols :
  series_loc c (map (fun cs => (fst cs, total_votes (snd cs))) cols)
  = match lookup_column c cols with
    | Some s => Ok (total_votes s)
    | None => Raise KeyError
    end.
Proof.
  induction cols as [|[c' s'] cols IH]; simpl; [reflexivity|].
  destruct (label_eqb c c'); [reflexivity | exact IH].
Qed.

Lemma converted_cell elections_data c s i :
  converted elections_data ->
  lookup_column c (series elections_data) = Some s ->
  is_votes (nth i s PyNaN) = true.
Proof.
  unfold converted. intros Hall Hs.
  assert (Hcol : Forall (fun v => is_votes v = true) s).
  { revert Hs. induction Hall as [|[c' s'] cols Hc _ IH]; simpl; [discriminate|].
    destruct (label_eqb c c'); [intros H; inversion H; subst; exact Hc | exact IH]. }
  destruct (Nat.lt_ge_cases i (length s)) as [Hlt|Hge].
  - rewrite Forall_forall in Hcol. apply Hcol, nth_In, Hlt.
  - rewrite nth_overflow by exact Hge. reflexivity.
Qed.

Lemma in_table_loc elections_data president y :
  in_table elections_data president y = true
  <-> exists v, loc president (votes_column (str_of_int y)) elections_data = Ok v.
Proof.
  unfold in_table, loc, columns, votes_column.
  destruct (position String.eqb president (index elections_data)) as [i|] eqn:Ei.
  - assert (Hr : existsb (String.eqb president) (index elections_data) = true).
    { destruct (existsb (String.eqb president) (index elections_data)) eqn:E; auto.
      apply position_none_iff in E. congruence. }
    rewrite Hr. simpl.
    destruct (lookup_column _ (series elections_data)) as [s|] eqn:Es.
    + assert (Hc : existsb (label_eqb (Col2 (str_of_int y) "Electoral Votes"))
                          (map fst (series elections_data)) = true).
      { destruct (existsb (label_eqb (Col2 (str_of_int y) "Electoral Votes"))
                          (map fst (series elections_data))) eqn:E; auto.
        apply lookup_none_iff in E. congruence. }
      rewrite Hc. split; eauto.
    + apply lookup_none_iff in Es. rewrite Es. split; [discriminate|].
      intros [v Hv]; discriminate.
  - apply position_none_iff in Ei. rewrite Ei. simpl. split; [discriminate|].
    intros [v Hv]; discriminate.
Qed.

(** One [try] block: the quotient when the table has the row and the
    column, [KeyError] otherwise. *)
Lemma electoral_votes_share_year elections_data president y :
  converted elections_data ->
  electoral_votes_share elections_data
    (map (fun cs => (fst cs, total_votes (snd cs))) (series elections_data))
    president (votes_column (str_of_int y))
  = if in_table elections_data president y
    then Ok (share_of_year elections_data president y)
    else Raise KeyError.
Proof.
  intros Hconv. unfold electoral_votes_share.
  destruct (in_table elections_data president y) eqn:Et.
  - apply in_table_loc in Et as [v Hv]. rewrite Hv. cbn [rbind].
    unfold share_of_year, electoral_votes_entry, electoral_votes_total.
    fold (votes_column (str_of_int y)). rewrite Hv.
    rewrite series_loc_totals. unfold loc in Hv.
    destruct (position String.eqb president (index elections_data)) as [i|]; [|discriminate].
    destruct (lookup_column (votes_column (str_of_int y)) (series elections_data))
      as [s|] eqn:Es; [|discriminate].
    inversion Hv; subst v. cbn [rbind].
    pose proof (converted_cell _ _ _ i Hconv Es) as Hcell.
    destruct (nth i s PyNaN); try discriminate; reflexivity.
  - destruct (loc president (votes_column (str_of_int y)) elections_data) as [v|e] eqn:El.
    + assert (in_table elections_data president y = true) by (apply in_table_loc; eauto).
      congruence.
    + unfold loc in El.
      destruct (position String.eqb president (index elections_data));
        [destruct (lookup_column _ _); [discriminate|]|]; inversion El; reflexivity.
Qed.

(** A [try] block under any label gives a value or [KeyError]. *)
Lemma electoral_votes_share_any elections_data president c :
  converted elections_data ->
  (exists v, electoral_votes_share elections_data
               (map (fun cs => (fst cs, total_votes (snd cs))) (series elections_data))
               president c = Ok v)
  \/ electoral_votes_share elections_data
       (map (fun cs => (fst cs, total_votes (snd cs))) (series elections_data))
       president c = Raise KeyError.
Proof.
  intros Hconv. unfold electoral_votes_share, loc. rewrite series_loc_totals.
  destruct (position String.eqb president (index elections_data)) as [i|]; [|right; reflexivity].
  destruct (lookup_column c (series elections_data)) as [s|] eqn:Es; [|right; reflexivity].
  left. cbn [rbind]. pose proof (converted_cell _ _ _ i Hconv Es) as Hcell.
  destruct (nth i s PyNaN); try discriminate; simpl; eauto.
Qed.

(** The value stored for a president whose inauguration date is known. *)
Lemma first_electoral_vote_share_date presidents_data elections_data president Y m d :
  converted elections_data ->
  loc president date_column presidents_data = Ok (PyTimestamp (Date Y m d)) ->
  first_electoral_vote_share presidents_data elections_data
    (map (fun cs => (fst cs, total_votes (snd cs))) (series elections_data)) president
  = Ok (share_by_columns elections_data president Y).
Proof.
  intros Hconv Hdate. unfold first_electoral_vote_share.
  fold date_column. rewrite Hdate. cbn [rbind year year_label].
  fold (votes_column (str_of_int (Y + -1))). fold (votes_column (str_of_int (Y + 0))).
  rewrite !electoral_votes_share_year by exact Hconv.
  unfold share_by_columns.
  replace (Y + -1) with (Y - 1) by lia. replace (Y + 0) with Y by lia.
  destruct (in_table elections_data president (Y - 1)); [reflexivity|].
  cbn [rcatch exn_eqb].
  destruct (in_table elections_data president Y); reflexivity.
Qed.

(** It never raises on a row that holds a timestamp. *)
Lemma first_electoral_vote_share_total presidents_data elections_data president t :
  converted elections_data ->
  loc president date_column presidents_data = Ok (PyTimestamp t) ->
  exists v,
    first_electoral_vote_share presidents_data elections_data
      (map (fun cs => (fst cs, total_votes (snd cs))) (series elections_data)) president
    = Ok v.
Proof.
  intros Hconv Hdate. unfold first_electoral_vote_share.
  fold date_column. rewrite Hdate.
  assert (Hy : exists y, year (PyTimestamp t) = Ok y) by (destruct t; simpl; eauto).
  destruct Hy as [y Hy]. cbn [rbind]. rewrite Hy. cbn [rbind].
  destruct (electoral_votes_share_any elections_data president
              (Col2 (year_label y (-1)) "Electoral Votes") Hconv) as [[v Hv]|Hv];
    rewrite Hv; cbn [rcatch exn_eqb]; [eauto|].
  destruct (electoral_votes_share_any elections_data president
              (Col2 (year_label y 0) "Electoral Votes") Hconv) as [[v Hv']|Hv'];
    rewrite Hv'; cbn [rcatch exn_eqb]; eauto.
Qed.

End VoteShare.

Section StoredShares.

Lemma index_loc_set r c v df : index (loc_set r c v df) = index df.
Proof. unfold loc_set. destruct (position String.eqb r (index df)); reflexivity. Qed.

Lemma lookup_loc_set_neq r c c' v df :
  c <> c' -> lookup_column c' (series (loc_set r c v df)) = lookup_column c' (series df).
Proof.
  intros Hne. unfold loc_set.
  destruct (position String.eqb r (index df)); simpl; apply lookup_store_neq, Hne.
Qed.

Lemma full_loc_set r c v df : full c df -> full c (loc_set r c v df).
Proof.
  intros Hfull s Hs. rewrite index_loc_set. unfold loc_set in Hs.
  assert (Hlen : length (match lookup_column c (series df) with
                         | Some s0 => s0
                         | None => map (fun _ => PyNaN) (index df)
                         end) = length (index df)).
  { destruct (lookup_column c (series df)) as [s0|] eqn:E; [apply Hfull, E|].
    apply length_map. }
  destruct (position String.eqb r (index df)); simpl in Hs;
    rewrite lookup_store_eq in Hs; inversion Hs; subst s.
  - rewrite length_set_nth. exact Hlen.
  - exact Hlen.
Qed.

Lemma loc_loc_set_same r c v df :
  full c df -> In r (index df) -> loc r c (loc_set r c v df) = Ok v.
Proof.
  intros Hfull Hin. unfold loc. rewrite index_loc_set.
  destruct (position_In _ _ Hin) as [i Hi]. rewrite Hi.
  destruct (position_nth _ _ _ Hi) as [Hlt _].
  unfold loc_set. rewrite Hi. simpl. rewrite lookup_store_eq.
  f_equal. apply nth_set_nth_eq.
  destruct (lookup_column c (series df)) as [s0|] eqn:E.
  - rewrite (Hfull _ E). exact Hlt.
  - rewrite length_map. exact Hlt.
Qed.

Lemma loc_loc_set_other r r' c v w df :
  r' <> r -> loc r' c df = Ok w -> loc r' c (loc_set r c v df) = Ok w.
Proof.
  intros Hne Hw. unfold loc in *. rewrite index_loc_set.
  destruct (position String.eqb r' (index df)) as [i'|] eqn:Ei'; [|discriminate].
  destruct (lookup_column c (series df)) as [s0|] eqn:Es; [|discriminate].
  unfold loc_set. rewrite Es.
  destruct (position String.eqb r (index df)) as [i|] eqn:Ei; simpl;
    rewrite lookup_store_eq; [|exact Hw].
  rewrite nth_set_nth_neq; [exact Hw|].
  intros E; subst i'. apply Hne. eapply position_inj; eassumption.
Qed.

Lemma index_store_shares F presidents df :
  index (store_shares F presidents df) = index df.
Proof.
  revert df; induction presidents as [|p ps IH]; intros df; [reflexivity|].
  simpl. rewrite IH. apply index_loc_set.
Qed.

Lemma store_shares_keeps F presidents df president v :
  ~ In president presidents ->
  loc president share_column df = Ok v ->
  loc president share_column (store_shares F presidents df) = Ok v.
Proof.
  revert df; induction presidents as [|p ps IH]; intros df Hnot Hv; [exact Hv|].
  simpl. apply IH.
  - intros Hin. apply Hnot. right; exact Hin.
  - apply loc_loc_set_other; [|exact Hv]. intros E. apply Hnot. left; congruence.
Qed.

(** After the loop every president has the share computed for him. *)
Lemma stored_share F presidents df president :
  NoDup presidents -> incl presidents (index df) -> full share_column df ->
  In president presidents ->
  loc president share_column (store_shares F presidents df) = Ok (F president).
Proof.
  revert df; induction presidents as [|p ps IH]; intros df Hnd Hincl Hfull Hin;
    [destruct Hin|].
  inversion Hnd as [|? ? Hnotin Hnd']; subst. simpl.
  destruct Hin as [->|Hin].
  - apply store_shares_keeps; [exact Hnotin|].
    apply loc_loc_set_same; [exact Hfull|]. apply Hincl. left; reflexivity.
  - apply IH; auto.
    + rewrite index_loc_set. intros x Hx. apply Hincl. right; exact Hx.
    + apply full_loc_set, Hfull.
Qed.

Lemma first_electoral_vote_share_frame df df' elections_data sums president :
  index df' = index df ->
  lookup_column date_column (series df') = lookup_column date_column (series df) ->
  first_electoral_vote_share df' elections_data sums president
  = first_electoral_vote_share df elections_data sums president.
Proof.
  intros Hi Hc. unfold first_electoral_vote_share, loc. fold date_column.
  rewrite Hi, Hc. reflexivity.
Qed.

(** The loop of [compute_first_electoral_vote_share], when no turn raises. *)
Lemma share_loop F elections_data sums presidents pd df :
  index df = index pd ->
  lookup_column date_column (series df) = lookup_column date_column (series pd) ->
  (forall president, In president presidents ->
                     first_electoral_vote_share pd elections_data sums president
                     = Ok (F president)) ->
  fold_left
    (fun acc president =>
       presidents_data <- acc ;;
       share <- first_electoral_vote_share presidents_data elections_data
                  sums president ;;
       Ok (loc_set president (Col "Electoral Votes Share") share presidents_data))
    presidents (Ok df)
  = Ok (store_shares F presidents df).
Proof.
  revert df; induction presidents as [|p ps IH]; intros df Hi Hc HF; [reflexivity|].
  cbn [fold_left rbind].
  rewrite (first_electoral_vote_share_frame pd df _ _ _ Hi Hc).
  rewrite (HF p (or_introl eq_refl)). cbn [rbind].
  simpl store_shares. apply IH.
  - rewrite index_loc_set. exact Hi.
  - rewrite lookup_loc_set_neq by discriminate. exact Hc.
  - intros president Hin. apply HF. right; exact Hin.
Qed.

End StoredShares.

Section ShareTheorem.

(** C5 (as amended).  On a converted election table and a table of
    presidents whose inauguration dates are timestamps, the row labels of
    each table distinct (so that [.loc] yields a cell),
    [compute_first_electoral_vote_share] does not raise.  For an entity
    with term-start year Y it stores: when the election table has a row
    for the entity and a column for the electoral votes of year Y - 1, the
    entity's votes of that year divided by the sum over all candidates of
    that year (the missing-value marker when the entity's cell is empty);
    otherwise, when it has the row and the column of year Y, the same
    quotient for year Y; otherwise the missing-value marker.  This is the
    share of the specification unless year Y - 1 is in the table without an
    entry for the entity while year Y has one. *)
Theorem electoral_vote_share_by_columns :
  forall presidents_data elections_data : DataFrame,
    NoDup (index presidents_data) ->
    NoDup (index elections_data) ->
    lookup_column share_column (series presidents_data) = None ->
    converted elections_data ->
    (forall president,
        In president (index presidents_data) ->
        exists t, loc president date_column presidents_data = Ok (PyTimestamp t)) ->
    exists presidents_data',
      compute_first_electoral_vote_share presidents_data elections_data
      = Ok presidents_data'
      /\ index presidents_data' = index presidents_data
      /\ (forall president Y m d,
             In president (index presidents_data) ->
             loc president date_column presidents_data = Ok (PyTimestamp (Date Y m d)) ->
             loc president share_column presidents_data'
             = Ok (share_by_columns elections_data president Y))
      /\ (forall president Y,
             (in_table elections_data president (Y - 1) = true ->
              electoral_votes_entry elections_data president (Y - 1) = None ->
              electoral_votes_entry elections_data president Y = None) ->
             share_by_columns elections_data president Y
             = share_by_entries elections_data president Y).
Proof.
  intros presidents_data elections_data Hnd _ Hnew Hconv Hdates.
  set (sums := map (fun cs => (fst cs, total_votes (snd cs))) (series elections_data)).
  set (F := fun president =>
              match first_electoral_vote_share presidents_data elections_data
                      sums president with
              | Ok v => v
              | Raise _ => PyNaN
              end).
  assert (HF : forall president,
             In president (index presidents_data) ->
             first_electoral_vote_share presidents_data elections_data sums president
             = Ok (F president)).
  { intros president Hin. destruct (Hdates president Hin) as [t Ht].
    destruct (first_electoral_vote_share_total _ _ _ _ Hconv Ht) as [v Hv].
    unfold F, sums. rewrite Hv. reflexivity. }
  exists (store_shares F (index presidents_data) presidents_data).
  split; [|split; [|split]].
  - unfold compute_first_electoral_vote_share.
    rewrite (sum_converted _ Hconv). cbn [rbind].
    apply (share_loop F elections_data sums (index presidents_data) presidents_data);
      auto.
  - apply index_store_shares.
  - intros president Y m d Hin Hdate.
    rewrite stored_share; auto.
    + f_equal. pose proof (HF president Hin) as H.
      unfold sums in H. rewrite (first_electoral_vote_share_date _ _ _ Y m d Hconv Hdate) in H.
      inversion H; reflexivity.
    + apply incl_refl.
    + intros s Hs. fold share_column in Hnew. congruence.
  - intros president Y Hsame. unfold share_by_columns, share_by_entries, share_of_year.
    destruct (in_table elections_data president (Y - 1)) eqn:E1.
    + destruct (electoral_votes_entry elections_data president (Y - 1)) eqn:E2;
        [reflexivity|].
      rewrite (Hsame eq_refl eq_refl). reflexivity.
    + assert (H1 : electoral_votes_entry elections_data president (Y - 1) = None).
      { unfold electoral_votes_entry.
        destruct (loc president _ elections_data) as [v|e] eqn:El; [|reflexivity].
        assert (in_table elections_data president (Y - 1) = true)
          by (apply in_table_loc; eauto).
        congruence. }
      rewrite H1.
      destruct (in_table elections_data president Y) eqn:E3; [reflexivity|].
      assert (H2 : electoral_votes_entry elections_data president Y = None).
      { unfold electoral_votes_entry.
        destruct (loc president _ elections_data) as [v|e] eqn:El; [|reflexivity].
        assert (in_table elections_data president Y = true)
          by (apply in_table_loc; eauto).
        congruence. }
      rewrite H2. reflexivity.
Qed.

End ShareTheorem.

Section ShareExamples.

(** C5, witness: one entity elected in the year before the term, one in
    the year of the term, one not elected. *)
Lemma electoral_vote_share_by_columns_witness :
  exists presidents_data',
    compute_first_electoral_vote_share presidents_sample elections_sample
    = Ok presidents_data'
    /\ loc "Alice Ames" share_column presidents_data' = Ok (PyRatio 292 447)
    /\ loc "Bob Boyd" share_column presidents_data' = Ok (PyRatio 336 476)
    /\ loc "Carl Cole" share_column presidents_data' = Ok PyNaN.
Proof.
  destruct (electoral_vote_share_by_columns presidents_sample elections_sample)
    as (presidents_data' & Hrun & _ & Hshare & _).
  - simpl. repeat (constructor; [simpl; intuition discriminate|]). constructor.
  - simpl. repeat (constructor; [simpl; intuition discriminate|]). constructor.
  - reflexivity.
  - unfold converted. simpl. repeat constructor.
  - intros president [<-|[<-|[<-|[]]]]; eexists; reflexivity.
  - exists presidents_data'. split; [exact Hrun|].
    split; [|split].
    + exact (Hshare "Alice Ames" 1901 3 4 (or_introl eq_refl) eq_refl).
    + exact (Hshare "Bob Boyd" 1904 3 4 (or_intror (or_introl eq_refl)) eq_refl).
    + exact (Hshare "Carl Cole" 1902 9 14
                    (or_intror (or_intror (or_introl eq_refl))) eq_refl).
Defined.

(** C5, counterexample: the table has the column of 1900 with no entry for
    the entity and the column of 1901 with her 10 votes of 10; for a term
    that starts in 1901 the claim gives 10/10, the code stores NaN. *)
Lemma electoral_vote_share_no_retry :
  share_by_entries elections_two_years "Alice Ames" 1901 = PyRatio 10 10
  /\ (r <- compute_first_electoral_vote_share presidents_one_row elections_two_years ;;
      loc "Alice Ames" share_column r) = Ok PyNaN
  /\ (r <- compute_first_electoral_vote_share presidents_one_row elections_two_years ;;
      loc "Alice Ames" share_column r)
     <> Ok (share_by_entries elections_two_years "Alice Ames" 1901).
Proof.
  assert (H1 : share_by_entries elections_two_years "Alice Ames" 1901 = PyRatio 10 10)
    by (vm_compute; reflexivity).
  assert (H2 : (r <- compute_first_electoral_vote_share presidents_one_row
                       elections_two_years ;;
                loc "Alice Ames" share_column r) = Ok PyNaN)
    by (vm_compute; reflexivity).
  split; [exact H1|]. split; [exact H2|]. rewrite H1, H2. discriminate.
Qed.

End ShareExamples.

(* ===================================================================== *)
(** * Inferred dtypes *)
(* ===================================================================== *)

Section Dtypes.

Lemma float_not_integer v : is_float v = true -> is_integer v = false.
Proof. destruct v; simpl; try discriminate; reflexivity. Qed.

Lemma existsb_false {A} (P : A -> bool) l :
  Forall (fun a => P a = false) l -> existsb P l = false.
Proof.
  induction 1 as [|a l Ha _ IH]; [reflexivity|]. simpl. rewrite Ha, IH. reflexivity.
Qed.

(** A column without a float and without None keeps its values. *)
Lemma infer_dtype_no_float s :
  existsb is_float s = false -> existsb is_none s = false -> infer_dtype s = s.
Proof.
  intros Hf Hn. unfold infer_dtype. rewrite Hf, Hn, andb_false_r. reflexivity.
Qed.

(** A column that holds a value other than a number and None keeps its
    values. *)
Lemma infer_dtype_not_number s :
  forallb (fun v => is_number v || is_none v) s = false -> infer_dtype s = s.
Proof. intros H. unfold infer_dtype. rewrite H. reflexivity. Qed.

Lemma to_float_idem v : to_float (to_float v) = to_float v.
Proof. destruct v; reflexivity. Qed.

Lemma to_float_float v : is_float v = true -> to_float v = v.
Proof. destruct v; simpl; try discriminate; reflexivity. Qed.

Lemma is_float_to_float v :
  is_number v || is_none v = true -> is_float (to_float v) = true.
Proof. destruct v; simpl; try discriminate; reflexivity. Qed.

Lemma to_float_number v :
  is_number v || is_none v = true -> is_number (to_float v) = true.
Proof. destruct v; simpl; try discriminate; reflexivity. Qed.

(** What a float64 column holds. *)
Lemma infer_dtype_floats s :
  forallb (fun v => is_number v || is_none v) s = true ->
  Forall (fun v => is_float v = true) (map to_float s).
Proof.
  intros H. apply Forall_map, Forall_forall. intros v Hv.
  rewrite forallb_forall in H. apply is_float_to_float, H, Hv.
Qed.

(** A column of floats keeps its values. *)
Lemma infer_dtype_all_floats s :
  Forall (fun v => is_float v = true) s -> infer_dtype s = s.
Proof.
  intros H. unfold infer_dtype.
  destruct (forallb (fun v => is_number v || is_none v) s
            && (existsb is_float s || existsb is_none s && existsb is_integer s)); [|reflexivity].
  rewrite <- (map_id s) at 2. apply map_ext_in. intros v Hv.
  rewrite Forall_forall in H. apply to_float_float, H, Hv.
Qed.

(** Inferring the dtype of a column a second time changes nothing. *)
Lemma infer_dtype_idem s : infer_dtype (infer_dtype s) = infer_dtype s.
Proof.
  unfold infer_dtype at 2 3.
  destruct (forallb (fun v => is_number v || is_none v) s) eqn:En; cbn [andb].
  - destruct (existsb is_float s || existsb is_none s && existsb is_integer s) eqn:Ef.
    + apply infer_dtype_all_floats, infer_dtype_floats, En.
    + unfold infer_dtype. rewrite En, Ef. reflexivity.
  - unfold infer_dtype. rewrite En. reflexivity.
Qed.

(** A column without a number keeps its values. *)
Lemma infer_dtype_no_number s :
  Forall (fun v => is_number v = false) s -> infer_dtype s = s.
Proof.
  intros H. unfold infer_dtype.
  assert (Hf : existsb is_float s = false).
  { apply existsb_false. eapply Forall_impl; [|exact H].
    intros v Hv. destruct v; try discriminate; reflexivity. }
  assert (Hi : existsb is_integer s = false).
  { apply existsb_false. eapply Forall_impl; [|exact H].
    intros v Hv. destruct v; try discriminate; reflexivity. }
  rewrite Hf, Hi, !andb_false_r. reflexivity.
Qed.

(** A column of integers keeps its values. *)
Lemma infer_dtype_integers s :
  Forall (fun v => is_integer v = true) s -> infer_dtype s = s.
Proof.
  intros H. apply infer_dtype_no_float; apply existsb_false;
    (eapply Forall_impl; [|exact H]); intros v Hv; destruct v; try discriminate;
    reflexivity.
Qed.

Lemma in_infer_dtype s v :
  In v (infer_dtype s) ->
  In v s \/ (exists z, v = PyFloat z /\ In (PyInt z) s) \/ (v = PyNaN /\ In PyNone s).
Proof.
  unfold infer_dtype.
  destruct (forallb (fun v => is_number v || is_none v) s
            && (existsb is_float s || existsb is_none s && existsb is_integer s)); [|auto].
  intros H. apply in_map_iff in H as (x & Hx & Hin).
  destruct x; simpl in Hx; subst; eauto.
Qed.

End Dtypes.

(* ===================================================================== *)
(** * Child count (claim C6) *)
(* ===================================================================== *)

Section Children.

Lemma length_split_cons sep c r :
  length (split sep (String c r))
  = if Ascii.eqb c sep then S (length (split sep r)) else length (split sep r).
Proof.
  simpl. destruct (Ascii.eqb c sep); [reflexivity|].
  destruct (split_cons sep r) as [p [ps E]]. rewrite E. reflexivity.
Qed.

(** The tokens of a text are one more than its commas and semicolons. *)
Lemma tokens_delimiters s :
  length (split "," (replace ";" "," s)) = S (delimiters s).
Proof.
  induction s as [|c r IH]; [reflexivity|].
  cbn [replace delimiters]. rewrite length_split_cons, IH.
  destruct (Ascii.eqb c ";") eqn:Es.
  - rewrite orb_true_r. reflexivity.
  - rewrite orb_false_r. destruct (Ascii.eqb c ","); reflexivity.
Qed.

Lemma number_of_children_counted x :
  x = PyNone \/ (exists s, x = PyStr s) ->
  exists count, number_of_children x = Ok count /\ children_counted x count.
Proof.
  intros [->|[s ->]]; simpl.
  - eexists; split; [reflexivity|]. left; auto.
  - eexists; split; [reflexivity|]. right. exists s. split; [reflexivity|].
    rewrite tokens_delimiters. reflexivity.
Qed.

Lemma mapM_number_of_children children :
  Forall (fun x => x = PyNone \/ exists s, x = PyStr s) children ->
  exists counts,
    mapM number_of_children children = Ok counts
    /\ Forall2 children_counted children counts.
Proof.
  induction 1 as [|x children Hx _ (counts & Hm & Hall)].
  - exists []. split; [reflexivity | constructor].
  - destruct (number_of_children_counted x Hx) as (count & Hc & Hcounted).
    exists (count :: counts). split.
    + simpl. rewrite Hc. cbn [rbind]. rewrite Hm. reflexivity.
    + constructor; assumption.
Qed.

(** The counts are integers: the column is stored as it is. *)
Lemma counts_integers children counts :
  Forall2 children_counted children counts ->
  Forall (fun v => is_integer v = true) counts.
Proof.
  induction 1 as [|x count children counts Hc _ IH]; constructor; [|exact IH].
  destruct Hc as [[_ ->]|(s & _ & ->)]; reflexivity.
Qed.

(** C6 (as amended).  On a merged table whose children fields are texts
    or None, the derivation succeeds, keeps the rows, and stores for every
    row a count in the column ['Number of Children']: 0 when the field is
    None, and for a text the number of its comma/semicolon-delimited
    tokens, one more than its commas and semicolons.  "Anne; Susan,
    Martha" yields 3; the empty text yields 1. *)
Theorem number_of_children_tokens :
  forall (presidents_data : DataFrame) (children : list pyval),
    getitem_column (Col "Children") presidents_data = Ok children ->
    Forall (fun x => x = PyNone \/ exists s, x = PyStr s) children ->
    (exists presidents_data' counts,
        compute_number_of_children presidents_data = Ok presidents_data'
        /\ index presidents_data' = index presidents_data
        /\ getitem_column (Col "Number of Children") presidents_data' = Ok counts
        /\ Forall2 children_counted children counts)
    /\ number_of_children (PyStr "Anne; Susan, Martha") = Ok (PyInt 3)
    /\ number_of_children PyNone = Ok (PyInt 0)
    /\ number_of_children (PyStr "") = Ok (PyInt 1).
Proof.
  intros presidents_data children Hcol Hall.
  split; [|repeat split; reflexivity].
  destruct (mapM_number_of_children children Hall) as (counts & Hm & Hcounted).
  exists (setitem_column (Col "Number of Children") counts presidents_data), counts.
  split; [|split; [|split]].
  - unfold compute_number_of_children, series_map. rewrite Hcol. cbn [rbind].
    rewrite Hm. cbn [rbind].
    rewrite (infer_dtype_integers _ (counts_integers _ _ Hcounted)). reflexivity.
  - reflexivity.
  - unfold getitem_column, setitem_column. cbn [series]. rewrite lookup_store_eq.
    reflexivity.
  - exact Hcounted.
Qed.

End Children.

Section ChildrenExamples.

(** C6, witness: a list of three, a missing field and an empty text. *)
Lemma number_of_children_tokens_witness :
  exists presidents_data' counts,
    compute_number_of_children presidents_children = Ok presidents_data'
    /\ getitem_column (Col "Number of Children") presidents_data' = Ok counts
    /\ Forall2 children_counted [PyStr "Anne; Susan, Martha"; PyNone; PyStr ""] counts.
Proof.
  destruct (number_of_children_tokens presidents_children
              [PyStr "Anne; Susan, Martha"; PyNone; PyStr ""] eq_refl)
    as [(presidents_data' & counts & Hrun & _ & Hcol & Hcounted) _].
  - constructor; [right; eexists; reflexivity|].
    constructor; [left; reflexivity|].
    constructor; [right; eexists; reflexivity|]. constructor.
  - exists presidents_data', counts. auto.
Defined.

(** C6, counterexample: the row whose children field is the empty text
    gets the count 1, not 0. *)
Lemma number_of_children_empty_text :
  (r <- compute_number_of_children presidents_children ;;
   loc "Carl Cole" (Col "Number of Children") r) = Ok (PyInt 1)
  /\ loc "Carl Cole" (Col "Children") presidents_children = Ok (PyStr "")
  /\ (r <- compute_number_of_children presidents_children ;;
      loc "Carl Cole" (Col "Number of Children") r) <> Ok (PyInt 0).
Proof.
  assert (H : (r <- compute_number_of_children presidents_children ;;
               loc "Carl Cole" (Col "Number of Children") r) = Ok (PyInt 1))
    by (vm_compute; reflexivity).
  split; [exact H|]. split; [reflexivity|]. rewrite H. discriminate.
Qed.

End ChildrenExamples.

(* ===================================================================== *)
(** * Idempotence of the type normalizer (claim C7) *)
(* ===================================================================== *)

Section ColumnSteps.

Lemma series_map_again f s t :
  fixes_columns f -> series_map f s = Ok t -> series_map f t = Ok t.
Proof.
  intros Hf H. unfold series_map in *.
  apply rbind_ok in H as (s' & Hs' & Ht). inversion Ht; subst t.
  rewrite (Hf s s' Hs'). cbn [rbind]. rewrite infer_dtype_idem. reflexivity.
Qed.

Lemma setitem_same c s df :
  lookup_column c (series df) = Some s -> setitem_column c s df = df.
Proof.
  intros H. unfold setitem_column. rewrite (store_same _ _ _ H).
  destruct df; reflexivity.
Qed.

Lemma map_column_fixed f c df t :
  lookup_column c (series df) = Some t -> series_map f t = Ok t ->
  map_column f c df = Ok df.
Proof.
  intros Hc Ht. unfold map_column, getitem_column. rewrite Hc. cbn [rbind].
  rewrite Ht. cbn [rbind]. rewrite (setitem_same _ _ _ Hc). reflexivity.
Qed.

Lemma map_column_result f c df df' :
  map_column f c df = Ok df' ->
  exists s t, series_map f s = Ok t /\ lookup_column c (series df') = Some t
              /\ index df' = index df.
Proof.
  unfold map_column, getitem_column. intros H.
  destruct (lookup_column c (series df)) as [s|]; [|discriminate].
  cbn [rbind] in H. destruct (series_map f s) as [t|] eqn:Et; [|discriminate].
  inversion H; subst df'. exists s, t. split; [exact Et|].
  split; [apply lookup_store_eq | reflexivity].
Qed.

Lemma map_column_other f c c' df df' :
  map_column f c df = Ok df' -> c <> c' ->
  lookup_column c' (series df') = lookup_column c' (series df).
Proof.
  unfold map_column, getitem_column. intros H Hne.
  destruct (lookup_column c (series df)) as [s|]; [|discriminate].
  cbn [rbind] in H. destruct (series_map f s) as [t|]; [|discriminate].
  inversion H; subst df'. apply lookup_store_neq, Hne.
Qed.

Lemma run_steps_raise steps e :
  fold_left (fun acc cf => df' <- acc ;; map_column (snd cf) (fst cf) df')
            steps (Raise e) = Raise e.
Proof. induction steps as [|cf steps IH]; [reflexivity | exact IH]. Qed.

Lemma run_steps_cons cf steps df :
  run_steps (cf :: steps) df = (df' <- map_column (snd cf) (fst cf) df ;; run_steps steps df').
Proof.
  unfold run_steps. cbn [fold_left rbind].
  destruct (map_column (snd cf) (fst cf) df); [reflexivity | apply run_steps_raise].
Qed.

Lemma run_steps_app steps steps' df :
  run_steps (steps ++ steps') df = (df' <- run_steps steps df ;; run_steps steps' df').
Proof.
  revert df; induction steps as [|cf steps IH]; intros df; [reflexivity|].
  rewrite <- app_comm_cons, !run_steps_cons.
  destruct (map_column (snd cf) (fst cf) df); [apply IH | reflexivity].
Qed.

Lemma run_steps_other steps c df df' :
  run_steps steps df = Ok df' -> ~ In c (map fst steps) ->
  lookup_column c (series df') = lookup_column c (series df).
Proof.
  revert df; induction steps as [|cf steps IH]; intros df H Hnot.
  - inversion H; reflexivity.
  - rewrite run_steps_cons in H. apply rbind_ok in H as (df1 & H1 & H).
    rewrite (IH df1 H).
    + apply (map_column_other _ _ _ _ _ H1). intros E. apply Hnot. left; exact E.
    + intros Hin. apply Hnot. right; exact Hin.
Qed.

(** A run of conversions of distinct columns, each of which fixes the
    columns it returns, returns the table it is given when that table is
    one it has returned. *)
Lemma run_steps_again steps df df' :
  NoDup (map fst steps) ->
  (forall cf, In cf steps -> fixes_columns (snd cf)) ->
  run_steps steps df = Ok df' -> run_steps steps df' = Ok df'.
Proof.
  revert df; induction steps as [|cf steps IH]; intros df Hnd Hfix H; [reflexivity|].
  inversion Hnd as [|? ? Hnotin Hnd']; subst.
  rewrite run_steps_cons in H. apply rbind_ok in H as (df1 & H1 & H).
  rewrite run_steps_cons.
  destruct (map_column_result _ _ _ _ H1) as (s & t & Hst & Hc & _).
  rewrite (map_column_fixed (snd cf) (fst cf) df' t).
  - cbn [rbind]. apply (IH df1); auto. intros cf' Hin. apply Hfix. right; exact Hin.
  - rewrite (run_steps_other steps (fst cf) df1 df' H Hnotin). exact Hc.
  - apply (series_map_again _ s); [apply Hfix; left; reflexivity | exact Hst].
Qed.

(** A function whose results it returns unchanged, when the inferred dtype
    keeps such results, fixes the columns it returns. *)
Lemma fixes_columns_by (P : pyval -> bool) f :
  (forall x y, f x = Ok y -> P y = true) ->
  (forall y, P y = true -> f y = Ok y) ->
  (forall s, Forall (fun y => P y = true) s ->
             Forall (fun y => P y = true) (infer_dtype s)) ->
  fixes_columns f.
Proof.
  intros Hres Hfix Hinfer s s' Hs'. apply mapM_fixed.
  assert (HP : Forall (fun y => P y = true) s') by (eapply mapM_Forall; eassumption).
  apply Hinfer in HP. revert HP. apply Forall_impl. exact Hfix.
Qed.

Lemma infer_dtype_keeps (P : pyval -> bool) s :
  (forall y, P y = true -> P (to_float y) = true) ->
  Forall (fun y => P y = true) s -> Forall (fun y => P y = true) (infer_dtype s).
Proof.
  intros Hf Hs. unfold infer_dtype.
  match goal with |- context [if ?b then _ else _] => destruct b end; [|exact Hs].
  apply Forall_map. revert Hs. apply Forall_impl. exact Hf.
Qed.

End ColumnSteps.

Section Normalizers.

Variable str_of_float : Z -> Z -> string.
Variable str_of_Timestamp : Timestamp -> string.
Variable Timestamp_of : pyval -> result Timestamp.

Local Abbreviation as_str := (str str_of_float str_of_Timestamp).
Local Abbreviation as_text := (to_text str_of_float str_of_Timestamp).
Local Abbreviation as_timestamp := (to_timestamp Timestamp_of).
Local Abbreviation as_votes := (to_votes str_of_float str_of_Timestamp).

Lemma text_not_number v : is_text v = true -> is_number v = false.
Proof. destruct v; simpl; try discriminate; reflexivity. Qed.

Lemma to_text_is_text x y : as_text x = Ok y -> is_text y = true.
Proof.
  unfold to_text, none_if_token. intros H. inversion H; subst y; clear H.
  destruct (String.eqb (as_str x) "None" || String.eqb (as_str x) "nan") eqn:E; simpl; auto.
  rewrite E. reflexivity.
Qed.

Lemma to_text_fixed y : is_text y = true -> as_text y = Ok y.
Proof.
  unfold to_text. destruct y; simpl; try discriminate; [reflexivity|].
  intros H. apply negb_true_iff in H. rewrite H. reflexivity.
Qed.

Lemma fixes_to_text : fixes_columns as_text.
Proof.
  apply (fixes_columns_by is_text).
  - apply to_text_is_text.
  - apply to_text_fixed.
  - intros s H. rewrite infer_dtype_no_number; [exact H|].
    eapply Forall_impl; [|exact H]. apply text_not_number.
Qed.

Lemma fixes_to_int : fixes_columns to_int.
Proof.
  apply (fixes_columns_by is_int).
  - unfold to_int. intros x y H. apply rbind_ok in H as (z & _ & H).
    inversion H; reflexivity.
  - intros y; destruct y; simpl; try discriminate; reflexivity.
  - intros s H. rewrite infer_dtype_integers; [exact H|].
    eapply Forall_impl; [|exact H].
    intros v Hv; destruct v; try discriminate; reflexivity.
Qed.

Lemma extract_salary_not_str x y : _extract_salary x = Ok y -> is_str y = false.
Proof.
  destruct x; simpl; intros H; try (inversion H; subst; reflexivity).
  apply rbind_ok in H as (base & _ & H). apply rbind_ok in H as (expense & _ & H).
  inversion H; reflexivity.
Qed.

Lemma fixes_extract_salary : fixes_columns _extract_salary.
Proof.
  apply (fixes_columns_by (fun v => negb (is_str v))).
  - intros x y H. rewrite (extract_salary_not_str x y H). reflexivity.
  - intros y; destruct y; simpl; try discriminate; reflexivity.
  - intros s. apply infer_dtype_keeps. intros y; destruct y; simpl; auto.
Qed.

Lemma fixes_to_timestamp : fixes_columns as_timestamp.
Proof.
  apply (fixes_columns_by is_timestamp).
  - unfold to_timestamp. intros x y H. apply rbind_ok in H as (t & _ & H).
    inversion H; reflexivity.
  - intros y; destruct y; simpl; try discriminate; reflexivity.
  - intros s. apply infer_dtype_keeps. intros y; destruct y; simpl; auto.
Qed.

Lemma store_store c s t cols :
  store_column c t (store_column c s cols) = store_column c t cols.
Proof.
  induction cols as [|[c' s'] cols IH]; simpl.
  - rewrite label_eqb_refl. reflexivity.
  - destruct (label_eqb c c') eqn:E; simpl.
    + rewrite label_eqb_refl. reflexivity.
    + rewrite E, IH. reflexivity.
Qed.

(** The two maps of a text column are one map of [to_text]. *)
Lemma convert_str_variable_one c df :
  convert_str_variable str_of_float str_of_Timestamp c df = map_column as_text (Col c) df.
Proof.
  unfold convert_str_variable, map_column, getitem_column, series_map.
  destruct (lookup_column (Col c) (series df)) as [s|]; [|reflexivity].
  cbn [rbind]. rewrite mapM_total. cbn [rbind].
  rewrite (infer_dtype_no_number (map (fun x => PyStr (as_str x)) s))
    by (apply Forall_map, Forall_forall; reflexivity).
  cbn [setitem_column series]. rewrite lookup_store_eq. cbn [rbind].
  rewrite mapM_total. cbn [rbind]. rewrite map_map.
  unfold to_text. rewrite mapM_total. cbn [rbind].
  unfold setitem_column. cbn [index series]. rewrite store_store.
  assert (Hi : infer_dtype (map (fun x => none_if_token (PyStr (as_str x))) s)
               = map (fun x => none_if_token (PyStr (as_str x))) s).
  { apply infer_dtype_no_number, Forall_map, Forall_forall. intros x _.
    apply text_not_number, (to_text_is_text x). reflexivity. }
  rewrite Hi. reflexivity.
Qed.

Lemma for_columns_steps step (F : string -> pyval -> result pyval) cs df :
  (forall c df', step c df' = map_column (F c) (Col c) df') ->
  for_columns step cs df = run_steps (map (fun c => (Col c, F c)) cs) df.
Proof.
  intros Hstep. unfold for_columns, run_steps. generalize (Ok df) as acc.
  induction cs as [|c cs IH]; intros acc; [reflexivity|].
  cbn [fold_left map fst snd]. rewrite <- IH. f_equal.
  destruct acc as [df'|e]; [apply Hstep | reflexivity].
Qed.

(** [convert_presidents_data] is the run of its column conversions. *)
Lemma convert_presidents_data_steps df :
  convert_presidents_data str_of_float str_of_Timestamp Timestamp_of df
  = run_steps (presidents_steps str_of_float str_of_Timestamp Timestamp_of) df.
Proof.
  unfold convert_presidents_data, presidents_steps.
  rewrite run_steps_app.
  rewrite (for_columns_steps _ (fun _ => as_text)) by apply convert_str_variable_one.
  destruct (run_steps _ df) as [df1|e]; [|reflexivity]. cbn [rbind].
  rewrite run_steps_app.
  rewrite (for_columns_steps _ (fun c => if String.eqb c "Salary" then _extract_salary
                                         else to_int)).
  2:{ intros c df'. unfold convert_int_variable. destruct (String.eqb c "Salary"); reflexivity. }
  change (map (fun c => (Col c, if String.eqb c "Salary" then _extract_salary else to_int))
              INT_VARIABLES)
    with [(Col "Key Events Count", to_int); (Col "President Number", to_int);
          (Col "Salary", _extract_salary)].
  destruct (run_steps _ df1) as [df2|e]; [|reflexivity]. cbn [rbind].
  apply for_columns_steps. reflexivity.
Qed.

Lemma presidents_steps_fix cf :
  In cf (presidents_steps str_of_float str_of_Timestamp Timestamp_of) ->
  fixes_columns (snd cf).
Proof.
  unfold presidents_steps. intros H.
  apply in_app_or in H as [H|H]; [|apply in_app_or in H as [H|H]].
  - apply in_map_iff in H as (c & <- & _). apply fixes_to_text.
  - destruct H as [<-|[<-|[<-|[]]]];
      [apply fixes_to_int | apply fixes_to_int | apply fixes_extract_salary].
  - apply in_map_iff in H as (c & <- & _). apply fixes_to_timestamp.
Qed.

Lemma presidents_steps_distinct :
  NoDup (map fst (presidents_steps str_of_float str_of_Timestamp Timestamp_of)).
Proof.
  unfold presidents_steps, STR_VARIABLES, TIMESTAMP_VARIABLES. cbn [map app fst].
  repeat (constructor; [cbn [In]; intuition discriminate|]). constructor.
Qed.

End Normalizers.

Section ElectionNormalizer.

Variable str_of_float : Z -> Z -> string.
Variable str_of_Timestamp : Timestamp -> string.

Local Abbreviation as_str := (str str_of_float str_of_Timestamp).
Local Abbreviation as_votes := (to_votes str_of_float str_of_Timestamp).

Lemma mapM_map {A B C} (f : B -> result C) (g : A -> B) (l : list A) :
  mapM f (map g l) = mapM (fun a => f (g a)) l.
Proof.
  induction l as [|a l IH]; [reflexivity|]. simpl. rewrite IH. reflexivity.
Qed.

Lemma mapM_ext {A B} (f g : A -> result B) (l : list A) :
  (forall a, f a = g a) -> mapM f l = mapM g l.
Proof.
  intros H. induction l as [|a l IH]; [reflexivity|]. simpl. rewrite H, IH. reflexivity.
Qed.

(** The two maps of the election table are one map of [to_votes]. *)
Lemma convert_elections_data_one elections_data :
  convert_elections_data str_of_float str_of_Timestamp elections_data
  = applymap as_votes elections_data.
Proof.
  unfold convert_elections_data, applymap.
  assert (H : mapM (fun cs => s' <- series_map (fun x => Ok (PyStr (as_str x))) (snd cs) ;;
                              Ok (fst cs, s')) (series elections_data)
              = Ok (map (fun cs => (fst cs, map (fun x => PyStr (as_str x)) (snd cs)))
                        (series elections_data))).
  { rewrite <- mapM_total. apply mapM_ext. intros [c s]. unfold series_map. cbn [fst snd].
    rewrite mapM_total. cbn [rbind].
    rewrite infer_dtype_no_number by (apply Forall_map, Forall_forall; reflexivity).
    reflexivity. }
  rewrite H. cbn [rbind series index]. rewrite mapM_map.
  f_equal. apply mapM_ext. intros [c s]. cbn [fst snd]. unfold series_map.
  rewrite mapM_map. reflexivity.
Qed.

Lemma applymap_inferred f df df' :
  applymap f df = Ok df' ->
  index df' = index df
  /\ Forall (fun cs => exists s', Forall (fun y => exists x, f x = Ok y) s'
                                  /\ snd cs = infer_dtype s') (series df').
Proof.
  unfold applymap. intros H. apply rbind_ok in H as (cols & Hcols & H).
  inversion H; subst df'; clear H. split; [reflexivity|]. cbn [series].
  revert cols Hcols. generalize (series df) as l.
  induction l as [|[c s] l IH]; intros cols H.
  - inversion H; constructor.
  - simpl in H. unfold series_map in H at 1.
    destruct (mapM f s) as [s'|] eqn:Es; [|discriminate]. cbn [rbind] in H.
    destruct (mapM _ l) as [cols'|] eqn:El; [|discriminate]. cbn [rbind] in H.
    inversion H; subst cols. constructor; [|apply IH; reflexivity].
    exists s'. split; [|reflexivity].
    clear - Es. revert s' Es. induction s as [|x s IHs]; intros s' Es.
    + inversion Es; constructor.
    + simpl in Es. destruct (f x) as [y|] eqn:Ex; [|discriminate]. cbn [rbind] in Es.
      destruct (mapM f s) as [ys|]; [|discriminate]. inversion Es; subst.
      constructor; eauto.
Qed.

(** A table that [applymap] has returned, whose cells the function
    returns unchanged, is returned unchanged. *)
Lemma applymap_again (P : pyval -> bool) f df df' :
  applymap f df = Ok df' ->
  all_cells P df' ->
  (forall y, P y = true -> f y = Ok y) ->
  applymap f df' = Ok df'.
Proof.
  intros H Hcells Hfix. destruct (applymap_inferred _ _ _ H) as [_ Hinf].
  unfold applymap, all_cells in *.
  assert (Hcols : mapM (fun cs => s' <- series_map f (snd cs) ;; Ok (fst cs, s'))
                       (series df') = Ok (series df')).
  { apply mapM_fixed. rewrite Forall_forall in *. intros [c t] Hin. cbn [fst snd].
    unfold series_map. rewrite mapM_fixed.
    - cbn [rbind]. destruct (Hinf _ Hin) as (s' & _ & Ht). cbn [snd] in Ht.
      rewrite Ht, infer_dtype_idem. reflexivity.
    - pose proof (Hcells _ Hin) as Hc. cbn [snd] in Hc.
      revert Hc. apply Forall_impl. exact Hfix. }
  rewrite Hcols. cbn [rbind]. destruct df'; reflexivity.
Qed.

Lemma to_votes_int z : as_votes (PyInt z) = Ok (PyInt z).
Proof.
  unfold to_votes, _extract_votes. cbn [str].
  rewrite int_of_str_of_int. reflexivity.
Qed.

Lemma to_votes_nan : as_votes PyNaN = Ok PyNaN.
Proof. reflexivity. Qed.

(** A number stored as a float prints with a decimal point, which the
    vote parser rejects. *)
Lemma to_votes_float z : as_votes (PyFloat z) = Raise ValueError.
Proof.
  unfold to_votes, _extract_votes. cbn [str append].
  rewrite (int_of_str_foreign "." _ dot_foreign (lacks_sep_app _ _ _)).
  cbn [rbind rcatch exn_eqb].
  assert (Hm : is_missing_token (str_of_int z ++ String "." "0") = false).
  { destruct (is_missing_token _) eqn:E; auto.
    apply (missing_token_lacks ".") in E; try reflexivity.
    rewrite lacks_sep_app in E. discriminate. }
  rewrite Hm.
  assert (Hc : lacks "," (str_of_int z ++ String "." "0") = true).
  { rewrite lacks_app, int_lacks_comma. reflexivity. }
  rewrite (contains_char ","), Hc. cbn [negb]. rewrite andb_false_r.
  rewrite (split_lacks "," _ Hc).
  change (getitem [str_of_int z ++ String "." "0"] (-1))
    with (@Ok string (str_of_int z ++ String "." "0")).
  cbn [rbind]. rewrite (int_of_str_foreign "." _ dot_foreign (lacks_sep_app _ _ _)).
  reflexivity.
Qed.

Lemma to_votes_fixed y : int_or_nan y = true -> as_votes y = Ok y.
Proof.
  destruct y; simpl; try discriminate; intros _;
    [apply to_votes_nan | apply to_votes_int].
Qed.

End ElectionNormalizer.

Section ElectionNormalizerAgain.

Variable str_of_float : Z -> Z -> string.
Variable str_of_Timestamp : Timestamp -> string.

Local Abbreviation as_votes := (to_votes str_of_float str_of_Timestamp).

Lemma mapM_raise {A B} (f : A -> result B) (l : list A) e :
  Forall (fun x => (exists y, f x = Ok y) \/ f x = Raise e) l ->
  Exists (fun x => f x = Raise e) l ->
  mapM f l = Raise e.
Proof.
  induction 1 as [|x l Hx _ IH]; intros Hex; [inversion Hex|].
  simpl. destruct Hx as [[y Hy]|Hr].
  - rewrite Hy. cbn [rbind]. rewrite IH; [reflexivity|].
    inversion Hex; subst; [congruence | assumption].
  - rewrite Hr. reflexivity.
Qed.

Lemma extract_votes_result s y : _extract_votes (PyStr s) = Ok y -> int_or_nan y = true.
Proof.
  unfold _extract_votes. unfold int_of_str.
  destruct (match strip s with
            | EmptyString => None
            | String c r =>
                if Ascii.eqb c "-" then option_map Z.opp (parse_digits 0 r)
                else if Ascii.eqb c "+" then parse_digits 0 r
                else parse_digits 0 (strip s)
            end) as [z|]; cbn [rbind rcatch exn_eqb].
  - intros H; inversion H; reflexivity.
  - destruct (is_missing_token s); [intros H; inversion H; reflexivity|].
    destruct (contains "." s && contains "," s); intros H.
    + apply rbind_ok in H as (u & _ & H). apply rbind_ok in H as (t & _ & H).
      apply rbind_ok in H as (m & _ & H). inversion H; reflexivity.
    + apply rbind_ok in H as (u & _ & H). apply rbind_ok in H as (t & _ & H).
      apply rbind_ok in H as (m & _ & H). inversion H; reflexivity.
Qed.

Lemma to_votes_result x y : as_votes x = Ok y -> int_or_nan y = true.
Proof. apply extract_votes_result. Qed.

Lemma to_votes_on_votes v :
  is_votes v = true -> (exists y, as_votes v = Ok y) \/ as_votes v = Raise ValueError.
Proof.
  destruct v; simpl; try discriminate; intros _.
  - left. exists PyNaN. apply to_votes_nan.
  - left. exists (PyInt z). apply to_votes_int.
  - right. apply to_votes_float.
Qed.

(** The cells of a converted election table are integers, as ints or as
    floats, and NaN. *)
Lemma applymap_to_votes_cells df df' :
  applymap as_votes df = Ok df' -> all_cells is_votes df'.
Proof.
  intros H. destruct (applymap_inferred _ _ _ H) as [_ Hinf].
  unfold all_cells. revert Hinf. apply Forall_impl.
  intros [c t] (s' & Hs' & Ht). cbn [snd] in *. subst t.
  apply Forall_forall. intros v Hv.
  rewrite Forall_forall in Hs'.
  apply in_infer_dtype in Hv as [Hv|[(z & -> & _)|[-> _]]]; [|reflexivity|reflexivity].
  destruct (Hs' v Hv) as [x Hx]. apply to_votes_result in Hx.
  destruct v; simpl in *; try discriminate; reflexivity.
Qed.

(** Converting a table of votes in which a number is stored as a float
    raises [ValueError]. *)
Lemma applymap_to_votes_float df :
  all_cells is_votes df ->
  Exists (fun cs => Exists (fun v => exists z, v = PyFloat z) (snd cs)) (series df) ->
  applymap as_votes df = Raise ValueError.
Proof.
  unfold all_cells, applymap. intros Hcells Hex.
  rewrite (mapM_raise _ _ ValueError); [reflexivity | |].
  - revert Hcells. apply Forall_impl. intros [c s] Hs. cbn [fst snd] in *.
    unfold series_map.
    destruct (mapM as_votes s) as [s'|e] eqn:Es; cbn [rbind]; [left; eauto|].
    right. f_equal.
    clear - Hs Es. revert Es. induction Hs as [|v s Hv _ IH]; [discriminate|].
    simpl. destruct (to_votes_on_votes v Hv) as [[y Hy]|Hr].
    + rewrite Hy. cbn [rbind]. destruct (mapM as_votes s) as [ys|e']; [discriminate|].
      cbn [rbind]. intros H; inversion H; subst. apply IH. reflexivity.
    + rewrite Hr. cbn [rbind]. intros H; inversion H; reflexivity.
  - rewrite Forall_forall in Hcells. apply Exists_exists in Hex as ([c s] & Hin & Hs).
    apply Exists_exists. exists (c, s). split; [exact Hin|]. cbn [fst snd] in *.
    unfold series_map. rewrite (mapM_raise _ _ ValueError); [reflexivity | |].
    + pose proof (Hcells _ Hin) as Hc. cbn [snd] in Hc. revert Hc.
      apply Forall_impl. apply to_votes_on_votes.
    + revert Hs. apply Exists_impl. intros v [z ->]. apply to_votes_float.
Qed.

End ElectionNormalizerAgain.

Section Idempotence.

Variable str_of_float : Z -> Z -> string.
Variable str_of_Timestamp : Timestamp -> string.
Variable Timestamp_of : pyval -> result Timestamp.

(** C7 (as amended).  [convert_presidents_data] returns unchanged every
    table it has returned.  [convert_elections_data] returns unchanged a
    table it has returned when the numbers of that table are stored as
    integers; when a column of it holds a number next to a missing value,
    pandas has stored the number as a float, whose text has a decimal
    point, and converting the table again raises [ValueError]. *)
Theorem type_normalizer_again :
  (forall presidents_data presidents_data',
      convert_presidents_data str_of_float str_of_Timestamp Timestamp_of presidents_data
      = Ok presidents_data' ->
      convert_presidents_data str_of_float str_of_Timestamp Timestamp_of presidents_data'
      = Ok presidents_data')
  /\ (forall elections_data elections_data',
         convert_elections_data str_of_float str_of_Timestamp elections_data
         = Ok elections_data' ->
         all_cells int_or_nan elections_data' ->
         convert_elections_data str_of_float str_of_Timestamp elections_data'
         = Ok elections_data')
  /\ (forall elections_data elections_data',
         convert_elections_data str_of_float str_of_Timestamp elections_data
         = Ok elections_data' ->
         Exists (fun cs => Exists (fun v => exists z, v = PyFloat z) (snd cs))
                (series elections_data') ->
         convert_elections_data str_of_float str_of_Timestamp elections_data'
         = Raise ValueError).
Proof.
  split; [|split].
  - intros presidents_data presidents_data' H.
    rewrite convert_presidents_data_steps in *.
    apply (run_steps_again _ presidents_data); auto.
    + apply presidents_steps_distinct.
    + apply presidents_steps_fix.
  - intros elections_data elections_data' H Hcells.
    rewrite convert_elections_data_one in *.
    apply (applymap_again int_or_nan _ elections_data); auto.
    apply to_votes_fixed.
  - intros elections_data elections_data' H Hex.
    rewrite convert_elections_data_one in *.
    apply applymap_to_votes_float; [|exact Hex].
    apply (applymap_to_votes_cells str_of_float str_of_Timestamp elections_data), H.
Qed.

End Idempotence.

Section IdempotenceExamples.

(** C7, witness: a scraped table of presidents and a scraped election
    table without missing cells convert, and convert again to
    themselves. *)
Lemma type_normalizer_again_witness :
  (exists presidents_data',
      convert_presidents_data sample_str_of_float sample_str_of_Timestamp
                              sample_Timestamp_of presidents_raw
      = Ok presidents_data'
      /\ convert_presidents_data sample_str_of_float sample_str_of_Timestamp
                                 sample_Timestamp_of presidents_data'
         = Ok presidents_data')
  /\ (exists elections_data',
         convert_elections_data sample_str_of_float sample_str_of_Timestamp
                                elections_raw_complete
         = Ok elections_data'
         /\ convert_elections_data sample_str_of_float sample_str_of_Timestamp
                                   elections_data'
            = Ok elections_data').
Proof.
  destruct (type_normalizer_again sample_str_of_float sample_str_of_Timestamp
                                  sample_Timestamp_of) as (Hpresidents & Helections & _).
  split.
  - destruct (convert_presidents_data sample_str_of_float sample_str_of_Timestamp
                                      sample_Timestamp_of presidents_raw)
      as [presidents_data'|e] eqn:E; [|vm_compute in E; discriminate].
    exists presidents_data'. split; [reflexivity|]. exact (Hpresidents _ _ E).
  - destruct (convert_elections_data sample_str_of_float sample_str_of_Timestamp
                                     elections_raw_complete)
      as [elections_data'|e] eqn:E; [|vm_compute in E; discriminate].
    exists elections_data'. split; [reflexivity|]. apply (Helections _ _ E).
    vm_compute in E. inversion E; subst elections_data'.
    unfold all_cells. simpl. repeat constructor.
Defined.

(** C7, counterexample: the scraped election table in which a candidate
    has no cell converts to a float column, 233.0 and NaN; converting that
    table again raises [ValueError] instead of returning it. *)
Lemma election_normalizer_not_idempotent :
  convert_elections_data sample_str_of_float sample_str_of_Timestamp elections_raw_missing
  = Ok elections_converted_missing
  /\ convert_elections_data sample_str_of_float sample_str_of_Timestamp
                            elections_converted_missing
     = Raise ValueError
  /\ convert_elections_data sample_str_of_float sample_str_of_Timestamp
                            elections_converted_missing
     <> Ok elections_converted_missing.
Proof.
  assert (H : convert_elections_data sample_str_of_float sample_str_of_Timestamp
                                     elections_converted_missing = Raise ValueError)
    by (vm_compute; reflexivity).
  split; [vm_compute; reflexivity|]. split; [exact H|]. rewrite H. discriminate.
Qed.

End IdempotenceExamples.

(* ===================================================================== *)
(** * The cell parsers at their edges *)
(* ===================================================================== *)

Section ParserEdges.

Lemma split_app_sep sep p q :
  split sep (p ++ String sep q) = (split sep p ++ split sep q)%list.
Proof.
  induction p as [|c r IH]; simpl.
  - rewrite Ascii.eqb_refl. reflexivity.
  - destruct (Ascii.eqb c sep); rewrite IH; [reflexivity|].
    destruct (split_cons sep r) as [x [xs E]]. rewrite E. reflexivity.
Qed.

Lemma split_length_sep sep s :
  lacks sep s = false -> (2 <= length (split sep s))%nat.
Proof.
  induction s as [|c r IH]; [discriminate|].
  rewrite lacks_cons. simpl. destruct (Ascii.eqb c sep); simpl.
  - intros _. destruct (split_cons sep r) as [x [xs E]]. rewrite E. simpl. lia.
  - intros H. specialize (IH H). destruct (split sep r); simpl in *; lia.
Qed.

Lemma getitem_m1_app {A} (l : list A) (a b : A) : getitem (l ++ [a; b])%list (-1) = Ok b.
Proof.
  change (l ++ [a; b])%list with (l ++ [a] ++ [b])%list. rewrite app_assoc.
  apply getitem_last.
Qed.

Lemma getitem_m2_app {A} (l : list A) (a b : A) : getitem (l ++ [a; b])%list (-2) = Ok a.
Proof.
  unfold getitem. rewrite length_app. simpl length.
  replace (-2 <? 0) with true by reflexivity.
  destruct (-2 + Z.of_nat (length l + 2) <? 0) eqn:E1; [apply Z.ltb_lt in E1; lia|].
  destruct (Z.of_nat (length l + 2) <=? -2 + Z.of_nat (length l + 2)) eqn:E2;
    [apply Z.leb_le in E2; lia|].
  cbn [orb]. replace (Z.to_nat (-2 + Z.of_nat (length l + 2))) with (length l) by lia.
  rewrite nth_error_app2 by lia. rewrite Nat.sub_diag. reflexivity.
Qed.

Lemma getitem_beyond {A} (l : list A) (i : Z) :
  Z.of_nat (length l) <= i -> getitem l i = Raise IndexError.
Proof.
  intros H. unfold getitem.
  destruct (i <? 0) eqn:E; [apply Z.ltb_lt in E; lia|].
  destruct (Z.of_nat (length l) <=? i) eqn:E2; [|apply Z.leb_gt in E2; lia].
  rewrite orb_true_r. reflexivity.
Qed.

Lemma int_of_str_raises s e : int_of_str s = Raise e -> e = ValueError.
Proof.
  unfold int_of_str.
  destruct (match strip s with
            | EmptyString => None
            | String c r =>
                if Ascii.eqb c "-" then option_map Z.opp (parse_digits 0 r)
                else if Ascii.eqb c "+" then parse_digits 0 r
                else parse_digits 0 (strip s)
            end); congruence.
Qed.

(** X1.  A salary text without a dollar amount, and one that mentions an
    expense account but holds a single dollar amount, are not parsed: the
    normalizer raises IndexError. *)
Theorem extract_salary_missing_amount :
  (forall s, lacks "$" s = true -> _extract_salary (PyStr s) = Raise IndexError)
  /\ (forall p rest base,
         lacks "$" p = true -> lacks "$" rest = true ->
         contains "expense" (p ++ "$" ++ str_of_int base ++ "," ++ rest) = true ->
         _extract_salary (PyStr (p ++ "$" ++ str_of_int base ++ "," ++ rest))
         = Raise IndexError).
Proof.
  split.
  - intros s Hs. unfold _extract_salary, dollar_amount.
    rewrite (split_lacks _ _ Hs). reflexivity.
  - intros p rest base Hp Hrest Hexp. unfold _extract_salary.
    rewrite Hexp. unfold dollar_amount. cbn [append].
    rewrite (split_app "$" p) by exact Hp.
    rewrite (split_lacks "$" (str_of_int base ++ String "," rest))
      by (apply lacks_piece, Hrest).
    rewrite getitem_1. cbn [rbind].
    rewrite (split_app "," (str_of_int base)) by apply int_lacks_comma.
    rewrite getitem_0. cbn [rbind]. rewrite int_of_str_of_int. reflexivity.
Qed.

(** X1, witness: a text without an amount, and a text with one amount
    and an expense account. *)
Lemma extract_salary_missing_amount_witness :
  _extract_salary (PyStr "no salary") = Raise IndexError
  /\ _extract_salary (PyStr "$25,000 and an expense account") = Raise IndexError.
Proof.
  split.
  - apply (proj1 extract_salary_missing_amount). reflexivity.
  - apply (proj2 extract_salary_missing_amount "" " and an expense account" 25);
      reflexivity.
Defined.

(** The piece after the first dollar sign starts with the amount up to
    its comma. *)
Lemma first_amount_piece p head tail :
  lacks "$" p = true -> lacks "$" head = true -> lacks "," head = true ->
  (piece <- getitem (split "$" (p ++ "$" ++ head ++ "," ++ tail)) 1 ;;
   getitem (split "," piece) 0) = Ok head.
Proof.
  intros Hp Hhead Hcomma. cbn [append].
  rewrite (split_app "$" p) by exact Hp.
  replace (head ++ String "," tail) with ((head ++ String "," EmptyString) ++ tail)
    by (symmetry; exact (append_piece head "," EmptyString tail)).
  destruct (split_prefix "$" (head ++ String "," EmptyString) tail) as [pre [ps E]].
  { rewrite lacks_app, Hhead. reflexivity. }
  rewrite E, getitem_1. cbn [rbind].
  rewrite <- (append_piece head "," EmptyString pre).
  rewrite (split_app "," head) by exact Hcomma.
  apply getitem_0.
Qed.

(** X2.  The salary the normalizer returns for a text is a whole number of
    thousands, because what follows the first comma of an amount is not
    read: on a text without the word "expense" whose first dollar sign is
    followed by a comma, the outcome is that of [int] on what stands
    between the two, times 1000, whatever follows the comma ("$99,500"
    counts as 99000). *)
Theorem extract_salary_thousands :
  (forall s v, _extract_salary (PyStr s) = Ok v -> exists k, v = PyInt (k * 1000))
  /\ (forall p head tail,
         lacks "$" p = true -> lacks "$" head = true -> lacks "," head = true ->
         contains "expense" (p ++ "$" ++ head ++ "," ++ tail) = false ->
         _extract_salary (PyStr (p ++ "$" ++ head ++ "," ++ tail))
         = (n <- int_of_str head ;; Ok (PyInt (n * 1000)))).
Proof.
  split.
  - intros s v H. unfold _extract_salary in H.
    assert (Hamount : forall i n, dollar_amount s i = Ok n -> exists k, n = k * 1000).
    { intros i n Hn. unfold dollar_amount in Hn.
      apply rbind_ok in Hn as [piece [_ Hn]].
      apply rbind_ok in Hn as [head [_ Hn]].
      apply rbind_ok in Hn as [k [_ Hn]].
      inversion Hn. eauto. }
    apply rbind_ok in H as [base [Hbase H]].
    apply rbind_ok in H as [expense [Hexpense H]].
    inversion H; subst v.
    destruct (Hamount _ _ Hbase) as [k1 ->].
    assert (He : exists k, expense = k * 1000).
    { destruct (contains "expense" s).
      - destruct (3 <? Z.of_nat (length (split "$" s))); eapply Hamount; eassumption.
      - inversion Hexpense. exists 0. reflexivity. }
    destruct He as [k2 ->]. exists (k1 + k2). f_equal. lia.
  - intros p head tail Hp Hhead Hcomma Hexp. unfold _extract_salary.
    rewrite Hexp. unfold dollar_amount.
    pose proof (first_amount_piece p head tail Hp Hhead Hcomma) as Hpiece.
    destruct (getitem (split "$" (p ++ "$" ++ head ++ "," ++ tail)) 1) as [piece|e];
      [|discriminate].
    cbn [rbind] in Hpiece |- *. rewrite Hpiece. cbn [rbind].
    destruct (int_of_str head) as [n|e]; [|reflexivity].
    cbn [rbind]. do 2 f_equal; lia.
Qed.

(** X2, witness: $99,500 is read as 99000, a multiple of 1000. *)
Lemma extract_salary_thousands_witness :
  _extract_salary (PyStr "a salary of $99,500 per year") = Ok (PyInt 99000)
  /\ exists k, PyInt 99000 = PyInt (k * 1000).
Proof.
  assert (H : _extract_salary (PyStr "a salary of $99,500 per year") = Ok (PyInt 99000)).
  { apply (proj2 extract_salary_thousands "a salary of " "99" "500 per year");
      reflexivity. }
  split; [exact H|].
  exact (proj1 extract_salary_thousands _ _ H).
Defined.

(** X3.  Of a cell with four or more comma-separated groups, only the last two
    are read: when [int] reads them as t and u the cell gives t * 1000 + u,
    and the groups in front of them, whatever they hold, do not count
    ("1,234,567,890" gives 567890, "1,000,000,000" gives 0). *)
Theorem extract_votes_leading_groups :
  forall p b c t u,
    lacks "." p = true -> lacks "," p = false ->
    int_of_str b = Ok t -> int_of_str c = Ok u ->
    _extract_votes (PyStr (p ++ "," ++ b ++ "," ++ c)) = Ok (PyInt (t * 1000 + u)).
Proof.
  intros p b c t u Hdot Hcomma Hb Hc.
  pose proof (int_accepts_lacks _ _ _ comma_foreign Hb) as Hbc.
  pose proof (int_accepts_lacks _ _ _ comma_foreign Hc) as Hcc.
  pose proof (int_accepts_lacks _ _ _ dot_foreign Hb) as Hbd.
  pose proof (int_accepts_lacks _ _ _ dot_foreign Hc) as Hcd.
  unfold _extract_votes. cbn [append].
  rewrite (int_of_str_foreign "," _ comma_foreign (lacks_sep_app _ _ _)).
  cbn [rbind rcatch exn_eqb]. rewrite not_missing_token.
  replace (contains "." (p ++ String "," (b ++ String "," c))) with false.
  2:{ symmetry. rewrite contains_char, lacks_app, lacks_cons, lacks_app, lacks_cons.
      rewrite Hdot, Hbd, Hcd. reflexivity. }
  cbn [andb].
  rewrite split_app_sep.
  rewrite (split_app "," b) by exact Hbc.
  rewrite (split_lacks "," c) by exact Hcc.
  rewrite getitem_m1_app, getitem_m2_app. cbn [rbind].
  rewrite Hb, Hc. cbn [rbind].
  pose proof (split_length_sep "," p Hcomma) as Hlen.
  rewrite length_app. simpl length.
  destruct (Z.of_nat (length (split "," p) + 2) =? 3) eqn:E;
    [apply Z.eqb_eq in E; lia|].
  cbn [rbind]. reflexivity.
Qed.

(** X3, witness: four groups, and four groups written with zeros. *)
Lemma extract_votes_leading_groups_witness :
  _extract_votes (PyStr "1,234,567,890") = Ok (PyInt (567 * 1000 + 890))
  /\ _extract_votes (PyStr "1,000,000,000") = Ok (PyInt (0 * 1000 + 0)).
Proof.
  split.
  - apply (extract_votes_leading_groups "1,234" "567" "890"); reflexivity.
  - apply (extract_votes_leading_groups "1,000" "000" "000"); reflexivity.
Defined.

(** X4.  On a cell without a comma the vote normalizer returns the integer
    when [int] accepts the cell, NaN when the cell is "None", "nan" or
    empty, and raises ValueError on every other cell: the groups a comma
    would separate are not looked for, and no index is out of range. *)
Theorem extract_votes_without_comma :
  forall s,
    lacks "," s = true ->
    _extract_votes (PyStr s)
    = match int_of_str s with
      | Ok z => Ok (PyInt z)
      | Raise _ => if is_missing_token s then Ok PyNaN else Raise ValueError
      end.
Proof.
  intros s Hs. unfold _extract_votes.
  destruct (int_of_str s) as [z|e] eqn:E; [reflexivity|].
  apply int_of_str_raises in E as E'. subst e.
  cbn [rbind rcatch exn_eqb].
  destruct (is_missing_token s); [reflexivity|].
  rewrite (contains_char "," s), Hs, andb_false_r. cbn [negb].
  rewrite (split_lacks _ _ Hs).
  change (getitem [s] (-1)) with (Ok s). cbn [rbind].
  rewrite E. reflexivity.
Qed.

(** X4, witness: a cell of letters. *)
Lemma extract_votes_without_comma_witness :
  _extract_votes (PyStr "unknown") = Raise ValueError.
Proof.
  apply (extract_votes_without_comma "unknown"). reflexivity.
Defined.

End ParserEdges.

(* ===================================================================== *)
(** * The scrapers at their edges *)
(* ===================================================================== *)

Section ListingSurplus.

Lemma combine_surplus_r {A B} (l : list A) (l' e : list B) :
  (length l <= length l')%nat -> combine l (l' ++ e)%list = combine l l'.
Proof.
  revert l'; induction l as [|a l IH]; intros [|b l'] H; simpl in *;
    try reflexivity; try lia.
  rewrite IH by lia. reflexivity.
Qed.

Lemma combine_surplus_l {A B} (l e : list A) (l' : list B) :
  (length l' <= length l)%nat -> combine (l ++ e)%list l' = combine l l'.
Proof.
  revert l'; induction l as [|a l IH]; intros [|b l'] H; simpl in *;
    try reflexivity; try lia.
  - destruct e; reflexivity.
  - rewrite IH by lia. reflexivity.
Qed.

(** [correct_subdirectories], with the loop of assertions run apart. *)
Lemma correct_subdirectories_run miller_scrape self reference raw :
  MillerScraper.subdirectories miller_scrape = Some reference ->
  PotusScraper.subdirectories self = Some raw ->
  PotusScraper.correct_subdirectories miller_scrape self
  = match assert_surnames (zip (keys reference) (keys raw)) self with
    | (Ok _, _) =>
        (Ok tt, PotusScraper.set_subdirectories
                  (dict_of (zip (keys reference) (values raw))) self)
    | (Raise e, _) => (Raise e, self)
    end.
Proof.
  intros Hm Hp.
  unfold PotusScraper.correct_subdirectories, mbind, mget, lift, mput.
  rewrite Hm, Hp. cbn [deref rbind]. unfold assert_surnames, mbind, lift.
  destruct (surnames_decide (zip (keys reference) (keys raw))) as [Hall|Hex].
  - pose proof (assert_surnames_ok _ self Hall) as Hok.
    unfold assert_surnames, mbind, lift in Hok. rewrite Hok. reflexivity.
  - pose proof (assert_surnames_raise _ self Hex) as Hr.
    unfold assert_surnames, mbind, lift in Hr. rewrite Hr. reflexivity.
Qed.

Lemma assert_surnames_state pairs self self' :
  snd (assert_surnames pairs self) = self
  /\ fst (assert_surnames pairs self') = fst (assert_surnames pairs self).
Proof.
  destruct (surnames_decide pairs) as [Hall|Hex].
  - rewrite !(assert_surnames_ok _ _ Hall). auto.
  - rewrite !(assert_surnames_raise _ _ Hex). auto.
Qed.

(** X5.  [correct_subdirectories] does not compare the sizes of the two
    listings.  Names that Source A lists beyond the entries of Source B
    change nothing; entries that Source B lists beyond the names of Source
    A are dropped from the renamed listing, and the call ends as it does
    without them. *)
Theorem correct_subdirectories_surplus :
  forall (miller_scrape : MillerScraper.t) (self : PotusScraper.t)
         (reference raw surplus : odict string),
    length raw = length reference ->
    let miller := MillerScraper.set_subdirectories reference miller_scrape in
    let potus := PotusScraper.set_subdirectories raw self in
    PotusScraper.correct_subdirectories
      (MillerScraper.set_subdirectories (reference ++ surplus)%list miller_scrape) potus
    = PotusScraper.correct_subdirectories miller potus
    /\ match PotusScraper.correct_subdirectories miller potus with
       | (Ok _, self') =>
           PotusScraper.correct_subdirectories miller
             (PotusScraper.set_subdirectories (raw ++ surplus)%list self)
           = (Ok tt, self')
       | (Raise e, _) =>
           PotusScraper.correct_subdirectories miller
             (PotusScraper.set_subdirectories (raw ++ surplus)%list self)
           = (Raise e, PotusScraper.set_subdirectories (raw ++ surplus)%list self)
       end.
Proof.
  intros miller_scrape self reference raw surplus Hlen miller potus.
  assert (Hk : length (keys raw) = length (keys reference)).
  { unfold keys. rewrite !length_map. exact Hlen. }
  assert (Hv : length (values raw) = length (keys reference)).
  { unfold keys, values. rewrite !length_map. exact Hlen. }
  assert (Hz1 : forall B (l : list B),
             length l = length (keys reference) ->
             zip (keys (reference ++ surplus)%list) l = zip (keys reference) l).
  { intros B l Hl. unfold keys, zip. rewrite map_app. apply combine_surplus_l.
    unfold keys in Hl. lia. }
  assert (Hz2 : zip (keys reference) (keys (raw ++ surplus)%list)
                = zip (keys reference) (keys raw)).
  { unfold keys, zip. rewrite (map_app fst raw). apply combine_surplus_r.
    unfold keys in Hk. lia. }
  assert (Hz3 : zip (keys reference) (values (raw ++ surplus)%list)
                = zip (keys reference) (values raw)).
  { unfold keys, values, zip. rewrite (map_app snd raw). apply combine_surplus_r.
    unfold keys, values in Hv. lia. }
  split.
  - rewrite (correct_subdirectories_run
               (MillerScraper.set_subdirectories (reference ++ surplus)%list miller_scrape)
               potus (reference ++ surplus)%list raw eq_refl eq_refl).
    rewrite (correct_subdirectories_run miller potus reference raw eq_refl eq_refl).
    rewrite !Hz1 by assumption. reflexivity.
  - rewrite (correct_subdirectories_run miller potus reference raw eq_refl eq_refl).
    rewrite (correct_subdirectories_run miller
               (PotusScraper.set_subdirectories (raw ++ surplus)%list self)
               reference (raw ++ surplus)%list eq_refl eq_refl).
    rewrite Hz2, Hz3.
    destruct (assert_surnames_state (zip (keys reference) (keys raw)) potus
                (PotusScraper.set_subdirectories (raw ++ surplus)%list self)) as [_ Hfst].
    destruct (assert_surnames _ potus) as [[u|e] s];
      destruct (assert_surnames _ (PotusScraper.set_subdirectories (raw ++ surplus)%list self))
        as [[u'|e'] s']; simpl in Hfst; try discriminate.
    + reflexivity.
    + inversion Hfst. reflexivity.
Qed.

End ListingSurplus.

Section ListingSurplusExamples.

(** X5, witness: a third entry of Source B is dropped. *)
Lemma correct_subdirectories_surplus_witness :
  PotusScraper.correct_subdirectories miller_listed
    (PotusScraper.set_subdirectories
       (potus_listing ++ [("Jefferson", "thomas-jefferson/")])%list potus_listed)
  = (Ok tt, PotusScraper.set_subdirectories
              [("George Washington", "george-washington/");
               ("John Adams", "john-adams/")] potus_listed).
Proof.
  pose proof (correct_subdirectories_surplus miller_listed potus_listed
                miller_listing potus_listing [("Jefferson", "thomas-jefferson/")]
                eq_refl) as H.
  exact (proj2 H).
Defined.

End ListingSurplusExamples.

Section ElectionRows.

Lemma set_electee_run year electee_name entry election_results of_year :
  dget year election_results = Some of_year ->
  PotusScraper.set_electee year electee_name entry election_results
  = (Ok tt, dset year (dset electee_name entry of_year) election_results).
Proof.
  intros Hy. unfold PotusScraper.set_electee.
  erewrite (mbind_run mget) by reflexivity.
  erewrite (mbind_run (lift _)) by (unfold lift, ditem; rewrite Hy; reflexivity).
  reflexivity.
Qed.

Lemma set_votes_run year electee_name label votes election_results of_year entry :
  dget year election_results = Some of_year ->
  dget electee_name of_year = Some entry ->
  PotusScraper.set_votes year electee_name label votes election_results
  = (Ok tt, dset year (dset electee_name (dset label votes entry) of_year)
                 election_results).
Proof.
  intros Hy He. unfold PotusScraper.set_votes.
  erewrite (mbind_run mget) by reflexivity.
  erewrite (mbind_run (lift _)) by (unfold lift, ditem; rewrite Hy; reflexivity).
  erewrite (mbind_run (lift _)) by (unfold lift, ditem; rewrite He; reflexivity).
  reflexivity.
Qed.

(** The cells of a row, as the [try] block reads them. *)
Lemma votes_cells_raise presidential_elections electee :
  find "td" (has_class "column-3") electee = None ->
  (header <- deref (find "tr" any_class presidential_elections) ;;
   if Z.of_nat (length (find_all "th" header)) =? 3 then
     electoral_votes <- PotusScraper.cell_text "column-3" electee ;;
     Ok (PyNone, PyStr electoral_votes)
   else
     popular_votes <- PotusScraper.cell_text "column-3" electee ;;
     electoral_votes <- PotusScraper.cell_text "column-4" electee ;;
     Ok (PyStr popular_votes, PyStr electoral_votes))
  = Raise AttributeError.
Proof.
  intros H3. destruct (find "tr" any_class presidential_elections) as [header|];
    [|reflexivity].
  cbn [deref rbind]. unfold PotusScraper.cell_text. rewrite H3.
  destruct (Z.of_nat (length (find_all "th" header)) =? 3); reflexivity.
Qed.

(** X6.  A row with a candidate's name and no votes cell does not stop the
    scrape, and is not skipped whole either: the exception is caught after
    the candidate has been entered, so the candidate stays in the results
    of the year with an empty entry. *)
Theorem read_electee_without_votes :
  forall (presidential_elections electee td a : Node) (year : string)
         (election_results : PotusScraper.results) (of_year : odict (odict pyval)),
    find "td" (has_class "column-2") electee = Some td ->
    find "a" any_class td = Some a ->
    find "td" (has_class "column-3") electee = None ->
    dget year election_results = Some of_year ->
    PotusScraper.read_electee presidential_elections year electee election_results
    = (Ok tt, dset year (dset (text a) [] of_year) election_results).
Proof.
  intros pe electee td a year election_results of_year Htd Ha H3 Hy.
  unfold PotusScraper.read_electee, mcatch.
  erewrite (mbind_run (lift _)).
  2:{ unfold lift. rewrite Htd. cbn [deref rbind]. rewrite Ha. reflexivity. }
  erewrite (mbind_run (PotusScraper.set_electee _ _ _))
    by (apply set_electee_run, Hy).
  erewrite (mbind_raise (lift _)).
  2:{ unfold lift. rewrite (votes_cells_raise pe electee H3). reflexivity. }
  reflexivity.
Qed.

(** A row is read without an exception when the year has its entry. *)
Lemma read_electee_returns presidential_elections year electee election_results of_year :
  dget year election_results = Some of_year ->
  exists election_results' of_year',
    PotusScraper.read_electee presidential_elections year electee election_results
    = (Ok tt, election_results')
    /\ dget year election_results' = Some of_year'.
Proof.
  intros Hy. unfold PotusScraper.read_electee, mcatch.
  destruct (find "td" (has_class "column-2") electee) as [td|] eqn:Htd.
  2:{ erewrite (mbind_raise (lift _))
        by (unfold lift; reflexivity).
      cbn [exn_eqb]. unfold mret. eauto. }
  destruct (find "a" any_class td) as [a|] eqn:Ha.
  2:{ erewrite (mbind_raise (lift _))
        by (unfold lift; cbn [deref rbind]; rewrite Ha; reflexivity).
      cbn [exn_eqb]. unfold mret. eauto. }
  erewrite (mbind_run (lift _)).
  2:{ unfold lift. cbn [deref rbind]. rewrite Ha. reflexivity. }
  erewrite (mbind_run (PotusScraper.set_electee _ _ _))
    by (apply set_electee_run, Hy).
  set (r1 := dset year (dset (text a) [] of_year) election_results).
  assert (Hy1 : dget year r1 = Some (dset (text a) [] of_year))
    by apply dget_dset_eq.
  destruct (header <- deref (find "tr" any_class presidential_elections) ;;
            if Z.of_nat (length (find_all "th" header)) =? 3 then
              electoral_votes <- PotusScraper.cell_text "column-3" electee ;;
              Ok (PyNone, PyStr electoral_votes)
            else
              popular_votes <- PotusScraper.cell_text "column-3" electee ;;
              electoral_votes <- PotusScraper.cell_text "column-4" electee ;;
              Ok (PyStr popular_votes, PyStr electoral_votes)) as [votes|e] eqn:Ev.
  - erewrite (mbind_run (lift _)) by (unfold lift; reflexivity).
    erewrite (mbind_run (PotusScraper.set_votes _ _ _ _)).
    2:{ eapply set_votes_run; [exact Hy1 | apply dget_dset_eq]. }
    erewrite set_votes_run; [| apply dget_dset_eq | apply dget_dset_eq].
    do 2 eexists. split; [reflexivity | apply dget_dset_eq].
  - assert (He : e = AttributeError).
    { destruct (find "tr" any_class presidential_elections) as [header|];
        [|inversion Ev; reflexivity].
      cbn [deref rbind] in Ev. unfold PotusScraper.cell_text in Ev.
      destruct (Z.of_nat (length (find_all "th" header)) =? 3).
      - destruct (find "td" (has_class "column-3") electee);
          [discriminate | inversion Ev; reflexivity].
      - destruct (find "td" (has_class "column-3") electee);
          [|inversion Ev; reflexivity].
        destruct (find "td" (has_class "column-4") electee);
          [discriminate | inversion Ev; reflexivity]. }
    subst e.
    erewrite (mbind_raise (lift _)) by (unfold lift; reflexivity).
    cbn [exn_eqb]. unfold mret. eauto.
Qed.

Lemma read_rows_return presidential_elections year rows :
  forall election_results of_year,
    dget year election_results = Some of_year ->
    exists election_results',
      forM_ rows (PotusScraper.read_electee presidential_elections year) election_results
      = (Ok tt, election_results').
Proof.
  induction rows as [|electee rows IH]; intros r of_year Hy.
  - exists r. reflexivity.
  - destruct (read_electee_returns presidential_elections year electee r of_year Hy)
      as (r1 & of_year1 & Hrun & Hy1).
    destruct (IH r1 of_year1 Hy1) as [r2 Hrest].
    exists r2. cbn [forM_]. erewrite mbind_run by exact Hrun. exact Hrest.
Qed.

Lemma forM_returns_or_lacks {S A} (l : list A) (body : A -> M S unit) :
  (forall a, returns_or_lacks (body a)) -> returns_or_lacks (forM_ l body).
Proof.
  intros Hbody. induction l as [|a l IH]; intros s.
  - left. exists s. reflexivity.
  - cbn [forM_]. destruct (Hbody a s) as [[s1 H1]|[s1 H1]].
    + erewrite mbind_run by exact H1. apply IH.
    + right. exists s1. apply mbind_raise, H1.
Qed.

Lemma table_year_raises table e :
  PotusScraper.table_year table = Raise e -> e = AttributeError.
Proof.
  unfold PotusScraper.table_year.
  destruct (find "tr" _ table) as [row|]; cbn [deref rbind];
    [|intros H; inversion H; reflexivity].
  destruct (find "a" any_class row); cbn [deref rbind];
    [discriminate | intros H; inversion H; reflexivity].
Qed.

Lemma read_table_returns_or_lacks presidential_elections table :
  returns_or_lacks (PotusScraper.read_table presidential_elections table).
Proof.
  intros r. destruct (PotusScraper.table_year table) as [year|e] eqn:Ey.
  - left. rewrite (read_table_year _ _ _ _ Ey).
    apply (read_rows_return _ _ _ _ []). apply dget_dset_eq.
  - right. apply table_year_raises in Ey as He. subst e.
    rewrite (read_table_raise _ _ _ _ Ey). eauto.
Qed.

Lemma elections_section_raises soup e :
  PotusScraper.elections_section soup = Raise e -> e = AttributeError.
Proof.
  unfold PotusScraper.elections_section.
  destruct (find_string _ soup) as [title|]; cbn [deref rbind];
    [|intros H; inversion H; reflexivity].
  destruct (find_parent "div" title); cbn [deref];
    [discriminate | intros H; inversion H; reflexivity].
Qed.

Lemma read_page_returns_or_lacks soup :
  returns_or_lacks (PotusScraper.read_page soup).
Proof.
  intros r. unfold PotusScraper.read_page.
  destruct (PotusScraper.elections_section soup) as [section|e] eqn:Es.
  - erewrite (mbind_run (lift _)) by (unfold lift; reflexivity).
    apply forM_returns_or_lacks. intros table. apply read_table_returns_or_lacks.
  - apply elections_section_raises in Es as He. subst e.
    right. exists r. apply mbind_raise. unfold lift. reflexivity.
Qed.

Lemma forM_ok_each {S A} (l : list A) (body : A -> M S unit) :
  forall s s', forM_ l body s = (Ok tt, s') ->
  forall a, In a l -> exists s1 s2, body a s1 = (Ok tt, s2).
Proof.
  induction l as [|x l IH]; intros s s' H a Hin; [destruct Hin|].
  apply forM_cons_ok in H as (s1 & Hx & Hrest).
  destruct Hin as [->|Hin]; [eauto|].
  eapply IH; eassumption.
Qed.

(** X7.  [get_election_results] raises no exception but AttributeError, which
    stands for an element the scrape did not find; a candidate's row never
    fails on a missing key.  When it raises, the scraper is left as it
    was.  It raises in particular when the page of some entity lacks the
    heading of the election results. *)
Theorem election_results_errors :
  forall (get_soup : string -> Node) (self : PotusScraper.t),
    ((exists election_results,
         PotusScraper.get_election_results get_soup self
         = (Ok tt, PotusScraper.set_election_results election_results self))
     \/ PotusScraper.get_election_results get_soup self = (Raise AttributeError, self))
    /\ (forall items president subdirectory,
           PotusScraper.subdirectories self = Some items ->
           In (president, subdirectory) items ->
           find_string "Presidential Election Results:"
                       (get_soup (PotusScraper.origin self ++ subdirectory)) = None ->
           PotusScraper.get_election_results get_soup self = (Raise AttributeError, self)).
Proof.
  intros get_soup self.
  assert (Hrun : forall items,
             PotusScraper.subdirectories self = Some items ->
             PotusScraper.get_election_results get_soup self
             = match forM_ (map (fun item => get_soup (PotusScraper.origin self ++ snd item))
                                items) PotusScraper.read_page [] with
               | (Ok _, election_results) =>
                   (Ok tt, PotusScraper.set_election_results election_results self)
               | (Raise e, _) => (Raise e, self)
               end).
  { intros items Hitems. unfold PotusScraper.get_election_results.
    erewrite (mbind_run mget) by reflexivity.
    erewrite (mbind_run (lift _))
      by (unfold lift, PotusScraper.pages; rewrite Hitems; reflexivity).
    unfold mbind, lift, mput.
    destruct (forM_ _ PotusScraper.read_page []) as [[u|e] r]; reflexivity. }
  split.
  - destruct (PotusScraper.subdirectories self) as [items|] eqn:Hitems.
    + rewrite (Hrun items eq_refl).
      destruct (forM_returns_or_lacks
                  (map (fun item => get_soup (PotusScraper.origin self ++ snd item)) items)
                  PotusScraper.read_page read_page_returns_or_lacks [])
        as [[r H]|[r H]]; rewrite H; eauto.
    + right. unfold PotusScraper.get_election_results.
      erewrite (mbind_run mget) by reflexivity.
      apply mbind_raise. unfold lift, PotusScraper.pages. rewrite Hitems. reflexivity.
  - intros items president subdirectory Hitems Hin Hnone.
    rewrite (Hrun items Hitems).
    destruct (forM_returns_or_lacks
                (map (fun item => get_soup (PotusScraper.origin self ++ snd item)) items)
                PotusScraper.read_page read_page_returns_or_lacks [])
      as [[r H]|[r H]]; rewrite H; [|reflexivity].
    exfalso.
    destruct (forM_ok_each _ _ _ _ H (get_soup (PotusScraper.origin self ++ subdirectory)))
      as (s1 & s2 & Hpage).
    { apply in_map_iff. exists (president, subdirectory). auto. }
    unfold PotusScraper.read_page in Hpage.
    erewrite (mbind_raise (lift _)) in Hpage.
    2:{ unfold lift, PotusScraper.elections_section. rewrite Hnone. reflexivity. }
    discriminate.
Qed.

End ElectionRows.

Section ElectionRowsExamples.

(** X6, witness: the second row of a table, stripped of its votes. *)
Lemma read_electee_without_votes_witness :
  PotusScraper.read_electee (election_page [table_1884]) "1884"
    (Tag "tr" ["row-3"] [] [linked_cell "column-2" "James G. Blaine"])
    [("1884", [])]
  = (Ok tt, [("1884", [("James G. Blaine", [])])]).
Proof.
  apply (read_electee_without_votes (election_page [table_1884])
           (Tag "tr" ["row-3"] [] [linked_cell "column-2" "James G. Blaine"])
           (linked_cell "column-2" "James G. Blaine")
           (Tag "a" [] [("href", "#")] [NavigableString "James G. Blaine"])
           "1884" [("1884", [])] []); reflexivity.
Defined.

(** X7, witness: pages without the heading. *)
Lemma election_results_errors_witness :
  PotusScraper.get_election_results sample_soup potus_listed
  = (Raise AttributeError, potus_listed).
Proof.
  apply (proj2 (election_results_errors sample_soup potus_listed)
           potus_listing "Washington" "george-washington/").
  - reflexivity.
  - left. reflexivity.
  - reflexivity.
Defined.

End ElectionRowsExamples.

(* ===================================================================== *)
(** * The scrapes of Source A *)
(* ===================================================================== *)

Section Gathering.

Context {A V : Type}.

Lemma fold_raise {B} (step : result B -> A -> result B) (l : list A) e :
  (forall a, step (Raise e) a = Raise e) ->
  fold_left step l (Raise e) = Raise e.
Proof.
  intros Hstep. induction l as [|a l IH]; [reflexivity|].
  simpl. rewrite Hstep. exact IH.
Qed.

(** A loop that stores what it reads under a key of each element gathers
    the dict of the keys and the values read, and stops at the first
    element that cannot be read. *)
Lemma gather_spec (key : A -> string) (read : A -> result V) (l : list A) (d : odict V) :
  fold_left (fun acc a => gathered <- acc ;; v <- read a ;; Ok (dset (key a) v gathered))
            l (Ok d)
  = (vs <- mapM read l ;; Ok (dupdate d (zip (map key l) vs))).
Proof.
  revert d; induction l as [|a l IH]; intros d; [reflexivity|].
  cbn [fold_left mapM map rbind]. destruct (read a) as [v|e].
  - cbn [rbind]. rewrite IH. destruct (mapM read l) as [vs|e]; reflexivity.
  - cbn [rbind]. apply fold_raise. reflexivity.
Qed.

Lemma mapM_raises (read : A -> result V) (l : list A) e0 :
  Forall (fun a => forall e, read a = Raise e -> e = e0) l ->
  forall e, mapM read l = Raise e -> e = e0.
Proof.
  induction 1 as [|a l Ha _ IH]; intros e; simpl; [discriminate|].
  destruct (read a) as [v|e'] eqn:E; cbn [rbind].
  - destruct (mapM read l) as [vs|e'']; cbn [rbind]; [discriminate|].
    intros H'; inversion H'; subst. apply IH. reflexivity.
  - intros H'; inversion H'; subst. apply Ha. reflexivity.
Qed.

Lemma mapM_raise_at (read : A -> result V) (l : list A) a e :
  In a l -> read a = Raise e -> exists e', mapM read l = Raise e'.
Proof.
  induction l as [|x l IH]; intros Hin Ha; [destruct Hin|].
  simpl. destruct (read x) as [v|e'] eqn:E; cbn [rbind]; [|eauto].
  destruct Hin as [->|Hin]; [congruence|].
  destruct (IH Hin Ha) as [e'' ->]. cbn [rbind]. eauto.
Qed.

End Gathering.

(** Rewriting a loop of the goal with [gather_spec]. *)
Ltac gathered key read :=
  match goal with
  | |- context [fold_left ?f ?l (Ok ?d)] =>
      replace (fold_left f l (Ok d))
        with (vs <- mapM read l ;; Ok (dupdate d (zip (map key l) vs)))
        by (symmetry; exact (gather_spec key read l d))
  end.

Section MillerListing.

Variable get_soup : string -> Node.

Lemma zip_keys_values {V} (d : odict V) : zip (keys d) (values d) = d.
Proof.
  unfold zip, keys, values. induction d as [|[k v] d IH]; [reflexivity|].
  simpl. rewrite IH. reflexivity.
Qed.

Lemma found_all_tags name n a : In a (find_all name n) -> is_tag name a = true.
Proof. unfold find_all. intros H. apply filter_In in H. apply H. Qed.

Lemma attr_raises k a name e : is_tag name a = true -> attr k a = Raise e -> e = KeyError.
Proof.
  destruct a as [s|n c attrs cs]; [discriminate|]. intros _. unfold attr, ditem.
  destruct (dget k attrs); [discriminate|]. intros H; inversion H; reflexivity.
Qed.

(** [MillerScraper.get_subdirectories], with the queries answered. *)
Lemma miller_subdirectories_run self navigation_menu :
  find "nav" (has_attr "aria-labelledby" "block-mainnavigation-3-menu")
       (get_soup (MillerScraper.origin self)) = Some navigation_menu ->
  MillerScraper.get_subdirectories get_soup self
  = match (submenu <- getitem (find_all_where "ul" (has_class "submenu") navigation_menu) 1 ;;
           hrefs <- mapM (attr "href") (find_all "a" submenu) ;;
           Ok (dict_of (zip (map text (find_all "a" submenu)) hrefs))) with
    | Ok subdirectories => (Ok tt, MillerScraper.set_subdirectories subdirectories self)
    | Raise e => (Raise e, self)
    end.
Proof.
  intros Hnav. unfold MillerScraper.get_subdirectories.
  erewrite (mbind_run mget) by reflexivity.
  unfold mbind, lift, mput. rewrite Hnav. cbn [deref rbind].
  destruct (getitem (find_all_where "ul" (has_class "submenu") navigation_menu) 1)
    as [submenu|e]; [|reflexivity].
  cbn [rbind].
  gathered text (attr "href").
  destruct (mapM (attr "href") (find_all "a" submenu)) as [hrefs|e]; reflexivity.
Qed.

(** X8.  On a home page whose navigation menu holds two submenus or more, each
    link of the second with an address, [get_subdirectories] stores the
    links of the second submenu: the text of each link with its address,
    the later of two links with one text under the place of the earlier.
    When the texts differ from each other these are the links themselves,
    in the order of the page. *)
Theorem miller_subdirectories_links :
  forall (self : MillerScraper.t) (navigation_menu first submenu : Node)
         (others : list Node) (hrefs : list string),
    find "nav" (has_attr "aria-labelledby" "block-mainnavigation-3-menu")
         (get_soup (MillerScraper.origin self)) = Some navigation_menu ->
    find_all_where "ul" (has_class "submenu") navigation_menu = first :: submenu :: others ->
    mapM (attr "href") (find_all "a" submenu) = Ok hrefs ->
    MillerScraper.get_subdirectories get_soup self
    = (Ok tt, MillerScraper.set_subdirectories
                (dict_of (zip (map text (find_all "a" submenu)) hrefs)) self)
    /\ (NoDup (map text (find_all "a" submenu)) ->
        dict_of (zip (map text (find_all "a" submenu)) hrefs)
        = zip (map text (find_all "a" submenu)) hrefs).
Proof.
  intros self navigation_menu first submenu others hrefs Hnav Hul Hhrefs. split.
  - rewrite (miller_subdirectories_run self navigation_menu Hnav).
    rewrite Hul, getitem_1. cbn [rbind]. rewrite Hhrefs. reflexivity.
  - intros Hnd. apply dict_of_well_formed. apply keys_zip_NoDup, Hnd.
Qed.

(** X9.  [get_subdirectories] raises AttributeError on a home page without the
    navigation menu, IndexError when the menu holds fewer than two
    submenus, and KeyError when a link of the second submenu has no
    address; in each case the scraper is left as it was. *)
Theorem miller_subdirectories_errors :
  forall self : MillerScraper.t,
    (find "nav" (has_attr "aria-labelledby" "block-mainnavigation-3-menu")
          (get_soup (MillerScraper.origin self)) = None ->
     MillerScraper.get_subdirectories get_soup self = (Raise AttributeError, self))
    /\ (forall navigation_menu,
           find "nav" (has_attr "aria-labelledby" "block-mainnavigation-3-menu")
                (get_soup (MillerScraper.origin self)) = Some navigation_menu ->
           (length (find_all_where "ul" (has_class "submenu") navigation_menu) < 2)%nat ->
           MillerScraper.get_subdirectories get_soup self = (Raise IndexError, self))
    /\ (forall navigation_menu first submenu others a_block,
           find "nav" (has_attr "aria-labelledby" "block-mainnavigation-3-menu")
                (get_soup (MillerScraper.origin self)) = Some navigation_menu ->
           find_all_where "ul" (has_class "submenu") navigation_menu
           = first :: submenu :: others ->
           In a_block (find_all "a" submenu) ->
           attr "href" a_block = Raise KeyError ->
           MillerScraper.get_subdirectories get_soup self = (Raise KeyError, self)).
Proof.
  intros self. split; [|split].
  - intros Hnav. unfold MillerScraper.get_subdirectories.
    erewrite (mbind_run mget) by reflexivity.
    apply mbind_raise. unfold lift. rewrite Hnav. reflexivity.
  - intros navigation_menu Hnav Hlen.
    rewrite (miller_subdirectories_run self navigation_menu Hnav).
    rewrite getitem_beyond by lia. reflexivity.
  - intros navigation_menu first submenu others a_block Hnav Hul Hin Ha.
    rewrite (miller_subdirectories_run self navigation_menu Hnav).
    rewrite Hul, getitem_1. cbn [rbind].
    destruct (mapM_raise_at (attr "href") _ _ _ Hin Ha) as [e He].
    rewrite He. cbn [rbind].
    rewrite (mapM_raises (attr "href") (find_all "a" submenu) KeyError) with (e := e);
      [reflexivity | | exact He].
    apply Forall_forall. intros a Hina e' He'.
    eapply attr_raises; [eapply found_all_tags; exact Hina | exact He'].
Qed.

End MillerListing.

Section MillerListingExamples.

(** X8, witness: the sample home page. *)
Lemma miller_subdirectories_links_witness :
  MillerScraper.get_subdirectories (fun _ => miller_home) miller_unlisted
  = (Ok tt, MillerScraper.set_subdirectories miller_listing miller_unlisted).
Proof.
  exact (proj1 (miller_subdirectories_links (fun _ => miller_home) miller_unlisted
                  _ _ _ _ _ eq_refl eq_refl eq_refl)).
Defined.

(** X9, witness: a page without a menu, a menu with one submenu, and a
    link without an address. *)
Lemma miller_subdirectories_errors_witness :
  MillerScraper.get_subdirectories (fun _ => key_events_without_body) miller_unlisted
  = (Raise AttributeError, miller_unlisted)
  /\ MillerScraper.get_subdirectories
       (fun _ => Tag "nav" [] []
                   [Tag "nav" [] [("aria-labelledby", "block-mainnavigation-3-menu")]
                      [Tag "ul" ["submenu"] [] []]]) miller_unlisted
     = (Raise IndexError, miller_unlisted)
  /\ MillerScraper.get_subdirectories
       (fun _ => miller_menu [Tag "a" [] [] [NavigableString "George Washington"]])
       miller_unlisted
     = (Raise KeyError, miller_unlisted).
Proof.
  split; [|split].
  - apply (proj1 (miller_subdirectories_errors _ miller_unlisted)). reflexivity.
  - eapply (proj1 (proj2 (miller_subdirectories_errors _ miller_unlisted)));
      [reflexivity | simpl; lia].
  - eapply (proj2 (proj2 (miller_subdirectories_errors _ miller_unlisted)));
      [reflexivity | reflexivity | left; reflexivity | reflexivity].
Defined.

End MillerListingExamples.

Section MillerPages.

Variable get_soup : string -> Node.
Variable markup : Node -> string.

Lemma length_zip_keys {V} (ks : list string) (vs : list V) :
  length vs = length ks -> keys (zip ks vs) = ks.
Proof.
  revert vs; induction ks as [|k ks IH]; intros [|v vs] H; simpl in *;
    try reflexivity; try lia.
  unfold keys, zip in *. simpl. rewrite IH by lia. reflexivity.
Qed.

(** A page scrape gathers one value per entity, under the names of the
    subdirectories and in their order. *)
Lemma scrape_spec {V} (read : Node -> result V) origin (items : odict string) :
  well_formed items ->
  MillerScraper.scrape get_soup read origin items
  = (vs <- mapM (fun item => read (page_of get_soup origin item)) items ;;
     Ok (zip (keys items) vs)).
Proof.
  intros Hwf. unfold MillerScraper.scrape.
  gathered (@fst string string) (fun item => read (page_of get_soup origin item)).
  destruct (mapM _ items) as [vs|e]; [|reflexivity].
  cbn [rbind]. f_equal. apply dict_of_well_formed. apply keys_zip_NoDup, Hwf.
Qed.

Lemma get_fast_facts_run (self : MillerScraper.t) (items : odict string) :
  MillerScraper.subdirectories self = Some items ->
  well_formed items ->
  MillerScraper.get_fast_facts get_soup self
  = match mapM (fun item => MillerScraper.fast_facts_sheet
                              (page_of get_soup (MillerScraper.origin self) item)) items with
    | Ok sheets => (Ok tt, MillerScraper.set_fast_facts (zip (keys items) sheets) self)
    | Raise e => (Raise e, self)
    end.
Proof.
  intros Hitems Hwf. unfold MillerScraper.get_fast_facts.
  erewrite (mbind_run mget) by reflexivity.
  erewrite (mbind_run (lift _)) by (unfold lift; rewrite Hitems; reflexivity).
  unfold mbind, lift, mput. rewrite (scrape_spec _ _ _ Hwf).
  destruct (mapM _ items); reflexivity.
Qed.

Lemma get_descriptions_run (self : MillerScraper.t) (items : odict string) :
  MillerScraper.subdirectories self = Some items ->
  well_formed items ->
  MillerScraper.get_descriptions get_soup self
  = match mapM (fun item => MillerScraper.description
                              (page_of get_soup (MillerScraper.origin self) item)) items with
    | Ok texts => (Ok tt, MillerScraper.set_descriptions (zip (keys items) texts) self)
    | Raise e => (Raise e, self)
    end.
Proof.
  intros Hitems Hwf. unfold MillerScraper.get_descriptions.
  erewrite (mbind_run mget) by reflexivity.
  erewrite (mbind_run (lift _)) by (unfold lift; rewrite Hitems; reflexivity).
  unfold mbind, lift, mput. rewrite (scrape_spec _ _ _ Hwf).
  destruct (mapM _ items); reflexivity.
Qed.

Lemma get_famous_quotes_run (self : MillerScraper.t) (items : odict string) :
  MillerScraper.subdirectories self = Some items ->
  well_formed items ->
  MillerScraper.get_famous_quotes get_soup markup self
  = match mapM (fun item => MillerScraper.famous_quote markup
                              (page_of get_soup (MillerScraper.origin self) item)) items with
    | Ok quotes => (Ok tt, MillerScraper.set_famous_quotes (zip (keys items) quotes) self)
    | Raise e => (Raise e, self)
    end.
Proof.
  intros Hitems Hwf. unfold MillerScraper.get_famous_quotes.
  erewrite (mbind_run mget) by reflexivity.
  erewrite (mbind_run (lift _)) by (unfold lift; rewrite Hitems; reflexivity).
  unfold mbind, lift, mput. rewrite (scrape_spec _ _ _ Hwf).
  destruct (mapM _ items); reflexivity.
Qed.

(** X10.  [get_fast_facts], [get_descriptions] and [get_famous_quotes] store
    nothing unless every page is read: when the pages of all entities are
    read, the attribute holds what was read from each page, under the
    names of the subdirectories and in their order; when the page of some
    entity cannot be read, the exception leaves the scraper as it was, and
    what was read from the pages before is lost. *)
Theorem miller_page_scrapes :
  forall (self : MillerScraper.t) (items : odict string),
    MillerScraper.subdirectories self = Some items ->
    well_formed items ->
    MillerScraper.get_fast_facts get_soup self
    = match mapM (fun item => MillerScraper.fast_facts_sheet
                                (page_of get_soup (MillerScraper.origin self) item)) items with
      | Ok sheets => (Ok tt, MillerScraper.set_fast_facts (zip (keys items) sheets) self)
      | Raise e => (Raise e, self)
      end
    /\ MillerScraper.get_descriptions get_soup self
       = match mapM (fun item => MillerScraper.description
                                   (page_of get_soup (MillerScraper.origin self) item)) items with
         | Ok texts => (Ok tt, MillerScraper.set_descriptions (zip (keys items) texts) self)
         | Raise e => (Raise e, self)
         end
    /\ MillerScraper.get_famous_quotes get_soup markup self
       = match mapM (fun item => MillerScraper.famous_quote markup
                                   (page_of get_soup (MillerScraper.origin self) item)) items with
         | Ok quotes => (Ok tt, MillerScraper.set_famous_quotes (zip (keys items) quotes) self)
         | Raise e => (Raise e, self)
         end.
Proof.
  intros self items Hitems Hwf. split; [|split].
  - apply get_fast_facts_run; assumption.
  - apply get_descriptions_run; assumption.
  - apply get_famous_quotes_run; assumption.
Qed.

Lemma child_text_raises name n e : child_text name n = Raise e -> e = AttributeError.
Proof.
  destruct n as [s|t c a cs]; simpl.
  - intros H; inversion H; reflexivity.
  - destruct (find name any_class (Tag t c a cs)); cbn [deref rbind];
      [discriminate | intros H; inversion H; reflexivity].
Qed.

Lemma fact_pair_raises fast_fact e : fact_pair fast_fact = Raise e -> e = AttributeError.
Proof.
  unfold fact_pair. destruct (child_text "div" fast_fact) as [v|e1] eqn:E1; cbn [rbind].
  - destruct (child_text "label" fast_fact) as [l|e2] eqn:E2; cbn [rbind]; [discriminate|].
    intros H; inversion H; subst. eapply child_text_raises, E2.
  - intros H; inversion H; subst. eapply child_text_raises, E1.
Qed.

Lemma sheet_fold (facts : list Node) (d : odict string) :
  fold_left
    (fun acc fast_fact =>
       sheet <- acc ;;
       value <- child_text "div" fast_fact ;;
       label <- child_text "label" fast_fact ;;
       Ok (dset label value sheet))
    facts (Ok d)
  = (pairs <- mapM fact_pair facts ;; Ok (dupdate d pairs)).
Proof.
  revert d; induction facts as [|f facts IH]; intros d; [reflexivity|].
  cbn [fold_left mapM rbind]. unfold fact_pair at 1.
  destruct (child_text "div" f) as [v|e]; cbn [rbind];
    [|apply fold_raise; reflexivity].
  destruct (child_text "label" f) as [l|e]; cbn [rbind];
    [|apply fold_raise; reflexivity].
  rewrite IH. destruct (mapM fact_pair facts); reflexivity.
Qed.

(** X11.  The fact sheet of a page.  Without one of the two wrappers the page
    is not read (AttributeError).  Of the children of the dashboard the
    strings that are one newline are passed over and the first of the
    others, the heading, is dropped unread: a dashboard with no other
    child raises IndexError, a dashboard with the heading alone gives the
    empty sheet.  Every child after the heading must hold a label and a
    value, or the page is not read (AttributeError); the sheet pairs the
    labels with the values, the later of two facts with one label under
    the place of the earlier. *)
Theorem fast_facts_sheet_cases :
  forall soup : Node,
    (find "div" (has_class "president-main-wrapper") soup = None ->
     MillerScraper.fast_facts_sheet soup = Raise AttributeError)
    /\ (forall president_page,
           find "div" (has_class "president-main-wrapper") soup = Some president_page ->
           find "div" (has_class "fast-facts-wrapper") president_page = None ->
           MillerScraper.fast_facts_sheet soup = Raise AttributeError)
    /\ (forall president_page fast_facts_dashboard children,
           find "div" (has_class "president-main-wrapper") soup = Some president_page ->
           find "div" (has_class "fast-facts-wrapper") president_page
           = Some fast_facts_dashboard ->
           contents fast_facts_dashboard = Ok children ->
           MillerScraper.fast_facts_sheet soup
           = match filter (differs_from (String newline EmptyString)) children with
             | [] => Raise IndexError
             | heading :: facts =>
                 match mapM fact_pair facts with
                 | Ok pairs => Ok (dict_of pairs)
                 | Raise _ => Raise AttributeError
                 end
             end).
Proof.
  intros soup. split; [|split].
  - intros H. unfold MillerScraper.fast_facts_sheet. rewrite H. reflexivity.
  - intros page H1 H2. unfold MillerScraper.fast_facts_sheet.
    rewrite H1. cbn [deref rbind]. rewrite H2. reflexivity.
  - intros page dashboard children H1 H2 H3. unfold MillerScraper.fast_facts_sheet.
    rewrite H1. cbn [deref rbind]. rewrite H2. cbn [deref rbind]. rewrite H3.
    cbn [rbind].
    destruct (filter (differs_from (String newline EmptyString)) children)
      as [|heading facts]; [reflexivity|].
    cbn [MillerScraper.pop_first rbind]. rewrite sheet_fold.
    destruct (mapM fact_pair facts) as [pairs|e] eqn:E; [reflexivity|].
    cbn [rbind]. f_equal.
    apply (mapM_raises fact_pair facts AttributeError); [|exact E].
    apply Forall_forall. intros f _ e'. apply fact_pair_raises.
Qed.

End MillerPages.

Section MillerPagesExamples.

(** X10, witness: the three scrapes of the pages of the sample listing. *)
Lemma miller_page_scrapes_witness :
  MillerScraper.get_fast_facts miller_pages miller_listed
  = (Ok tt, MillerScraper.set_fast_facts
              [("George Washington",
                [("Birth Date", "February 22, 1732"); ("Religion", "Episcopalian")]);
               ("John Adams",
                [("Birth Date", "February 22, 1732"); ("Religion", "Episcopalian")])]
              miller_listed)
  /\ MillerScraper.get_descriptions miller_pages miller_listed
     = (Ok tt, MillerScraper.set_descriptions
                 [("George Washington", "An entity of Source A.");
                  ("John Adams", "An entity of Source A.")] miller_listed)
  /\ MillerScraper.get_famous_quotes miller_pages sample_markup miller_listed
     = (Ok tt, MillerScraper.set_famous_quotes
                 [("George Washington", "A quote."); ("John Adams", "A quote.")]
                 miller_listed).
Proof.
  assert (Hwf : well_formed miller_listing).
  { unfold well_formed. simpl.
    repeat (constructor; [simpl; intuition discriminate|]). constructor. }
  exact (miller_page_scrapes miller_pages sample_markup miller_listed miller_listing
           eq_refl Hwf).
Defined.

(** X11, witness: the sheet of the sample page, whose heading is its
    second child. *)
Lemma fast_facts_sheet_cases_witness :
  MillerScraper.fast_facts_sheet (miller_page sample_facts)
  = Ok [("Birth Date", "February 22, 1732"); ("Religion", "Episcopalian")]
  /\ MillerScraper.fast_facts_sheet (miller_page [NavigableString (String newline EmptyString)])
     = Raise IndexError
  /\ MillerScraper.fast_facts_sheet
       (miller_page [Tag "h2" [] [] []; NavigableString "Born"])
     = Raise AttributeError.
Proof.
  split; [|split].
  - exact (proj2 (proj2 (fast_facts_sheet_cases (miller_page sample_facts)))
             _ _ _ eq_refl eq_refl eq_refl).
  - exact (proj2 (proj2 (fast_facts_sheet_cases
                           (miller_page [NavigableString (String newline EmptyString)])))
             _ _ _ eq_refl eq_refl eq_refl).
  - exact (proj2 (proj2 (fast_facts_sheet_cases
                           (miller_page [Tag "h2" [] [] []; NavigableString "Born"])))
             _ _ _ eq_refl eq_refl eq_refl).
Defined.

End MillerPagesExamples.

(* ===================================================================== *)
(** * The listing and the salaries of Source B *)
(* ===================================================================== *)

Section Replacing.

Lemma replace_from_skip old new p s :
  replace_from (String.length p) old new (p ++ s) = replace_from 0 old new s.
Proof. induction p as [|c p IH]; simpl; auto. Qed.

Lemma prefix_app p s : String.prefix p (p ++ s) = true.
Proof.
  induction p as [|c p IH]; simpl; [apply prefix_empty|].
  destruct (ascii_dec c c); [exact IH | congruence].
Qed.

(** [s.replace(old, new)] leaves a string without [old] as it is. *)
Lemma replace_str_absent old new s : contains old s = false -> replace_str old new s = s.
Proof.
  unfold replace_str. induction s as [|c r IH]; [reflexivity|].
  cbn [contains]. intros H. apply orb_false_iff in H as [Hp Hr].
  cbn [replace_from]. rewrite Hp, (IH Hr). reflexivity.
Qed.

(** [(old + s).replace(old, new) == new + s.replace(old, new)] *)
Lemma replace_str_prefix c p new s :
  replace_str (String c p) new (String c p ++ s) = new ++ replace_str (String c p) new s.
Proof.
  unfold replace_str. cbn [append replace_from].
  change (String c (p ++ s)) with (String c p ++ s). rewrite prefix_app.
  cbn [String.length]. rewrite Nat.sub_1_r. cbn [Nat.pred].
  rewrite replace_from_skip. reflexivity.
Qed.

End Replacing.

Section DictRemoval.

Context {V : Type}.
Implicit Types (d : odict V) (k : string).

Lemma keys_dset k (v : V) d :
  keys (dset k v d) = if dmem k d then keys d else (keys d ++ [k])%list.
Proof.
  unfold dmem. destruct (dget k d) as [v'|] eqn:E.
  - apply keys_dset_old. congruence.
  - rewrite (keys_dset_new _ _ _ E). unfold keys. rewrite map_app. reflexivity.
Qed.

Lemma dupdate_well_formed d (items : list (string * V)) :
  well_formed d -> well_formed (dupdate d items).
Proof.
  unfold well_formed, dupdate. revert d; induction items as [|[k v] items IH]; intros d Hd;
    [exact Hd|].
  cbn [fold_left fst snd]. apply IH. rewrite keys_dset. unfold dmem.
  destruct (dget k d) eqn:E; [exact Hd|].
  apply NoDup_app; [exact Hd | constructor; [intros []|constructor] |].
  intros x Hx [<-|[]]. apply dget_none_iff in E. contradiction.
Qed.

Lemma dupdate_keys d (items : list (string * V)) k :
  In k (keys (dupdate d items)) <-> In k (keys d) \/ In k (map fst items).
Proof.
  unfold dupdate. revert d; induction items as [|[k' v] items IH]; intros d.
  - simpl. tauto.
  - cbn [fold_left fst snd map]. rewrite IH, keys_dset. unfold dmem.
    destruct (dget k' d) eqn:E.
    + split; [intros [H|H]; simpl; auto|].
      intros [H|[H|H]]; auto. subst k'. left.
      apply (dget_In_keys d k v0 E).
    + rewrite in_app_iff. simpl. tauto.
Qed.

Lemma dget_ddel_eq k d : well_formed d -> dget k (ddel k d) = None.
Proof.
  unfold well_formed. induction d as [|[k' v] d IH]; intros Hnd; [reflexivity|].
  simpl in Hnd. inversion Hnd; subst. simpl.
  destruct (String.eqb k k') eqn:E.
  - apply String.eqb_eq in E; subst k'. apply dget_none_iff. assumption.
  - simpl. rewrite E. apply IH. assumption.
Qed.

Lemma dget_ddel_neq k k' d : k <> k' -> dget k' (ddel k d) = dget k' d.
Proof.
  intros Hne. induction d as [|[k0 v] d IH]; [reflexivity|].
  simpl. destruct (String.eqb k k0) eqn:E.
  - apply String.eqb_eq in E; subst k0.
    destruct (String.eqb k' k) eqn:E'; [|reflexivity].
    apply String.eqb_eq in E'. congruence.
  - simpl. rewrite IH. reflexivity.
Qed.

End DictRemoval.

Section PotusListing.

Variable get_soup : string -> Node.

Lemma gather_pairs_spec {A V} (read : A -> result (string * V)) (l : list A) (d : odict V) :
  fold_left (fun acc a => gathered <- acc ;; kv <- read a ;;
                          Ok (dset (fst kv) (snd kv) gathered)) l (Ok d)
  = (kvs <- mapM read l ;; Ok (dupdate d kvs)).
Proof.
  revert d; induction l as [|a l IH]; intros d; [reflexivity|].
  cbn [fold_left mapM rbind]. destruct (read a) as [kv|e]; cbn [rbind].
  - rewrite IH. destruct (mapM read l); reflexivity.
  - apply fold_raise. reflexivity.
Qed.

(** X12.  The name under which a link of the home page is listed is the text
    of the portrait in front of its first comma, without the words
    "President " in it: "President <name>,<years>" is listed as <name>.
    A link without a portrait raises TypeError. *)
Theorem potus_named_link :
  forall a_block : Node,
    (forall img name years href,
        find "img" any_class a_block = Some img ->
        attr "alt" img = Ok ("President " ++ name ++ "," ++ years) ->
        lacks "," name = true ->
        contains "President " name = false ->
        attr "href" a_block = Ok href ->
        PotusScraper.named_link a_block = Ok (name, href))
    /\ (find "img" any_class a_block = None ->
        PotusScraper.named_link a_block = Raise TypeError).
Proof.
  intros a_block. split.
  - intros img name years href Himg Halt Hname Htitle Hhref.
    unfold PotusScraper.named_link. rewrite Himg. cbn [subscript rbind].
    rewrite Halt. cbn [rbind].
    change ("President " ++ name ++ "," ++ years)
      with (("President " ++ name) ++ String "," years).
    rewrite split_app by (rewrite lacks_app, Hname; reflexivity).
    rewrite getitem_0. cbn [rbind].
    rewrite (replace_str_prefix "P" "resident " "" name). cbn [append].
    rewrite (replace_str_absent _ _ _ Htitle). rewrite Hhref. reflexivity.
  - intros Himg. unfold PotusScraper.named_link. rewrite Himg. reflexivity.
Qed.

(** X13.  [PotusScraper.get_subdirectories] drops the link to the facts
    section and keeps every other link of the home page; on a home page
    without a link of that name it raises KeyError and leaves the scraper
    as it was. *)
Theorem potus_subdirectories_facts_link :
  forall (self : PotusScraper.t) (links : list (string * string)),
    mapM PotusScraper.named_link
         (find_all_where "a" (has_attr "target" "_self")
                         (get_soup (PotusScraper.origin self))) = Ok links ->
    (In "Facts About the Presidents" (map fst links) ->
     exists subdirectories,
       PotusScraper.get_subdirectories get_soup self
       = (Ok tt, PotusScraper.set_subdirectories subdirectories self)
       /\ dget "Facts About the Presidents" subdirectories = None
       /\ forall name, name <> "Facts About the Presidents" ->
                       dget name subdirectories = dget name (dict_of links))
    /\ (~ In "Facts About the Presidents" (map fst links) ->
        PotusScraper.get_subdirectories get_soup self = (Raise KeyError, self)).
Proof.
  intros self links Hlinks.
  assert (Hrun : PotusScraper.get_subdirectories get_soup self
                 = match dpop "Facts About the Presidents" (dict_of links) with
                   | Ok popped => (Ok tt, PotusScraper.set_subdirectories (snd popped) self)
                   | Raise e => (Raise e, self)
                   end).
  { unfold PotusScraper.get_subdirectories.
    erewrite (mbind_run mget) by reflexivity.
    unfold mbind, lift, mput.
    match goal with
    | |- context [fold_left ?f ?l (Ok ?d)] =>
        replace (fold_left f l (Ok d))
          with (kvs <- mapM PotusScraper.named_link l ;; Ok (dupdate d kvs))
          by (symmetry; exact (gather_pairs_spec PotusScraper.named_link l d))
    end.
    rewrite Hlinks. cbn [rbind].
    fold (dict_of links).
    destruct (dpop "Facts About the Presidents" (dict_of links)); reflexivity. }
  assert (Hwf : well_formed (dict_of links)).
  { apply dupdate_well_formed. constructor. }
  split.
  - intros Hin. exists (ddel "Facts About the Presidents" (dict_of links)).
    split; [|split].
    + rewrite Hrun. unfold dpop.
      destruct (dget "Facts About the Presidents" (dict_of links)) eqn:E; [reflexivity|].
      exfalso. apply dget_none_iff in E. apply E.
      apply dupdate_keys. right. exact Hin.
    + apply dget_ddel_eq, Hwf.
    + intros name Hne. apply dget_ddel_neq. congruence.
  - intros Hnot. rewrite Hrun. unfold dpop.
    destruct (dget "Facts About the Presidents" (dict_of links)) eqn:E; [|reflexivity].
    exfalso. apply Hnot.
    apply dget_In_keys in E. apply dupdate_keys in E as [[]|E]. exact E.
Qed.

Lemma salary_paragraph_raises title soup e :
  PotusScraper.salary_paragraph title soup = Raise e -> e = AttributeError.
Proof.
  unfold PotusScraper.salary_paragraph.
  destruct (find_string title soup) as [found|]; cbn [deref rbind];
    [|intros H; inversion H; reflexivity].
  destruct (find_parent "p" found); cbn [deref rbind];
    [discriminate | intros H; inversion H; reflexivity].
Qed.

Lemma presidential_salary_raises soup e :
  PotusScraper.presidential_salary soup = Raise e -> e = AttributeError.
Proof.
  unfold PotusScraper.presidential_salary.
  destruct (PotusScraper.salary_paragraph "Presidential Salary:" soup) as [s|e1] eqn:E1;
    [discriminate|].
  apply salary_paragraph_raises in E1. subst e1. cbn [rcatch exn_eqb].
  apply salary_paragraph_raises.
Qed.

Lemma get_salaries_run (self : PotusScraper.t) (items : odict string) :
  PotusScraper.subdirectories self = Some items ->
  well_formed items ->
  PotusScraper.get_salaries get_soup self
  = match mapM (fun item => PotusScraper.presidential_salary
                              (page_of get_soup (PotusScraper.origin self) item))
               items with
    | Ok salaries =>
        (Ok tt, PotusScraper.set_salaries (zip (keys items) salaries) self)
    | Raise _ => (Raise AttributeError, self)
    end.
Proof.
  intros Hitems Hwf. unfold PotusScraper.get_salaries.
  erewrite (mbind_run mget) by reflexivity.
  erewrite (mbind_run (lift _)) by (unfold lift; rewrite Hitems; reflexivity).
  unfold mbind, lift, mput, PotusScraper.read_salaries.
  gathered (@fst string string)
           (fun item => PotusScraper.presidential_salary
                          (page_of get_soup (PotusScraper.origin self) item)).
  destruct (mapM _ items) as [salaries|e] eqn:E; cbn [rbind].
  - fold (dict_of (zip (map fst items) salaries)).
    rewrite dict_of_well_formed by (apply keys_zip_NoDup, Hwf). reflexivity.
  - f_equal. f_equal. eapply mapM_raises; [|exact E].
    apply Forall_forall. intros item _ e'. apply presidential_salary_raises.
Qed.

(** X14.  The salary of a page is the paragraph around the title "Presidential
    Salary:"; the title with a space after it is looked for only when the
    first is absent or not within a paragraph.  [get_salaries] stores one
    salary per entity, under the names of the subdirectories and in their
    order, or, when the page of some entity has neither title within a
    paragraph, raises AttributeError and leaves the scraper as it was. *)
Theorem salaries_outcome :
  (forall soup,
      PotusScraper.presidential_salary soup
      = match PotusScraper.salary_paragraph "Presidential Salary:" soup with
        | Ok salary => Ok salary
        | Raise _ => PotusScraper.salary_paragraph "Presidential Salary: " soup
        end)
  /\ (forall (self : PotusScraper.t) (items : odict string),
         PotusScraper.subdirectories self = Some items ->
         well_formed items ->
         PotusScraper.get_salaries get_soup self
         = match mapM (fun item => PotusScraper.presidential_salary
                                     (page_of get_soup (PotusScraper.origin self) item))
                      items with
           | Ok salaries =>
               (Ok tt, PotusScraper.set_salaries (zip (keys items) salaries) self)
           | Raise _ => (Raise AttributeError, self)
           end).
Proof.
  split.
  - intros soup. unfold PotusScraper.presidential_salary.
    destruct (PotusScraper.salary_paragraph "Presidential Salary:" soup) as [s|e] eqn:E;
      [reflexivity|].
    apply salary_paragraph_raises in E. subst e. reflexivity.
  - apply get_salaries_run.
Qed.

End PotusListing.

Section PotusListingExamples.

(** X12, witness: a link of the sample home page. *)
Lemma potus_named_link_witness :
  PotusScraper.named_link
    (portrait_link "john-adams/" "President John Adams, 1797-1801")
  = Ok ("John Adams", "john-adams/").
Proof.
  apply (proj1 (potus_named_link _)
           (Tag "img" [] [("src", "portrait.jpg");
                          ("alt", "President John Adams, 1797-1801")] [])
           "John Adams" " 1797-1801" "john-adams/"); reflexivity.
Defined.

(** X13, witness: the sample home page, and a page without links. *)
Lemma potus_subdirectories_facts_link_witness :
  (exists subdirectories,
      PotusScraper.get_subdirectories (fun _ => potus_home) potus_unlisted
      = (Ok tt, PotusScraper.set_subdirectories subdirectories potus_unlisted)
      /\ dget "Facts About the Presidents" subdirectories = None
      /\ forall name, name <> "Facts About the Presidents" ->
                      dget name subdirectories
                      = dget name [("Facts About the Presidents", "presidential-facts/");
                                   ("George Washington", "george-washington/");
                                   ("John Adams", "john-adams/")])
  /\ PotusScraper.get_subdirectories (fun _ => key_events_without_body) potus_unlisted
     = (Raise KeyError, potus_unlisted).
Proof.
  split.
  - apply (proj1 (potus_subdirectories_facts_link (fun _ => potus_home) potus_unlisted
                    _ eq_refl)).
    left. reflexivity.
  - apply (proj2 (potus_subdirectories_facts_link (fun _ => key_events_without_body)
                    potus_unlisted [] eq_refl)).
    intros [].
Defined.

(** X14, witness: one page with each title. *)
Lemma salaries_outcome_witness :
  PotusScraper.get_salaries potus_pages potus_listed
  = (Ok tt, PotusScraper.set_salaries
              [("Washington", "Presidential Salary:$25,000/year");
               ("J. Adams", "Presidential Salary: $25,000/year")] potus_listed).
Proof.
  assert (Hwf : well_formed potus_listing).
  { unfold well_formed. simpl.
    repeat (constructor; [simpl; intuition discriminate|]). constructor. }
  exact (proj2 (salaries_outcome potus_pages) potus_listed potus_listing eq_refl Hwf).
Defined.

End PotusListingExamples.

(* ===================================================================== *)
(** * From the scrapes to the merged table *)
(* ===================================================================== *)

Section Pipeline.

Variable get_soup : string -> Node.
Variable markup : Node -> string.

Lemma keys_zip_short {V} (ks : list string) (vs : list V) :
  (length ks <= length vs)%nat -> keys (zip ks vs) = ks.
Proof.
  revert vs; induction ks as [|k ks IH]; intros [|v vs] H; simpl in *;
    try reflexivity; try lia.
  unfold keys, zip in *. simpl. rewrite IH by lia. reflexivity.
Qed.

Lemma ditem_listed {V} (d : odict V) k : In k (keys d) -> exists v, ditem k d = Ok v.
Proof.
  intros H. unfold ditem. destruct (dget k d) as [v|] eqn:E; [eauto|].
  apply dget_none_iff in E. contradiction.
Qed.

Lemma mapM_returns {A B} (f : A -> result B) (l : list A) :
  (forall a, In a l -> exists b, f a = Ok b) -> exists bs, mapM f l = Ok bs.
Proof.
  induction l as [|a l IH]; intros H; [exists []; reflexivity|].
  destruct (H a (or_introl eq_refl)) as [b Hb].
  destruct IH as [bs Hbs]; [intros x Hx; apply H; right; exact Hx|].
  exists (b :: bs). simpl. rewrite Hb. cbn [rbind]. rewrite Hbs. reflexivity.
Qed.

Lemma miller_subdirectories_stored self self' :
  MillerScraper.get_subdirectories get_soup self = (Ok tt, self') ->
  exists items, self' = MillerScraper.set_subdirectories items self /\ well_formed items.
Proof.
  intros H.
  destruct (find "nav" (has_attr "aria-labelledby" "block-mainnavigation-3-menu")
                 (get_soup (MillerScraper.origin self))) as [navigation_menu|] eqn:Hnav.
  - rewrite (miller_subdirectories_run get_soup self navigation_menu Hnav) in H.
    destruct (getitem _ 1) as [submenu|e]; [|discriminate].
    cbn [rbind] in H.
    destruct (mapM (attr "href") (find_all "a" submenu)) as [hrefs|e]; [|discriminate].
    cbn [rbind] in H. inversion H. eexists. split; [reflexivity|].
    apply dupdate_well_formed. constructor.
  - unfold MillerScraper.get_subdirectories in H.
    erewrite (mbind_run mget) in H by reflexivity.
    erewrite (mbind_raise (lift _)) in H by (unfold lift; rewrite Hnav; reflexivity).
    discriminate.
Qed.

Lemma key_events_counts_stored self self' items :
  MillerScraper.subdirectories self = Some items ->
  well_formed items ->
  MillerScraper.get_key_events_counts get_soup self = (Ok tt, self') ->
  exists counts,
    self' = MillerScraper.set_key_events_counts counts self /\ keys counts = keys items.
Proof.
  intros Hitems Hwf. unfold MillerScraper.get_key_events_counts.
  erewrite (mbind_run mget) by reflexivity.
  erewrite (mbind_run (lift _)) by (unfold lift; rewrite Hitems; reflexivity).
  erewrite (mbind_run (lift _)).
  2:{ unfold lift. rewrite (count_key_events_spec get_soup _ _ Hwf). reflexivity. }
  unfold mput. intros H; inversion H. eexists. split; [reflexivity|].
  unfold keys. rewrite map_map. reflexivity.
Qed.

(** X15.  The scrapes fit together.  When the listing of Source A has been
    scraped, Source B lists no fewer entities and its names have been
    reconciled, and the four scrapes of Source A and the salaries of
    Source B have each run to their end, the record merger finds every
    entry it looks up: it returns a table, with one row per entity that
    Source A lists, in its order. *)
Theorem scraped_records_merge :
  forall (m0 m1 m2 m3 m4 m5 : MillerScraper.t) (p1 p2 p3 : PotusScraper.t)
         (listing raw : odict string),
    MillerScraper.get_subdirectories get_soup m0 = (Ok tt, m1) ->
    MillerScraper.get_fast_facts get_soup m1 = (Ok tt, m2) ->
    MillerScraper.get_descriptions get_soup m2 = (Ok tt, m3) ->
    MillerScraper.get_famous_quotes get_soup markup m3 = (Ok tt, m4) ->
    MillerScraper.get_key_events_counts get_soup m4 = (Ok tt, m5) ->
    PotusScraper.correct_subdirectories m5 p1 = (Ok tt, p2) ->
    PotusScraper.get_salaries get_soup p2 = (Ok tt, p3) ->
    MillerScraper.subdirectories m1 = Some listing ->
    PotusScraper.subdirectories p1 = Some raw ->
    (length listing <= length raw)%nat ->
    exists df,
      get_all_presidents_data_df m5 p3 = Ok df /\ index df = keys listing.
Proof.
  intros m0 m1 m2 m3 m4 m5 p1 p2 p3 listing raw
         Hm1 Hm2 Hm3 Hm4 Hm5 Hp2 Hp3 Hlisting Hraw Hlen.
  apply miller_subdirectories_stored in Hm1 as (items & -> & Hwf).
  cbn in Hlisting. inversion Hlisting; subst items; clear Hlisting.
  (* the four scrapes of Source A *)
  match type of Hm2 with MillerScraper.get_fast_facts _ ?s = _ =>
    rewrite (get_fast_facts_run get_soup s listing eq_refl Hwf) in Hm2 end.
  destruct (mapM _ listing) as [sheets|e] eqn:Hsheets in Hm2; [|discriminate].
  inversion Hm2; subst m2; clear Hm2.
  match type of Hm3 with MillerScraper.get_descriptions _ ?s = _ =>
    rewrite (get_descriptions_run get_soup s listing eq_refl Hwf) in Hm3 end.
  destruct (mapM _ listing) as [texts|e] eqn:Htexts in Hm3; [|discriminate].
  inversion Hm3; subst m3; clear Hm3.
  match type of Hm4 with MillerScraper.get_famous_quotes _ _ ?s = _ =>
    rewrite (get_famous_quotes_run get_soup markup s listing eq_refl Hwf) in Hm4 end.
  destruct (mapM _ listing) as [quotes|e] eqn:Hquotes in Hm4; [|discriminate].
  inversion Hm4; subst m4; clear Hm4.
  match type of Hm5 with MillerScraper.get_key_events_counts _ ?s = _ =>
    apply (key_events_counts_stored s _ listing eq_refl Hwf) in Hm5
      as (counts & -> & Hcounts) end.
  apply mapM_length in Hsheets, Htexts, Hquotes.
  (* the listing and the salaries of Source B *)
  match type of Hp2 with PotusScraper.correct_subdirectories ?m _ = _ =>
    rewrite (correct_subdirectories_run m p1 listing raw eq_refl Hraw) in Hp2 end.
  destruct (assert_surnames _ p1) as [[u|e] s]; [|discriminate].
  inversion Hp2; subst p2; clear Hp2.
  assert (Hrenamed : dict_of (zip (keys listing) (values raw))
                     = zip (keys listing) (values raw)).
  { apply dict_of_well_formed, keys_zip_NoDup, Hwf. }
  rewrite Hrenamed in Hp3.
  assert (Hnames : keys (zip (keys listing) (values raw)) = keys listing).
  { apply keys_zip_short. unfold keys, values. rewrite !length_map. exact Hlen. }
  match type of Hp3 with PotusScraper.get_salaries _ ?s = _ =>
    rewrite (get_salaries_run get_soup s (zip (keys listing) (values raw)) eq_refl) in Hp3
      by (unfold well_formed; rewrite Hnames; exact Hwf) end.
  destruct (mapM _ (zip (keys listing) (values raw))) as [salaries|e] eqn:Hsalaries in Hp3;
    [|discriminate].
  inversion Hp3; subst p3; clear Hp3.
  apply mapM_length in Hsalaries. rewrite Hnames in *.
  assert (Hsalaries' : length salaries = length listing).
  { rewrite Hsalaries, <- (length_map fst (zip (keys listing) (values raw))).
    fold (keys (zip (keys listing) (values raw))). rewrite Hnames.
    unfold keys. apply length_map. }
  (* the merger *)
  set (miller := MillerScraper.set_key_events_counts counts _).
  set (potus := PotusScraper.set_salaries _ _).
  assert (Hfacts : keys (zip (keys listing) sheets) = keys listing).
  { apply length_zip_keys. unfold keys. rewrite length_map. exact Hsheets. }
  assert (Hrows : forall president,
             In president (keys listing) ->
             exists row, presidents_data_row miller potus president = Ok row).
  { intros president Hin. unfold presidents_data_row. subst miller potus.
    cbn [MillerScraper.fast_facts MillerScraper.descriptions MillerScraper.famous_quotes
         MillerScraper.key_events_counts PotusScraper.salaries
         MillerScraper.set_key_events_counts MillerScraper.set_famous_quotes
         MillerScraper.set_descriptions MillerScraper.set_fast_facts
         MillerScraper.set_subdirectories PotusScraper.set_salaries
         PotusScraper.set_subdirectories subscript rbind].
    destruct (ditem_listed (zip (keys listing) sheets) president) as [sheet ->].
    { rewrite Hfacts. exact Hin. }
    destruct (ditem_listed (zip (keys listing) texts) president) as [text ->].
    { rewrite length_zip_keys by (unfold keys; rewrite length_map; exact Htexts).
      exact Hin. }
    destruct (ditem_listed (zip (keys listing) quotes) president) as [quote ->].
    { rewrite length_zip_keys by (unfold keys; rewrite length_map; exact Hquotes).
      exact Hin. }
    destruct (ditem_listed counts president) as [count ->].
    { rewrite Hcounts. exact Hin. }
    destruct (ditem_listed (zip (keys listing) salaries) president) as [salary ->].
    { rewrite length_zip_keys by (unfold keys; rewrite length_map; exact Hsalaries').
      exact Hin. }
    cbn [rbind]. eauto. }
  destruct (mapM_returns (presidents_data_row miller potus) (keys listing) Hrows)
    as [rows Hmap].
  unfold get_all_presidents_data_df, all_presidents_data.
  replace (MillerScraper.fast_facts miller) with (Some (zip (keys listing) sheets))
    by reflexivity.
  cbn [deref rbind]. rewrite Hfacts.
  gathered (fun president : string => president) (presidents_data_row miller potus).
  rewrite Hmap. cbn [rbind]. eexists. split; [reflexivity|].
  rewrite index_T_of_dict, map_id. fold (dict_of (zip (keys listing) rows)).
  rewrite dict_of_well_formed by (apply keys_zip_NoDup, Hwf).
  apply length_zip_keys. apply mapM_length in Hmap. exact Hmap.
Qed.

End Pipeline.

Section PipelineExamples.

(** X15, witness: the scrapes of the two sample sites, merged. *)
Lemma scraped_records_merge_witness :
  exists miller potus df,
    get_all_presidents_data_df miller potus = Ok df
    /\ index df = ["George Washington"; "John Adams"].
Proof.
  pose (m1 := snd (MillerScraper.get_subdirectories sample_web miller_unlisted)).
  pose (m2 := snd (MillerScraper.get_fast_facts sample_web m1)).
  pose (m3 := snd (MillerScraper.get_descriptions sample_web m2)).
  pose (m4 := snd (MillerScraper.get_famous_quotes sample_web sample_markup m3)).
  pose (m5 := snd (MillerScraper.get_key_events_counts sample_web m4)).
  pose (raw := [("George Washington", "george-washington/");
                ("John Adams", "john-adams/")]).
  pose (p1 := PotusScraper.set_subdirectories raw potus_unlisted).
  pose (p2 := snd (PotusScraper.correct_subdirectories m5 p1)).
  pose (p3 := snd (PotusScraper.get_salaries sample_web p2)).
  exists m5, p3.
  apply (scraped_records_merge sample_web sample_markup
           miller_unlisted m1 m2 m3 m4 m5 p1 p2 p3 miller_listing raw);
    vm_compute; reflexivity.
Defined.

End PipelineExamples.

(* ===================================================================== *)
(** * Cleaning the merged table *)
(* ===================================================================== *)

Section Cleaning.

Lemma keep_keep p q s : keep p (keep q s) = keep (fun c => q c && p c) s.
Proof.
  induction s as [|c r IH]; [reflexivity|].
  simpl. destruct (q c); simpl; [destruct (p c)|]; rewrite IH; reflexivity.
Qed.

Lemma keep_ext p q s : (forall c, p c = q c) -> keep p s = keep q s.
Proof.
  intros H. induction s as [|c r IH]; [reflexivity|]. simpl. rewrite H, IH. reflexivity.
Qed.

Lemma keep_all_chars p s : all_chars p (keep p s) = true.
Proof.
  induction s as [|c r IH]; [reflexivity|]. simpl.
  destruct (p c) eqn:E; [simpl; rewrite E|]; exact IH.
Qed.

Lemma remove_keep a s : remove a s = keep (none_of [a]) s.
Proof.
  induction s as [|c r IH]; [reflexivity|]. simpl. unfold none_of at 1. simpl.
  rewrite orb_false_r. destruct (Ascii.eqb c a); simpl; rewrite IH; reflexivity.
Qed.

Lemma without_cleaned a x : without a x = Ok (cleaned [a] x).
Proof. destruct x; try reflexivity. simpl. rewrite remove_keep. reflexivity. Qed.

Lemma cleaned_app chars chars' x :
  cleaned chars' (cleaned chars x) = cleaned (chars ++ chars')%list x.
Proof.
  destruct x; try reflexivity. simpl. rewrite keep_keep. f_equal.
  apply keep_ext. intros c. unfold none_of. rewrite existsb_app, negb_orb. reflexivity.
Qed.

Lemma none_of_permutation chars chars' c :
  Permutation chars chars' -> none_of chars c = none_of chars' c.
Proof.
  intros H. unfold none_of. f_equal.
  induction H as [|x l l' _ IH|x y l|l l' l'' _ IH1 _ IH2]; simpl.
  - reflexivity.
  - rewrite IH. reflexivity.
  - rewrite !orb_assoc, (orb_comm (Ascii.eqb c y)). reflexivity.
  - congruence.
Qed.

Lemma cleaned_permutation chars chars' x :
  Permutation chars chars' -> cleaned chars x = cleaned chars' x.
Proof.
  intros H. destruct x; try reflexivity. simpl. f_equal.
  apply keep_ext. intros c. apply none_of_permutation, H.
Qed.

Lemma cleaned_not_str chars x : is_str x = false -> cleaned chars x = x.
Proof. destruct x; try reflexivity. discriminate. Qed.

Lemma number_not_str x : is_number x = true -> is_str x = false.
Proof. destruct x; try reflexivity. discriminate. Qed.

Lemma map_fixed {A} (g : A -> A) (l : list A) :
  Forall (fun a => g a = a) l -> map g l = l.
Proof. induction 1 as [|a l Ha _ IH]; simpl; congruence. Qed.

(** The dtype of a column is inferred once: cleaning a column that has
    been stored gives what cleaning the column gives. *)
Lemma infer_dtype_cleaned chars t :
  infer_dtype (map (cleaned chars) (infer_dtype t)) = infer_dtype (map (cleaned chars) t).
Proof.
  destruct (forallb (fun v => is_number v || is_none v) t
            && (existsb is_float t || existsb is_none t && existsb is_integer t)) eqn:E.
  - assert (Hinf : infer_dtype t = map to_float t)
      by (unfold infer_dtype; rewrite E; reflexivity).
    apply andb_true_iff in E as [En Ef].
    assert (Hno : forall x, In x t -> is_str x = false /\ is_str (to_float x) = false).
    { rewrite forallb_forall in En. intros x Hx. specialize (En _ Hx).
      destruct x; try discriminate; split; reflexivity. }
    assert (Ht : map (cleaned chars) t = t).
    { apply map_fixed. apply Forall_forall.
      intros x Hx. apply cleaned_not_str, (Hno x Hx). }
    assert (Hfix : map (cleaned chars) (infer_dtype t) = infer_dtype t).
    { apply map_fixed. apply Forall_forall. intros x Hx.
      rewrite Hinf in Hx. apply in_map_iff in Hx as (y & <- & Hy).
      apply cleaned_not_str, (Hno y Hy). }
    rewrite Ht, Hfix. apply infer_dtype_idem.
  - unfold infer_dtype at 2. rewrite E. reflexivity.
Qed.

Lemma applymap_total (g : pyval -> pyval) (f : pyval -> result pyval) df :
  (forall x, f x = Ok (g x)) ->
  applymap f df
  = Ok (mkDataFrame (index df)
          (map (fun cs => (fst cs, infer_dtype (map g (snd cs)))) (series df))).
Proof.
  intros Hf. unfold applymap.
  rewrite (mapM_ext _ (fun cs => Ok (fst cs, infer_dtype (map g (snd cs))))).
  - rewrite mapM_total. reflexivity.
  - intros [c s]. cbn [fst snd]. unfold series_map.
    rewrite (mapM_ext _ (fun x => Ok (g x))) by exact Hf.
    rewrite mapM_total. reflexivity.
Qed.

Lemma applymap_without a df : applymap (without a) df = Ok (cleaned_table [a] df).
Proof. apply applymap_total, without_cleaned. Qed.

Lemma applymap_without_cleaned a chars df :
  applymap (without a) (cleaned_table chars df) = Ok (cleaned_table (chars ++ [a]) df).
Proof.
  rewrite applymap_without. unfold cleaned_table. cbn [index series]. f_equal. f_equal.
  rewrite map_map. apply map_ext. intros [c s]. cbn [fst snd]. f_equal.
  rewrite infer_dtype_cleaned, map_map. f_equal. apply map_ext. intros x.
  apply cleaned_app.
Qed.

Lemma clean_in_order_from chars order df :
  fold_left
    (fun acc problematic_string =>
       presidents_data <- acc ;;
       applymap (without problematic_string) presidents_data)
    order (Ok (cleaned_table chars df))
  = Ok (cleaned_table (chars ++ order) df).
Proof.
  revert chars; induction order as [|a order IH]; intros chars.
  - rewrite app_nil_r. reflexivity.
  - cbn [fold_left rbind]. rewrite applymap_without_cleaned, IH, <- app_assoc.
    reflexivity.
Qed.

(** The loop over a set that is not empty returns the table of the
    cleaned cells. *)
Lemma clean_in_order_spec a order df :
  clean_in_order (a :: order) df = Ok (cleaned_table (a :: order) df).
Proof.
  unfold clean_in_order. cbn [fold_left rbind]. rewrite applymap_without.
  apply (clean_in_order_from [a] order df).
Qed.

Lemma cleaned_table_permutation chars chars' df :
  Permutation chars chars' -> cleaned_table chars df = cleaned_table chars' df.
Proof.
  intros H. unfold cleaned_table. f_equal. apply map_ext. intros [c s].
  cbn [fst snd]. f_equal. f_equal. apply map_ext. intros x.
  apply cleaned_permutation, H.
Qed.

Lemma lookup_column_map (F : list pyval -> list pyval) c cols :
  lookup_column c (map (fun cs => (fst cs, F (snd cs))) cols)
  = option_map F (lookup_column c cols).
Proof.
  induction cols as [|[c' s] cols IH]; [reflexivity|].
  simpl. destruct (label_eqb c c'); [reflexivity | exact IH].
Qed.

Lemma nth_error_str_not_number (s : list pyval) i text :
  nth_error s i = Some (PyStr text) ->
  forallb (fun v => is_number v || is_none v) s = false.
Proof.
  intros H. apply nth_error_In in H.
  destruct (forallb (fun v => is_number v || is_none v) s) eqn:E; [|reflexivity].
  rewrite forallb_forall in E. specialize (E _ H). discriminate.
Qed.

(** X16.  [clean_presidents_data] does not raise, and keeps the rows and the
    columns.  Every text of the table comes out without line feeds, tabs,
    carriage returns and no-break spaces, its other characters as they
    were and in their order; in a column that holds a text, the cells
    that are not texts come out as they were. *)
Theorem clean_presidents_data_texts :
  forall presidents_data : DataFrame,
    exists cleaned_data,
      clean_presidents_data presidents_data = Ok cleaned_data
      /\ index cleaned_data = index presidents_data
      /\ columns cleaned_data = columns presidents_data
      /\ forall c s i text,
          lookup_column c (series presidents_data) = Some s ->
          nth_error s i = Some (PyStr text) ->
          exists s',
            lookup_column c (series cleaned_data) = Some s'
            /\ nth_error s' i = Some (PyStr (keep (none_of PROBLEMATIC_STRINGS) text))
            /\ (forall a, In a PROBLEMATIC_STRINGS ->
                          lacks a (keep (none_of PROBLEMATIC_STRINGS) text) = true)
            /\ (forall j x, nth_error s j = Some x -> is_str x = false ->
                            nth_error s' j = Some x).
Proof.
  intros df. exists (cleaned_table PROBLEMATIC_STRINGS df).
  split; [apply clean_in_order_spec|]. split; [reflexivity|]. split.
  - unfold columns, cleaned_table. cbn [series]. rewrite map_map. reflexivity.
  - intros c s i text Hc Hi.
    exists (map (cleaned PROBLEMATIC_STRINGS) s). split; [|split; [|split]].
    + unfold cleaned_table. cbn [series].
      rewrite (lookup_column_map (fun s => infer_dtype (map (cleaned PROBLEMATIC_STRINGS) s))).
      rewrite Hc. cbn [option_map]. f_equal. apply infer_dtype_not_number.
      apply (nth_error_str_not_number _ i (keep (none_of PROBLEMATIC_STRINGS) text)).
      rewrite nth_error_map, Hi. reflexivity.
    + rewrite nth_error_map, Hi. reflexivity.
    + intros a Ha. unfold lacks.
      eapply all_chars_impl; [|apply keep_all_chars].
      intros ch Hch. unfold none_of in Hch. apply negb_true_iff in Hch.
      destruct (Ascii.eqb ch a) eqn:E; [|reflexivity].
      apply Ascii.eqb_eq in E; subst ch.
      assert (Hex : existsb (Ascii.eqb a) PROBLEMATIC_STRINGS = true).
      { apply existsb_exists. exists a. split; [exact Ha | apply Ascii.eqb_refl]. }
      congruence.
    + intros j x Hj Hx. rewrite nth_error_map, Hj. cbn [option_map].
      rewrite (cleaned_not_str _ _ Hx). reflexivity.
Qed.

(** X17.  The set of problematic strings may be run through in any order: the
    cleaned table is the same. *)
Theorem clean_presidents_data_any_order :
  forall (order : list ascii) (presidents_data : DataFrame),
    Permutation order PROBLEMATIC_STRINGS ->
    clean_in_order order presidents_data = clean_presidents_data presidents_data.
Proof.
  intros order df Hperm. unfold clean_presidents_data.
  destruct order as [|a order].
  - apply Permutation_nil in Hperm. discriminate.
  - rewrite clean_in_order_spec. unfold PROBLEMATIC_STRINGS.
    rewrite clean_in_order_spec. f_equal.
    apply cleaned_table_permutation, Hperm.
Qed.

Lemma cleaned_again chars x : cleaned chars (cleaned chars x) = cleaned chars x.
Proof.
  rewrite cleaned_app. destruct x; try reflexivity. cbn [cleaned]. f_equal.
  apply keep_ext. intros ch. unfold none_of. rewrite existsb_app.
  destruct (existsb (Ascii.eqb ch) chars); reflexivity.
Qed.

Lemma cleaned_table_again chars df :
  cleaned_table chars (cleaned_table chars df) = cleaned_table chars df.
Proof.
  unfold cleaned_table. cbn [index series]. f_equal.
  rewrite map_map. apply map_ext. intros [c s]. cbn [fst snd]. f_equal.
  rewrite infer_dtype_cleaned, map_map. f_equal. apply map_ext. intros x.
  apply cleaned_again.
Qed.

(** X18.  A cleaned table is clean: cleaning it again returns it. *)
Theorem clean_presidents_data_again :
  forall presidents_data cleaned_data : DataFrame,
    clean_presidents_data presidents_data = Ok cleaned_data ->
    clean_presidents_data cleaned_data = Ok cleaned_data.
Proof.
  intros df df' H. unfold clean_presidents_data, PROBLEMATIC_STRINGS in *.
  rewrite clean_in_order_spec in *. inversion H; subst df'; clear H.
  f_equal. apply cleaned_table_again.
Qed.

End Cleaning.

Section CleaningExamples.

(** X16, witness: the birth place of the first row of the sample table. *)
Lemma clean_presidents_data_texts_witness :
  exists cleaned_data,
    clean_presidents_data presidents_untidy = Ok cleaned_data
    /\ loc "George Washington" (Col "Birth Place") cleaned_data
       = Ok (PyStr "Pope's Creek,Virginia").
Proof.
  destruct (clean_presidents_data_texts presidents_untidy)
    as (cleaned_data & Hrun & Hindex & _ & Hcells).
  exists cleaned_data. split; [exact Hrun|].
  destruct (Hcells (Col "Birth Place") _ 0%nat _ eq_refl eq_refl) as (s' & Hs' & Hi & _).
  unfold loc. rewrite Hindex, Hs'. cbn [index presidents_untidy position String.eqb].
  simpl. destruct s' as [|x s']; [discriminate|]. simpl in Hi. inversion Hi. reflexivity.
Defined.

(** X17, witness: the set run through from its last string to its first. *)
Lemma clean_presidents_data_any_order_witness :
  clean_in_order ["160"%char; "013"%char; "009"%char; newline] presidents_untidy
  = clean_presidents_data presidents_untidy.
Proof.
  apply clean_presidents_data_any_order.
  apply Permutation_sym. exact (Permutation_rev PROBLEMATIC_STRINGS).
Defined.

(** X18, witness: the sample table, cleaned twice. *)
Lemma clean_presidents_data_again_witness :
  clean_presidents_data (cleaned_table PROBLEMATIC_STRINGS presidents_untidy)
  = Ok (cleaned_table PROBLEMATIC_STRINGS presidents_untidy).
Proof.
  apply (clean_presidents_data_again presidents_untidy). reflexivity.
Defined.

End CleaningExamples.

(* ===================================================================== *)
(** * The labels of the election table *)
(* ===================================================================== *)

Section ElectionLabels.

Lemma first_name_key name : first_name name = Ok (fst (name_key name)).
Proof.
  unfold first_name, name_key. destruct (split_cons " " name) as [p [ps E]].
  rewrite E. apply getitem_0.
Qed.

Lemma surname_key name : surname name = Ok (snd (name_key name)).
Proof.
  unfold surname, name_key. destruct (split_cons " " name) as [p [ps E]].
  rewrite E. cbn [snd].
  assert (Hne : p :: ps <> []) by discriminate.
  destruct (exists_last Hne) as [l [a ->]].
  rewrite getitem_last, last_last. reflexivity.
Qed.

Lemma same_person_key president candidate :
  same_person president candidate = true <-> name_key candidate = name_key president.
Proof.
  unfold same_person. rewrite andb_true_iff, !String.eqb_eq.
  destruct (name_key candidate), (name_key president). simpl.
  split; [intros [-> ->]; reflexivity | intros H; inversion H; auto].
Qed.

Lemma same_person_other president candidate :
  name_key candidate <> name_key president -> same_person president candidate = false.
Proof.
  intros H. destruct (same_person president candidate) eqn:E; [|reflexivity].
  apply same_person_key in E. contradiction.
Qed.

Lemma rename_candidates_steps president candidates elections_index :
  rename_candidates president candidates elections_index
  = fold_left (rename_step president) candidates (Ok elections_index).
Proof.
  unfold rename_candidates. rewrite first_name_key, surname_key. cbn [rbind].
  generalize (Ok elections_index) as acc.
  induction candidates as [|c candidates IH]; intros acc; [reflexivity|].
  cbn [fold_left]. rewrite <- IH. f_equal.
  unfold rename_step. destruct acc as [l|e]; [|reflexivity]. cbn [rbind].
  rewrite first_name_key, surname_key. reflexivity.
Qed.

Lemma rename_steps_raise president candidates e :
  fold_left (rename_step president) candidates (Raise e) = Raise e.
Proof. apply fold_raise. reflexivity. Qed.

Lemma rename_steps_none president candidates elections_index :
  Forall (fun c => same_person president c = false) candidates ->
  fold_left (rename_step president) candidates (Ok elections_index) = Ok elections_index.
Proof.
  induction 1 as [|c candidates Hc _ IH]; [reflexivity|].
  cbn [fold_left]. unfold rename_step at 2. cbn [rbind]. rewrite Hc. exact IH.
Qed.

Lemma rename_steps_one president before candidate after elections_index :
  Forall (fun c => same_person president c = false) before ->
  same_person president candidate = true ->
  fold_left (rename_step president) (before ++ candidate :: after)%list (Ok elections_index)
  = fold_left (rename_step president) after
      (i <- list_index candidate elections_index ;;
       Ok (set_nth i president elections_index)).
Proof.
  intros Hbefore Hc. rewrite fold_left_app, (rename_steps_none _ _ _ Hbefore).
  cbn [fold_left]. unfold rename_step at 2. cbn [rbind]. rewrite Hc. reflexivity.
Qed.

Lemma position_app_here (before after : list string) a :
  ~ In a before -> position String.eqb a (before ++ a :: after)%list = Some (length before).
Proof.
  induction before as [|b before IH]; intros Hn; simpl.
  - rewrite String.eqb_refl. reflexivity.
  - destruct (String.eqb a b) eqn:E.
    + apply String.eqb_eq in E. subst. exfalso. apply Hn. left. reflexivity.
    + rewrite IH; [reflexivity|]. intros H. apply Hn. right. exact H.
Qed.

Lemma position_absent (l : list string) a :
  ~ In a l -> position String.eqb a l = None.
Proof.
  induction l as [|b l IH]; intros Hn; [reflexivity|]. simpl.
  destruct (String.eqb a b) eqn:E.
  - apply String.eqb_eq in E. subst. exfalso. apply Hn. left. reflexivity.
  - rewrite IH; [reflexivity|]. intros H. apply Hn. right. exact H.
Qed.

Lemma set_nth_app_here {A} (before after : list A) (a b : A) :
  set_nth (length before) b (before ++ a :: after)%list = (before ++ b :: after)%list.
Proof. induction before as [|x before IH]; simpl; [|rewrite IH]; reflexivity. Qed.

Lemma list_index_here (before after : list string) a :
  ~ In a before -> list_index a (before ++ a :: after)%list = Ok (length before).
Proof. intros H. unfold list_index. rewrite position_app_here by exact H. reflexivity. Qed.

Lemma find_none_app {A} (f : A -> bool) (l : list A) (a : A) :
  List.find f l = None -> List.find f (l ++ [a])%list = if f a then Some a else None.
Proof.
  induction l as [|x l IH]; simpl; [reflexivity|].
  destruct (f x); [discriminate | exact IH].
Qed.

Lemma find_some_app {A} (f : A -> bool) (l : list A) (a x : A) :
  List.find f l = Some x -> List.find f (l ++ [a])%list = Some x.
Proof.
  induction l as [|y l IH]; simpl; [discriminate|].
  destruct (f y); [auto | exact IH].
Qed.

Lemma renamed_next presidents president candidate :
  same_person president candidate = false ->
  renamed (presidents ++ [president]) candidate = renamed presidents candidate.
Proof.
  intros H. unfold renamed.
  destruct (List.find _ presidents) as [p|] eqn:E.
  - rewrite (find_some_app _ _ _ _ E). reflexivity.
  - rewrite (find_none_app _ _ _ E), H. reflexivity.
Qed.

Lemma renamed_cases presidents candidate :
  (renamed presidents candidate = candidate
   /\ Forall (fun p => same_person p candidate = false) presidents)
  \/ (In (renamed presidents candidate) presidents
      /\ same_person (renamed presidents candidate) candidate = true).
Proof.
  unfold renamed. destruct (List.find _ presidents) as [p|] eqn:E.
  - right. apply find_some in E. exact E.
  - left. split; [reflexivity|]. apply Forall_forall. intros p Hp.
    apply (find_none _ _ E p Hp).
Qed.

Lemma NoDup_map_inj {A B} (f : A -> B) (l : list A) a b :
  NoDup (map f l) -> In a l -> In b l -> f a = f b -> a = b.
Proof.
  induction l as [|x l IH]; intros Hnd Ha Hb Hf; [destruct Ha|].
  simpl in Hnd. inversion Hnd; subst.
  destruct Ha as [->|Ha], Hb as [->|Hb]; auto.
  - exfalso. apply H1. rewrite Hf. apply in_map, Hb.
  - exfalso. apply H1. rewrite <- Hf. apply in_map, Ha.
Qed.

(** The outer loop, from the labels that the presidents before have
    left. *)
Lemma rename_presidents candidates :
  NoDup (map name_key candidates) ->
  forall later earlier,
    NoDup (map name_key (earlier ++ later)%list) ->
    fold_left
      (fun acc president =>
         elections_index <- acc ;;
         rename_candidates president candidates elections_index)
      later (Ok (map (renamed earlier) candidates))
    = Ok (map (renamed (earlier ++ later)%list) candidates).
Proof.
  intros HC. induction later as [|p later IH]; intros earlier HP.
  - rewrite app_nil_r. reflexivity.
  - cbn [fold_left rbind]. rewrite rename_candidates_steps.
    assert (Hstep : fold_left (rename_step p) candidates (Ok (map (renamed earlier) candidates))
                    = Ok (map (renamed (earlier ++ [p])%list) candidates)).
    { assert (Hearlier : forall c, same_person p c = true ->
                                   Forall (fun p' => same_person p' c = false) earlier).
      { intros c Hc. apply Forall_forall. intros p' Hp'.
        apply same_person_other. intros Hk. apply same_person_key in Hc.
        assert (p' = p).
        { apply (NoDup_map_inj name_key (earlier ++ p :: later)%list); auto.
          - apply in_or_app. left. exact Hp'.
          - apply in_or_app. right. left. reflexivity.
          - congruence. }
        subst p'. rewrite map_app in HP. cbn [map] in HP.
        apply NoDup_remove_2 in HP. apply HP, in_or_app. left.
        apply in_map, Hp'. }
      destruct (existsb (same_person p) candidates) eqn:Ex.
      - apply existsb_exists in Ex as (c0 & Hin & Hc0).
        apply in_split in Hin as (before & after & ->).
        assert (Hothers : forall c, In c (before ++ after)%list -> same_person p c = false).
        { intros c Hc. apply same_person_other. intros Hk.
          apply same_person_key in Hc0.
          assert (c = c0).
          { apply (NoDup_map_inj name_key (before ++ c0 :: after)%list); auto.
            - apply in_app_or in Hc as [Hc|Hc]; apply in_or_app; [left|right; right];
                exact Hc.
            - apply in_or_app. right. left. reflexivity.
            - congruence. }
          subst c. rewrite map_app in HC. cbn [map] in HC.
          apply NoDup_remove_2 in HC. apply HC. rewrite <- map_app. apply in_map, Hc. }
        rewrite rename_steps_one;
          [| apply Forall_forall; intros c Hc; apply Hothers, in_or_app; left; exact Hc
           | exact Hc0].
        assert (Hown : renamed earlier c0 = c0).
        { destruct (renamed_cases earlier c0) as [[H _]|[Hin Hsame]]; [exact H|].
          pose proof (Hearlier c0 Hc0) as Hf. rewrite Forall_forall in Hf.
          rewrite (Hf _ Hin) in Hsame. discriminate. }
        rewrite map_app. cbn [map]. rewrite Hown.
        rewrite list_index_here.
        2:{ intros Hin. apply in_map_iff in Hin as (c & Hc & Hcin).
            assert (Hne : c <> c0).
            { intros ->. apply NoDup_map_inv in HC. apply NoDup_remove_2 in HC.
              apply HC, in_or_app. left. exact Hcin. }
            destruct (renamed_cases earlier c) as [[H _]|[Hp' Hsame]]; [congruence|].
            rewrite Hc in Hsame. apply same_person_key in Hsame.
            apply Hne.
            apply (NoDup_map_inj name_key (before ++ c0 :: after)%list); auto.
            - apply in_or_app. left. exact Hcin.
            - apply in_or_app. right. left. reflexivity. }
        cbn [rbind]. rewrite length_map, <- (length_map (renamed earlier) before).
        rewrite set_nth_app_here.
        rewrite rename_steps_none
          by (apply Forall_forall; intros c Hc; apply Hothers, in_or_app; right; exact Hc).
        f_equal. rewrite map_app. cbn [map]. f_equal; [|f_equal].
        + apply map_ext_in. intros c Hc. symmetry. apply renamed_next.
          apply Hothers, in_or_app. left. exact Hc.
        + unfold renamed.
          assert (Hnone : List.find (fun president => same_person president c0) earlier = None).
          { destruct (List.find _ earlier) as [p'|] eqn:E; [|reflexivity].
            apply find_some in E as [Hp' Hsame].
            pose proof (Hearlier c0 Hc0) as Hf. rewrite Forall_forall in Hf.
            rewrite (Hf _ Hp') in Hsame. discriminate. }
          rewrite (find_none_app _ _ _ Hnone), Hc0. reflexivity.
        + apply map_ext_in. intros c Hc. symmetry. apply renamed_next.
          apply Hothers, in_or_app. right. exact Hc.
      - rewrite rename_steps_none.
        + f_equal. apply map_ext_in. intros c Hc. symmetry. apply renamed_next.
          destruct (same_person p c) eqn:E; [|reflexivity].
          assert (existsb (same_person p) candidates = true)
            by (apply existsb_exists; eauto).
          congruence.
        + apply Forall_forall. intros c Hc.
          destruct (same_person p c) eqn:E; [|reflexivity].
          assert (existsb (same_person p) candidates = true)
            by (apply existsb_exists; eauto).
          congruence. }
    rewrite Hstep. rewrite (IH (earlier ++ [p])%list), <- app_assoc; [reflexivity|].
    rewrite <- app_assoc. exact HP.
Qed.

(** X19.  When no two presidents and no two candidates share their first and
    last words, [correct_elections_data_indices] returns the election
    table with its cells as they were, and each candidate who has the
    first and the last word of a president under the name of that
    president; the other candidates keep their labels. *)
Theorem correct_indices_renamed :
  forall elections_data presidents_data : DataFrame,
    NoDup (map name_key (index presidents_data)) ->
    NoDup (map name_key (index elections_data)) ->
    correct_elections_data_indices elections_data presidents_data
    = Ok (mkDataFrame (map (renamed (index presidents_data)) (index elections_data))
                      (series elections_data)).
Proof.
  intros E P HP HC. unfold correct_elections_data_indices.
  assert (Hstart : index E = map (renamed []) (index E)).
  { unfold renamed. simpl. symmetry. apply map_id. }
  rewrite Hstart at 1.
  match goal with |- context [fold_left ?f _ _] =>
    change (fold_left f (index P) (Ok (map (renamed []) (index E))))
      with (fold_left
              (fun acc president =>
                 elections_index <- acc ;;
                 rename_candidates president (index E) elections_index)
              (index P) (Ok (map (renamed []) (index E)))) end.
  rewrite (rename_presidents (index E) HC (index P) [] HP). reflexivity.
Qed.

End ElectionLabels.

Section ElectionLabelsExamples.

(** X19, witness: a president with a middle initial. *)
Lemma correct_indices_renamed_witness :
  correct_elections_data_indices
    (mkDataFrame ["George Clinton"; "John Adams"; "Thomas Jefferson"]
       [(Col2 "1796" "Electoral Votes", [PyInt 7; PyInt 71; PyInt 68])])
    presidents_distinct
  = Ok (mkDataFrame ["George Clinton"; "John Adams"; "Thomas M. Jefferson"]
          [(Col2 "1796" "Electoral Votes", [PyInt 7; PyInt 71; PyInt 68])]).
Proof.
  apply (correct_indices_renamed
           (mkDataFrame ["George Clinton"; "John Adams"; "Thomas Jefferson"]
              [(Col2 "1796" "Electoral Votes", [PyInt 7; PyInt 71; PyInt 68])])
           presidents_distinct).
  - simpl. repeat (constructor; [simpl; intuition discriminate|]). constructor.
  - simpl. repeat (constructor; [simpl; intuition discriminate|]). constructor.
Defined.

End ElectionLabelsExamples.

Section Namesakes.

Lemma rename_steps_kept president candidates acc :
  Forall (fun c => same_person president c = false) candidates ->
  fold_left (rename_step president) candidates acc = acc.
Proof.
  intros H. destruct acc as [l|e];
    [apply rename_steps_none, H | apply rename_steps_raise].
Qed.

(** The inner loop for a president whose first and last words two
    candidates have. *)
Lemma rename_steps_two president before x middle y after elections_index :
  Forall (fun c => same_person president c = false) (before ++ middle ++ after)%list ->
  same_person president x = true ->
  same_person president y = true ->
  fold_left (rename_step president) (before ++ x :: middle ++ y :: after)%list
            (Ok elections_index)
  = (i <- list_index x elections_index ;;
     j <- list_index y (set_nth i president elections_index) ;;
     Ok (set_nth j president (set_nth i president elections_index))).
Proof.
  intros Hothers Hx Hy.
  apply Forall_app in Hothers as [Hbefore Hothers].
  apply Forall_app in Hothers as [Hmiddle Hafter].
  rewrite (rename_steps_one _ _ _ _ _ Hbefore Hx).
  destruct (list_index x elections_index) as [i|e]; cbn [rbind];
    [|apply rename_steps_raise].
  rewrite (rename_steps_one _ _ _ _ _ Hmiddle Hy).
  apply rename_steps_kept, Hafter.
Qed.

Lemma outer_kept candidates presidents acc :
  Forall (fun p => Forall (fun c => same_person p c = false) candidates) presidents ->
  fold_left
    (fun acc president =>
       elections_index <- acc ;;
       rename_candidates president candidates elections_index)
    presidents acc
  = acc.
Proof.
  intros H. revert acc. induction H as [|p presidents Hp _ IH]; intros acc;
    [reflexivity|].
  cbn [fold_left]. rewrite IH. destruct acc as [l|e]; [|reflexivity].
  cbn [rbind]. rewrite rename_candidates_steps. apply rename_steps_none, Hp.
Qed.

Lemma other_key_not_in (l : list string) a :
  Forall (fun c => name_key c <> name_key a) l -> ~ In a l.
Proof.
  intros H Hin. rewrite Forall_forall in H. apply (H a Hin). reflexivity.
Qed.

Lemma list_index_second (before middle after : list string) x y :
  ~ In y before -> y <> x -> ~ In y middle ->
  list_index y (before ++ x :: middle ++ y :: after)%list
  = Ok (length (before ++ x :: middle)%list).
Proof.
  intros H1 H2 H3.
  replace (before ++ x :: middle ++ y :: after)%list
    with ((before ++ x :: middle) ++ y :: after)%list
    by (rewrite <- app_assoc; reflexivity).
  apply list_index_here. intros Hin.
  apply in_app_or in Hin as [Hin|[Hin|Hin]]; [contradiction | congruence | contradiction].
Qed.

Lemma set_nth_second {A} (before middle after : list A) (x y v : A) :
  set_nth (length (before ++ x :: middle)%list) v (before ++ x :: middle ++ y :: after)%list
  = (before ++ x :: middle ++ v :: after)%list.
Proof.
  replace (before ++ x :: middle ++ y :: after)%list
    with ((before ++ x :: middle) ++ y :: after)%list
    by (rewrite <- app_assoc; reflexivity).
  rewrite set_nth_app_here, <- app_assoc. reflexivity.
Qed.

Lemma list_index_missing (l : list string) a : ~ In a l -> list_index a l = Raise ValueError.
Proof. intros H. unfold list_index. rewrite position_absent by exact H. reflexivity. Qed.

(** X20.  Namesakes.  Let two presidents [a] and [q], [a] the earlier row, share
    their first and last words, and let both stand in the election table,
    where no other candidate has these words; let the other presidents
    match no candidate.  When [a] stands above [q] in the election table,
    [correct_elections_data_indices] returns the table with the two labels
    exchanged: the row of [a] is labelled [q] and the row of [q] is
    labelled [a].  When [q] stands above [a], it raises ValueError. *)
Theorem correct_indices_namesakes :
  forall (elections_data presidents_data : DataFrame) (a q : string)
         (C1 C2 C3 P1 P2 P3 : list string),
    a <> q ->
    name_key q = name_key a ->
    index presidents_data = (P1 ++ a :: P2 ++ q :: P3)%list ->
    Forall (fun p => Forall (fun c => same_person p c = false) (index elections_data))
           (P1 ++ P2 ++ P3)%list ->
    Forall (fun c => name_key c <> name_key a) (C1 ++ C2 ++ C3)%list ->
    (index elections_data = (C1 ++ a :: C2 ++ q :: C3)%list ->
     correct_elections_data_indices elections_data presidents_data
     = Ok (mkDataFrame (C1 ++ q :: C2 ++ a :: C3)%list (series elections_data)))
    /\ (index elections_data = (C1 ++ q :: C2 ++ a :: C3)%list ->
        correct_elections_data_indices elections_data presidents_data = Raise ValueError).
Proof.
  intros E P a q C1 C2 C3 P1 P2 P3 Haq Hk HP HPo HCo.
  apply Forall_app in HPo as [HP1 HPo]. apply Forall_app in HPo as [HP2 HP3].
  assert (Hsame : forall p, name_key p = name_key a ->
                            Forall (fun c => same_person p c = false) (C1 ++ C2 ++ C3)%list).
  { intros p Hp. revert HCo. apply Forall_impl. intros c Hc.
    apply same_person_other. congruence. }
  assert (Hmatch : forall p c, name_key p = name_key a -> name_key c = name_key a ->
                               same_person p c = true).
  { intros p c Hp Hc. apply same_person_key. congruence. }
  assert (Hout : forall x l, name_key x = name_key a -> In x l ->
                             Forall (fun c => name_key c <> name_key a) l -> False).
  { intros x l Hx Hin Hl. rewrite Forall_forall in Hl. exact (Hl x Hin Hx). }
  apply Forall_app in HCo as [HC1 HCo]. apply Forall_app in HCo as [HC2 HC3].
  assert (Hrun : correct_elections_data_indices E P
                 = (elections_index <-
                      (elections_index <-
                         fold_left (rename_step a) (index E) (Ok (index E)) ;;
                       fold_left (rename_step q) (index E) (Ok elections_index)) ;;
                    Ok (mkDataFrame elections_index (series E)))).
  { unfold correct_elections_data_indices. rewrite HP.
    rewrite fold_left_app, (outer_kept (index E) P1 _ HP1).
    cbn [fold_left rbind].
    rewrite fold_left_app, (outer_kept (index E) P2 _ HP2).
    cbn [fold_left].
    rewrite (outer_kept (index E) P3 _ HP3).
    rewrite rename_candidates_steps.
    destruct (fold_left (rename_step a) (index E) (Ok (index E))) as [l|e]; [|reflexivity].
    cbn [rbind]. rewrite rename_candidates_steps. reflexivity. }
  split; intros HE; rewrite Hrun, HE.
  - rewrite (rename_steps_two a C1 a C2 q C3) by auto.
    rewrite list_index_here by (intros H; exact (Hout a C1 eq_refl H HC1)).
    cbn [rbind]. rewrite set_nth_app_here.
    rewrite list_index_second;
      [| intros H; exact (Hout q C1 Hk H HC1)
       | congruence
       | intros H; exact (Hout q C2 Hk H HC2)].
    cbn [rbind]. rewrite set_nth_second.
    rewrite (rename_steps_two q C1 a C2 q C3) by auto.
    rewrite list_index_here by (intros H; exact (Hout a C1 eq_refl H HC1)).
    cbn [rbind]. rewrite set_nth_app_here.
    rewrite list_index_here by (intros H; exact (Hout q C1 Hk H HC1)).
    cbn [rbind]. rewrite set_nth_app_here. reflexivity.
  - rewrite (rename_steps_two a C1 q C2 a C3) by auto.
    rewrite list_index_here by (intros H; exact (Hout q C1 Hk H HC1)).
    cbn [rbind]. rewrite set_nth_app_here.
    rewrite list_index_here by (intros H; exact (Hout a C1 eq_refl H HC1)).
    cbn [rbind]. rewrite set_nth_app_here.
    rewrite (rename_steps_two q C1 q C2 a C3) by auto.
    rewrite list_index_missing; [reflexivity|].
    intros Hin. apply in_app_or in Hin as [Hin|[Hin|Hin]].
    + exact (Hout q C1 Hk Hin HC1).
    + congruence.
    + apply in_app_or in Hin as [Hin|[Hin|Hin]].
      * exact (Hout q C2 Hk Hin HC2).
      * congruence.
      * exact (Hout q C3 Hk Hin HC3).
Qed.

End Namesakes.

Section NamesakesExamples.

(** X20, witness: John Adams and John Quincy Adams. *)
Lemma correct_indices_namesakes_witness :
  correct_elections_data_indices elections_names presidents_namesakes
  = Ok (mkDataFrame
          ["George Clinton"; "John Quincy Adams"; "John Adams"; "Thomas Jefferson"]
          (series elections_names)).
Proof.
  apply (proj1 (correct_indices_namesakes elections_names presidents_namesakes
                  "John Adams" "John Quincy Adams"
                  ["George Clinton"] [] ["Thomas Jefferson"] [] ["John Tyler"] []
                  ltac:(discriminate) eq_refl eq_refl
                  ltac:(repeat constructor)
                  ltac:(repeat constructor; discriminate))).
  reflexivity.
Defined.

End NamesakesExamples.

Section LabelsKept.

Lemma fold_ok_invariant {A B} (Inv : B -> Prop) (step : result B -> A -> result B) (l : list A) :
  (forall e a, step (Raise e) a = Raise e) ->
  (forall x a y, In a l -> Inv x -> step (Ok x) a = Ok y -> Inv y) ->
  forall x y, Inv x -> fold_left step l (Ok x) = Ok y -> Inv y.
Proof.
  intros Hraise. induction l as [|a l IH]; intros Hstep x y Hx H.
  - inversion H; subst. exact Hx.
  - cbn [fold_left] in H. destruct (step (Ok x) a) as [x'|e] eqn:E.
    + apply (IH (fun x0 a0 y0 Hin => Hstep x0 a0 y0 (or_intror Hin)) x' y); [|exact H].
      apply (Hstep x a x' (or_introl eq_refl) Hx E).
    + rewrite fold_raise in H by (intros a'; apply Hraise). discriminate.
Qed.

Lemma Forall_set_nth {A} (Q : A -> Prop) (l : list A) i a :
  Q a -> Forall Q l -> Forall Q (set_nth i a l).
Proof.
  intros Ha H. revert i. induction H as [|x l Hx Hl IH]; intros i;
    [destruct i; constructor|].
  destruct i; simpl; constructor; auto.
Qed.

(** X21.  Whatever the names, [correct_elections_data_indices] changes labels
    only: when it returns, the cells of the election table are as they
    were, the table has as many rows as before, and every label is a label
    the table had or the name of a president. *)
Theorem correct_indices_keeps_table :
  forall elections_data presidents_data corrected : DataFrame,
    correct_elections_data_indices elections_data presidents_data = Ok corrected ->
    series corrected = series elections_data
    /\ length (index corrected) = length (index elections_data)
    /\ Forall (fun label => In label (index elections_data)
                            \/ In label (index presidents_data)) (index corrected).
Proof.
  intros E P df H. unfold correct_elections_data_indices in H.
  apply rbind_ok in H as (l & Hl & H). inversion H; subst df; clear H.
  cbn [series index]. split; [reflexivity|].
  set (Inv := fun l : list string =>
                length l = length (index E)
                /\ Forall (fun label => In label (index E) \/ In label (index P)) l).
  change (Inv l).
  refine (fold_ok_invariant Inv _ (index P) _ _ (index E) l _ Hl).
  - reflexivity.
  - intros x p y Hp Hx Hy. cbn [rbind] in Hy. rewrite rename_candidates_steps in Hy.
    refine (fold_ok_invariant Inv (rename_step p) (index E) _ _ x y Hx Hy).
    + reflexivity.
    + intros x' c y' _ [Hlen Hall] Hstep. unfold rename_step in Hstep.
      cbn [rbind] in Hstep. destruct (same_person p c).
      * apply rbind_ok in Hstep as (i & _ & Hstep). inversion Hstep; subst y'.
        split; [rewrite length_set_nth; exact Hlen|].
        apply Forall_set_nth; [right; exact Hp | exact Hall].
      * inversion Hstep; subst y'. split; assumption.
  - split; [reflexivity|]. apply Forall_forall. intros label Hin. left. exact Hin.
Qed.

End LabelsKept.

Section LabelsKeptExamples.

(** X21, witness: the sample tables. *)
Lemma correct_indices_keeps_table_witness :
  exists corrected,
    correct_elections_data_indices elections_names presidents_distinct = Ok corrected
    /\ series corrected = series elections_names
    /\ length (index corrected) = 4%nat.
Proof.
  destruct (correct_elections_data_indices elections_names presidents_distinct)
    as [corrected|e] eqn:E; [|vm_compute in E; discriminate].
  exists corrected. split; [reflexivity|].
  destruct (correct_indices_keeps_table _ _ _ E) as (Hs & Hl & _).
  split; [exact Hs | exact Hl].
Defined.

End LabelsKeptExamples.

(* ===================================================================== *)
(** * The queries sent to the geocoder *)
(* ===================================================================== *)

Section Queries.

Lemma split_from_nonempty skip sep s : split_from skip sep s <> [].
Proof.
  revert skip; induction s as [|c r IH]; intros skip; [discriminate|].
  cbn [split_from]. destruct skip as [|k]; [|apply IH].
  destruct (String.prefix sep (String c r)); [discriminate|].
  destruct (split_from 0 sep r); discriminate.
Qed.

Lemma split_from_skip sep p s :
  split_from (String.length p) sep (p ++ s) = split_from 0 sep s.
Proof. induction p as [|c p IH]; [reflexivity|]. exact IH. Qed.

(** A string that contains the separator splits into two pieces or more. *)
Lemma split_str_contains c0 sep s :
  contains (String c0 sep) s = true -> (2 <= length (split_str (String c0 sep) s))%nat.
Proof.
  unfold split_str. induction s as [|c r IH]; [discriminate|].
  cbn [contains split_from]. destruct (String.prefix (String c0 sep) (String c r)).
  - intros _.
    destruct (split_from (String.length (String c0 sep) - 1) (String c0 sep) r) eqn:E;
      [|simpl; lia].
    exfalso. exact (split_from_nonempty _ _ _ E).
  - cbn [orb]. intros H. specialize (IH H).
    destruct (split_from 0 (String c0 sep) r); simpl in *; lia.
Qed.

Lemma contains_here sub before after : contains sub (before ++ sub ++ after) = true.
Proof.
  induction before as [|c r IH].
  - cbn [append]. destruct (sub ++ after) eqn:E.
    + cbn [contains]. destruct sub; [reflexivity | discriminate].
    + cbn [contains]. rewrite <- E, prefix_app. reflexivity.
  - cbn [append contains]. rewrite IH. apply orb_true_r.
Qed.

Lemma split_str_lacks c0 sep s :
  lacks c0 s = true -> split_str (String c0 sep) s = [s].
Proof.
  unfold split_str, lacks. induction s as [|c r IH]; [reflexivity|].
  cbn [all_chars split_from String.prefix]. intros H.
  apply andb_true_iff in H as [Hc Hr]. apply negb_true_iff in Hc.
  destruct (ascii_dec c0 c) as [->|_]; [rewrite Ascii.eqb_refl in Hc; discriminate|].
  rewrite (IH Hr). reflexivity.
Qed.

Lemma split_str_first c0 sep before after :
  lacks c0 before = true ->
  split_str (String c0 sep) (before ++ String c0 sep ++ after)
  = before :: split_str (String c0 sep) after.
Proof.
  unfold split_str, lacks. induction before as [|c r IH].
  - intros _. cbn [append split_from].
    change (String c0 (sep ++ after)) with (String c0 sep ++ after).
    rewrite prefix_app. cbn [String.length]. rewrite Nat.sub_1_r. cbn [Nat.pred].
    rewrite split_from_skip. reflexivity.
  - cbn [all_chars append split_from String.prefix]. intros H.
    apply andb_true_iff in H as [Hc Hr]. apply negb_true_iff in Hc.
    destruct (ascii_dec c0 c) as [->|_]; [rewrite Ascii.eqb_refl in Hc; discriminate|].
    change (String c0 (sep ++ after)) with (String c0 sep ++ after).
    rewrite (IH Hr). reflexivity.
Qed.

Variable Location : Type.
Variable geocode : string -> option Location.

(** X22.  [_get_location] raises no exception on a text, whatever the text:
    the piece after the marker "(now" or "near" is there whenever the
    marker is.  It sends one query.  For a place without the four markers
    the query is the place followed by ",USA"; for a place
    "<before>(now<rest>" with no other parenthesis open it is <rest>
    without ")" followed by ",USA".  A birth place that is None is not
    looked up: TypeError. *)
Theorem get_location_queries :
  forall place : string,
    (exists query,
        _get_location Location geocode (PyStr place) = Ok (geocode query)
        /\ (contains "(now" place = false -> contains "near" place = false ->
            contains "Shadwell plantation" place = false ->
            contains "Waxhaw area" place = false ->
            query = place ++ ",USA")
        /\ (forall before rest,
               place = before ++ "(now" ++ rest ->
               lacks "(" before = true -> lacks "(" rest = true ->
               query = remove ")" rest ++ ",USA"))
    /\ _get_location Location geocode PyNone = Raise TypeError.
Proof.
  intros place. split; [|reflexivity].
  unfold _get_location.
  destruct (contains "(now" place) eqn:Enow.
  - pose proof (split_str_contains _ _ _ Enow) as Hlen.
    rewrite (getitem_lt _ 1 EmptyString) by lia. cbn [rbind].
    eexists. split; [reflexivity|]. split; [discriminate|].
    intros before rest -> Hbefore Hrest.
    rewrite split_str_first by exact Hbefore.
    rewrite split_str_lacks by exact Hrest. reflexivity.
  - assert (Hnot : forall before rest, place <> before ++ "(now" ++ rest).
    { intros before rest ->. rewrite contains_here in Enow. discriminate. }
    destruct (contains "near" place) eqn:Enear.
    + pose proof (split_str_contains _ _ _ Enear) as Hlen.
      rewrite (getitem_lt _ 1 EmptyString) by lia. cbn [rbind].
      eexists. split; [reflexivity|]. split; [discriminate|].
      intros before rest H. exfalso. exact (Hnot _ _ H).
    + destruct (contains "Shadwell plantation" place) eqn:E1.
      * eexists. split; [reflexivity|]. split; [discriminate|].
        intros before rest H. exfalso. exact (Hnot _ _ H).
      * destruct (contains "Waxhaw area" place) eqn:E2.
        -- eexists. split; [reflexivity|]. split; [discriminate|].
           intros before rest H. exfalso. exact (Hnot _ _ H).
        -- eexists. split; [reflexivity|]. split; [reflexivity|].
           intros before rest H. exfalso. exact (Hnot _ _ H).
Qed.

End Queries.

Section QueriesExamples.

(** X22, witness: a birth place that has changed its name, and a
    geocoder that answers with the query. *)
Lemma get_location_queries_witness :
  _get_location string (fun query => Some query)
                (PyStr "Hillsborough (now Hillsboro), New Hampshire")
  = Ok (Some " Hillsboro, New Hampshire,USA").
Proof.
  destruct (proj1 (get_location_queries string (fun query => Some query)
                     "Hillsborough (now Hillsboro), New Hampshire"))
    as (query & Hrun & _ & Hnow).
  rewrite Hrun.
  rewrite (Hnow "Hillsborough " " Hillsboro), New Hampshire" eq_refl eq_refl eq_refl).
  reflexivity.
Defined.

End QueriesExamples.

(* ===================================================================== *)
(** * What the type normalizer returns *)
(* ===================================================================== *)

Section ConvertedTypes.

Variable str_of_float : Z -> Z -> string.
Variable str_of_Timestamp : Timestamp -> string.
Variable Timestamp_of : pyval -> result Timestamp.

Lemma run_steps_index steps df df' : run_steps steps df = Ok df' -> index df' = index df.
Proof.
  revert df; induction steps as [|cf steps IH]; intros df H.
  - inversion H; reflexivity.
  - rewrite run_steps_cons in H. apply rbind_ok in H as (df1 & H1 & H).
    rewrite (IH df1 H).
    destruct (map_column_result _ _ _ _ H1) as (_ & _ & _ & _ & Hi). exact Hi.
Qed.

(** After a run of conversions of distinct columns, each column holds
    what its conversion returned. *)
Lemma run_steps_column steps :
  NoDup (map fst steps) ->
  forall c f df df',
    In (c, f) steps -> run_steps steps df = Ok df' ->
    exists s t, series_map f s = Ok t /\ lookup_column c (series df') = Some t.
Proof.
  induction steps as [|cf steps IH]; intros Hnd c f df df' Hin H; [destruct Hin|].
  inversion Hnd as [|? ? Hnotin Hnd']; subst.
  rewrite run_steps_cons in H. apply rbind_ok in H as (df1 & H1 & H).
  destruct Hin as [->|Hin].
  - destruct (map_column_result _ _ _ _ H1) as (s & t & Hst & Hc & _).
    exists s, t. split; [exact Hst|].
    rewrite (run_steps_other steps c df1 df' H Hnotin). exact Hc.
  - apply (IH Hnd' c f df1 df' Hin H).
Qed.

Lemma series_map_cells (P : pyval -> bool) f s t :
  (forall x y, f x = Ok y -> P y = true) ->
  (forall y, P y = true -> P (to_float y) = true) ->
  series_map f s = Ok t -> Forall (fun v => P v = true) t.
Proof.
  intros Hf Hfloat H. unfold series_map in H.
  apply rbind_ok in H as (s' & Hs' & H). inversion H; subst t.
  apply infer_dtype_keeps; [exact Hfloat|].
  eapply mapM_Forall; [|exact Hs']. exact Hf.
Qed.

Lemma series_map_no_number (P : pyval -> bool) f s t :
  (forall x y, f x = Ok y -> P y = true) ->
  (forall y, P y = true -> is_number y = false) ->
  series_map f s = Ok t -> Forall (fun v => P v = true) t.
Proof.
  intros Hf Hno H. unfold series_map in H.
  apply rbind_ok in H as (s' & Hs' & H). inversion H; subst t.
  assert (HP : Forall (fun v => P v = true) s')
    by (eapply mapM_Forall; [|exact Hs']; exact Hf).
  rewrite infer_dtype_no_number; [exact HP|].
  revert HP. apply Forall_impl. exact Hno.
Qed.

Lemma series_map_ints f s t :
  (forall x y, f x = Ok y -> is_int y = true) ->
  series_map f s = Ok t -> Forall (fun v => is_int v = true) t.
Proof.
  intros Hf H. unfold series_map in H.
  apply rbind_ok in H as (s' & Hs' & H). inversion H; subst t.
  assert (Hints : Forall (fun v => is_int v = true) s')
    by (eapply mapM_Forall; [|exact Hs']; exact Hf).
  rewrite infer_dtype_integers; [exact Hints|].
  revert Hints. apply Forall_impl.
  intros v Hv; destruct v; try discriminate; reflexivity.
Qed.

(** X23.  When [convert_presidents_data] returns, the table has the rows it
    had, and its columns hold what the normalizer is for: the twelve text
    columns hold None or a text other than "None" and "nan", the columns
    of the key-events count and the president number hold integers, the
    salary column holds no text, and the four date columns hold
    timestamps. *)
Theorem convert_presidents_data_types :
  forall presidents_data converted_data : DataFrame,
    convert_presidents_data str_of_float str_of_Timestamp Timestamp_of presidents_data
    = Ok converted_data ->
    index converted_data = index presidents_data
    /\ (forall c, In c STR_VARIABLES ->
                  exists t, lookup_column (Col c) (series converted_data) = Some t
                            /\ Forall (fun v => is_text v = true) t)
    /\ (forall c, In c ["Key Events Count"; "President Number"] ->
                  exists t, lookup_column (Col c) (series converted_data) = Some t
                            /\ Forall (fun v => is_int v = true) t)
    /\ (exists t, lookup_column (Col "Salary") (series converted_data) = Some t
                  /\ Forall (fun v => is_str v = false) t)
    /\ (forall c, In c TIMESTAMP_VARIABLES ->
                  exists t, lookup_column (Col c) (series converted_data) = Some t
                            /\ Forall (fun v => is_timestamp v = true) t).
Proof.
  intros df df' H. rewrite convert_presidents_data_steps in H.
  pose proof (presidents_steps_distinct str_of_float str_of_Timestamp Timestamp_of) as Hnd.
  pose proof (run_steps_column _ Hnd) as Hcol.
  split; [exact (run_steps_index _ _ _ H)|]. split; [|split; [|split]].
  - intros c Hc.
    destruct (Hcol (Col c) (to_text str_of_float str_of_Timestamp) df df') as (s & t & Hst & Ht);
      [|exact H|].
    { unfold presidents_steps. apply in_or_app. left.
      apply in_map_iff. exists c. auto. }
    exists t. split; [exact Ht|].
    apply (series_map_no_number is_text (to_text str_of_float str_of_Timestamp) s t);
      [apply to_text_is_text | apply text_not_number | exact Hst].
  - intros c Hc.
    destruct (Hcol (Col c) (to_int) df df') as (s & t & Hst & Ht); [|exact H|].
    { unfold presidents_steps. apply in_or_app. right. apply in_or_app. left.
      destruct Hc as [<-|[<-|[]]]; [left | right; left]; reflexivity. }
    exists t. split; [exact Ht|].
    apply (series_map_ints to_int s t); [|exact Hst].
    unfold to_int. intros x y Hy. apply rbind_ok in Hy as (z & _ & Hy).
    inversion Hy; reflexivity.
  - destruct (Hcol (Col "Salary") _extract_salary df df') as (s & t & Hst & Ht);
      [|exact H|].
    { unfold presidents_steps. apply in_or_app. right. apply in_or_app. left.
      right; right; left; reflexivity. }
    exists t. split; [exact Ht|].
    assert (Hcells : Forall (fun v => negb (is_str v) = true) t).
    { apply (series_map_cells (fun v => negb (is_str v)) _extract_salary s t);
        [| | exact Hst].
      - intros x y Hy. rewrite (extract_salary_not_str x y Hy). reflexivity.
      - intros y; destruct y; simpl; auto. }
    revert Hcells. apply Forall_impl. intros v Hv. apply negb_true_iff, Hv.
  - intros c Hc.
    destruct (Hcol (Col c) (to_timestamp Timestamp_of) df df') as (s & t & Hst & Ht);
      [|exact H|].
    { unfold presidents_steps. apply in_or_app. right. apply in_or_app. right.
      apply in_map_iff. exists c. auto. }
    exists t. split; [exact Ht|].
    apply (series_map_no_number is_timestamp (to_timestamp Timestamp_of) s t);
      [| | exact Hst].
    + unfold to_timestamp. intros x y Hy. apply rbind_ok in Hy as (ts & _ & Hy).
      inversion Hy; reflexivity.
    + intros y; destruct y; simpl; try discriminate; reflexivity.
Qed.

Lemma map_column_absent f c0 c df df1 :
  map_column f c0 df = Ok df1 ->
  lookup_column c (series df) = None -> lookup_column c (series df1) = None.
Proof.
  intros H Hc. destruct (label_eqb c0 c) eqn:E.
  - apply label_eqb_eq in E. subst c0.
    unfold map_column, getitem_column in H. rewrite Hc in H. discriminate.
  - rewrite (map_column_other f c0 c df df1 H); [exact Hc|].
    intros ->. rewrite label_eqb_refl in E. discriminate.
Qed.

Lemma run_steps_absent steps c f :
  In (c, f) steps ->
  forall df, lookup_column c (series df) = None -> exists e, run_steps steps df = Raise e.
Proof.
  induction steps as [|cf steps IH]; intros Hin df Hc; [destruct Hin|].
  rewrite run_steps_cons.
  destruct (map_column (snd cf) (fst cf) df) as [df1|e] eqn:E1;
    [|cbn [rbind]; eauto].
  cbn [rbind]. destruct Hin as [->|Hin].
  - unfold map_column, getitem_column in E1. cbn [fst] in E1.
    rewrite Hc in E1. discriminate.
  - apply (IH Hin df1). eapply map_column_absent; eassumption.
Qed.

Lemma text_steps_absent cs c :
  In c cs ->
  forall df, lookup_column (Col c) (series df) = None ->
             run_steps (map (fun c => (Col c, to_text str_of_float str_of_Timestamp)) cs) df
             = Raise KeyError.
Proof.
  induction cs as [|c0 cs IH]; intros Hin df Hc; [destruct Hin|].
  cbn [map]. rewrite run_steps_cons. cbn [fst snd].
  destruct (lookup_column (Col c0) (series df)) as [s|] eqn:E0.
  - assert (Hrun : exists df1, map_column (to_text str_of_float str_of_Timestamp) (Col c0) df
                               = Ok df1).
    { unfold map_column, getitem_column, series_map, to_text. rewrite E0. cbn [rbind].
      rewrite mapM_total. cbn [rbind]. eauto. }
    destruct Hrun as [df1 Hrun]. rewrite Hrun. cbn [rbind].
    destruct Hin as [->|Hin]; [congruence|].
    apply (IH Hin). eapply map_column_absent; eassumption.
  - unfold map_column, getitem_column. rewrite E0. reflexivity.
Qed.

(** X24.  [convert_presidents_data] does not return on a table that lacks one
    of the nineteen columns it converts; when the missing column is one of
    the twelve text columns, which are converted first and whose
    conversion cannot fail, the exception is KeyError. *)
Theorem convert_presidents_data_missing_column :
  forall (presidents_data : DataFrame) (c : string),
    lookup_column (Col c) (series presidents_data) = None ->
    (In c (STR_VARIABLES ++ INT_VARIABLES ++ TIMESTAMP_VARIABLES)%list ->
     exists e,
       convert_presidents_data str_of_float str_of_Timestamp Timestamp_of presidents_data
       = Raise e)
    /\ (In c STR_VARIABLES ->
        convert_presidents_data str_of_float str_of_Timestamp Timestamp_of presidents_data
        = Raise KeyError).
Proof.
  intros df c Hc. rewrite convert_presidents_data_steps. split.
  - intros Hin.
    assert (Hstep : exists f, In (Col c, f)
                                 (presidents_steps str_of_float str_of_Timestamp Timestamp_of)).
    { unfold presidents_steps.
      apply in_app_or in Hin as [Hin|Hin]; [|apply in_app_or in Hin as [Hin|Hin]].
      - eexists. apply in_or_app. left. apply in_map_iff. exists c. eauto.
      - destruct Hin as [<-|[<-|[<-|[]]]]; eexists; apply in_or_app; right;
          apply in_or_app; left;
          [left | right; left | right; right; left]; reflexivity.
      - eexists. apply in_or_app. right. apply in_or_app. right.
        apply in_map_iff. exists c. eauto. }
    destruct Hstep as [f Hf]. exact (run_steps_absent _ _ _ Hf df Hc).
  - intros Hin. unfold presidents_steps. rewrite run_steps_app.
    rewrite (text_steps_absent STR_VARIABLES c Hin df Hc). reflexivity.
Qed.

Lemma applymap_columns f df df' : applymap f df = Ok df' -> columns df' = columns df.
Proof.
  unfold applymap, columns. intros H. apply rbind_ok in H as (cols & Hcols & H).
  inversion H; subst df'; clear H. cbn [series].
  revert cols Hcols. generalize (series df) as l.
  induction l as [|[c s] l IH]; intros cols H.
  - inversion H; reflexivity.
  - simpl in H. destruct (series_map f s) as [t|]; [|discriminate]. cbn [rbind] in H.
    destruct (mapM _ l) as [cols'|] eqn:El; [|discriminate]. cbn [rbind] in H.
    inversion H; subst cols. simpl. rewrite (IH cols' eq_refl). reflexivity.
Qed.

(** X25.  When [convert_elections_data] returns, the table has the rows and the
    columns it had and every cell is an integer or NaN; hence the column
    sums that the share computation starts from are defined: [sum] returns
    the total of the integers of every column. *)
Theorem convert_elections_data_votes :
  forall elections_data converted_data : DataFrame,
    convert_elections_data str_of_float str_of_Timestamp elections_data = Ok converted_data ->
    index converted_data = index elections_data
    /\ columns converted_data = columns elections_data
    /\ converted converted_data
    /\ sum converted_data
       = Ok (map (fun cs => (fst cs, total_votes (snd cs))) (series converted_data)).
Proof.
  intros df df' H. rewrite convert_elections_data_one in H.
  assert (Hconv : converted df') by exact (applymap_to_votes_cells _ _ _ _ H).
  split; [apply (applymap_inferred _ _ _ H)|].
  split; [exact (applymap_columns _ _ _ H)|].
  split; [exact Hconv | apply sum_converted, Hconv].
Qed.

End ConvertedTypes.

Section ConvertedTypesExamples.

(** X23, witness: the row of the sample table, converted. *)
Lemma convert_presidents_data_types_witness :
  exists converted_data t,
    convert_presidents_data sample_str_of_float sample_str_of_Timestamp sample_Timestamp_of
                            presidents_raw = Ok converted_data
    /\ lookup_column (Col "Education") (series converted_data) = Some t
    /\ Forall (fun v => is_text v = true) t.
Proof.
  destruct (convert_presidents_data sample_str_of_float sample_str_of_Timestamp
                                    sample_Timestamp_of presidents_raw)
    as [converted_data|e] eqn:E; [|vm_compute in E; discriminate].
  destruct (convert_presidents_data_types _ _ _ _ _ E) as (_ & Htexts & _).
  destruct (Htexts "Education") as (t & Ht & Hcells).
  { unfold STR_VARIABLES. simpl. tauto. }
  exists converted_data, t. auto.
Defined.

(** X24, witness: the sample table without its column of nicknames. *)
Lemma convert_presidents_data_missing_column_witness :
  convert_presidents_data sample_str_of_float sample_str_of_Timestamp sample_Timestamp_of
                          presidents_without_nickname
  = Raise KeyError.
Proof.
  apply (proj2 (convert_presidents_data_missing_column
                  sample_str_of_float sample_str_of_Timestamp sample_Timestamp_of
                  presidents_without_nickname "Nickname" eq_refl)).
  unfold STR_VARIABLES. simpl. tauto.
Defined.

(** X25, witness: the sample election table with a missing cell. *)
Lemma convert_elections_data_votes_witness :
  sum elections_converted_missing = Ok [(Col2 "1888" "Electoral Votes", 233)].
Proof.
  exact (proj2 (proj2 (proj2 (convert_elections_data_votes
                                sample_str_of_float sample_str_of_Timestamp
                                elections_raw_missing elections_converted_missing
                                eq_refl)))).
Defined.

End ConvertedTypesExamples.

(* ===================================================================== *)
(** * The rows of an election table, and the child count once more *)
(* ===================================================================== *)

Section RowEntries.

Lemma dset_dset {V} k (v v' : V) (d : odict V) : dset k v (dset k v' d) = dset k v d.
Proof.
  induction d as [|[k0 v0] d IH]; simpl.
  - rewrite String.eqb_refl. reflexivity.
  - destruct (String.eqb k k0) eqn:E; simpl.
    + rewrite String.eqb_refl. reflexivity.
    + rewrite E, IH. reflexivity.
Qed.

(** X26.  The entry of a row with a candidate's name and a third cell.  The
    layout is read off the first row of the whole section, not off the
    table of the row: when that row has three header cells, the third cell
    of the candidate's row holds the electoral votes and the popular votes
    are None; otherwise the third cell holds the popular votes and the
    fourth the electoral votes.  The votes are stored as the texts of the
    cells, and an entry the candidate had for the year is replaced. *)
Theorem read_electee_entry :
  forall (presidential_elections electee td a header third : Node) (year : string)
         (election_results : PotusScraper.results) (of_year : odict (odict pyval)),
    find "td" (has_class "column-2") electee = Some td ->
    find "a" any_class td = Some a ->
    find "tr" any_class presidential_elections = Some header ->
    find "td" (has_class "column-3") electee = Some third ->
    dget year election_results = Some of_year ->
    (length (find_all "th" header) = 3%nat ->
     PotusScraper.read_electee presidential_elections year electee election_results
     = (Ok tt,
        dset year
          (dset (text a)
                [("Popular Votes", PyNone); ("Electoral Votes", PyStr (text third))]
                of_year)
          election_results))
    /\ (length (find_all "th" header) <> 3%nat ->
        forall fourth,
          find "td" (has_class "column-4") electee = Some fourth ->
          PotusScraper.read_electee presidential_elections year electee election_results
          = (Ok tt,
             dset year
               (dset (text a)
                     [("Popular Votes", PyStr (text third));
                      ("Electoral Votes", PyStr (text fourth))]
                     of_year)
               election_results)).
Proof.
  intros pe electee td a header third year results of_year Htd Ha Hheader H3 Hy.
  assert (Hrun : forall popular electoral,
             (header <- deref (find "tr" any_class pe) ;;
              if Z.of_nat (length (find_all "th" header)) =? 3 then
                electoral_votes <- PotusScraper.cell_text "column-3" electee ;;
                Ok (PyNone, PyStr electoral_votes)
              else
                popular_votes <- PotusScraper.cell_text "column-3" electee ;;
                electoral_votes <- PotusScraper.cell_text "column-4" electee ;;
                Ok (PyStr popular_votes, PyStr electoral_votes))
             = Ok (popular, electoral) ->
             PotusScraper.read_electee pe year electee results
             = (Ok tt,
                dset year
                  (dset (text a) [("Popular Votes", popular); ("Electoral Votes", electoral)]
                        of_year)
                  results)).
  { intros popular electoral Hvotes.
    unfold PotusScraper.read_electee, mcatch.
    erewrite (mbind_run (lift _)).
    2:{ unfold lift. rewrite Htd. cbn [deref rbind]. rewrite Ha. reflexivity. }
    erewrite (mbind_run (PotusScraper.set_electee _ _ _))
      by (apply set_electee_run, Hy).
    erewrite (mbind_run (lift _)) by (unfold lift; rewrite Hvotes; reflexivity).
    erewrite (mbind_run (PotusScraper.set_votes _ _ _ _)).
    2:{ eapply set_votes_run; apply dget_dset_eq. }
    erewrite set_votes_run; [| apply dget_dset_eq | apply dget_dset_eq].
    cbn [fst snd dset String.eqb Ascii.eqb Bool.eqb].
    rewrite !dset_dset. reflexivity. }
  split.
  - intros Hlen. apply Hrun. rewrite Hheader. cbn [deref rbind]. rewrite Hlen.
    unfold PotusScraper.cell_text. rewrite H3. reflexivity.
  - intros Hlen fourth H4. apply Hrun. rewrite Hheader. cbn [deref rbind].
    destruct (Z.of_nat (length (find_all "th" header)) =? 3) eqn:E;
      [apply Z.eqb_eq in E; lia|].
    unfold PotusScraper.cell_text. rewrite H3. cbn [deref rbind]. rewrite H4. reflexivity.
Qed.

(** X27.  [compute_number_of_children] reads one column and writes another:
    run on the table it has returned, it returns that table. *)
Theorem compute_number_of_children_again :
  forall presidents_data counted : DataFrame,
    compute_number_of_children presidents_data = Ok counted ->
    compute_number_of_children counted = Ok counted.
Proof.
  intros df df' H. unfold compute_number_of_children, getitem_column in *.
  destruct (lookup_column (Col "Children") (series df)) as [children|] eqn:Hc;
    [|discriminate].
  cbn [rbind] in H.
  destruct (series_map number_of_children children) as [counts|] eqn:Hs; [|discriminate].
  cbn [rbind] in H. inversion H; subst df'; clear H.
  cbn [setitem_column series index].
  rewrite lookup_store_neq by discriminate. rewrite Hc. cbn [rbind].
  rewrite Hs. cbn [rbind]. unfold setitem_column. cbn [index series].
  rewrite store_store. reflexivity.
Qed.

End RowEntries.

Section RowEntriesExamples.

(** X26, witness: the first row of a table of four columns. *)
Lemma read_electee_entry_witness :
  PotusScraper.read_electee (election_page [table_1884]) "1884"
    (first_row "1884" "Grover Cleveland" "4,874,986" "219") [("1884", [])]
  = (Ok tt, [("1884", [("Grover Cleveland",
                        [("Popular Votes", PyStr "4,874,986");
                         ("Electoral Votes", PyStr "219")])])]).
Proof.
  exact (proj2 (read_electee_entry (election_page [table_1884])
                  (first_row "1884" "Grover Cleveland" "4,874,986" "219")
                  (linked_cell "column-2" "Grover Cleveland")
                  (Tag "a" [] [("href", "#")] [NavigableString "Grover Cleveland"])
                  header_row (cell "column-3" "4,874,986") "1884" [("1884", [])] []
                  eq_refl eq_refl eq_refl eq_refl eq_refl)
           ltac:(simpl; lia) (cell "column-4" "219") eq_refl).
Defined.

(** X27, witness: the sample table of children. *)
Lemma compute_number_of_children_again_witness :
  exists counted,
    compute_number_of_children presidents_children = Ok counted
    /\ compute_number_of_children counted = Ok counted.
Proof.
  destruct (compute_number_of_children presidents_children) as [counted|e] eqn:E;
    [|vm_compute in E; discriminate].
  exists counted. split; [reflexivity|].
  exact (compute_number_of_children_again _ _ E).
Defined.

End RowEntriesExamples.

(* ===================================================================== *)
(** * Steps run too early, and a correction cut short *)
(* ===================================================================== *)

Section Unready.

(** X28.  [compute_first_electoral_vote_share] expects a table whose
    inauguration dates are timestamps: on a table of presidents whose
    first row holds another value in that column (a text not yet
    converted, NaN) it raises AttributeError, and on a table without the
    column it raises KeyError; neither is taken for a president who was
    not elected. *)
Theorem vote_share_unready :
  forall (presidents_data elections_data : DataFrame) (president : string)
         (others : list string),
    converted elections_data ->
    index presidents_data = president :: others ->
    (forall v,
        loc president (Col "Inauguration Date") presidents_data = Ok v ->
        is_timestamp v = false ->
        compute_first_electoral_vote_share presidents_data elections_data
        = Raise AttributeError)
    /\ (lookup_column (Col "Inauguration Date") (series presidents_data) = None ->
        compute_first_electoral_vote_share presidents_data elections_data
        = Raise KeyError).
Proof.
  intros P E president others Hconv Hindex.
  assert (Hrun : forall e,
             first_electoral_vote_share P E
               (map (fun cs => (fst cs, total_votes (snd cs))) (series E)) president
             = Raise e ->
             compute_first_electoral_vote_share P E = Raise e).
  { intros e He. unfold compute_first_electoral_vote_share.
    rewrite (sum_converted _ Hconv). cbn [rbind]. rewrite Hindex.
    cbn [fold_left rbind]. rewrite He. cbn [rbind].
    apply fold_raise. reflexivity. }
  split.
  - intros v Hv Hnot. apply Hrun. unfold first_electoral_vote_share.
    rewrite Hv. cbn [rbind].
    destruct v; try discriminate; reflexivity.
  - intros Hnone. apply Hrun. unfold first_electoral_vote_share, loc.
    rewrite Hnone. destruct (position String.eqb president (index P)); reflexivity.
Qed.

(** X29.  [correct_Grover_Cleveland_data] is not undone by an exception.
    On a scrape with the fact sheet of Grover Cleveland and without his
    description, the call raises KeyError after it has entered the fact
    sheet of the second term; the scraper keeps that entry, and a second
    call does not take up the correction but is stopped by the assertion. *)
Theorem two_term_correction_interrupted :
  forall (self : MillerScraper.t) (facts : odict (odict string)) (sheet : odict string)
         (descriptions : odict string),
    MillerScraper.fast_facts self = Some facts ->
    dget Grover_Cleveland_2 facts = None ->
    dget Grover_Cleveland facts = Some sheet ->
    MillerScraper.descriptions self = Some descriptions ->
    dget Grover_Cleveland descriptions = None ->
    MillerScraper.correct_Grover_Cleveland_data self
    = (Raise KeyError,
       MillerScraper.set_fast_facts (dset Grover_Cleveland_2 (dict_of sheet) facts) self)
    /\ MillerScraper.correct_Grover_Cleveland_data
         (MillerScraper.set_fast_facts (dset Grover_Cleveland_2 (dict_of sheet) facts) self)
       = (Raise AssertionError,
          MillerScraper.set_fast_facts (dset Grover_Cleveland_2 (dict_of sheet) facts) self).
Proof.
  intros self facts sheet descriptions Hfacts Hnew Hsheet Hdesc Hnone. split.
  - unfold MillerScraper.correct_Grover_Cleveland_data.
    erewrite (mbind_run mget) by reflexivity.
    erewrite (mbind_run (lift _)) by (unfold lift; rewrite Hfacts; reflexivity).
    erewrite (mbind_run (assert_ _)) by (apply assert_absent_run, Hnew).
    erewrite (mbind_run (lift _)) by (unfold lift, ditem; rewrite Hsheet; reflexivity).
    erewrite (mbind_run (mput _)) by reflexivity.
    erewrite (mbind_run mget) by reflexivity.
    apply mbind_raise. unfold lift, MillerScraper.duplicate_entry.
    cbn [MillerScraper.descriptions MillerScraper.set_fast_facts].
    rewrite Hdesc. cbn [subscript rbind]. unfold ditem. rewrite Hnone. reflexivity.
  - unfold MillerScraper.correct_Grover_Cleveland_data.
    erewrite (mbind_run mget) by reflexivity.
    erewrite (mbind_run (lift _)) by reflexivity.
    apply mbind_raise. apply assert_present_run.
    rewrite dget_dset_eq. discriminate.
Qed.

End Unready.

Section UnreadyExamples.

(** X28, witness: the sample table before its dates are converted. *)
Lemma vote_share_unready_witness :
  compute_first_electoral_vote_share presidents_raw elections_sample
  = Raise AttributeError.
Proof.
  apply (proj1 (vote_share_unready presidents_raw elections_sample
                  "Grover Cleveland" []
                  ltac:(repeat constructor) eq_refl)
           (PyStr "March 4, 1885")); reflexivity.
Defined.

(** X29, witness: the sample scrape without its descriptions of Grover
    Cleveland. *)
Lemma two_term_correction_interrupted_witness :
  fst (MillerScraper.correct_Grover_Cleveland_data
         (MillerScraper.set_descriptions
            [("Benjamin Harrison", "Grandson of a president.")] miller_scraped))
  = Raise KeyError.
Proof.
  pose proof (two_term_correction_interrupted
                (MillerScraper.set_descriptions
                   [("Benjamin Harrison", "Grandson of a president.")] miller_scraped)
                _ _ _ eq_refl eq_refl eq_refl eq_refl eq_refl) as [H _].
  rewrite H. reflexivity.
Defined.

End UnreadyExamples.

(* ===================================================================== *)
(** * The order of the sets of columns *)
(* ===================================================================== *)

Section SetOrder.

Variable str_of_float : Z -> Z -> string.
Variable str_of_Timestamp : Timestamp -> string.
Variable Timestamp_of : pyval -> result Timestamp.

Local Abbreviation as_text := (to_text str_of_float str_of_Timestamp).
Local Abbreviation as_timestamp := (to_timestamp Timestamp_of).

(** The conversion of an integer column, by its name. *)
Local Abbreviation int_step :=
  (fun c : string => if String.eqb c "Salary" then _extract_salary else to_int).

Lemma store_column_comm c1 c2 s1 s2 cols :
  c1 <> c2 ->
  lookup_column c1 cols <> None -> lookup_column c2 cols <> None ->
  store_column c1 s1 (store_column c2 s2 cols)
  = store_column c2 s2 (store_column c1 s1 cols).
Proof.
  intros Hne. induction cols as [|[c s] cols IH]; intros H1 H2; [contradiction|].
  cbn [lookup_column] in H1, H2. cbn [store_column].
  destruct (label_eqb c1 c) eqn:E1, (label_eqb c2 c) eqn:E2; cbn [store_column].
  - apply label_eqb_eq in E1, E2. congruence.
  - rewrite E1. apply label_eqb_eq in E1. subst c. rewrite E2. reflexivity.
  - rewrite E2. apply label_eqb_eq in E2. subst c. rewrite E1. reflexivity.
  - rewrite E1, E2, IH; auto.
Qed.

(** Conversions of two columns may be run in either order. *)
Lemma map_column_comm f1 f2 c1 c2 df r :
  c1 <> c2 ->
  (d <- map_column f1 c1 df ;; map_column f2 c2 d) = Ok r ->
  (d <- map_column f2 c2 df ;; map_column f1 c1 d) = Ok r.
Proof.
  intros Hne H. apply rbind_ok in H as (d & Hd & H).
  unfold map_column, getitem_column in *.
  destruct (lookup_column c1 (series df)) as [s1|] eqn:E1; [|discriminate].
  cbn [rbind] in Hd. destruct (series_map f1 s1) as [t1|] eqn:Et1; [|discriminate].
  cbn [rbind] in Hd. inversion Hd; subst d; clear Hd.
  cbn [setitem_column series index] in H.
  rewrite (lookup_store_neq c1 c2) in H by exact Hne.
  destruct (lookup_column c2 (series df)) as [s2|] eqn:E2; [|discriminate].
  cbn [rbind] in H. destruct (series_map f2 s2) as [t2|] eqn:Et2; [|discriminate].
  cbn [rbind] in H. inversion H; subst r; clear H.
  cbn [rbind]. rewrite Et2. cbn [rbind setitem_column series index].
  rewrite (lookup_store_neq c2 c1) by congruence.
  rewrite E1. cbn [rbind]. rewrite Et1. cbn [rbind].
  unfold setitem_column. cbn [series index]. f_equal. f_equal.
  apply store_column_comm; congruence.
Qed.

(** A run of conversions of distinct columns returns the same table in
    whatever order it is made. *)
Lemma run_steps_permutation steps steps' :
  Permutation steps steps' ->
  NoDup (map fst steps) ->
  forall df r, run_steps steps df = Ok r -> run_steps steps' df = Ok r.
Proof.
  induction 1 as [|x l l' Hperm IH|x y l|l l' l'' H1 IH1 H2 IH2]; intros Hnd df r H.
  - exact H.
  - inversion Hnd as [|? ? _ Hnd']; subst.
    rewrite run_steps_cons in *. apply rbind_ok in H as (d & Hd & H).
    rewrite Hd. cbn [rbind]. apply IH; assumption.
  - inversion Hnd as [|? ? Hnotin _]; subst.
    assert (Hne : fst y <> fst x).
    { intros E. apply Hnotin. left. symmetry. exact E. }
    rewrite run_steps_cons in H. apply rbind_ok in H as (d1 & Hd1 & H).
    rewrite run_steps_cons in H. apply rbind_ok in H as (d2 & Hd2 & H).
    assert (Hswap : (d <- map_column (snd x) (fst x) df ;; map_column (snd y) (fst y) d)
                    = Ok d2).
    { apply map_column_comm; [exact Hne|]. rewrite Hd1. exact Hd2. }
    apply rbind_ok in Hswap as (d & Hd & Hswap).
    rewrite run_steps_cons, Hd. cbn [rbind].
    rewrite run_steps_cons, Hswap. exact H.
  - apply IH2; [|apply IH1; assumption].
    apply (Permutation_NoDup (Permutation_map fst H1) Hnd).
Qed.

Lemma convert_in_order_steps str_order int_order timestamp_order df :
  convert_in_order str_of_float str_of_Timestamp Timestamp_of
                   str_order int_order timestamp_order df
  = run_steps (map (fun c => (Col c, as_text)) str_order
               ++ map (fun c => (Col c, int_step c)) int_order
               ++ map (fun c => (Col c, as_timestamp)) timestamp_order)%list df.
Proof.
  unfold convert_in_order. rewrite run_steps_app.
  rewrite (for_columns_steps _ (fun _ => as_text)) by apply convert_str_variable_one.
  destruct (run_steps _ df) as [df1|e]; [|reflexivity]. cbn [rbind].
  rewrite run_steps_app.
  rewrite (for_columns_steps _ int_step).
  2:{ intros c df'. unfold convert_int_variable. destruct (String.eqb c "Salary"); reflexivity. }
  destruct (run_steps _ df1) as [df2|e]; [|reflexivity]. cbn [rbind].
  apply for_columns_steps. reflexivity.
Qed.

Lemma steps_permutation str_order int_order timestamp_order :
  Permutation str_order STR_VARIABLES ->
  Permutation int_order INT_VARIABLES ->
  Permutation timestamp_order TIMESTAMP_VARIABLES ->
  Permutation (map (fun c => (Col c, as_text)) str_order
               ++ map (fun c => (Col c, int_step c)) int_order
               ++ map (fun c => (Col c, as_timestamp)) timestamp_order)%list
              (presidents_steps str_of_float str_of_Timestamp Timestamp_of).
Proof.
  intros Hs Hi Ht. unfold presidents_steps.
  apply Permutation_app; [apply Permutation_map, Hs|].
  apply Permutation_app; [|apply Permutation_map, Ht].
  apply (Permutation_map (fun c => (Col c, int_step c))) in Hi. exact Hi.
Qed.

(** X30.  Python runs through the three sets of column names in an order
    that the hash seed of the run decides.  The order does not show in the
    outcome of [convert_presidents_data]: in whatever orders the sets are
    run through, the normalizer returns the same table, and raises in one
    order when it raises in another. *)
Theorem convert_presidents_data_any_order :
  forall (str_order int_order timestamp_order : list string) (presidents_data : DataFrame),
    Permutation str_order STR_VARIABLES ->
    Permutation int_order INT_VARIABLES ->
    Permutation timestamp_order TIMESTAMP_VARIABLES ->
    (forall converted_data,
        convert_in_order str_of_float str_of_Timestamp Timestamp_of
                         str_order int_order timestamp_order presidents_data
        = Ok converted_data
        <-> convert_presidents_data str_of_float str_of_Timestamp Timestamp_of
                                    presidents_data = Ok converted_data)
    /\ ((exists e, convert_in_order str_of_float str_of_Timestamp Timestamp_of
                                    str_order int_order timestamp_order presidents_data
                   = Raise e)
        <-> (exists e, convert_presidents_data str_of_float str_of_Timestamp Timestamp_of
                                               presidents_data = Raise e)).
Proof.
  intros so io to df Hs Hi Ht.
  pose proof (steps_permutation so io to Hs Hi Ht) as Hperm.
  pose proof (presidents_steps_distinct str_of_float str_of_Timestamp Timestamp_of) as Hnd.
  assert (Hnd' : NoDup (map fst (map (fun c => (Col c, as_text)) so
                                 ++ map (fun c => (Col c, int_step c)) io
                                 ++ map (fun c => (Col c, as_timestamp)) to)%list)).
  { apply (Permutation_NoDup (Permutation_map fst (Permutation_sym Hperm)) Hnd). }
  assert (Hsame : forall converted_data,
             convert_in_order str_of_float str_of_Timestamp Timestamp_of so io to df
             = Ok converted_data
             <-> convert_presidents_data str_of_float str_of_Timestamp Timestamp_of df
                 = Ok converted_data).
  { intros r. rewrite convert_in_order_steps, convert_presidents_data_steps. split.
    - apply run_steps_permutation; assumption.
    - apply run_steps_permutation; [apply Permutation_sym, Hperm | exact Hnd]. }
  split; [exact Hsame|]. split; intros [e He].
  - destruct (convert_presidents_data _ _ _ df) as [r|e'] eqn:E; [|eauto].
    rewrite (proj2 (Hsame r) eq_refl) in He. discriminate.
  - destruct (convert_in_order _ _ _ so io to df) as [r|e'] eqn:E; [|eauto].
    rewrite (proj1 (Hsame r) eq_refl) in He. discriminate.
Qed.

End SetOrder.

Section SetOrderExamples.

(** X30, witness: the sample table, its sets of columns run through from
    the last name to the first. *)
Lemma convert_presidents_data_any_order_witness :
  convert_in_order sample_str_of_float sample_str_of_Timestamp sample_Timestamp_of
                   (rev STR_VARIABLES) (rev INT_VARIABLES) (rev TIMESTAMP_VARIABLES)
                   presidents_raw
  = convert_presidents_data sample_str_of_float sample_str_of_Timestamp sample_Timestamp_of
                            presidents_raw.
Proof.
  destruct (convert_presidents_data sample_str_of_float sample_str_of_Timestamp
                                    sample_Timestamp_of presidents_raw)
    as [converted_data|e] eqn:E; [|vm_compute in E; discriminate].
  apply (proj1 (convert_presidents_data_any_order
                  sample_str_of_float sample_str_of_Timestamp sample_Timestamp_of
                  (rev STR_VARIABLES) (rev INT_VARIABLES) (rev TIMESTAMP_VARIABLES)
                  presidents_raw
                  (Permutation_sym (Permutation_rev _))
                  (Permutation_sym (Permutation_rev _))
                  (Permutation_sym (Permutation_rev _)))).
  exact E.
Defined.

End SetOrderExamples.
